(** * vtkGDALRasterReader: raster-band ingestion into a uniform grid

    A shallow embedding of [IO/GDAL/vtkGDALRasterReader.cxx] and the
    properties of its windowing, conversion, blanking, corner geocoding and
    colour-table code.

    Conventions of the embedding.
    - A C++ [int] is a [Z]; every [int] operation of the source is written
      with its 32-bit two's-complement wrap-around ([int_add], [int_sub],
      [int_mul]); [size_t] operations wrap at 64 bits.
    - A [double] is a value of an abstract type with the operations of the
      class [DoubleOps]; the theorems that do not mention an instance hold
      for every interpretation of these operations, IEEE binary64 included.
      Two instances are given: exact rationals and binary64.
    - A pixel sample ([RAW_TYPE] of the templates) is a value of an abstract
      type with the operations of the class [RawOps]; the template
      parameter is the tag [VTKScalarType].
    - A [GDALRasterBand*] is the 1-based number of the band, [nullptr] is 0.
    - A statement that may go wrong returns an [outcome]: [Aborted] is a
      terminated process (failed [assert], uncaught exception), [Undefined]
      is undefined behaviour (null dereference, access out of bounds). *)

From stdpp Require Import base option list gmap strings pretty.
From Stdlib Require Import ZArith QArith Qabs Qround Lia.
From Stdlib Require Floats.PrimFloat Uint63.

Local Open Scope Z_scope.

(** ** Machine integers *)

Definition INT_MAX : Z := 2147483647.
Definition INT_MIN : Z := -2147483648.

(** Reduction of a mathematical integer to the 32-bit [int] that holds it. *)
Definition to_int (z : Z) : Z := (z + 2147483648) mod 4294967296 - 2147483648.

(** Conversion to [size_t] (64 bits, unsigned). *)
Definition to_size_t (z : Z) : Z := z mod 18446744073709551616.

Definition int_add (a b : Z) : Z := to_int (a + b).
Definition int_sub (a b : Z) : Z := to_int (a - b).
Definition int_mul (a b : Z) : Z := to_int (a * b).
Definition size_add (a b : Z) : Z := to_size_t (to_size_t a + to_size_t b).
Definition size_mul (a b : Z) : Z := to_size_t (to_size_t a * to_size_t b).

Definition is_int (z : Z) : Prop := INT_MIN <= z <= INT_MAX.

(** ** Outcomes of statements that may go wrong *)

Inductive outcome (A : Type) : Type :=
  | Ok (a : A)
  | Aborted
  | Undefined.
Arguments Ok {A} a.
Arguments Aborted {A}.
Arguments Undefined {A}.

#[global] Instance outcome_ret : MRet outcome := λ A a, Ok a.
#[global] Instance outcome_bind : MBind outcome := λ A B f m,
  match m with
  | Ok a => f a
  | Aborted => Aborted
  | Undefined => Undefined
  end.
#[global] Instance outcome_fmap : FMap outcome := λ A B f m,
  match m with
  | Ok a => Ok (f a)
  | Aborted => Aborted
  | Undefined => Undefined
  end.

Definition is_Ok {A} (m : outcome A) : Prop := ∃ a, m = Ok a.

(** [for (x : l) body] with the loop state passed along. *)
Fixpoint for_each {A S : Type} (l : list A) (body : A → S → outcome S) (s : S)
  : outcome S :=
  match l with
  | [] => Ok s
  | x :: l' => s' ← body x s; for_each l' body s'
  end.

(** [for (int i = lo; i < hi; ++i) body]. *)
Definition for_range {S : Type} (lo hi : Z) (body : Z → S → outcome S) (s : S)
  : outcome S :=
  for_each (seqZ lo (hi - lo)) body s.

(** ** std::vector *)

(** [v[i]]: the index is converted to [size_t], so a negative index is out
    of bounds like one past the end. *)
Definition vec_at {A : Type} (v : list A) (i : Z) : outcome A :=
  if i <? 0 then Undefined
  else match v !! Z.to_nat i with
       | Some x => Ok x
       | None => Undefined
       end.

(** [v[i] = x]. *)
Definition vec_set {A : Type} (v : list A) (i : Z) (x : A) : outcome (list A) :=
  if i <? 0 then Undefined
  else if (Z.to_nat i <? length v)%nat then Ok (<[Z.to_nat i := x]> v)
  else Undefined.

(** [v.resize(n, x)] for an [int] n: a negative n converts to a [size_t]
    above [max_size()] and [resize] throws. *)
Definition vec_resize {A : Type} (v : list A) (n : Z) (x : A) : outcome (list A) :=
  if n <? 0 then Aborted
  else Ok (take (Z.to_nat n) v ++ replicate (Z.to_nat n - length v) x).

(** ** GDAL enumerations (gdal.h) *)

Inductive CPLErr := CE_None | CE_Debug | CE_Warning | CE_Failure | CE_Fatal.

Inductive GDALDataType :=
  | GDT_Unknown | GDT_Byte | GDT_UInt16 | GDT_Int16 | GDT_UInt32 | GDT_Int32
  | GDT_Float32 | GDT_Float64
  | GDT_CInt16 | GDT_CInt32 | GDT_CFloat32 | GDT_CFloat64.

Inductive GDALColorInterp :=
  | GCI_Undefined | GCI_GrayIndex | GCI_PaletteIndex
  | GCI_RedBand | GCI_GreenBand | GCI_BlueBand | GCI_AlphaBand
  | GCI_HueBand | GCI_SaturationBand | GCI_LightnessBand
  | GCI_CyanBand | GCI_MagentaBand | GCI_YellowBand | GCI_BlackBand
  | GCI_YCbCr_YBand | GCI_YCbCr_CbBand | GCI_YCbCr_CrBand.

Inductive GDALPaletteInterp := GPI_Gray | GPI_RGB | GPI_CMYK | GPI_HLS.

#[global] Instance CPLErr_eq_dec : EqDecision CPLErr.
Proof. solve_decision. Defined.
#[global] Instance GDALDataType_eq_dec : EqDecision GDALDataType.
Proof. solve_decision. Defined.
#[global] Instance GDALColorInterp_eq_dec : EqDecision GDALColorInterp.
Proof. solve_decision. Defined.
#[global] Instance GDALPaletteInterp_eq_dec : EqDecision GDALPaletteInterp.
Proof. solve_decision. Defined.

(** The element type of the VTK array, i.e. the template arguments
    [<VTK_TYPE, RAW_TYPE>] that [ReadData] selects. *)
Inductive VTKScalarType :=
  | VTK_UNSIGNED_CHAR | VTK_UNSIGNED_SHORT | VTK_SHORT
  | VTK_UNSIGNED_INT | VTK_INT | VTK_FLOAT | VTK_DOUBLE.

#[global] Instance VTKScalarType_eq_dec : EqDecision VTKScalarType.
Proof. solve_decision. Defined.

(** ** Arithmetic interfaces *)

(** The [double] operations the reader uses. *)
Class DoubleOps (double : Type) := {
  dadd : double → double → double;
  dsub : double → double → double;
  dmul : double → double → double;
  ddiv : double → double → double;
  dlt : double → double → bool;          (* [a < b] *)
  deq : double → double → bool;          (* [a == b] *)
  dabs : double → double;                (* [std::abs] *)
  double_of_int : Z → double;            (* conversion of an [int] or literal *)
  dhalf : double;                        (* the literal [0.5] *)
  NaN : double                           (* [vtkMath::Nan()] *)
}.

(** The operations on pixel samples: [==] of [RAW_TYPE], the conversion
    [static_cast<RAW_TYPE>(double)] and the value [RAW_TYPE()] that
    [std::vector::resize] fills with. *)
Class RawOps (double RAW : Type) := {
  raw_eq : RAW → RAW → bool;
  static_cast_RAW : VTKScalarType → double → RAW;
  raw_zero : RAW
}.

(** [std::min] of <algorithm>: [(b < a) ? b : a]. *)
Definition std_min `{DoubleOps double} (a b : double) : double :=
  if dlt b a then b else a.

(** ** The anonymous-namespace helpers *)

(** [Min] and [Max] take and return [double]; every call passes [int]s and
    stores the result in an [int].  A 32-bit [int] converts to [double] and
    back without loss, so on these calls they are the comparisons below. *)
Definition Min (val1 val2 : Z) : Z := if val1 <? val2 then val1 else val2.
Definition Max (val1 val2 : Z) : Z := if val1 >? val2 then val1 else val2.

(** ** The data model *)

Section Model.

Context {double RAW : Type} `{!DoubleOps double} `{!RawOps double RAW}.

(** *** The decoding library's objects, as far as the reader looks at them *)

(** [GDALColorEntry]: four [short] channels. *)
Record GDALColorEntry := { c1 : Z; c2 : Z; c3 : Z; c4 : Z }.

Record GDALColorTable := {
  PaletteInterpretation : GDALPaletteInterp;
  ColorEntries : list GDALColorEntry
}.

(** One raster band.  [GetNoDataValue] returns the value and stores the
    [int] flag through its pointer argument.  [RasterIO] stands for a
    windowed read [RasterIO(GF_Read, xOff, yOff, xSize, ySize, buf,
    bufXSize, bufYSize, bufType, pixelSpace, lineSpace)]: its status and the
    sample it leaves at column x, line y of the destination window.  A null
    [GetColorTable()] or [GetCategoryNames()] is [None]. *)
Record GDALRasterBand := {
  ColorInterpretation : GDALColorInterp;
  RasterDataType : GDALDataType;
  NoDataFlag : Z;
  NoDataResult : double;
  RasterIO : Z → Z → Z → Z → Z → Z → GDALDataType → Z → Z → CPLErr * (Z → Z → RAW);
  ColorTable : option GDALColorTable;
  CategoryNames : option (list string)
}.

Record GDAL_GCP := {
  dfGCPPixel : double; dfGCPLine : double; dfGCPX : double; dfGCPY : double
}.

(** An opened dataset.  [GeoTransform] is the status of
    [GDALGetGeoTransform] and the six coefficients it stores. *)
Record GDALDataset := {
  RasterXSize : Z;
  RasterYSize : Z;
  RasterBands : list GDALRasterBand;
  GCPProjection : option string;
  GCPs : option (list GDAL_GCP);
  GeoTransform : CPLErr * (double * double * double * double * double * double);
  ProjectionRef : string
}.

Definition GetRasterCount (ds : GDALDataset) : Z :=
  Z.of_nat (length (RasterBands ds)).

(** [GetRasterBand(i)], null when i is not the number of a band. *)
Definition GetRasterBand (ds : GDALDataset) (i : Z) : option GDALRasterBand :=
  if i <? 1 then None else RasterBands ds !! Z.to_nat (i - 1).

(** *** The VTK objects the reader fills *)

Record vtkLookupTable := {
  IndexedLookup : bool;
  NumberOfTableValues : Z;
  TableValues : gmap Z (double * double * double * double);
  Annotations : gmap Z string
}.

Definition vtkLookupTable_New : vtkLookupTable :=
  {| IndexedLookup := false; NumberOfTableValues := 0;
     TableValues := ∅; Annotations := ∅ |}.

(** A data array of samples: name, component count, tuple count as passed
    to the setters, and the values written so far by flat index (an index
    without a value is uninitialised storage). *)
Record vtkDataArray := {
  ArrName : string;
  NumberOfComponents : Z;
  NumberOfTuples : Z;
  Values : gmap Z RAW;
  LookupTable : option vtkLookupTable
}.

Inductive vtkFieldArray :=
  | vtkStringArray (name : string) (values : list string)
  | vtkDoubleArray (name : string) (values : list double).

(** The output grid.  [BlankedCells] is the set of cell ids [BlankCell] was
    called with; [CellArrays] is the cell data in the order of [AddArray];
    [ActiveScalars] is the position of the active scalars in it. *)
Record vtkUniformGrid := {
  Extent : Z * Z * Z * Z * Z * Z;
  Spacing : option (double * double * double);
  Origin : option (double * double * double);
  BlankedCells : gset Z;
  CellArrays : list vtkDataArray;
  ActiveScalars : option nat;
  FieldArrays : list vtkFieldArray
}.

Definition vtkUniformGrid_New : vtkUniformGrid :=
  {| Extent := (0, -1, 0, -1, 0, -1); Spacing := None; Origin := None;
     BlankedCells := ∅; CellArrays := []; ActiveScalars := None;
     FieldArrays := [] |}.

Definition BlankCell (cellId : Z) (g : vtkUniformGrid) : vtkUniformGrid :=
  {| Extent := Extent g; Spacing := Spacing g; Origin := Origin g;
     BlankedCells := {[cellId]} ∪ BlankedCells g;
     CellArrays := CellArrays g; ActiveScalars := ActiveScalars g;
     FieldArrays := FieldArrays g |}.

Definition IsCellBlanked (g : vtkUniformGrid) (cellId : Z) : bool :=
  bool_decide (cellId ∈ BlankedCells g).

Definition set_CellData (arrs : list vtkDataArray) (act : option nat)
    (g : vtkUniformGrid) : vtkUniformGrid :=
  {| Extent := Extent g; Spacing := Spacing g; Origin := Origin g;
     BlankedCells := BlankedCells g;
     CellArrays := arrs; ActiveScalars := act;
     FieldArrays := FieldArrays g |}.

Definition set_Geometry (e : Z * Z * Z * Z * Z * Z)
    (sp og : double * double * double) (g : vtkUniformGrid) : vtkUniformGrid :=
  {| Extent := e; Spacing := Some sp; Origin := Some og;
     BlankedCells := BlankedCells g;
     CellArrays := CellArrays g; ActiveScalars := ActiveScalars g;
     FieldArrays := FieldArrays g |}.

(** [GetFieldData()->AddArray(a)]. *)
Definition AddFieldArray (a : vtkFieldArray) (g : vtkUniformGrid) : vtkUniformGrid :=
  {| Extent := Extent g; Spacing := Spacing g; Origin := Origin g;
     BlankedCells := BlankedCells g;
     CellArrays := CellArrays g; ActiveScalars := ActiveScalars g;
     FieldArrays := FieldArrays g ++ [a] |}.

(** [GetCellData()->AddArray(a)]: an array of the same name is replaced in
    place, a new name is appended. *)
Fixpoint AddArray_list (a : vtkDataArray) (l : list vtkDataArray) : list vtkDataArray :=
  match l with
  | [] => [a]
  | b :: l' => if String.eqb (ArrName b) (ArrName a) then a :: l'
               else b :: AddArray_list a l'
  end.

Definition AddArray (a : vtkDataArray) (g : vtkUniformGrid) : vtkUniformGrid :=
  set_CellData (AddArray_list a (CellArrays g)) (ActiveScalars g) g.

Fixpoint index_of_name (name : string) (l : list vtkDataArray) : option nat :=
  match l with
  | [] => None
  | b :: l' => if String.eqb (ArrName b) name then Some 0%nat
               else S <$> index_of_name name l'
  end.

(** [GetCellData()->SetActiveScalars(name)]. *)
Definition SetActiveScalars (name : string) (g : vtkUniformGrid) : vtkUniformGrid :=
  set_CellData (CellArrays g) (index_of_name name (CellArrays g)) g.

(** [GetCellData()->GetScalars()], null without active scalars. *)
Definition GetScalars (g : vtkUniformGrid) : option vtkDataArray :=
  i ← ActiveScalars g; CellArrays g !! i.

(** [GetCellData()->GetArray(name)]. *)
Definition GetArray (name : string) (g : vtkUniformGrid) : option vtkDataArray :=
  i ← index_of_name name (CellArrays g); CellArrays g !! i.

(** [scArr->InsertValue(id, v)]. *)
Definition InsertValue (id : Z) (v : RAW) (a : vtkDataArray) : vtkDataArray :=
  {| ArrName := ArrName a; NumberOfComponents := NumberOfComponents a;
     NumberOfTuples := NumberOfTuples a; Values := <[id := v]> (Values a);
     LookupTable := LookupTable a |}.

Definition GetValue (a : vtkDataArray) (id : Z) : option RAW := Values a !! id.

(** *** The reader

    [double CornerPoints[8]] as the four (x, y) pairs it holds:
    [CornerPoints[2k]] and [CornerPoints[2k+1]] are corner k. *)
Record Corners := {
  corner0 : double * double;
  corner1 : double * double;
  corner2 : double * double;
  corner3 : double * double
}.

(** The fields of [vtkGDALRasterReaderInternal] followed by those of
    [vtkGDALRasterReader] that the reading code uses.  [NumberOfCells] is a
    [vtkIdType] (64 bits), only ever incremented from 0, one step per
    sample converted: it is kept as an exact integer. *)
#[projections(primitive)]
Record vtkGDALRasterReader := {
  NumberOfBands : Z;
  NumberOfBytesPerPixel : Z;
  SourceOffset : Z * Z;
  SourceDimensions : Z * Z;
  PrevReadFileName : string;
  GDALData : option GDALDataset;
  TargetDataType : GDALDataType;
  CornerPoints : Corners;
  HasNoDataValue : list Z;
  NoDataValue : list double;
  NumberOfCells : Z;
  UniformGridData : option vtkUniformGrid;
  FileName : option string;
  TargetDimensions : Z * Z;
  RasterDimensions : Z * Z;
  DataExtent : Z * Z * Z * Z * Z * Z;
  Projection : string;
  DataScalarType : VTKScalarType;
  NumberOfScalarComponents : Z
}.

Definition set_NumberOfBands (v : Z) (r : vtkGDALRasterReader)
  : vtkGDALRasterReader :=
  {| NumberOfBands := v; NumberOfBytesPerPixel := NumberOfBytesPerPixel r;
     SourceOffset := SourceOffset r; SourceDimensions := SourceDimensions r;
     PrevReadFileName := PrevReadFileName r; GDALData := GDALData r;
     TargetDataType := TargetDataType r; CornerPoints := CornerPoints r;
     HasNoDataValue := HasNoDataValue r; NoDataValue := NoDataValue r;
     NumberOfCells := NumberOfCells r; UniformGridData := UniformGridData r;
     FileName := FileName r; TargetDimensions := TargetDimensions r;
     RasterDimensions := RasterDimensions r; DataExtent := DataExtent r;
     Projection := Projection r; DataScalarType := DataScalarType r;
     NumberOfScalarComponents := NumberOfScalarComponents r |}.

Definition set_NumberOfBytesPerPixel (v : Z) (r : vtkGDALRasterReader)
  : vtkGDALRasterReader :=
  {| NumberOfBands := NumberOfBands r; NumberOfBytesPerPixel := v;
     SourceOffset := SourceOffset r; SourceDimensions := SourceDimensions r;
     PrevReadFileName := PrevReadFileName r; GDALData := GDALData r;
     TargetDataType := TargetDataType r; CornerPoints := CornerPoints r;
     HasNoDataValue := HasNoDataValue r; NoDataValue := NoDataValue r;
     NumberOfCells := NumberOfCells r; UniformGridData := UniformGridData r;
     FileName := FileName r; TargetDimensions := TargetDimensions r;
     RasterDimensions := RasterDimensions r; DataExtent := DataExtent r;
     Projection := Projection r; DataScalarType := DataScalarType r;
     NumberOfScalarComponents := NumberOfScalarComponents r |}.

Definition set_SourceOffset (v : Z * Z) (r : vtkGDALRasterReader)
  : vtkGDALRasterReader :=
  {| NumberOfBands := NumberOfBands r; NumberOfBytesPerPixel :=
     NumberOfBytesPerPixel r; SourceOffset := v; SourceDimensions :=
     SourceDimensions r; PrevReadFileName := PrevReadFileName r; GDALData :=
     GDALData r; TargetDataType := TargetDataType r; CornerPoints :=
     CornerPoints r; HasNoDataValue := HasNoDataValue r; NoDataValue :=
     NoDataValue r; NumberOfCells := NumberOfCells r; UniformGridData :=
     UniformGridData r; FileName := FileName r; TargetDimensions :=
     TargetDimensions r; RasterDimensions := RasterDimensions r; DataExtent
     := DataExtent r; Projection := Projection r; DataScalarType :=
     DataScalarType r; NumberOfScalarComponents := NumberOfScalarComponents
     r |}.

Definition set_SourceDimensions (v : Z * Z) (r : vtkGDALRasterReader)
  : vtkGDALRasterReader :=
  {| NumberOfBands := NumberOfBands r; NumberOfBytesPerPixel :=
     NumberOfBytesPerPixel r; SourceOffset := SourceOffset r;
     SourceDimensions := v; PrevReadFileName := PrevReadFileName r; GDALData
     := GDALData r; TargetDataType := TargetDataType r; CornerPoints :=
     CornerPoints r; HasNoDataValue := HasNoDataValue r; NoDataValue :=
     NoDataValue r; NumberOfCells := NumberOfCells r; UniformGridData :=
     UniformGridData r; FileName := FileName r; TargetDimensions :=
     TargetDimensions r; RasterDimensions := RasterDimensions r; DataExtent
     := DataExtent r; Projection := Projection r; DataScalarType :=
     DataScalarType r; NumberOfScalarComponents := NumberOfScalarComponents
     r |}.

Definition set_PrevReadFileName (v : string) (r : vtkGDALRasterReader)
  : vtkGDALRasterReader :=
  {| NumberOfBands := NumberOfBands r; NumberOfBytesPerPixel :=
     NumberOfBytesPerPixel r; SourceOffset := SourceOffset r;
     SourceDimensions := SourceDimensions r; PrevReadFileName := v; GDALData
     := GDALData r; TargetDataType := TargetDataType r; CornerPoints :=
     CornerPoints r; HasNoDataValue := HasNoDataValue r; NoDataValue :=
     NoDataValue r; NumberOfCells := NumberOfCells r; UniformGridData :=
     UniformGridData r; FileName := FileName r; TargetDimensions :=
     TargetDimensions r; RasterDimensions := RasterDimensions r; DataExtent
     := DataExtent r; Projection := Projection r; DataScalarType :=
     DataScalarType r; NumberOfScalarComponents := NumberOfScalarComponents
     r |}.

Definition set_GDALData (v : option GDALDataset) (r : vtkGDALRasterReader)
  : vtkGDALRasterReader :=
  {| NumberOfBands := NumberOfBands r; NumberOfBytesPerPixel :=
     NumberOfBytesPerPixel r; SourceOffset := SourceOffset r;
     SourceDimensions := SourceDimensions r; PrevReadFileName :=
     PrevReadFileName r; GDALData := v; TargetDataType := TargetDataType r;
     CornerPoints := CornerPoints r; HasNoDataValue := HasNoDataValue r;
     NoDataValue := NoDataValue r; NumberOfCells := NumberOfCells r;
     UniformGridData := UniformGridData r; FileName := FileName r;
     TargetDimensions := TargetDimensions r; RasterDimensions :=
     RasterDimensions r; DataExtent := DataExtent r; Projection :=
     Projection r; DataScalarType := DataScalarType r;
     NumberOfScalarComponents := NumberOfScalarComponents r |}.

Definition set_TargetDataType (v : GDALDataType) (r : vtkGDALRasterReader)
  : vtkGDALRasterReader :=
  {| NumberOfBands := NumberOfBands r; NumberOfBytesPerPixel :=
     NumberOfBytesPerPixel r; SourceOffset := SourceOffset r;
     SourceDimensions := SourceDimensions r; PrevReadFileName :=
     PrevReadFileName r; GDALData := GDALData r; TargetDataType := v;
     CornerPoints := CornerPoints r; HasNoDataValue := HasNoDataValue r;
     NoDataValue := NoDataValue r; NumberOfCells := NumberOfCells r;
     UniformGridData := UniformGridData r; FileName := FileName r;
     TargetDimensions := TargetDimensions r; RasterDimensions :=
     RasterDimensions r; DataExtent := DataExtent r; Projection :=
     Projection r; DataScalarType := DataScalarType r;
     NumberOfScalarComponents := NumberOfScalarComponents r |}.

Definition set_CornerPoints (v : Corners) (r : vtkGDALRasterReader)
  : vtkGDALRasterReader :=
  {| NumberOfBands := NumberOfBands r; NumberOfBytesPerPixel :=
     NumberOfBytesPerPixel r; SourceOffset := SourceOffset r;
     SourceDimensions := SourceDimensions r; PrevReadFileName :=
     PrevReadFileName r; GDALData := GDALData r; TargetDataType :=
     TargetDataType r; CornerPoints := v; HasNoDataValue := HasNoDataValue
     r; NoDataValue := NoDataValue r; NumberOfCells := NumberOfCells r;
     UniformGridData := UniformGridData r; FileName := FileName r;
     TargetDimensions := TargetDimensions r; RasterDimensions :=
     RasterDimensions r; DataExtent := DataExtent r; Projection :=
     Projection r; DataScalarType := DataScalarType r;
     NumberOfScalarComponents := NumberOfScalarComponents r |}.

Definition set_HasNoDataValue (v : list Z) (r : vtkGDALRasterReader)
  : vtkGDALRasterReader :=
  {| NumberOfBands := NumberOfBands r; NumberOfBytesPerPixel :=
     NumberOfBytesPerPixel r; SourceOffset := SourceOffset r;
     SourceDimensions := SourceDimensions r; PrevReadFileName :=
     PrevReadFileName r; GDALData := GDALData r; TargetDataType :=
     TargetDataType r; CornerPoints := CornerPoints r; HasNoDataValue := v;
     NoDataValue := NoDataValue r; NumberOfCells := NumberOfCells r;
     UniformGridData := UniformGridData r; FileName := FileName r;
     TargetDimensions := TargetDimensions r; RasterDimensions :=
     RasterDimensions r; DataExtent := DataExtent r; Projection :=
     Projection r; DataScalarType := DataScalarType r;
     NumberOfScalarComponents := NumberOfScalarComponents r |}.

Definition set_NoDataValue (v : list double) (r : vtkGDALRasterReader)
  : vtkGDALRasterReader :=
  {| NumberOfBands := NumberOfBands r; NumberOfBytesPerPixel :=
     NumberOfBytesPerPixel r; SourceOffset := SourceOffset r;
     SourceDimensions := SourceDimensions r; PrevReadFileName :=
     PrevReadFileName r; GDALData := GDALData r; TargetDataType :=
     TargetDataType r; CornerPoints := CornerPoints r; HasNoDataValue :=
     HasNoDataValue r; NoDataValue := v; NumberOfCells := NumberOfCells r;
     UniformGridData := UniformGridData r; FileName := FileName r;
     TargetDimensions := TargetDimensions r; RasterDimensions :=
     RasterDimensions r; DataExtent := DataExtent r; Projection :=
     Projection r; DataScalarType := DataScalarType r;
     NumberOfScalarComponents := NumberOfScalarComponents r |}.

Definition set_NumberOfCells (v : Z) (r : vtkGDALRasterReader)
  : vtkGDALRasterReader :=
  {| NumberOfBands := NumberOfBands r; NumberOfBytesPerPixel :=
     NumberOfBytesPerPixel r; SourceOffset := SourceOffset r;
     SourceDimensions := SourceDimensions r; PrevReadFileName :=
     PrevReadFileName r; GDALData := GDALData r; TargetDataType :=
     TargetDataType r; CornerPoints := CornerPoints r; HasNoDataValue :=
     HasNoDataValue r; NoDataValue := NoDataValue r; NumberOfCells := v;
     UniformGridData := UniformGridData r; FileName := FileName r;
     TargetDimensions := TargetDimensions r; RasterDimensions :=
     RasterDimensions r; DataExtent := DataExtent r; Projection :=
     Projection r; DataScalarType := DataScalarType r;
     NumberOfScalarComponents := NumberOfScalarComponents r |}.

Definition set_UniformGridData (v : option vtkUniformGrid) (r : vtkGDALRasterReader)
  : vtkGDALRasterReader :=
  {| NumberOfBands := NumberOfBands r; NumberOfBytesPerPixel :=
     NumberOfBytesPerPixel r; SourceOffset := SourceOffset r;
     SourceDimensions := SourceDimensions r; PrevReadFileName :=
     PrevReadFileName r; GDALData := GDALData r; TargetDataType :=
     TargetDataType r; CornerPoints := CornerPoints r; HasNoDataValue :=
     HasNoDataValue r; NoDataValue := NoDataValue r; NumberOfCells :=
     NumberOfCells r; UniformGridData := v; FileName := FileName r;
     TargetDimensions := TargetDimensions r; RasterDimensions :=
     RasterDimensions r; DataExtent := DataExtent r; Projection :=
     Projection r; DataScalarType := DataScalarType r;
     NumberOfScalarComponents := NumberOfScalarComponents r |}.

Definition set_FileName (v : option string) (r : vtkGDALRasterReader)
  : vtkGDALRasterReader :=
  {| NumberOfBands := NumberOfBands r; NumberOfBytesPerPixel :=
     NumberOfBytesPerPixel r; SourceOffset := SourceOffset r;
     SourceDimensions := SourceDimensions r; PrevReadFileName :=
     PrevReadFileName r; GDALData := GDALData r; TargetDataType :=
     TargetDataType r; CornerPoints := CornerPoints r; HasNoDataValue :=
     HasNoDataValue r; NoDataValue := NoDataValue r; NumberOfCells :=
     NumberOfCells r; UniformGridData := UniformGridData r; FileName := v;
     TargetDimensions := TargetDimensions r; RasterDimensions :=
     RasterDimensions r; DataExtent := DataExtent r; Projection :=
     Projection r; DataScalarType := DataScalarType r;
     NumberOfScalarComponents := NumberOfScalarComponents r |}.

Definition set_TargetDimensions (v : Z * Z) (r : vtkGDALRasterReader)
  : vtkGDALRasterReader :=
  {| NumberOfBands := NumberOfBands r; NumberOfBytesPerPixel :=
     NumberOfBytesPerPixel r; SourceOffset := SourceOffset r;
     SourceDimensions := SourceDimensions r; PrevReadFileName :=
     PrevReadFileName r; GDALData := GDALData r; TargetDataType :=
     TargetDataType r; CornerPoints := CornerPoints r; HasNoDataValue :=
     HasNoDataValue r; NoDataValue := NoDataValue r; NumberOfCells :=
     NumberOfCells r; UniformGridData := UniformGridData r; FileName :=
     FileName r; TargetDimensions := v; RasterDimensions := RasterDimensions
     r; DataExtent := DataExtent r; Projection := Projection r;
     DataScalarType := DataScalarType r; NumberOfScalarComponents :=
     NumberOfScalarComponents r |}.

Definition set_RasterDimensions (v : Z * Z) (r : vtkGDALRasterReader)
  : vtkGDALRasterReader :=
  {| NumberOfBands := NumberOfBands r; NumberOfBytesPerPixel :=
     NumberOfBytesPerPixel r; SourceOffset := SourceOffset r;
     SourceDimensions := SourceDimensions r; PrevReadFileName :=
     PrevReadFileName r; GDALData := GDALData r; TargetDataType :=
     TargetDataType r; CornerPoints := CornerPoints r; HasNoDataValue :=
     HasNoDataValue r; NoDataValue := NoDataValue r; NumberOfCells :=
     NumberOfCells r; UniformGridData := UniformGridData r; FileName :=
     FileName r; TargetDimensions := TargetDimensions r; RasterDimensions :=
     v; DataExtent := DataExtent r; Projection := Projection r;
     DataScalarType := DataScalarType r; NumberOfScalarComponents :=
     NumberOfScalarComponents r |}.

Definition set_DataExtent (v : Z * Z * Z * Z * Z * Z) (r : vtkGDALRasterReader)
  : vtkGDALRasterReader :=
  {| NumberOfBands := NumberOfBands r; NumberOfBytesPerPixel :=
     NumberOfBytesPerPixel r; SourceOffset := SourceOffset r;
     SourceDimensions := SourceDimensions r; PrevReadFileName :=
     PrevReadFileName r; GDALData := GDALData r; TargetDataType :=
     TargetDataType r; CornerPoints := CornerPoints r; HasNoDataValue :=
     HasNoDataValue r; NoDataValue := NoDataValue r; NumberOfCells :=
     NumberOfCells r; UniformGridData := UniformGridData r; FileName :=
     FileName r; TargetDimensions := TargetDimensions r; RasterDimensions :=
     RasterDimensions r; DataExtent := v; Projection := Projection r;
     DataScalarType := DataScalarType r; NumberOfScalarComponents :=
     NumberOfScalarComponents r |}.

Definition set_Projection (v : string) (r : vtkGDALRasterReader)
  : vtkGDALRasterReader :=
  {| NumberOfBands := NumberOfBands r; NumberOfBytesPerPixel :=
     NumberOfBytesPerPixel r; SourceOffset := SourceOffset r;
     SourceDimensions := SourceDimensions r; PrevReadFileName :=
     PrevReadFileName r; GDALData := GDALData r; TargetDataType :=
     TargetDataType r; CornerPoints := CornerPoints r; HasNoDataValue :=
     HasNoDataValue r; NoDataValue := NoDataValue r; NumberOfCells :=
     NumberOfCells r; UniformGridData := UniformGridData r; FileName :=
     FileName r; TargetDimensions := TargetDimensions r; RasterDimensions :=
     RasterDimensions r; DataExtent := DataExtent r; Projection := v;
     DataScalarType := DataScalarType r; NumberOfScalarComponents :=
     NumberOfScalarComponents r |}.

Definition set_DataScalarType (v : VTKScalarType) (r : vtkGDALRasterReader)
  : vtkGDALRasterReader :=
  {| NumberOfBands := NumberOfBands r; NumberOfBytesPerPixel :=
     NumberOfBytesPerPixel r; SourceOffset := SourceOffset r;
     SourceDimensions := SourceDimensions r; PrevReadFileName :=
     PrevReadFileName r; GDALData := GDALData r; TargetDataType :=
     TargetDataType r; CornerPoints := CornerPoints r; HasNoDataValue :=
     HasNoDataValue r; NoDataValue := NoDataValue r; NumberOfCells :=
     NumberOfCells r; UniformGridData := UniformGridData r; FileName :=
     FileName r; TargetDimensions := TargetDimensions r; RasterDimensions :=
     RasterDimensions r; DataExtent := DataExtent r; Projection :=
     Projection r; DataScalarType := v; NumberOfScalarComponents :=
     NumberOfScalarComponents r |}.

Definition set_NumberOfScalarComponents (v : Z) (r : vtkGDALRasterReader)
  : vtkGDALRasterReader :=
  {| NumberOfBands := NumberOfBands r; NumberOfBytesPerPixel :=
     NumberOfBytesPerPixel r; SourceOffset := SourceOffset r;
     SourceDimensions := SourceDimensions r; PrevReadFileName :=
     PrevReadFileName r; GDALData := GDALData r; TargetDataType :=
     TargetDataType r; CornerPoints := CornerPoints r; HasNoDataValue :=
     HasNoDataValue r; NoDataValue := NoDataValue r; NumberOfCells :=
     NumberOfCells r; UniformGridData := UniformGridData r; FileName :=
     FileName r; TargetDimensions := TargetDimensions r; RasterDimensions :=
     RasterDimensions r; DataExtent := DataExtent r; Projection :=
     Projection r; DataScalarType := DataScalarType r;
     NumberOfScalarComponents := v |}.

(** The constructors of [vtkGDALRasterReaderInternal] and
    [vtkGDALRasterReader]. *)
Definition BadCornerPoint : double := double_of_int (-1).

Definition vtkGDALRasterReader_New : vtkGDALRasterReader :=
  {| NumberOfBands := 0; NumberOfBytesPerPixel := 0;
     SourceOffset := (0, 0); SourceDimensions := (0, 0);
     PrevReadFileName := EmptyString; GDALData := None; TargetDataType := GDT_Byte;
     CornerPoints :=
       {| corner0 := (BadCornerPoint, BadCornerPoint);
          corner1 := (BadCornerPoint, BadCornerPoint);
          corner2 := (BadCornerPoint, BadCornerPoint);
          corner3 := (BadCornerPoint, BadCornerPoint) |};
     HasNoDataValue := []; NoDataValue := []; NumberOfCells := 0;
     UniformGridData := None; FileName := None;
     TargetDimensions := (-1, -1); RasterDimensions := (-1, -1);
     DataExtent := (-1, -1, -1, -1, -1, -1); Projection := EmptyString;
     DataScalarType := VTK_SHORT; NumberOfScalarComponents := 1 |}.

(** *** The environment of the reader

    [GDALOpen] is the file system as the decoding library sees it;
    [exportToProj4] is [OGRSpatialReference::exportToProj4] on the WKT
    string; [NDEBUG] tells whether the translation unit was compiled with
    assertions removed. *)
Variable GDALOpen : string → option GDALDataset.
Variable exportToProj4 : string → string.
Variable NDEBUG : bool.

(** [assert(c)] of <cassert>. *)
Definition assert (c : bool) : outcome unit :=
  if NDEBUG then Ok () else if c then Ok () else Aborted.

(** [sizeof(RAW_TYPE)]. *)
Definition sizeof_RAW (T : VTKScalarType) : Z :=
  match T with
  | VTK_UNSIGNED_CHAR => 1
  | VTK_UNSIGNED_SHORT | VTK_SHORT => 2
  | VTK_UNSIGNED_INT | VTK_INT | VTK_FLOAT => 4
  | VTK_DOUBLE => 8
  end.

(** ** ReadMetaData *)

Definition resize_fill {A : Type} (v : list A) (n : nat) (x : A) : list A :=
  take n v ++ replicate (n - length v) x.

Definition ReadMetaData (fileName : string) (r : vtkGDALRasterReader)
  : vtkGDALRasterReader :=
  if String.eqb fileName (PrevReadFileName r) then r
  else
    (* ReleaseData(), then GDALOpen *)
    match GDALOpen fileName with
    | None => set_GDALData None r
    | Some ds =>
        let r := set_GDALData (Some ds) r in
        let r := set_PrevReadFileName fileName r in
        let r := set_NumberOfBands (GetRasterCount ds) r in
        let r := set_HasNoDataValue
                   (resize_fill (HasNoDataValue r) (Z.to_nat (NumberOfBands r)) 0) r in
        let r := set_NoDataValue
                   (resize_fill (NoDataValue r) (Z.to_nat (NumberOfBands r))
                      (double_of_int 0)) r in
        set_RasterDimensions (RasterXSize ds, RasterYSize ds) r
    end.

(** ** Convert *)

(** [targetIndex]: [i * groupIndex.size() + j * targetWidth *
    groupIndex.size() + bi], computed in [size_t] except for the [int]
    product [j * targetWidth]. *)
Definition targetIndex (targetWidth n i j bi : Z) : Z :=
  size_add (size_add (size_mul i n) (size_mul (int_mul j targetWidth) n)) bi.

(** [sourceIndex]: [iIndex + jIndex * targetWidth + bi * targetWidth *
    targetHeight], computed in [int].  Both indices are stored in a
    [double], which holds every integer below 2^53 exactly, and converted
    back where they index. *)
Definition sourceIndex (targetWidth targetHeight iIndex jIndex bi : Z) : Z :=
  int_add (int_add iIndex (int_mul jIndex targetWidth))
          (int_mul (int_mul bi targetWidth) targetHeight).

(** The objects the loops of [Convert] write: the new array [scArr], the
    grid (through [BlankCell]) and the counter [NumberOfCells]. *)
Record ConvertState := {
  scArr : vtkDataArray;
  grid : vtkUniformGrid;
  liveCells : Z
}.

(** The comparison of the innermost loop:
    [HasNoDataValue[bandIndex - 1] && tmp == TNoDataValue]. *)
Definition is_no_data (T : VTKScalarType) (hasNoData : Z) (noData : double)
    (tmp : RAW) : bool :=
  let TNoDataValue :=
    if hasNoData =? 0 then raw_zero else static_cast_RAW T noData in
  negb (hasNoData =? 0) && raw_eq tmp TNoDataValue.

(** The body of the innermost loop.  The running [min] and [max] are
    locals that nothing reads after the loops; they are left out. *)
Definition Convert_slot (T : VTKScalarType) (rawUniformGridData : list RAW)
    (targetWidth targetHeight : Z) (groupIndex : list Z)
    (HasNoData : list Z) (NoData : list double)
    (j jIndex i iIndex bi : Z) (st : ConvertState) : outcome ConvertState :=
  bandIndex ← vec_at groupIndex bi;
  hasNoData ← vec_at HasNoData (int_sub bandIndex 1);
  noData ← (if hasNoData =? 0 then Ok (double_of_int 0)
            else vec_at NoData (int_sub bandIndex 1));
  let n := Z.of_nat (length groupIndex) in
  let tIndex := targetIndex targetWidth n i j bi in
  let sIndex := sourceIndex targetWidth targetHeight iIndex jIndex bi in
  tmp ← vec_at rawUniformGridData sIndex;
  let st :=
    if is_no_data T hasNoData noData tmp
    then {| scArr := scArr st; grid := BlankCell tIndex (grid st);
            liveCells := liveCells st |}
    else {| scArr := scArr st; grid := grid st;
            liveCells := liveCells st + 1 |} in
  Ok {| scArr := InsertValue tIndex tmp (scArr st); grid := grid st;
        liveCells := liveCells st |}.

Definition Convert_loops (T : VTKScalarType) (rawUniformGridData : list RAW)
    (targetWidth targetHeight : Z) (groupIndex : list Z)
    (flipX flipY : bool) (HasNoData : list Z) (NoData : list double)
    (st : ConvertState) : outcome ConvertState :=
  for_range 0 targetHeight (λ j st,
    let jIndex := if flipY then int_sub (int_sub targetHeight 1) j else j in
    for_range 0 targetWidth (λ i st,
      let iIndex := if flipX then int_sub (int_sub targetWidth 1) i else i in
      for_range 0 (Z.of_nat (length groupIndex)) (λ bi st,
        Convert_slot T rawUniformGridData targetWidth targetHeight groupIndex
          HasNoData NoData j jIndex i iIndex bi st) st) st) st.

Definition Convert (T : VTKScalarType) (rawUniformGridData : list RAW)
    (targetWidth targetHeight : Z) (groupIndex : list Z) (name : string)
    (flipX flipY : bool) (r : vtkGDALRasterReader) : outcome vtkGDALRasterReader :=
  match UniformGridData r with
  | None => Ok r
  | Some g =>
      (* double min = rawUniformGridData[0], max = rawUniformGridData[0]; *)
      _ ← vec_at rawUniformGridData 0;
      let arr := {| ArrName := name;
                    NumberOfComponents := Z.of_nat (length groupIndex);
                    NumberOfTuples := int_mul targetWidth targetHeight;
                    Values := ∅; LookupTable := None |} in
      st ← Convert_loops T rawUniformGridData targetWidth targetHeight
             groupIndex flipX flipY (HasNoDataValue r) (NoDataValue r)
             {| scArr := arr; grid := g; liveCells := NumberOfCells r |};
      Ok (set_UniformGridData (Some (AddArray (scArr st) (grid st)))
            (set_NumberOfCells (liveCells st) r))
  end.

(** ** GetGeoCornerPoint and GetGeoCornerPoints *)

(** The second branch of [GetGeoCornerPoint]: the ground-control point
    whose pixel and line match the corner, the last one of the first four
    when several match, (0, 0) when none does. *)
Definition gcp_corner (gcps : list GDAL_GCP) (x y : double)
  : outcome (double * double) :=
  let leftCorner := deq x (double_of_int 0) in
  let upperCorner := deq y (double_of_int 0) in
  for_range 0 4 (λ i geo,
    gcp ← vec_at gcps i;
    let gcpLeftCorner := deq (dfGCPPixel gcp) dhalf in
    let gcpUpperCorner := deq (dfGCPLine gcp) dhalf in
    if bool_decide (gcpLeftCorner = leftCorner) &&
       bool_decide (gcpUpperCorner = upperCorner)
    then Ok (dfGCPX gcp, dfGCPY gcp) else Ok geo)
    (double_of_int 0, double_of_int 0).

(** [GetGeoCornerPoint(dataset, x, y, out)]: the return value and, when
    [out] is written, the pair stored in [out[0]], [out[1]].  [out] is never
    null at the calls of this file. *)
Definition GetGeoCornerPoint (r : vtkGDALRasterReader)
    (dataset : option GDALDataset) (x y : double)
  : outcome (bool * option (double * double)) :=
  match dataset with
  | None => Ok (false, None)
  | Some _ =>
      match GDALData r with
      | None => Undefined
      | Some ds =>
          match GCPProjection ds, GCPs ds with
          | Some _, Some gcps =>
              geo ← gcp_corner gcps x y; Ok (false, Some geo)
          | _, _ =>
              match GeoTransform ds with
              | (CE_None, (a0, a1, a2, a3, a4, a5)) =>
                  Ok (true, Some (dadd (dadd a0 (dmul a1 x)) (dmul a2 y),
                                  dadd (dadd a3 (dmul a4 x)) (dmul a5 y)))
              | _ => Ok (false, Some (x, y))
              end
          end
      end
  end.

Definition store_corner (k : nat) (p : option (double * double)) (c : Corners)
  : Corners :=
  match p with
  | None => c
  | Some p =>
      match k with
      | 0%nat => {| corner0 := p; corner1 := corner1 c; corner2 := corner2 c;
                    corner3 := corner3 c |}
      | 1%nat => {| corner0 := corner0 c; corner1 := p; corner2 := corner2 c;
                    corner3 := corner3 c |}
      | 2%nat => {| corner0 := corner0 c; corner1 := corner1 c; corner2 := p;
                    corner3 := corner3 c |}
      | _ => {| corner0 := corner0 c; corner1 := corner1 c;
                corner2 := corner2 c; corner3 := p |}
      end
  end.

Definition GetGeoCornerPoints (r : vtkGDALRasterReader)
  : outcome vtkGDALRasterReader :=
  let W := double_of_int (fst (RasterDimensions r)) in
  let H := double_of_int (snd (RasterDimensions r)) in
  let zero := double_of_int 0 in
  p ← GetGeoCornerPoint r (GDALData r) zero zero;
  let r := set_CornerPoints (store_corner 0 (snd p) (CornerPoints r)) r in
  p ← GetGeoCornerPoint r (GDALData r) zero H;
  let r := set_CornerPoints (store_corner 1 (snd p) (CornerPoints r)) r in
  p ← GetGeoCornerPoint r (GDALData r) W H;
  let r := set_CornerPoints (store_corner 2 (snd p) (CornerPoints r)) r in
  p ← GetGeoCornerPoint r (GDALData r) W zero;
  Ok (set_CornerPoints (store_corner 3 (snd p) (CornerPoints r)) r).

(** ** ReadColorTable *)

Definition SetTableValue (i : Z) (rgba : double * double * double * double)
    (t : vtkLookupTable) : vtkLookupTable :=
  {| IndexedLookup := IndexedLookup t;
     NumberOfTableValues := NumberOfTableValues t;
     TableValues := <[i := rgba]> (TableValues t);
     Annotations := Annotations t |}.

Definition SetAnnotation (i : Z) (text : string) (t : vtkLookupTable)
  : vtkLookupTable :=
  {| IndexedLookup := IndexedLookup t;
     NumberOfTableValues := NumberOfTableValues t;
     TableValues := TableValues t;
     Annotations := <[i := text]> (Annotations t) |}.

Definition normalize (c : Z) : double :=
  ddiv (double_of_int c) (double_of_int 255).

Definition ReadColorTable_entry (gdalTable : GDALColorTable)
    (categoryNames : option (list string)) (i : Z) (colorTable : vtkLookupTable)
  : outcome vtkLookupTable :=
  gdalEntry ← vec_at (ColorEntries gdalTable) i;
  let colorTable :=
    SetTableValue i (normalize (c1 gdalEntry), normalize (c2 gdalEntry),
                     normalize (c3 gdalEntry), normalize (c4 gdalEntry))
      colorTable in
  match categoryNames with
  | Some names =>
      name ← vec_at names i;
      (* Only use non-empty names *)
      if (0 <? String.length name)%nat
      then Ok (SetAnnotation i name colorTable)
      else Ok colorTable
  | None =>
      (* Create default annotation *)
      Ok (SetAnnotation i ("Category " +:+ pretty i) colorTable)
  end.

Definition ReadColorTable (rasterBand : GDALRasterBand)
    (colorTable : vtkLookupTable) : outcome vtkLookupTable :=
  match ColorTable rasterBand with
  | None => Undefined
  | Some gdalTable =>
      if bool_decide (PaletteInterpretation gdalTable ≠ GPI_RGB)
      then Ok colorTable
      else
        let numEntries := Z.of_nat (length (ColorEntries gdalTable)) in
        let colorTable :=
          {| IndexedLookup := true; NumberOfTableValues := numEntries;
             TableValues := TableValues colorTable;
             Annotations := Annotations colorTable |} in
        for_range 0 numEntries
          (ReadColorTable_entry gdalTable (CategoryNames rasterBand))
          colorTable
  end.

(** ** GenericReadData *)

(** The band pointers and indices that the first loop of [GenericReadData]
    fills; [otherBands] and [otherIndex] are one list, a null entry of the
    former being a 0 of the latter. *)
Record BandRoles := {
  redIndex : Z;
  greenIndex : Z;
  blueIndex : Z;
  alphaIndex : Z;
  grayIndex : Z;
  paletteIndex : Z;
  otherIndex : list Z
}.

Definition no_roles : BandRoles :=
  {| redIndex := 0; greenIndex := 0; blueIndex := 0; alphaIndex := 0;
     grayIndex := 0; paletteIndex := 0; otherIndex := [] |}.

Definition set_otherIndex (l : list Z) (b : BandRoles) : BandRoles :=
  {| redIndex := redIndex b; greenIndex := greenIndex b;
     blueIndex := blueIndex b; alphaIndex := alphaIndex b;
     grayIndex := grayIndex b; paletteIndex := paletteIndex b;
     otherIndex := l |}.

(** The [if ... else if] chain on the colour interpretation of band i. *)
Definition assign_role (ci : GDALColorInterp) (i : Z) (b : BandRoles) : BandRoles :=
  if (bool_decide (ci = GCI_RedBand) || bool_decide (ci = GCI_YCbCr_YBand))
     && (redIndex b =? 0)
  then {| redIndex := i; greenIndex := greenIndex b; blueIndex := blueIndex b;
          alphaIndex := alphaIndex b; grayIndex := grayIndex b;
          paletteIndex := paletteIndex b; otherIndex := otherIndex b |}
  else if (bool_decide (ci = GCI_GreenBand) || bool_decide (ci = GCI_YCbCr_CbBand))
          && (greenIndex b =? 0)
  then {| redIndex := redIndex b; greenIndex := i; blueIndex := blueIndex b;
          alphaIndex := alphaIndex b; grayIndex := grayIndex b;
          paletteIndex := paletteIndex b; otherIndex := otherIndex b |}
  else if (bool_decide (ci = GCI_BlueBand) || bool_decide (ci = GCI_YCbCr_CrBand))
          && (blueIndex b =? 0)
  then {| redIndex := redIndex b; greenIndex := greenIndex b; blueIndex := i;
          alphaIndex := alphaIndex b; grayIndex := grayIndex b;
          paletteIndex := paletteIndex b; otherIndex := otherIndex b |}
  else if bool_decide (ci = GCI_AlphaBand) && (alphaIndex b =? 0)
  then {| redIndex := redIndex b; greenIndex := greenIndex b;
          blueIndex := blueIndex b; alphaIndex := i; grayIndex := grayIndex b;
          paletteIndex := paletteIndex b; otherIndex := otherIndex b |}
  else if bool_decide (ci = GCI_GrayIndex) && (grayIndex b =? 0)
  then {| redIndex := redIndex b; greenIndex := greenIndex b;
          blueIndex := blueIndex b; alphaIndex := alphaIndex b; grayIndex := i;
          paletteIndex := paletteIndex b; otherIndex := otherIndex b |}
  else if bool_decide (ci = GCI_PaletteIndex) && (paletteIndex b =? 0)
  then {| redIndex := redIndex b; greenIndex := greenIndex b;
          blueIndex := blueIndex b; alphaIndex := alphaIndex b;
          grayIndex := grayIndex b; paletteIndex := i;
          otherIndex := otherIndex b |}
  else b.

(** The body of the first loop: the no-data flag and value of band i are
    stored, the band is appended to the other bands and given its role. *)
Definition classify_band (ds : GDALDataset) (i : Z)
    (st : BandRoles * vtkGDALRasterReader)
  : outcome (BandRoles * vtkGDALRasterReader) :=
  let '(b, r) := st in
  match GetRasterBand ds i with
  | None => Undefined
  | Some rasterBand =>
      hnd ← vec_set (HasNoDataValue r) (int_sub i 1) 0;
      hnd ← vec_set hnd (int_sub i 1) (NoDataFlag rasterBand);
      ndv ← vec_set (NoDataValue r) (int_sub i 1) (NoDataResult rasterBand);
      let r := set_NoDataValue ndv (set_HasNoDataValue hnd r) in
      let b := set_otherIndex (otherIndex b ++ [i]) b in
      Ok (assign_role (ColorInterpretation rasterBand) i b, r)
  end.

(** The samples a windowed read leaves in its destination, line by line. *)
Definition window_samples (px : Z → Z → RAW) (w h : Z) : list RAW :=
  y ← seqZ 0 h; x ← seqZ 0 w; [px x y].

(** The write of a windowed read into [rawUniformGridData] at the element
    offset [base].  The destination starts at [&rawUniformGridData[0]],
    which an empty vector does not have, and must hold the whole window. *)
Definition store_window (buf : list RAW) (base : Z) (samples : list RAW)
  : outcome (list RAW) :=
  match buf with
  | [] => Undefined
  | _ =>
      if (base <? 0) || (Z.of_nat (length buf) <? base + Z.of_nat (length samples))
      then Undefined
      else Ok (take (Z.to_nat base) buf ++ samples ++
               drop (Z.to_nat base + length samples) buf)
  end.

(** One [RasterIO] call of [GenericReadData] followed by its
    [assert(err == CE_None)]: band [band] is read into slot [slot] of the
    buffer, i.e. at the byte offset [slot * bandSpace].  The samples are of
    the type [TargetDataType], spaced [pixelSpace] bytes apart (the size
    of the type when 0 is passed); the buffer elements are [RAW_TYPE]s.
    [ReadData] sets [NumberOfBytesPerPixel] and [TargetDataType] together
    and selects [RAW_TYPE] from the latter, so the two sizes agree unless
    [NumberOfBytesPerPixel] is 0, the type is none of the seven and the
    buffer is empty: then the write is out of bounds. *)
Definition read_band (T : VTKScalarType) (ds : GDALDataset)
    (r : vtkGDALRasterReader) (pixelSpace lineSpace : Z) (band slot : Z)
    (raw : list RAW) : outcome (list RAW) :=
  let destWidth := fst (TargetDimensions r) in
  let destHeight := snd (TargetDimensions r) in
  let bandSpace :=
    int_mul (int_mul destWidth destHeight) (NumberOfBytesPerPixel r) in
  match GetRasterBand ds band with
  | None => Undefined
  | Some rasterBand =>
      let '(err, px) :=
        RasterIO rasterBand (fst (SourceOffset r)) (snd (SourceOffset r))
          (fst (SourceDimensions r)) (snd (SourceDimensions r))
          destWidth destHeight (TargetDataType r) pixelSpace lineSpace in
      raw ← (if NumberOfBytesPerPixel r =? sizeof_RAW T
             then store_window raw (int_mul slot bandSpace / sizeof_RAW T)
                    (window_samples px destWidth destHeight)
             else Undefined);
      _ ← assert (bool_decide (err = CE_None));
      Ok raw
  end.

(** The reads of the bands of the primary group, slot after slot. *)
Definition read_group (T : VTKScalarType) (ds : GDALDataset)
    (r : vtkGDALRasterReader) (pixelSpace lineSpace : Z) (groupIndex : list Z)
    (raw : list RAW) : outcome (list RAW) :=
  for_each (zip groupIndex (seqZ 0 (Z.of_nat (length groupIndex))))
    (λ bs raw, read_band T ds r pixelSpace lineSpace bs.1 bs.2 raw) raw.

(** [otherBands[idx - 1] = nullptr; otherIndex[idx - 1] = 0;
    groupIndex.push_back(idx)]. *)
Definition move_to_group (idx : Z) (st : BandRoles * list Z)
  : outcome (BandRoles * list Z) :=
  let '(b, groupIndex) := st in
  other ← vec_set (otherIndex b) (int_sub idx 1) 0;
  Ok (set_otherIndex other b, groupIndex ++ [idx]).

(** The locals of [GenericReadData] that outlive the choice of the primary
    group. *)
Record PrimaryRead := {
  roles : BandRoles;
  groupIndex : list Z;
  rawUniformGridData : list RAW;
  colorTable : vtkLookupTable
}.

(** The [if (redBand && greenBand && blueBand) ... else if (grayBand) ...
    else if (paletteBand) ...] statement. *)
Definition read_primary (T : VTKScalarType) (ds : GDALDataset) (b : BandRoles)
    (r : vtkGDALRasterReader) : outcome (PrimaryRead * vtkGDALRasterReader) :=
  let destWidth := fst (TargetDimensions r) in
  let destHeight := snd (TargetDimensions r) in
  let pixelSpace := NumberOfBytesPerPixel r in
  let lineSpace := int_mul destWidth pixelSpace in
  let size k := int_mul (int_mul (int_mul k destWidth) destHeight) pixelSpace in
  if negb (redIndex b =? 0) && negb (greenIndex b =? 0) && negb (blueIndex b =? 0)
  then
    st ← move_to_group (redIndex b) (b, []);
    st ← move_to_group (greenIndex b) st;
    st ← move_to_group (blueIndex b) st;
    if negb (alphaIndex b =? 0)
    then
      st ← move_to_group (alphaIndex b) st;
      let r := set_NumberOfScalarComponents 4 r in
      raw ← vec_resize [] (size 4) raw_zero;
      raw ← read_group T ds r pixelSpace lineSpace st.2 raw;
      Ok ({| roles := st.1; groupIndex := st.2; rawUniformGridData := raw;
             colorTable := vtkLookupTable_New |}, r)
    else
      let r := set_NumberOfScalarComponents 3 r in
      raw ← vec_resize [] (size 3) raw_zero;
      raw ← read_group T ds r 0 0 st.2 raw;
      Ok ({| roles := st.1; groupIndex := st.2; rawUniformGridData := raw;
             colorTable := vtkLookupTable_New |}, r)
  else if negb (grayIndex b =? 0)
  then
    st ← move_to_group (grayIndex b) (b, []);
    if negb (alphaIndex b =? 0)
    then
      st ← move_to_group (alphaIndex b) st;
      (* Luminance alpha *)
      let r := set_NumberOfScalarComponents 2 r in
      raw ← vec_resize [] (size 2) raw_zero;
      raw ← read_group T ds r pixelSpace lineSpace st.2 raw;
      Ok ({| roles := st.1; groupIndex := st.2; rawUniformGridData := raw;
             colorTable := vtkLookupTable_New |}, r)
    else
      (* Luminance *)
      let r := set_NumberOfScalarComponents 1 r in
      raw ← vec_resize [] (int_mul (int_mul destWidth destHeight) pixelSpace)
              raw_zero;
      raw ← read_group T ds r pixelSpace lineSpace st.2 raw;
      Ok ({| roles := st.1; groupIndex := st.2; rawUniformGridData := raw;
             colorTable := vtkLookupTable_New |}, r)
  else if negb (paletteIndex b =? 0)
  then
    st ← move_to_group (paletteIndex b) (b, []);
    (* Read indexes *)
    let r := set_NumberOfScalarComponents 1 r in
    raw ← vec_resize [] (int_mul (int_mul destWidth destHeight) pixelSpace)
            raw_zero;
    raw ← read_group T ds r pixelSpace lineSpace st.2 raw;
    match GetRasterBand ds (paletteIndex b) with
    | None => Undefined
    | Some paletteBand =>
        table ← ReadColorTable paletteBand vtkLookupTable_New;
        Ok ({| roles := st.1; groupIndex := st.2; rawUniformGridData := raw;
               colorTable := table |}, r)
    end
  else
    Ok ({| roles := b; groupIndex := []; rawUniformGridData := [];
           colorTable := vtkLookupTable_New |}, r).

(** [geoSpacing[0]] and [geoSpacing[1]]: d[4], d[5] are the corner opposite
    to d[0], d[1]. *)
Definition geoSpacing (r : vtkGDALRasterReader) : double * double :=
  let d := CornerPoints r in
  (ddiv (dsub (fst (corner2 d)) (fst (corner0 d)))
        (double_of_int (fst (RasterDimensions r))),
   ddiv (dsub (snd (corner2 d)) (snd (corner0 d)))
        (double_of_int (snd (RasterDimensions r)))).

Definition flipX (r : vtkGDALRasterReader) : bool :=
  dlt (fst (geoSpacing r)) (double_of_int 0).
Definition flipY (r : vtkGDALRasterReader) : bool :=
  dlt (snd (geoSpacing r)) (double_of_int 0).

(** [SetExtent], [SetSpacing] and [SetOrigin] on the output grid. *)
Definition place_grid (r : vtkGDALRasterReader) : outcome vtkGDALRasterReader :=
  match UniformGridData r with
  | None => Undefined
  | Some g =>
      let d := CornerPoints r in
      let destWidth := fst (TargetDimensions r) in
      let destHeight := snd (TargetDimensions r) in
      Ok (set_UniformGridData
            (Some (set_Geometry (0, destWidth, 0, destHeight, 0, 0)
                     (dabs (fst (geoSpacing r)), dabs (snd (geoSpacing r)),
                      double_of_int 1)
                     (std_min (fst (corner0 d)) (fst (corner2 d)),
                      std_min (snd (corner0 d)) (snd (corner2 d)),
                      double_of_int 0) g)) r)
  end.

(** The body of the loop over [otherBands]. *)
Definition read_other (T : VTKScalarType) (ds : GDALDataset) (b : BandRoles)
    (i : Z) (st : list Z * list RAW * vtkGDALRasterReader)
  : outcome (list Z * list RAW * vtkGDALRasterReader) :=
  let '(groupIndex, raw, r) := st in
  let destWidth := fst (TargetDimensions r) in
  let destHeight := snd (TargetDimensions r) in
  let pixelSpace := NumberOfBytesPerPixel r in
  let lineSpace := int_mul destWidth pixelSpace in
  idx ← vec_at (otherIndex b) i;
  if idx =? 0 then Ok st
  else
    groupIndex ← vec_set groupIndex 0 idx;
    raw ← read_band T ds r pixelSpace lineSpace idx 0 raw;
    r ← Convert T raw destWidth destHeight groupIndex ("band_" +:+ pretty idx)
          (flipX r) (flipY r) r;
    Ok (groupIndex, raw, r).

(** [GetScalars()->SetName("Categories")] and [SetLookupTable(colorTable)]
    on the active scalars of the output grid. *)
Definition name_categories (table : vtkLookupTable) (r : vtkGDALRasterReader)
  : outcome vtkGDALRasterReader :=
  match UniformGridData r with
  | None => Undefined
  | Some g =>
      match ActiveScalars g with
      | None => Undefined
      | Some k =>
          match CellArrays g !! k with
          | None => Undefined
          | Some a =>
              let a := {| ArrName := "Categories";
                          NumberOfComponents := NumberOfComponents a;
                          NumberOfTuples := NumberOfTuples a;
                          Values := Values a; LookupTable := Some table |} in
              Ok (set_UniformGridData
                    (Some (set_CellData (<[k := a]> (CellArrays g)) (Some k) g)) r)
          end
      end
  end.

(** The first loop of [GenericReadData], over the bands 1 to
    [NumberOfBands]. *)
Definition classify_bands (ds : GDALDataset) (r : vtkGDALRasterReader)
  : outcome (BandRoles * vtkGDALRasterReader) :=
  for_range 1 (NumberOfBands r + 1) (classify_band ds) (no_roles, r).

(** The part of [GenericReadData] after the call of [GetGeoCornerPoints]:
    the grid is placed, the primary group is converted to "Elevation" and
    made the active scalars, every other band is read and converted to
    "band_N", and the scalars of a palette raster are renamed. *)
Definition fill_grid (T : VTKScalarType) (ds : GDALDataset) (p : PrimaryRead)
    (r : vtkGDALRasterReader) : outcome vtkGDALRasterReader :=
  let destWidth := fst (TargetDimensions r) in
  let destHeight := snd (TargetDimensions r) in
  let pixelSpace := NumberOfBytesPerPixel r in
  r ← place_grid r;
  r ← Convert T (rawUniformGridData p) destWidth destHeight (groupIndex p)
        "Elevation" (flipX r) (flipY r) r;
  r ← match UniformGridData r with
      | None => Undefined
      | Some g => Ok (set_UniformGridData (Some (SetActiveScalars "Elevation" g)) r)
      end;
  let groupIndex := resize_fill (groupIndex p) 1 0 in
  raw ← vec_resize (rawUniformGridData p)
          (int_mul (int_mul destWidth destHeight) pixelSpace) raw_zero;
  st ← for_range 0 (Z.of_nat (length (otherIndex (roles p))))
         (read_other T ds (roles p)) (groupIndex, raw, r);
  let r := st.2 in
  if negb (paletteIndex (roles p) =? 0)
  then name_categories (colorTable p) r
  else Ok r.

Definition GenericReadData (T : VTKScalarType) (r : vtkGDALRasterReader)
  : outcome vtkGDALRasterReader :=
  match GDALData r with
  | None => Undefined
  | Some ds =>
      st ← classify_bands ds r;
      st ← read_primary T ds st.1 st.2;
      r ← GetGeoCornerPoints st.2;
      fill_grid T ds st.1 r
  end.

(** ** ReadData *)

Definition bytes_per_pixel (t : GDALDataType) : Z :=
  match t with
  | GDT_Byte => 1
  | GDT_UInt16 => 2
  | GDT_Int16 => 2
  | GDT_UInt32 => 4
  | GDT_Int32 => 4
  | GDT_Float32 => 4
  | GDT_Float64 => 8
  | _ => 0
  end.

(** The second [switch] of [ReadData]: the template arguments chosen for
    [GenericReadData], which are also the scalar type set on the reader. *)
Definition scalar_type_for (t : GDALDataType) : VTKScalarType :=
  match t with
  | GDT_UInt16 => VTK_UNSIGNED_SHORT
  | GDT_Int16 => VTK_SHORT
  | GDT_UInt32 => VTK_UNSIGNED_INT
  | GDT_Int32 => VTK_INT
  | GDT_Float32 => VTK_FLOAT
  | GDT_Float64 => VTK_DOUBLE
  | _ => VTK_UNSIGNED_CHAR
  end.

(** The first statements of [ReadData]: the target type is taken from
    band 1 unless a number of bytes per pixel is already known. *)
Definition select_type (ds : GDALDataset) (r : vtkGDALRasterReader)
  : outcome vtkGDALRasterReader :=
  let rasterBand := GetRasterBand ds 1 in
  if NumberOfBytesPerPixel r =? 0
  then match rasterBand with
       | None => Undefined
       | Some rasterBand =>
           let r := set_TargetDataType (RasterDataType rasterBand) r in
           Ok (set_NumberOfBytesPerPixel (bytes_per_pixel (TargetDataType r)) r)
       end
  else Ok r.

Definition ReadData (fileName : string) (r : vtkGDALRasterReader)
  : outcome vtkGDALRasterReader :=
  match GDALData r with
  | None => Ok r                      (* "Failed to read: " fileName *)
  | Some ds =>
      r ← select_type ds r;
      (* Initialize *)
      let r := set_UniformGridData (Some vtkUniformGrid_New) r in
      let r := set_NumberOfCells 0 r in
      let T := scalar_type_for (TargetDataType r) in
      GenericReadData T (set_DataScalarType T r)
  end.

(** ** The accessors *)

Definition GetNumberOfCells (r : vtkGDALRasterReader) : Z := NumberOfCells r.

(** [NoDataValue[bandIndex - 1]], no bounds check. *)
Definition GetInvalidValue (bandIndex : Z) (r : vtkGDALRasterReader)
  : outcome double :=
  vec_at (NoDataValue r) (int_sub bandIndex 1).

(** ** RequestData

    [outputVector] is given by what [GetInformationObject(0)] and then
    [Get(DATA_OBJECT())] return: [None] for a null information object,
    [Some None] for a null data object, [Some (Some g)] for a grid g.  The
    result is the return value, the reader and the caller's data object. *)
Definition no_data_field (ds : GDALDataset) (n : Z) : outcome (list double) :=
  for_range 0 n (λ i vals,
    match GetRasterBand ds (int_add i 1) with
    | None => Undefined
    | Some band =>
        let noDataValue :=
          if NoDataFlag band =? 0 then NaN else NoDataResult band in
        Ok (vals ++ [noDataValue])
    end) [].

Definition RequestData (outputVector : option (option vtkUniformGrid))
    (r : vtkGDALRasterReader)
  : outcome (Z * vtkGDALRasterReader * option (option vtkUniformGrid)) :=
  match FileName r with
  | None => Undefined               (* std::string from a null pointer *)
  | Some fileName =>
      r ← ReadData fileName r;
      match GDALData r with
      | None => Ok (0, r, outputVector)
      | Some ds =>
          (* Get the projection. *)
          let r := set_Projection (exportToProj4 (ProjectionRef ds)) r in
          match UniformGridData r with
          | None => Undefined
          | Some g =>
              (* Add the map-projection as field data *)
              let g := AddFieldArray
                         (vtkStringArray "MAP_PROJECTION" [Projection r]) g in
              (* Add NoDataValue as field data *)
              vals ← no_data_field ds (NumberOfBands r);
              let g := AddFieldArray (vtkDoubleArray "NO_DATA_VALUE" vals) g in
              let r := set_UniformGridData (Some g) r in
              match outputVector with
              | None => Ok (0, r, outputVector)
              | Some None => Ok (0, r, outputVector)
              | Some (Some _) => Ok (1, r, Some (Some g))
              end
          end
      end
  end.

(** ** RequestInformation *)

(** The statements from "GDAL top left is at 0,0" to the end of "Clamp
    pixel offset and image dimension": [SourceOffset] and
    [SourceDimensions] from [DataExtent] and [RasterDimensions]. *)
Definition source_window (RD0 RD1 : Z) (e : Z * Z * Z * Z * Z * Z)
  : (Z * Z) * (Z * Z) :=
  let '(e0, e1, e2, e3, _, _) := e in
  (* GDAL top left is at 0,0 *)
  let so0 := e0 in
  let so1 := int_sub RD1 (int_add e3 1) in
  let sd0 := int_add (int_sub e1 e0) 1 in
  let sd1 := int_add (int_sub e3 e2) 1 in
  (* Clamp pixel offset and image dimension *)
  let so0 := Min RD0 so0 in
  let so0 := Max 0 so0 in
  let so1 := Min RD1 so1 in
  let so1 := Max 0 so1 in
  let sd0 := Max 0 sd0 in
  let sd0 := if int_add sd0 so0 >? RD0 then int_sub RD0 so0 else sd0 in
  let sd1 := Max 0 sd1 in
  let sd1 := if int_add sd1 so1 >? RD1 then int_sub RD1 so1 else sd1 in
  ((so0, so1), (sd0, sd1)).

(** [if (DataExtent[0] == -1) ...]: the full raster when no extent was
    requested. *)
Definition default_extent (r : vtkGDALRasterReader) : vtkGDALRasterReader :=
  let '(e0, _, _, _, _, _) := DataExtent r in
  if e0 =? -1
  then set_DataExtent (0, int_sub (fst (RasterDimensions r)) 1,
                       0, int_sub (snd (RasterDimensions r)) 1, 0, 0) r
  else r.

(** [if (TargetDimensions[0] == -1 && TargetDimensions[1] == -1) ...]. *)
Definition default_target (r : vtkGDALRasterReader) : vtkGDALRasterReader :=
  if (fst (TargetDimensions r) =? -1) && (snd (TargetDimensions r) =? -1)
  then set_TargetDimensions (RasterDimensions r) r
  else r.

(** The extent written back after the clamping. *)
Definition clamped_extent (RD1 : Z) (off dim : Z * Z) : Z * Z * Z * Z * Z * Z :=
  let e0 := fst off in
  let e1 := int_sub (int_add e0 (fst dim)) 1 in
  let e3 := int_sub (int_sub RD1 (snd off)) 1 in
  let e2 := int_add (int_sub e3 (snd dim)) 1 in
  (e0, e1, e2, e3, 0, 0).

(** [outInfo] tells whether the output information object exists.  The
    keys published on it (whole extent, spacing, origin, projection) and the
    fields [DataOrigin] and [DataSpacing] they are copied from are left
    out: nothing in [RequestData] reads them. *)
Definition RequestInformation (outInfo : bool) (r : vtkGDALRasterReader)
  : Z * vtkGDALRasterReader :=
  if negb outInfo then (0, r)
  else
    match FileName r with
    | None => (0, r)
    | Some fileName =>
        let r := ReadMetaData fileName r in
        match GDALData r with
        | None => (0, r)
        | Some ds =>
            if (fst (RasterDimensions r) <=? 0) && (snd (RasterDimensions r) <=? 0)
            then (0, r)
            else
              let r := default_target r in
              let r := default_extent r in
              let w := source_window (fst (RasterDimensions r))
                         (snd (RasterDimensions r)) (DataExtent r) in
              let r := set_SourceOffset (fst w) r in
              let r := set_SourceDimensions (snd w) r in
              (1, set_DataExtent
                    (clamped_extent (snd (RasterDimensions r))
                       (SourceOffset r) (SourceDimensions r)) r)
        end
    end.

End Model.

(** ** Two interpretations of the arithmetic *)

(** *** Exact arithmetic

    A [double] is a rational number or the one non-number [None], which
    every operation propagates and no comparison accepts; a division by
    zero gives the non-number.  A sample is the same. *)
Definition xnum : Type := option Q.

Definition xlift2 (f : Q → Q → Q) (a b : xnum) : xnum :=
  match a, b with
  | Some x, Some y => Some (f x y)
  | _, _ => None
  end.

Definition xdiv (a b : xnum) : xnum :=
  match a, b with
  | Some x, Some y => if Qeq_bool y 0 then None else Some (x / y)%Q
  | _, _ => None
  end.

Definition xlt (a b : xnum) : bool :=
  match a, b with
  | Some x, Some y => negb (Qle_bool y x)
  | _, _ => false
  end.

Definition xeq (a b : xnum) : bool :=
  match a, b with
  | Some x, Some y => Qeq_bool x y
  | _, _ => false
  end.

Definition xint (z : Z) : xnum := Some (inject_Z z).

#[export] Instance exact_double : DoubleOps xnum := {|
  dadd := xlift2 Qplus;
  dsub := xlift2 Qminus;
  dmul := xlift2 Qmult;
  ddiv := xdiv;
  dlt := xlt;
  deq := xeq;
  dabs := fmap Qabs;
  double_of_int := xint;
  dhalf := Some (1 # 2)%Q;
  NaN := None
|}.

(** Truncation toward zero, then the value the target integer type holds
    (a conversion out of range is undefined in C++; the usual result is
    taken). *)
Definition Qtrunc (q : Q) : Z := if Qle_bool 0 q then Qfloor q else Qceiling q.

Definition wrap_sample (T : VTKScalarType) (z : Z) : Z :=
  match T with
  | VTK_UNSIGNED_CHAR => z mod 256
  | VTK_UNSIGNED_SHORT => z mod 65536
  | VTK_SHORT => (z + 32768) mod 65536 - 32768
  | VTK_UNSIGNED_INT => z mod 4294967296
  | VTK_INT => to_int z
  | VTK_FLOAT | VTK_DOUBLE => z
  end.

Definition xcast (T : VTKScalarType) (d : xnum) : xnum :=
  match T, d with
  | (VTK_FLOAT | VTK_DOUBLE), _ => d
  | _, Some q => xint (wrap_sample T (Qtrunc q))
  | _, None => xint 0
  end.

#[export] Instance exact_raw : RawOps xnum xnum := {|
  raw_eq := xeq;
  static_cast_RAW := xcast;
  raw_zero := xint 0
|}.

(** *** IEEE binary64 *)
Definition float_of_Z (z : Z) : PrimFloat.float :=
  match z with
  | Z0 => PrimFloat.zero
  | Zpos _ => PrimFloat.of_uint63 (Uint63.of_Z z)
  | Zneg _ => PrimFloat.opp (PrimFloat.of_uint63 (Uint63.of_Z (- z)))
  end.

#[export] Instance binary64_double : DoubleOps PrimFloat.float := {|
  dadd := PrimFloat.add;
  dsub := PrimFloat.sub;
  dmul := PrimFloat.mul;
  ddiv := PrimFloat.div;
  dlt := PrimFloat.ltb;
  deq := PrimFloat.eqb;
  dabs := PrimFloat.abs;
  double_of_int := float_of_Z;
  dhalf := PrimFloat.div PrimFloat.one PrimFloat.two;
  NaN := PrimFloat.nan
|}.

(** ** Sample rasters *)

(** A band of the given role whose windowed read succeeds and delivers the
    samples of [rows], whatever the window. *)
Definition sample_band (ci : GDALColorInterp) (noData : option Z)
    (status : CPLErr) (rows : list (list Z)) : @GDALRasterBand xnum xnum :=
  {| ColorInterpretation := ci;
     RasterDataType := GDT_Byte;
     NoDataFlag := match noData with Some _ => 1 | None => 0 end;
     NoDataResult := xint (default 0 noData);
     RasterIO := λ _ _ _ _ _ _ _ _ _,
       (status, λ x y, xint (default 0 (row ← rows !! Z.to_nat y; row !! Z.to_nat x)));
     ColorTable := None;
     CategoryNames := None |}.

(** A dataset of [w] by [h] pixels without ground-control points. *)
Definition sample_dataset (w h : Z) (bands : list (@GDALRasterBand xnum xnum))
    (a : Z * Z * Z * Z * Z * Z) : @GDALDataset xnum xnum :=
  let '(a0, a1, a2, a3, a4, a5) := a in
  {| RasterXSize := w; RasterYSize := h; RasterBands := bands;
     GCPProjection := None; GCPs := None;
     GeoTransform := (CE_None, (xint a0, xint a1, xint a2, xint a3, xint a4, xint a5));
     ProjectionRef := EmptyString |}.

(** A file system that holds one dataset under the name "a.tif". *)
Definition one_file (ds : @GDALDataset xnum xnum) (name : string)
  : option (@GDALDataset xnum xnum) :=
  if String.eqb name "a.tif" then Some ds else None.

(** The scenario of a 2 by 2 single-band byte raster, lines 10 20 and 30 40,
    no no-data value, north up (negative line spacing). *)
Definition raster_2x2 : @GDALDataset xnum xnum :=
  sample_dataset 2 2 [sample_band GCI_GrayIndex None CE_None [[10; 20]; [30; 40]]]
    (0, 1, 0, 0, 0, -1).

Definition reader_on (name : string) : @vtkGDALRasterReader xnum xnum :=
  set_FileName (Some name) vtkGDALRasterReader_New.

(** The same samples on a raster whose column and line spacings are both
    negative. *)
Definition raster_2x2_both_negative : @GDALDataset xnum xnum :=
  sample_dataset 2 2 [sample_band GCI_GrayIndex None CE_None [[10; 20]; [30; 40]]]
    (0, -1, 0, 0, 0, -1).

(** A red, green, blue raster of two columns and one line, both spacings
    positive; the red band declares the no-data value 0 and holds it in
    column 1. *)
Definition raster_rgb_2x1 : @GDALDataset xnum xnum :=
  sample_dataset 2 1
    [sample_band GCI_RedBand (Some 0) CE_None [[5; 0]];
     sample_band GCI_GreenBand None CE_None [[7; 8]];
     sample_band GCI_BlueBand None CE_None [[9; 9]]]
    (0, 1, 0, 0, 0, 1).

(** A red, green, blue raster of one pixel without no-data values. *)
Definition raster_rgb_1x1 : @GDALDataset xnum xnum :=
  sample_dataset 1 1
    [sample_band GCI_RedBand None CE_None [[1]];
     sample_band GCI_GreenBand None CE_None [[2]];
     sample_band GCI_BlueBand None CE_None [[3]]]
    (0, 1, 0, 0, 0, 1).

(** A raster of one pixel without bands. *)
Definition raster_no_bands : @GDALDataset xnum xnum :=
  sample_dataset 1 1 [] (0, 1, 0, 0, 0, 1).

(** The 2 by 2 raster with a band whose windowed read reports a failure. *)
Definition raster_read_failure : @GDALDataset xnum xnum :=
  sample_dataset 2 2 [sample_band GCI_GrayIndex None CE_Failure [[10; 20]; [30; 40]]]
    (0, 1, 0, 0, 0, 1).

(** Describe, then Produce into an existing output grid, for the file
    "a.tif" holding [ds]. *)
Definition describe (ds : @GDALDataset xnum xnum) : @vtkGDALRasterReader xnum xnum :=
  snd (RequestInformation (one_file ds) true (reader_on "a.tif")).

Definition produce (ndebug : bool) (r : @vtkGDALRasterReader xnum xnum) :=
  RequestData id ndebug (Some (Some vtkUniformGrid_New)) r.

(** A request for an extent that sticks out of the 2 by 2 raster on all
    sides. *)
Definition request_outside : @vtkGDALRasterReader xnum xnum :=
  set_DataExtent (-5, 200, -7, 300, 0, 0) (reader_on "a.tif").

(** A request for the columns 1 to [INT_MAX] of the 2 by 2 raster. *)
Definition request_extreme : @vtkGDALRasterReader xnum xnum :=
  set_DataExtent (1, INT_MAX, 0, 1, 0, 0) (reader_on "a.tif").



(** A binary64 dataset of 640 by 480 pixels with the geotransform
    (100, 1, 0, 200, 0, -1) and no bands; samples play no role in it. *)
Definition raster_binary64 : @GDALDataset PrimFloat.float Z :=
  {| RasterXSize := 640; RasterYSize := 480; RasterBands := [];
     GCPProjection := None; GCPs := None;
     GeoTransform := (CE_None, (float_of_Z 100, float_of_Z 1, float_of_Z 0,
                                float_of_Z 200, float_of_Z 0, float_of_Z (-1)));
     ProjectionRef := EmptyString |}.

Definition reader_binary64 : @vtkGDALRasterReader PrimFloat.float Z :=
  set_RasterDimensions (640, 480)
    (set_GDALData (Some raster_binary64) vtkGDALRasterReader_New).

(** A palette band with two RGB entries; the band declares category names,
    the one of entry 0 being the empty string. *)
Definition palette_band : @GDALRasterBand xnum xnum :=
  {| ColorInterpretation := GCI_PaletteIndex;
     RasterDataType := GDT_Byte;
     NoDataFlag := 0;
     NoDataResult := xint 0;
     RasterIO := λ _ _ _ _ _ _ _ _ _, (CE_None, λ _ _, xint 0);
     ColorTable :=
       Some {| PaletteInterpretation := GPI_RGB;
               ColorEntries := [ {| c1 := 255; c2 := 0; c3 := 0; c4 := 255 |};
                                 {| c1 := 0; c2 := 51; c3 := 102; c4 := 255 |} ] |};
     CategoryNames := Some [EmptyString; "water"] |}.

(** * The vocabulary of the properties *)

(** ** The window of RequestInformation *)

(** The bound under which no [int] operation of [RequestInformation]
    overflows: a quarter of the [int] range. *)
Definition window_bound : Z := 536870912.

Definition extent_in_bound (e : Z * Z * Z * Z * Z * Z) : Prop :=
  let '(e0, e1, e2, e3, _, _) := e in
  - window_bound <= e0 <= window_bound ∧ - window_bound <= e1 <= window_bound ∧
  - window_bound <= e2 <= window_bound ∧ - window_bound <= e3 <= window_bound.

(** The invariant of the extraction window against a raster of [W] by [H]
    pixels. *)
Definition window_ok (W H : Z) (off dim : Z * Z) : Prop :=
  0 <= fst off <= W ∧ 0 <= snd off <= H ∧
  0 <= fst dim ∧ 0 <= snd dim ∧
  fst off + fst dim <= W ∧ snd off + snd dim <= H.

(** No [int] operation of the window computation overflows, for the
    requested extent [e] on a raster of [W] by [H] pixels: each sum and
    difference that lines 1016 to 1054 evaluate is the mathematical one. *)
Definition window_in_int (W H : Z) (e : Z * Z * Z * Z * Z * Z) : Prop :=
  let '(e0, e1, e2, e3, _, _) := e in
  is_int (e3 + 1) ∧ is_int (H - (e3 + 1)) ∧
  is_int (e1 - e0) ∧ is_int (e1 - e0 + 1) ∧
  is_int (e3 - e2) ∧ is_int (e3 - e2 + 1) ∧
  is_int (Max 0 (e1 - e0 + 1) + Max 0 (Min W e0)) ∧
  is_int (Max 0 (e3 - e2 + 1) + Max 0 (Min H (H - (e3 + 1)))).

(** The extent is the one of a new reader, which stands for "no extent
    requested". *)
Definition extent_unset (e : Z * Z * Z * Z * Z * Z) : Prop :=
  let '(e0, _, _, _, _, _) := e in e0 = -1.

(** ** The indices of Convert *)

(** The flat index of component [bi] of the tuple of cell (i, j) in an
    array of [n] components on a grid [W] cells wide. *)
Definition value_index (W n i j bi : Z) : Z := (i + j * W) * n + bi.

(** The index of the sample of slot [bi] at column i, line j in a
    band-major buffer of [W] by [H] windows. *)
Definition buffer_index (W H i j bi : Z) : Z := i + j * W + bi * W * H.

(** The column (line) read for the output column (line) [k] of [N]. *)
Definition source_coord (flip : bool) (N k : Z) : Z :=
  if flip then N - 1 - k else k.

(** The index triples (j, i, bi) in the order the loops visit them. *)
Definition loop_triples (H W n : Z) : list (Z * Z * Z) :=
  j ← seqZ 0 H; i ← seqZ 0 W; bi ← seqZ 0 n; [(j, i, bi)].

(** ** Corner geocoding *)

(** The affine geotransform of a pixel position. *)
Definition affine `{DoubleOps double}
    (a : double * double * double * double * double * double) (x y : double)
  : double * double :=
  let '(a0, a1, a2, a3, a4, a5) := a in
  (dadd (dadd a0 (dmul a1 x)) (dmul a2 y),
   dadd (dadd a3 (dmul a4 x)) (dmul a5 y)).

(** In exact arithmetic: the pair is the pair of integers (x, y). *)
Definition is_point (p : xnum * xnum) (x y : Z) : Prop :=
  ∃ qx qy, p = (Some qx, Some qy) ∧ (qx == inject_Z x)%Q ∧ (qy == inject_Z y)%Q.

(** ** The colour table *)

(** The annotation of entry [i] after [ReadColorTable], [old] being the
    annotation before: the category name when the band has a list of names
    and the name is not empty, the former annotation when the band has a
    list and the name is empty, "Category i" when the band has no list. *)
Definition category_annotation (names : option (list string))
    (old : option string) (i : Z) : option string :=
  match names with
  | None => Some ("Category " +:+ pretty i)
  | Some ns =>
      match ns !! Z.to_nat i with
      | Some name => if decide (name = EmptyString) then old else Some name
      | None => old
      end
  end.

Section Vocabulary.

Context {double RAW : Type} `{!DoubleOps double} `{!RawOps double RAW}.

(** The four channels of a colour entry, each divided by 255. *)
Definition normalized (e : GDALColorEntry) : double * double * double * double :=
  (normalize (c1 e), normalize (c2 e), normalize (c3 e), normalize (c4 e)).

(** The precondition of [Convert]: dimensions that are not negative, a
    sample count within [int], a buffer that holds one window per slot, and
    band numbers that index the no-data vectors. *)
Record convert_ready (raw : list RAW) (W H : Z) (group : list Z)
    (hnd : list Z) (ndv : list double) : Prop := {
  ready_W : 0 <= W;
  ready_H : 0 <= H;
  ready_int : Z.of_nat (length group) * W * H <= INT_MAX;
  ready_raw : Z.of_nat (length group) * W * H <= Z.of_nat (length raw);
  ready_bands : Forall (λ b, 1 <= b <= INT_MAX ∧
                             b <= Z.of_nat (length hnd) ∧
                             b <= Z.of_nat (length ndv)) group
}.

Definition band_flag (hnd : list Z) (b : Z) : Z :=
  default 0 (hnd !! Z.to_nat (b - 1)).

Definition band_no_data (ndv : list double) (b : Z) : double :=
  default (double_of_int 0) (ndv !! Z.to_nat (b - 1)).

Definition sample_at (raw : list RAW) (k : Z) : RAW :=
  default raw_zero (raw !! Z.to_nat k).

(** The window that the reads of a Produce call ask for. *)
Definition window_of (r : @vtkGDALRasterReader double RAW)
  : (Z * Z) * (Z * Z) * (Z * Z) :=
  (SourceOffset r, SourceDimensions r, TargetDimensions r).

(** The windowed read of [band] for the window of [r] reports a status
    other than [CE_None], whatever the buffer type and the strides. *)
Definition read_fails (band : @GDALRasterBand double RAW)
    (w : (Z * Z) * (Z * Z) * (Z * Z)) : Prop :=
  ∀ t ps ls,
    fst (RasterIO band w.1.1.1 w.1.1.2 w.1.2.1 w.1.2.2 w.2.1 w.2.2 t ps ls)
    ≠ CE_None.

End Vocabulary.

(** ** The rest of the interface *)

Section Interface.

Context {double RAW : Type} `{!DoubleOps double} `{!RawOps double RAW}.
Variable GDALOpen : string → option (@GDALDataset double RAW).

(** [CanReadFile(fname)]: the file is opened and closed again. *)
Definition CanReadFile (fname : string) : Z :=
  match GDALOpen fname with
  | Some _ => 1
  | None => 0
  end.

End Interface.

(** ** More sample requests *)

(** A request for the one pixel at column 1 of the lowest line of the 2 by
    2 raster. *)
Definition request_inside : @vtkGDALRasterReader xnum xnum :=
  set_DataExtent (1, 1, 0, 0, 0, 0) (reader_on "a.tif").

(** A request on a file that is not there. *)
Definition request_outside_missing : @vtkGDALRasterReader xnum xnum :=
  set_DataExtent (-5, 200, -7, 300, 0, 0) (reader_on "b.tif").

(** ** The primary group of a dataset *)

(** The colour interpretations that [GenericReadData] takes for red, green
    and blue. *)
Definition is_red (ci : GDALColorInterp) : Prop :=
  ci = GCI_RedBand ∨ ci = GCI_YCbCr_YBand.
Definition is_green (ci : GDALColorInterp) : Prop :=
  ci = GCI_GreenBand ∨ ci = GCI_YCbCr_CbBand.
Definition is_blue (ci : GDALColorInterp) : Prop :=
  ci = GCI_BlueBand ∨ ci = GCI_YCbCr_CrBand.

Section PrimaryGroup.

Context {double RAW : Type}.

Definition has_band (P : GDALColorInterp → Prop) (ds : @GDALDataset double RAW)
  : Prop :=
  Exists (λ band, P (ColorInterpretation band)) (RasterBands ds).

(** The dataset has what the [if (redBand && greenBand && blueBand) ...
    else if (grayBand) ... else if (paletteBand)] statement asks for: a
    red, a green and a blue band, or a gray band, or a palette band. *)
Definition has_primary_group (ds : @GDALDataset double RAW) : Prop :=
  (has_band is_red ds ∧ has_band is_green ds ∧ has_band is_blue ds) ∨
  has_band (λ ci, ci = GCI_GrayIndex) ds ∨
  has_band (λ ci, ci = GCI_PaletteIndex) ds.

(** A role is taken only by a band of that colour interpretation. *)
Definition roles_seen (ds : @GDALDataset double RAW) (b : BandRoles) : Prop :=
  (redIndex b ≠ 0 → has_band is_red ds) ∧
  (greenIndex b ≠ 0 → has_band is_green ds) ∧
  (blueIndex b ≠ 0 → has_band is_blue ds) ∧
  (grayIndex b ≠ 0 → has_band (λ ci, ci = GCI_GrayIndex) ds) ∧
  (paletteIndex b ≠ 0 → has_band (λ ci, ci = GCI_PaletteIndex) ds).

End PrimaryGroup.

Section Buffers.

Context {double RAW : Type}.

(** The buffers of [GenericReadData] have no element: a target dimension
    or the number of bytes per pixel is 0. *)
Definition empty_buffers (r : @vtkGDALRasterReader double RAW) : Prop :=
  fst (TargetDimensions r) = 0 ∨ snd (TargetDimensions r) = 0 ∨
  NumberOfBytesPerPixel r = 0.

End Buffers.

(** ** More sample rasters *)

(** A 2 by 2 raster of two bands without colour interpretation. *)
Definition raster_undefined_bands : @GDALDataset xnum xnum :=
  sample_dataset 2 2
    [sample_band GCI_Undefined None CE_None [[10; 20]; [30; 40]];
     sample_band GCI_Undefined None CE_None [[1; 2]; [3; 4]]]
    (0, 1, 0, 2, 0, -1).

(** A gray band of complex samples. *)
Definition complex_band : @GDALRasterBand xnum xnum :=
  {| ColorInterpretation := GCI_GrayIndex;
     RasterDataType := GDT_CFloat32;
     NoDataFlag := 0;
     NoDataResult := xint 0;
     RasterIO := λ _ _ _ _ _ _ _ _ _, (CE_None, λ x y, xint 0);
     ColorTable := None;
     CategoryNames := None |}.

Definition raster_complex : @GDALDataset xnum xnum :=
  sample_dataset 2 2 [complex_band] (0, 1, 0, 2, 0, -1).

(** ** The arrays of the produced grid *)

(** The name of the array of band [i] outside the primary group. *)
Definition band_array_name (i : Z) : string := "band_" +:+ pretty i.

Section BandArrays.

Context {double RAW : Type}.

(** An array as [Convert] adds it for one band outside the primary group
    on a target of [W] by [H] cells. *)
Definition band_array (W H : Z) (b : @vtkDataArray double RAW) : Prop :=
  NumberOfComponents b = 1 ∧ NumberOfTuples b = int_mul W H ∧
  LookupTable b = None ∧ ∃ idx, ArrName b = band_array_name idx.

End BandArrays.

(** ** The palette band of a dataset *)

Section PaletteBand.

Context {double RAW : Type}.

(** One of the bands 1 to [n] of the dataset is a palette band. *)
Definition palette_within (ds : @GDALDataset double RAW) (n : Z) : Prop :=
  ∃ i band, 1 <= i <= n ∧ GetRasterBand ds i = Some band ∧
            ColorInterpretation band = GCI_PaletteIndex.

End PaletteBand.

(** ** Sample rasters of more than one kind of band *)

(** A 2 by 2 raster of a gray band with the no-data value 0 and a band
    without colour interpretation and without a no-data value. *)
Definition raster_gray_and_other : @GDALDataset xnum xnum :=
  sample_dataset 2 2
    [sample_band GCI_GrayIndex (Some 0) CE_None [[10; 20]; [30; 40]];
     sample_band GCI_Undefined None CE_None [[1; 2]; [3; 4]]]
    (0, 1, 0, 2, 0, -1).

(** A gray band of 64-bit floating-point samples. *)
Definition float_band : @GDALRasterBand xnum xnum :=
  {| ColorInterpretation := GCI_GrayIndex;
     RasterDataType := GDT_Float64;
     NoDataFlag := 0;
     NoDataResult := xint 0;
     RasterIO := λ _ _ _ _ _ _ _ _ _, (CE_None, λ x y, xint 7);
     ColorTable := None;
     CategoryNames := None |}.

Definition raster_float : @GDALDataset xnum xnum :=
  sample_dataset 2 2 [float_band] (0, 1, 0, 2, 0, -1).

(** A file system that holds the byte raster under "a.tif" and the
    floating-point raster under "f.tif". *)
Definition two_files (name : string) : option (@GDALDataset xnum xnum) :=
  if String.eqb name "a.tif" then Some raster_2x2
  else if String.eqb name "f.tif" then Some raster_float
  else None.

Section Results.

Context {double RAW : Type}.

(** The result of a Produce that returns, [d] otherwise. *)
Definition result_after
    (m : outcome (Z * @vtkGDALRasterReader double RAW
                  * option (option (@vtkUniformGrid double RAW))))
    (d : Z * @vtkGDALRasterReader double RAW
         * option (option (@vtkUniformGrid double RAW)))
  : Z * @vtkGDALRasterReader double RAW * option (option (@vtkUniformGrid double RAW)) :=
  match m with
  | Ok res => res
  | _ => d
  end.

End Results.

(** ** Ground-control points *)

Section GroundControl.

Context {double : Type} `{!DoubleOps double}.

(** The test of the loop of [GetGeoCornerPoint]: the ground-control point
    is at the left edge exactly when the corner is, and at the upper edge
    exactly when the corner is. *)
Definition gcp_matches (gcp : @GDAL_GCP double) (x y : double) : Prop :=
  deq (dfGCPPixel gcp) dhalf = deq x (double_of_int 0) ∧
  deq (dfGCPLine gcp) dhalf = deq y (double_of_int 0).

End GroundControl.

(** A raster with a ground-control projection and three ground-control
    points. *)
Definition raster_three_gcps : @GDALDataset xnum xnum :=
  {| RasterXSize := 2; RasterYSize := 2;
     RasterBands := [sample_band GCI_GrayIndex None CE_None [[10; 20]; [30; 40]]];
     GCPProjection := Some "WGS84";
     GCPs := Some [ {| dfGCPPixel := Some (1 # 2)%Q; dfGCPLine := Some (1 # 2)%Q;
                       dfGCPX := xint 100; dfGCPY := xint 200 |};
                    {| dfGCPPixel := Some (3 # 2)%Q; dfGCPLine := Some (1 # 2)%Q;
                       dfGCPX := xint 101; dfGCPY := xint 200 |};
                    {| dfGCPPixel := Some (1 # 2)%Q; dfGCPLine := Some (3 # 2)%Q;
                       dfGCPX := xint 100; dfGCPY := xint 199 |} ];
     GeoTransform := (CE_Failure, (xint 0, xint 1, xint 0, xint 0, xint 0, xint 1));
     ProjectionRef := EmptyString |}.

(** The same raster with a fourth ground-control point. *)
Definition raster_four_gcps : @GDALDataset xnum xnum :=
  {| RasterXSize := 2; RasterYSize := 2;
     RasterBands := [sample_band GCI_GrayIndex None CE_None [[10; 20]; [30; 40]]];
     GCPProjection := Some "WGS84";
     GCPs := Some [ {| dfGCPPixel := Some (1 # 2)%Q; dfGCPLine := Some (1 # 2)%Q;
                       dfGCPX := xint 100; dfGCPY := xint 200 |};
                    {| dfGCPPixel := Some (3 # 2)%Q; dfGCPLine := Some (1 # 2)%Q;
                       dfGCPX := xint 101; dfGCPY := xint 200 |};
                    {| dfGCPPixel := Some (1 # 2)%Q; dfGCPLine := Some (3 # 2)%Q;
                       dfGCPX := xint 100; dfGCPY := xint 199 |};
                    {| dfGCPPixel := Some (3 # 2)%Q; dfGCPLine := Some (3 # 2)%Q;
                       dfGCPX := xint 101; dfGCPY := xint 199 |} ];
     GeoTransform := (CE_Failure, (xint 0, xint 1, xint 0, xint 0, xint 0, xint 1));
     ProjectionRef := EmptyString |}.

(** A 2 by 2 raster without geotransform and without ground-control
    points. *)
Definition raster_no_transform : @GDALDataset xnum xnum :=
  {| RasterXSize := 2; RasterYSize := 2;
     RasterBands := [sample_band GCI_GrayIndex None CE_None [[10; 20]; [30; 40]]];
     GCPProjection := None;
     GCPs := None;
     GeoTransform := (CE_Failure, (xint 0, xint 1, xint 0, xint 0, xint 0, xint 1));
     ProjectionRef := EmptyString |}.

(** A palette band whose list of category names is shorter than its
    colour table. *)
Definition palette_band_short_names : @GDALRasterBand xnum xnum :=
  {| ColorInterpretation := GCI_PaletteIndex;
     RasterDataType := GDT_Byte;
     NoDataFlag := 0;
     NoDataResult := xint 0;
     RasterIO := λ _ _ _ _ _ _ _ _ _, (CE_None, λ _ _, xint 0);
     ColorTable :=
       Some {| PaletteInterpretation := GPI_RGB;
               ColorEntries := [ {| c1 := 255; c2 := 0; c3 := 0; c4 := 255 |};
                                 {| c1 := 0; c2 := 51; c3 := 102; c4 := 255 |} ] |};
     CategoryNames := Some ["land"] |}.




(** ** The bands that take a role *)

Definition is_alpha (ci : GDALColorInterp) : Prop := ci = GCI_AlphaBand.
Definition is_gray (ci : GDALColorInterp) : Prop := ci = GCI_GrayIndex.
Definition is_palette (ci : GDALColorInterp) : Prop := ci = GCI_PaletteIndex.

Section BandsWithin.

Context {double RAW : Type}.

(** One of the bands 1 to [n] of the dataset has a colour interpretation
    in [P]. *)
Definition band_within (P : GDALColorInterp → Prop)
    (ds : @GDALDataset double RAW) (n : Z) : Prop :=
  ∃ i band, 1 <= i <= n ∧ GetRasterBand ds i = Some band ∧
            P (ColorInterpretation band).

(** The bands 1 to [n] hold a red, a green and a blue band. *)
Definition rgb_within (ds : @GDALDataset double RAW) (n : Z) : Prop :=
  band_within is_red ds n ∧ band_within is_green ds n ∧ band_within is_blue ds n.

End BandsWithin.

(** A red, green, blue, alpha raster of one pixel. *)
Definition raster_rgba_1x1 : @GDALDataset xnum xnum :=
  sample_dataset 1 1
    [sample_band GCI_RedBand None CE_None [[1]];
     sample_band GCI_GreenBand None CE_None [[2]];
     sample_band GCI_BlueBand None CE_None [[3]];
     sample_band GCI_AlphaBand None CE_None [[255]]]
    (0, 1, 0, 1, 0, -1).

(** ** The pixels of a windowed read *)

Section WindowPixels.

Context {double RAW : Type}.

(** The pixels that the windowed read of [band] delivers for the window
    of the reader, with the pixel and line strides [ps] and [ls]: column x
    of line y of the target window. *)
Definition window_pixels (band : @GDALRasterBand double RAW)
    (r : @vtkGDALRasterReader double RAW) (ps ls : Z) : Z → Z → RAW :=
  snd (RasterIO band (fst (SourceOffset r)) (snd (SourceOffset r))
         (fst (SourceDimensions r)) (snd (SourceDimensions r))
         (fst (TargetDimensions r)) (snd (TargetDimensions r))
         (TargetDataType r) ps ls).

End WindowPixels.

(** ** A raster whose columns run east to west *)

(** A 2 by 2 raster of a gray band and a band without colour
    interpretation, with a negative column spacing and a positive line
    spacing. *)
Definition raster_mirrored_columns : @GDALDataset xnum xnum :=
  sample_dataset 2 2
    [sample_band GCI_GrayIndex None CE_None [[10; 20]; [30; 40]];
     sample_band GCI_Undefined None CE_None [[1; 2]; [3; 4]]]
    (2, -1, 0, 0, 0, 1).

(** ** A gray band beside a palette band *)

(** A raster of one pixel whose first band is gray and whose second band
    is the palette band. *)
Definition raster_gray_and_palette : @GDALDataset xnum xnum :=
  sample_dataset 1 1
    [sample_band GCI_GrayIndex None CE_None [[7]]; palette_band]
    (0, 1, 0, 1, 0, -1).

(** * Properties *)

(** ** Machine arithmetic in range *)

Lemma to_int_id z : is_int z → to_int z = z.
Proof.
  unfold is_int, INT_MIN, INT_MAX, to_int. intros Hz.
  rewrite Z.mod_small by lia. lia.
Qed.

Lemma to_size_t_id z : 0 <= z < 18446744073709551616 → to_size_t z = z.
Proof. unfold to_size_t. intros Hz. by rewrite Z.mod_small. Qed.

Lemma int_add_id a b : is_int (a + b) → int_add a b = a + b.
Proof. apply to_int_id. Qed.

Lemma int_sub_id a b : is_int (a - b) → int_sub a b = a - b.
Proof. apply to_int_id. Qed.

Lemma int_mul_id a b : is_int (a * b) → int_mul a b = a * b.
Proof. apply to_int_id. Qed.

(** ** The window of RequestInformation *)

Section Window.

Context {double RAW : Type} `{!DoubleOps double}.
Local Abbreviation Reader := (@vtkGDALRasterReader double RAW).
Variable GDALOpen : string → option (@GDALDataset double RAW).

Lemma ReadMetaData_DataExtent f (r : Reader) :
  DataExtent (ReadMetaData GDALOpen f r) = DataExtent r.
Proof.
  unfold ReadMetaData. destruct (String.eqb _ _); [done|].
  by destruct (GDALOpen f).
Qed.

Lemma clamp_offset W x : 0 <= W → 0 <= Max 0 (Min W x) <= W.
Proof. unfold Max, Min. intros. repeat case_match; lia. Qed.

Lemma requested_size a b :
  is_int (b - a) → is_int (b - a + 1) →
  int_add (int_sub b a) 1 = b - a + 1.
Proof. intros H1 H2. by rewrite (int_sub_id b a), int_add_id. Qed.

Lemma clamp_size W off dim :
  0 <= off <= W → W <= INT_MAX → 0 <= dim → is_int (dim + off) →
  let dim' := if int_add dim off >? W then int_sub W off else dim in
  0 <= dim' ∧ off + dim' <= W.
Proof.
  intros Ho HW Hd Hint. cbv zeta.
  rewrite int_add_id by done.
  rewrite int_sub_id by (unfold is_int, INT_MIN, INT_MAX in *; lia).
  case_match; lia.
Qed.

Lemma default_target_fields (r : Reader) :
  RasterDimensions (default_target r) = RasterDimensions r ∧
  DataExtent (default_target r) = DataExtent r.
Proof. unfold default_target. by case_match. Qed.

Lemma default_extent_RasterDimensions (r : Reader) :
  RasterDimensions (default_extent r) = RasterDimensions r.
Proof.
  unfold default_extent. destruct (DataExtent r) as [[[[[e0 ?] ?] ?] ?] ?].
  by case_match.
Qed.

(** The extent of the full raster, which stands in for an extent that was
    not requested, is one on which nothing overflows. *)
Lemma default_extent_in_int (r : Reader) :
  0 <= fst (RasterDimensions r) <= INT_MAX →
  0 <= snd (RasterDimensions r) <= INT_MAX →
  extent_unset (DataExtent r) ∨
    window_in_int (fst (RasterDimensions r)) (snd (RasterDimensions r))
      (DataExtent r) →
  window_in_int (fst (RasterDimensions r)) (snd (RasterDimensions r))
    (DataExtent (default_extent r)).
Proof.
  unfold default_extent, extent_unset. intros HW HH.
  destruct (DataExtent r) as [[[[[e0 e1] e2] e3] e4] e5] eqn:HE.
  intros Hext. destruct (e0 =? -1) eqn:He0.
  - simpl. set (W := fst (RasterDimensions r)) in *.
    set (H := snd (RasterDimensions r)) in *.
    rewrite !int_sub_id by (unfold is_int, INT_MIN, INT_MAX in *; lia).
    unfold window_in_int, is_int, INT_MIN, INT_MAX, Max, Min in *.
    repeat case_match; lia.
  - rewrite HE. destruct Hext as [->|Hext]; [done|exact Hext].
Qed.

Lemma source_window_ok W H e :
  0 <= W <= INT_MAX → 0 <= H <= INT_MAX → window_in_int W H e →
  window_ok W H (fst (source_window W H e)) (snd (source_window W H e)).
Proof.
  destruct e as [[[[[e0 e1] e2] e3] e4] e5].
  intros HW HH (H1 & H2 & H3 & H4 & H5 & H6 & H7 & H8).
  unfold source_window. cbv zeta.
  rewrite (int_add_id e3 1), (int_sub_id H (e3 + 1)) by done.
  rewrite !requested_size by done.
  pose proof (clamp_offset W e0 (proj1 HW)) as Ho0.
  pose proof (clamp_offset H (H - (e3 + 1)) (proj1 HH)) as Ho1.
  assert (Hd0 : 0 <= Max 0 (e1 - e0 + 1)) by (unfold Max; case_match; lia).
  assert (Hd1 : 0 <= Max 0 (e3 - e2 + 1)) by (unfold Max; case_match; lia).
  pose proof (clamp_size W _ _ Ho0 (proj2 HW) Hd0 H7) as Hc0.
  pose proof (clamp_size H _ _ Ho1 (proj2 HH) Hd1 H8) as Hc1.
  unfold window_ok. simpl in *. lia.
Qed.

(** Extents and raster dimensions of at most [window_bound] in absolute
    value are such that nothing overflows. *)
Lemma extent_in_bound_in_int W H e :
  0 <= W <= window_bound → 0 <= H <= window_bound → extent_in_bound e →
  window_in_int W H e.
Proof.
  destruct e as [[[[[e0 e1] e2] e3] e4] e5].
  unfold extent_in_bound, window_in_int, window_bound, is_int, INT_MIN, INT_MAX,
    Max, Min.
  intros HW HH (H0 & H1 & H2 & H3). repeat case_match; lia.
Qed.

(** C4, as amended. When Describe ([RequestInformation]) succeeds, the
    window it computes lies within the raster: on each axis the source
    offset is in [0, rasterDim], the source size is not negative, and
    offset + size <= rasterDim. This holds for every requested extent,
    inside the raster or not, on which no [int] operation of the
    computation overflows, and when no extent was requested. *)
Theorem RequestInformation_window_within_raster (outInfo : bool) (r r' : Reader) :
  RequestInformation GDALOpen outInfo r = (1, r') →
  0 <= fst (RasterDimensions r') <= INT_MAX →
  0 <= snd (RasterDimensions r') <= INT_MAX →
  extent_unset (DataExtent r) ∨
    window_in_int (fst (RasterDimensions r')) (snd (RasterDimensions r'))
      (DataExtent r) →
  window_ok (fst (RasterDimensions r')) (snd (RasterDimensions r'))
    (SourceOffset r') (SourceDimensions r').
Proof.
  unfold RequestInformation.
  destruct outInfo; simpl; [|intros [=]].
  destruct (FileName r) as [f|] eqn:Hf; [|intros [=]].
  pose proof (ReadMetaData_DataExtent f r) as HE.
  set (r1 := ReadMetaData GDALOpen f r) in *.
  destruct (GDALData r1) as [ds|]; [|intros [=]].
  case_match; [intros [=]|].
  destruct (default_target_fields r1) as [HRD2 HE2].
  pose proof (default_extent_RasterDimensions (default_target r1)) as HRD3.
  set (r3 := default_extent (default_target r1)) in *.
  intros [= <-]. simpl. intros HW HH Hext.
  apply source_window_ok; [done..|].
  subst r3. rewrite HRD3.
  apply default_extent_in_int; rewrite <- ?HRD3; try done.
  by rewrite HE2, HE.
Qed.

End Window.

(** Reduction of the plumbing of outcomes and pairs only. *)
Ltac osimpl :=
  cbn [mbind outcome_bind fmap outcome_fmap mret outcome_ret fst snd].

(** ** Loops *)

Lemma for_each_app {A S : Type} (l1 l2 : list A) (body : A → S → outcome S) s :
  for_each (l1 ++ l2) body s = s' ← for_each l1 body s; for_each l2 body s'.
Proof.
  revert s. induction l1 as [|x l1 IH]; intros s; simpl; [done|].
  destruct (body x s); simpl; [apply IH|done..].
Qed.

Lemma for_each_bind {A B S : Type} (l : list A) (g : A → list B)
    (body : B → S → outcome S) s :
  for_each (l ≫= g) body s = for_each l (λ x s, for_each (g x) body s) s.
Proof.
  revert s. induction l as [|x l IH]; intros s; [done|].
  change ((x :: l) ≫= g) with (g x ++ (l ≫= g)).
  rewrite for_each_app. simpl.
  destruct (for_each (g x) body s); simpl; [apply IH|done..].
Qed.

Lemma for_each_ext {A S : Type} (l : list A) (body1 body2 : A → S → outcome S) s :
  (∀ x s, x ∈ l → body1 x s = body2 x s) →
  for_each l body1 s = for_each l body2 s.
Proof.
  revert s. induction l as [|x l IH]; intros s Hb; [done|]. simpl.
  rewrite Hb by left. destruct (body2 x s); simpl; [|done..].
  apply IH. intros. apply Hb. by right.
Qed.

Lemma for_each_pure {A S : Type} (l : list A) (body : A → S → outcome S)
    (f : S → A → S) s :
  (∀ x s, x ∈ l → body x s = Ok (f s x)) →
  for_each l body s = Ok (foldl f s l).
Proof.
  revert s. induction l as [|x l IH]; intros s Hb; [done|]. simpl.
  rewrite Hb by left. simpl. apply IH. intros. apply Hb. by right.
Qed.

(** A loop none of whose iterations goes wrong ends, in a state that
    satisfies what every iteration preserves. *)
Lemma for_each_invariant {A S : Type} (I : S → Prop) (l : list A)
    (body : A → S → outcome S) s :
  I s →
  (∀ x s, x ∈ l → I s → ∃ s', body x s = Ok s' ∧ I s') →
  ∃ s', for_each l body s = Ok s' ∧ I s'.
Proof.
  revert s. induction l as [|x l IH]; intros s Hs Hb; [by exists s|]. simpl.
  destruct (Hb x s) as (s1 & -> & Hs1); [by left|done|]. simpl.
  apply IH; [done|]. intros. apply Hb; [by right|done].
Qed.

Lemma for_each_Ok_inv {A S : Type} (I : S → Prop) (l : list A)
    (body : A → S → outcome S) s s' :
  for_each l body s = Ok s' →
  I s →
  (∀ x s s', x ∈ l → I s → body x s = Ok s' → I s') →
  I s'.
Proof.
  revert s. induction l as [|x l IH]; intros s; simpl.
  - by intros [= ->].
  - destruct (body x s) as [s1| |] eqn:Hx; simpl; [|done..].
    intros Hl Hs Hb. apply (IH s1); [done| |].
    + eapply Hb; [by left|done..].
    + intros. eapply Hb; [by right|done..].
Qed.

(** ** Vectors *)

Lemma vec_at_lookup {A : Type} (v : list A) (k : Z) (d : A) :
  0 <= k < Z.of_nat (length v) → vec_at v k = Ok (default d (v !! Z.to_nat k)).
Proof.
  intros Hk. unfold vec_at.
  destruct (k <? 0) eqn:Hneg; [lia|].
  destruct (lookup_lt_is_Some_2 v (Z.to_nat k)) as [x Hx]; [lia|].
  by rewrite Hx.
Qed.

(** ** Convert: what the loops write *)

Lemma elem_of_loop_triples H W n j i bi :
  (j, i, bi) ∈ loop_triples H W n ↔ 0 <= j < H ∧ 0 <= i < W ∧ 0 <= bi < n.
Proof.
  unfold loop_triples. rewrite list_elem_of_bind. split.
  - intros (j' & Hj' & Hj). apply list_elem_of_bind in Hj' as (i' & Hi' & Hi).
    apply list_elem_of_bind in Hi' as (b' & Hb' & Hb).
    apply list_elem_of_singleton in Hb' as [= -> -> ->].
    apply elem_of_seqZ in Hj, Hi, Hb. lia.
  - intros (Hj & Hi & Hb). exists j. split; [|apply elem_of_seqZ; lia].
    apply list_elem_of_bind. exists i. split; [|apply elem_of_seqZ; lia].
    apply list_elem_of_bind. exists bi. split; [|apply elem_of_seqZ; lia].
    by apply list_elem_of_singleton.
Qed.

Lemma value_index_inj W n i j bi i' j' bi' :
  0 <= i < W → 0 <= i' < W → 0 <= bi < n → 0 <= bi' < n →
  value_index W n i j bi = value_index W n i' j' bi' →
  i = i' ∧ j = j' ∧ bi = bi'.
Proof.
  unfold value_index. intros Hi Hi' Hb Hb' Heq.
  destruct (Z.div_mod_unique n (i + j * W) (i' + j' * W) bi bi') as [Hq Hr];
    [lia|lia|lia|].
  destruct (Z.div_mod_unique W j j' i i') as [Hq' Hr']; [lia|lia|lia|].
  done.
Qed.

Section ConvertProps.

Context {double RAW : Type} `{!DoubleOps double} `{!RawOps double RAW}.
Local Abbreviation Reader := (@vtkGDALRasterReader double RAW).
Local Abbreviation Grid := (@vtkUniformGrid double RAW).
Local Abbreviation CState := (@ConvertState double RAW).

Section Pass.

Variables (T : VTKScalarType) (raw : list RAW) (W H : Z) (group : list Z)
          (fx fy : bool) (hnd : list Z) (ndv : list double).

Let n : Z := Z.of_nat (length group).

(** The sample that the loops read for component [bi] of cell (i, j). *)
Definition source_sample (x : Z * Z * Z) : RAW :=
  let '(j, i, bi) := x in
  sample_at raw (buffer_index W H (source_coord fx W i) (source_coord fy H j) bi).

(** Whether that sample is the no-data value of the band of its slot. *)
Definition sample_is_no_data (x : Z * Z * Z) : bool :=
  let '(j, i, bi) := x in
  let b := default 0 (group !! Z.to_nat bi) in
  is_no_data T (band_flag hnd b)
    (if band_flag hnd b =? 0 then double_of_int 0 else band_no_data ndv b)
    (source_sample x).

Definition target_of (x : Z * Z * Z) : Z :=
  let '(j, i, bi) := x in value_index W n i j bi.

(** One iteration of the innermost loop as a function. *)
Definition slot_step (st : CState) (x : Z * Z * Z) : CState :=
  {| scArr := InsertValue (target_of x) (source_sample x) (scArr st);
     grid := if sample_is_no_data x then BlankCell (target_of x) (grid st)
             else grid st;
     liveCells := if sample_is_no_data x then liveCells st
                  else liveCells st + 1 |}.

(** *** The three objects after a pass *)

Lemma fold_liveCells (st : CState) l :
  liveCells (foldl slot_step st l)
  = liveCells st + Z.of_nat (length (filter (λ x, negb (sample_is_no_data x)) l)).
Proof.
  revert st. induction l as [|x l IH]; intros st; simpl; [lia|].
  rewrite IH. simpl. rewrite filter_cons.
  destruct (sample_is_no_data x); simpl; [lia|].
  rewrite Nat2Z.inj_succ. lia.
Qed.

Lemma fold_blanked (st : CState) l :
  BlankedCells (grid (foldl slot_step st l))
  = BlankedCells (grid st)
    ∪ list_to_set (target_of <$> filter (λ x, sample_is_no_data x) l).
Proof.
  revert st. induction l as [|x l IH]; intros st; simpl.
  - set_solver.
  - rewrite IH. simpl. rewrite filter_cons.
    destruct (sample_is_no_data x); simpl; set_solver.
Qed.

Lemma fold_grid_rest (st : CState) l :
  let g' := grid (foldl slot_step st l) in
  Extent g' = Extent (grid st) ∧ Spacing g' = Spacing (grid st) ∧
  Origin g' = Origin (grid st) ∧ CellArrays g' = CellArrays (grid st) ∧
  ActiveScalars g' = ActiveScalars (grid st) ∧
  FieldArrays g' = FieldArrays (grid st).
Proof.
  revert st. induction l as [|x l IH]; intros st; simpl; [done|].
  destruct (IH (slot_step st x)) as (-> & -> & -> & -> & -> & ->). simpl.
  by destruct (sample_is_no_data x).
Qed.

Lemma fold_scArr_rest (st : CState) l :
  let a' := scArr (foldl slot_step st l) in
  ArrName a' = ArrName (scArr st) ∧
  NumberOfComponents a' = NumberOfComponents (scArr st) ∧
  NumberOfTuples a' = NumberOfTuples (scArr st) ∧
  LookupTable a' = LookupTable (scArr st).
Proof.
  revert st. induction l as [|x l IH]; intros st; simpl; [done|].
  by destruct (IH (slot_step st x)) as (-> & -> & -> & ->).
Qed.

Lemma fold_values_miss (st : CState) l k :
  (∀ x, x ∈ l → target_of x ≠ k) →
  Values (scArr (foldl slot_step st l)) !! k = Values (scArr st) !! k.
Proof.
  revert st. induction l as [|x l IH]; intros st Hl; simpl; [done|].
  rewrite IH by (intros; apply Hl; by right). simpl.
  apply lookup_insert_ne. apply Hl. by left.
Qed.

Lemma fold_values_hit (st : CState) l x :
  x ∈ l →
  (∀ y, y ∈ l → target_of y = target_of x → y = x) →
  Values (scArr (foldl slot_step st l)) !! target_of x = Some (source_sample x).
Proof.
  revert st. induction l as [|y l IH] using rev_ind; intros st Hx Hinj.
  - by apply elem_of_nil in Hx.
  - rewrite foldl_app. simpl.
    destruct (decide (target_of y = target_of x)) as [Heq|Hne].
    + rewrite (Hinj y) by (done || (apply elem_of_app; right; by left)).
      apply lookup_insert_eq.
    + rewrite lookup_insert_ne by done.
      apply elem_of_app in Hx as [Hx|Hx].
      * apply IH; [done|]. intros. apply Hinj; [|done]. apply elem_of_app. by left.
      * apply list_elem_of_singleton in Hx. by subst.
Qed.

Lemma target_of_inj x y :
  x ∈ loop_triples H W n → y ∈ loop_triples H W n →
  target_of y = target_of x → y = x.
Proof.
  destruct x as [[j i] bi], y as [[j' i'] bi']. intros Hx Hy.
  apply elem_of_loop_triples in Hx as (? & ? & ?).
  apply elem_of_loop_triples in Hy as (? & ? & ?).
  simpl. intros Heq.
  by apply value_index_inj in Heq as (-> & -> & ->).
Qed.

(** *** The pass in range *)

Hypothesis Hready : convert_ready raw W H group hnd ndv.

Lemma in_range_products j i bi :
  0 <= j < H → 0 <= i < W → 0 <= bi < n →
  0 <= i + j * W < W * H ∧ 0 <= bi * W <= n * W ∧ n * W <= n * W * H ∧
  0 <= bi * W * H ∧ bi * W * H + W * H <= n * W * H ∧
  0 <= (i + j * W) * n + bi < n * W * H.
Proof.
  intros Hj Hi Hb.
  assert (0 <= j * W) by nia.
  assert (j * W + W <= H * W) by nia.
  assert (0 <= bi * W) by nia.
  assert (bi * W <= n * W) by nia.
  assert (n * W <= n * W * H) by nia.
  assert (0 <= bi * (W * H)) by nia.
  assert (bi * (W * H) + W * H <= n * (W * H)) by nia.
  assert ((i + j * W) * n + n <= W * H * n) by nia.
  assert (0 <= (i + j * W) * n) by nia.
  repeat split; lia.
Qed.

Lemma targetIndex_exact j i bi :
  0 <= j < H → 0 <= i < W → 0 <= bi < n →
  targetIndex W n i j bi = value_index W n i j bi.
Proof.
  intros Hj Hi Hb.
  pose proof (in_range_products j i bi Hj Hi Hb) as (H1 & H2 & H3 & H4 & H5 & H6).
  pose proof (ready_int _ _ _ _ _ _ Hready) as Hint. fold n in Hint.
  unfold INT_MAX in Hint.
  assert (0 <= j * W) by nia.
  assert (0 <= i * n) by nia.
  assert (0 <= j * W * n) by nia.
  assert ((i + j * W) * n = i * n + j * W * n) by lia.
  assert (n <= n * W) by nia.
  assert (W <= n * W) by nia.
  unfold targetIndex, value_index, size_add, size_mul.
  rewrite int_mul_id by (unfold is_int, INT_MIN, INT_MAX; lia).
  rewrite (to_size_t_id i), (to_size_t_id n), (to_size_t_id (j * W)),
    (to_size_t_id bi) by lia.
  rewrite !(to_size_t_id (i * n)), !(to_size_t_id (j * W * n)) by lia.
  rewrite !(to_size_t_id (i * n + j * W * n)) by lia.
  rewrite to_size_t_id by lia. lia.
Qed.

Lemma source_coord_range (f : bool) N k :
  0 <= k < N → 0 <= source_coord f N k < N.
Proof. unfold source_coord. destruct f; lia. Qed.

Lemma sourceIndex_exact j i bi :
  0 <= j < H → 0 <= i < W → 0 <= bi < n →
  sourceIndex W H i j bi = buffer_index W H i j bi.
Proof.
  intros Hj Hi Hb.
  pose proof (in_range_products j i bi Hj Hi Hb) as (H1 & H2 & H3 & H4 & H5 & H6).
  pose proof (ready_int _ _ _ _ _ _ Hready) as Hint. fold n in Hint.
  unfold INT_MAX in Hint.
  assert (0 <= j * W) by nia.
  unfold sourceIndex, buffer_index.
  rewrite (int_mul_id j W) by (unfold is_int, INT_MIN, INT_MAX; lia).
  rewrite (int_add_id i) by (unfold is_int, INT_MIN, INT_MAX; lia).
  rewrite (int_mul_id bi W) by (unfold is_int, INT_MIN, INT_MAX; lia).
  rewrite (int_mul_id _ H) by (unfold is_int, INT_MIN, INT_MAX; lia).
  rewrite int_add_id by (unfold is_int, INT_MIN, INT_MAX; lia). done.
Qed.

Lemma flipped_coord (f : bool) N k :
  0 <= k < N → N <= INT_MAX →
  (if f then int_sub (int_sub N 1) k else k) = source_coord f N k.
Proof.
  intros Hk HN. unfold source_coord. destruct f; [|done].
  rewrite (int_sub_id N 1) by (unfold is_int, INT_MIN, INT_MAX in *; lia).
  by rewrite int_sub_id by (unfold is_int, INT_MIN, INT_MAX in *; lia).
Qed.

Lemma dims_int j i :
  0 <= j < H → 0 <= i < W → 0 < n → W <= INT_MAX ∧ H <= INT_MAX.
Proof.
  intros Hj Hi Hn.
  pose proof (ready_int _ _ _ _ _ _ Hready) as Hint. fold n in Hint.
  assert (1 <= n * H) by nia. assert (1 <= n * W) by nia.
  assert (W * 1 <= W * (n * H)) by (apply Z.mul_le_mono_nonneg_l; lia).
  assert (H * 1 <= H * (n * W)) by (apply Z.mul_le_mono_nonneg_l; lia).
  lia.
Qed.

(** In range, an iteration of the innermost loop does not go wrong and is
    [slot_step]. *)
Lemma Convert_slot_step j i bi (st : CState) :
  0 <= j < H → 0 <= i < W → 0 <= bi < n →
  Convert_slot T raw W H group hnd ndv j
    (if fy then int_sub (int_sub H 1) j else j) i
    (if fx then int_sub (int_sub W 1) i else i) bi st
  = Ok (slot_step st (j, i, bi)).
Proof.
  intros Hj Hi Hb.
  destruct (dims_int j i Hj Hi ltac:(lia)) as [HW HH].
  rewrite !flipped_coord by done.
  pose proof (source_coord_range fx W i Hi) as Hsi.
  pose proof (source_coord_range fy H j Hj) as Hsj.
  pose proof (in_range_products _ _ bi Hsj Hsi Hb) as (H1 & H2 & H3 & H4 & H5 & H6).
  pose proof (ready_raw _ _ _ _ _ _ Hready) as Hraw. fold n in Hraw.
  unfold Convert_slot. fold n.
  rewrite (vec_at_lookup group bi 0) by (subst n; lia). simpl.
  destruct (lookup_lt_is_Some_2 group (Z.to_nat bi)) as [b Hgb]; [subst n; lia|].
  pose proof (ready_bands _ _ _ _ _ _ Hready) as Hbands.
  rewrite Forall_forall in Hbands.
  destruct (Hbands b) as (Hb1 & Hb2 & Hb3); [by eapply list_elem_of_lookup_2|].
  rewrite Hgb. simpl.
  rewrite int_sub_id by (unfold is_int, INT_MIN, INT_MAX in *; lia).
  rewrite (vec_at_lookup hnd (b - 1) 0) by lia. simpl.
  fold (band_flag hnd b).
  assert (Hnd : (if band_flag hnd b =? 0 then Ok (double_of_int 0)
                 else vec_at ndv (b - 1))
          = Ok (if band_flag hnd b =? 0 then double_of_int 0
                else band_no_data ndv b)).
  { case_match; [done|]. by apply vec_at_lookup; lia. }
  rewrite Hnd. simpl.
  rewrite targetIndex_exact, sourceIndex_exact by done.
  rewrite (vec_at_lookup raw _ raw_zero) by (unfold buffer_index; lia). simpl.
  unfold slot_step, sample_is_no_data, source_sample, target_of. rewrite Hgb. simpl.
  fold (sample_at raw (buffer_index W H (source_coord fx W i) (source_coord fy H j) bi)).
  by destruct (is_no_data _ _ _ _).
Qed.

(** The three loops are one pass over [loop_triples] that does not go
    wrong. *)
Lemma Convert_loops_fold (st : CState) :
  Convert_loops T raw W H group fx fy hnd ndv st
  = Ok (foldl slot_step st (loop_triples H W n)).
Proof.
  unfold Convert_loops, for_range, loop_triples. fold n.
  rewrite !Z.sub_0_r.
  rewrite <- (for_each_pure _
    (λ x st, let '(j, i, bi) := x in
       Convert_slot T raw W H group hnd ndv j
         (if fy then int_sub (int_sub H 1) j else j) i
         (if fx then int_sub (int_sub W 1) i else i) bi st)).
  - rewrite for_each_bind. apply for_each_ext. intros j s Hj.
    rewrite for_each_bind. apply for_each_ext. intros i s' Hi.
    rewrite for_each_bind. apply for_each_ext. intros bi s'' Hbi.
    simpl. by destruct (Convert_slot _ _ _ _ _ _ _ _ _ _ _ _ _).
  - intros [[j i] bi] s Hx. apply elem_of_loop_triples in Hx as (Hj & Hi & Hb).
    by apply Convert_slot_step.
Qed.

End Pass.

(** *** Arrays of the cell data *)

Lemma AddArray_list_lookup (a : @vtkDataArray double RAW) l :
  ∃ k, index_of_name (ArrName a) (AddArray_list a l) = Some k ∧
       AddArray_list a l !! k = Some a.
Proof.
  induction l as [|b l (k & Hk & Hl)]; simpl.
  - rewrite String.eqb_refl. by exists 0%nat.
  - destruct (String.eqb (ArrName b) (ArrName a)) eqn:Hb; simpl.
    + rewrite String.eqb_refl. by exists 0%nat.
    + rewrite Hb, Hk. by exists (S k).
Qed.

Lemma GetArray_AddArray (a : @vtkDataArray double RAW) (g : Grid) :
  GetArray (ArrName a) (AddArray a g) = Some a.
Proof.
  unfold GetArray, AddArray. simpl.
  destruct (AddArray_list_lookup a (CellArrays g)) as (k & -> & Hk). done.
Qed.

(** *** Convert as a whole *)

(** With a grid to fill, a buffer that is not empty and its precondition,
    [Convert] does not go wrong; its result is the pass of [slot_step] over
    [loop_triples]. *)
Lemma Convert_pass T raw W H group name fx fy (r : Reader) g :
  UniformGridData r = Some g →
  raw ≠ [] →
  convert_ready raw W H group (HasNoDataValue r) (NoDataValue r) →
  let st := foldl (slot_step T raw W H group fx fy (HasNoDataValue r) (NoDataValue r))
              {| scArr := {| ArrName := name;
                             NumberOfComponents := Z.of_nat (length group);
                             NumberOfTuples := int_mul W H;
                             Values := ∅; LookupTable := None |};
                 grid := g; liveCells := NumberOfCells r |}
              (loop_triples H W (Z.of_nat (length group))) in
  Convert T raw W H group name fx fy r
  = Ok (set_UniformGridData (Some (AddArray (scArr st) (grid st)))
          (set_NumberOfCells (liveCells st) r)).
Proof.
  intros Hg Hraw Hready. unfold Convert. rewrite Hg.
  destruct raw as [|x0 raw'] eqn:Hr; [done|].
  change (vec_at (x0 :: raw') 0) with (Ok x0). simpl. rewrite <- Hr in *.
  by rewrite Convert_loops_fold.
Qed.

(** The contents of the output after [Convert], in terms of the buffer:
    the new array is in the cell data under its name, every component of
    every cell holds the sample read for it, the cells passed to
    [BlankCell] are the flat indices of the samples that equal the no-data
    value of their band, and [NumberOfCells] has grown by the number of the
    other samples. *)
Lemma Convert_contents T raw W H group name fx fy (r : Reader) g :
  UniformGridData r = Some g →
  raw ≠ [] →
  convert_ready raw W H group (HasNoDataValue r) (NoDataValue r) →
  let n := Z.of_nat (length group) in
  let hnd := HasNoDataValue r in
  let ndv := NoDataValue r in
  ∃ r' g' a,
    Convert T raw W H group name fx fy r = Ok r' ∧
    UniformGridData r' = Some g' ∧
    GetArray name g' = Some a ∧
    NumberOfComponents a = n ∧
    (∀ j i bi, 0 <= j < H → 0 <= i < W → 0 <= bi < n →
       GetValue a (value_index W n i j bi)
       = Some (source_sample raw W H fx fy (j, i, bi))) ∧
    BlankedCells g'
    = BlankedCells g
      ∪ list_to_set (target_of W group
                       <$> filter (λ x, sample_is_no_data T raw W H group fx fy hnd ndv x)
                             (loop_triples H W n)) ∧
    NumberOfCells r'
    = NumberOfCells r
      + Z.of_nat (length (filter (λ x, negb (sample_is_no_data T raw W H group fx fy hnd ndv x))
                            (loop_triples H W n))).
Proof.
  intros Hg Hraw Hready n hnd ndv.
  pose proof (Convert_pass T raw W H group name fx fy r g Hg Hraw Hready) as HC.
  simpl in HC.
  set (st0 := {| scArr := _; grid := g; liveCells := _ |}) in HC.
  set (st := foldl _ st0 _) in HC.
  destruct (fold_scArr_rest T raw W H group fx fy hnd ndv st0
              (loop_triples H W n)) as (Hname & Hcomp & _ & _).
  fold st in Hname, Hcomp. simpl in Hname, Hcomp. fold hnd ndv in st.
  eexists _, _, (scArr st). split; [exact HC|]. split; [done|].
  split; [rewrite <- Hname; apply GetArray_AddArray|].
  split; [done|]. split; [|split].
  - intros j i bi Hj Hi Hb. unfold GetValue.
    apply (fold_values_hit T raw W H group fx fy hnd ndv st0 _ (j, i, bi)).
    + by apply elem_of_loop_triples.
    + intros y Hy.
      apply (target_of_inj W H group); [by apply elem_of_loop_triples|done].
  - simpl. apply (fold_blanked T raw W H group fx fy hnd ndv st0).
  - simpl. apply (fold_liveCells T raw W H group fx fy hnd ndv st0).
Qed.

End ConvertProps.

(** ** One-band passes *)

Section OneBand.

Context {double RAW : Type} `{!DoubleOps double} `{!RawOps double RAW}.
Local Abbreviation Reader := (@vtkGDALRasterReader double RAW).


End OneBand.

(** ** Corner geocoding *)

Section Corners.

Context {double RAW : Type} `{!DoubleOps double}.
Local Abbreviation Reader := (@vtkGDALRasterReader double RAW).

Lemma GetGeoCornerPoint_affine (r : Reader) dataset ds a x y :
  GDALData r = Some ds →
  dataset = Some ds →
  GCPProjection ds = None ∨ GCPs ds = None →
  GeoTransform ds = (CE_None, a) →
  GetGeoCornerPoint r dataset x y = Ok (true, Some (affine a x y)).
Proof.
  intros Hds -> Hgcp Hgt. unfold GetGeoCornerPoint. rewrite Hds, Hgt.
  destruct a as [[[[[a0 a1] a2] a3] a4] a5].
  destruct Hgcp as [-> | ->]; [done|]. by destruct (GCPProjection ds).
Qed.

Lemma GetGeoCornerPoints_affine (r : Reader) ds a :
  GDALData r = Some ds →
  GCPProjection ds = None ∨ GCPs ds = None →
  GeoTransform ds = (CE_None, a) →
  let W := double_of_int (fst (RasterDimensions r)) in
  let H := double_of_int (snd (RasterDimensions r)) in
  let zero := double_of_int 0 in
  GetGeoCornerPoints r
  = Ok (set_CornerPoints
          {| corner0 := affine a zero zero; corner1 := affine a zero H;
             corner2 := affine a W H; corner3 := affine a W zero |} r).
Proof.
  intros Hds Hgcp Hgt W H zero. unfold GetGeoCornerPoints.
  rewrite (GetGeoCornerPoint_affine r _ ds a) by done. simpl.
  rewrite (GetGeoCornerPoint_affine _ _ ds a) by done. simpl.
  rewrite (GetGeoCornerPoint_affine _ _ ds a) by done. simpl.
  rewrite (GetGeoCornerPoint_affine _ _ ds a) by done. simpl.
  done.
Qed.

End Corners.

(** C6. Without ground-control points (null GCP projection or null GCP
    list) and with a geotransform, [GetGeoCornerPoints] stores for the
    pixel corners (0,0), (0,H), (W,H), (W,0) the values of the affine
    formulas geoX = a0 + a1*px + a2*py, geoY = a3 + a4*px + a5*py, in every
    interpretation of the [double] operations; in exact arithmetic the
    geotransform (100, 1, 0, 200, 0, -1) gives the corners (100 + px,
    200 - py). *)
Theorem GetGeoCornerPoints_affine_corners :
  (∀ (double RAW : Type) (ops : DoubleOps double)
     (r : @vtkGDALRasterReader double RAW) ds a,
     GDALData r = Some ds →
     GCPProjection ds = None ∨ GCPs ds = None →
     GeoTransform ds = (CE_None, a) →
     let W := double_of_int (fst (RasterDimensions r)) in
     let H := double_of_int (snd (RasterDimensions r)) in
     let zero := double_of_int 0 in
     ∃ r', GetGeoCornerPoints r = Ok r' ∧
           corner0 (CornerPoints r') = affine a zero zero ∧
           corner1 (CornerPoints r') = affine a zero H ∧
           corner2 (CornerPoints r') = affine a W H ∧
           corner3 (CornerPoints r') = affine a W zero) ∧
  (∀ (r : @vtkGDALRasterReader xnum xnum) ds W H,
     GDALData r = Some ds →
     RasterDimensions r = (W, H) →
     GCPProjection ds = None ∨ GCPs ds = None →
     GeoTransform ds
     = (CE_None, (xint 100, xint 1, xint 0, xint 200, xint 0, xint (-1))) →
     ∃ r', GetGeoCornerPoints r = Ok r' ∧
           is_point (corner0 (CornerPoints r')) (100 + 0) (200 - 0) ∧
           is_point (corner1 (CornerPoints r')) (100 + 0) (200 - H) ∧
           is_point (corner2 (CornerPoints r')) (100 + W) (200 - H) ∧
           is_point (corner3 (CornerPoints r')) (100 + W) (200 - 0)).
Proof.
  split.
  - intros double RAW ops r ds a Hds Hgcp Hgt W H zero.
    eexists. split; [by apply (GetGeoCornerPoints_affine r ds a)|]. done.
  - intros r ds W H Hds HRD Hgcp Hgt.
    eexists. split; [by apply (GetGeoCornerPoints_affine r ds _ Hds Hgcp Hgt)|].
    rewrite HRD. simpl.
    repeat split; eexists _, _; (split; [reflexivity|]);
      unfold Qeq; simpl; split; lia.
Qed.

Lemma GetGeoCornerPoints_affine_witness :
  ∃ r', GetGeoCornerPoints (describe raster_2x2) = Ok r' ∧
        corner0 (CornerPoints r') = (xint 0, xint 0) ∧
        is_point (corner2 (CornerPoints r')) 2 (-2).
Proof.
  destruct (proj1 GetGeoCornerPoints_affine_corners xnum xnum exact_double
              (describe raster_2x2) raster_2x2
              (xint 0, xint 1, xint 0, xint 0, xint 0, xint (-1))
              eq_refl (or_introl eq_refl) eq_refl)
    as (r' & Hr' & H0 & H1 & H2 & H3).
  exists r'. split; [exact Hr'|]. split.
  - rewrite H0. vm_compute. reflexivity.
  - rewrite H2. eexists _, _. split; [vm_compute; reflexivity|].
    split; reflexivity.
Defined.

(** The same corners in binary64, for a raster of 640 by 480 pixels. *)
Lemma GetGeoCornerPoints_binary64 :
  ∃ r', GetGeoCornerPoints reader_binary64 = Ok r' ∧
        corner0 (CornerPoints r') = (float_of_Z 100, float_of_Z 200) ∧
        corner1 (CornerPoints r') = (float_of_Z 100, float_of_Z (200 - 480)) ∧
        corner2 (CornerPoints r') = (float_of_Z (100 + 640), float_of_Z (200 - 480)) ∧
        corner3 (CornerPoints r') = (float_of_Z (100 + 640), float_of_Z 200).
Proof.
  eexists. split; [vm_compute; reflexivity|].
  repeat split; vm_compute; reflexivity.
Qed.

(** ** The colour table *)

Section ColorTable.

Context {double RAW : Type} `{!DoubleOps double}.
Local Abbreviation Band := (@GDALRasterBand double RAW).
Local Abbreviation Table := (@vtkLookupTable double).

(** One iteration of the loop of [ReadColorTable] as a function. *)
Definition entry_step (entries : list GDALColorEntry)
    (names : option (list string)) (t : Table) (i : Z) : Table :=
  let e := default {| c1 := 0; c2 := 0; c3 := 0; c4 := 0 |}
             (entries !! Z.to_nat i) in
  let t := SetTableValue i (normalized e) t in
  match names with
  | None => SetAnnotation i ("Category " +:+ pretty i) t
  | Some ns =>
      let name := default EmptyString (ns !! Z.to_nat i) in
      if decide (name = EmptyString) then t else SetAnnotation i name t
  end.

Lemma nonempty_length (s : string) :
  (0 <? String.length s)%nat = if decide (s = EmptyString) then false else true.
Proof. by destruct s. Qed.

Lemma ReadColorTable_entry_step tbl names i (t : Table) :
  0 <= i < Z.of_nat (length (ColorEntries tbl)) →
  (∀ ns, names = Some ns → (length (ColorEntries tbl) <= length ns)%nat) →
  ReadColorTable_entry tbl names i t = Ok (entry_step (ColorEntries tbl) names t i).
Proof.
  intros Hi Hnames. unfold ReadColorTable_entry, entry_step.
  rewrite (vec_at_lookup _ i {| c1 := 0; c2 := 0; c3 := 0; c4 := 0 |}) by done.
  simpl. destruct names as [ns|]; simpl; [|done].
  rewrite (vec_at_lookup ns i EmptyString) by (specialize (Hnames ns eq_refl); lia).
  simpl. rewrite nonempty_length. by case_decide.
Qed.

Lemma entry_step_values entries names (t : Table) x :
  TableValues (entry_step entries names t x)
  = <[x := normalized (default {| c1 := 0; c2 := 0; c3 := 0; c4 := 0 |}
                         (entries !! Z.to_nat x))]> (TableValues t).
Proof.
  unfold entry_step. destruct names; [|done]. by case_decide.
Qed.

Lemma entry_step_rest entries names (t : Table) x :
  IndexedLookup (entry_step entries names t x) = IndexedLookup t ∧
  NumberOfTableValues (entry_step entries names t x) = NumberOfTableValues t.
Proof.
  unfold entry_step. destruct names; [|done]. by case_decide.
Qed.

Lemma fold_entry_values entries names (t : Table) l i :
  TableValues (foldl (entry_step entries names) t l) !! i
  = if decide (i ∈ l)
    then Some (normalized (default {| c1 := 0; c2 := 0; c3 := 0; c4 := 0 |}
                             (entries !! Z.to_nat i)))
    else TableValues t !! i.
Proof.
  revert t. induction l as [|x l IH]; intros t; cbn [foldl].
  - destruct (decide (i ∈ [])) as [Hin|]; [by apply elem_of_nil in Hin|done].
  - rewrite IH, entry_step_values.
    destruct (decide (i ∈ l)) as [Hin|Hnin];
      destruct (decide (i ∈ x :: l)) as [Hin'|Hnin']; try done.
    + exfalso. apply Hnin'. by right.
    + apply elem_of_cons in Hin' as [->|?]; [|done]. apply lookup_insert_eq.
    + apply lookup_insert_ne. intros ->. apply Hnin'. by left.
Qed.

Lemma fold_entry_rest entries names (t : Table) l :
  IndexedLookup (foldl (entry_step entries names) t l) = IndexedLookup t ∧
  NumberOfTableValues (foldl (entry_step entries names) t l)
  = NumberOfTableValues t.
Proof.
  revert t. induction l as [|x l IH]; intros t; cbn [foldl]; [done|].
  destruct (IH (entry_step entries names t x)) as [-> ->].
  apply entry_step_rest.
Qed.

Lemma category_annotation_idem names old i :
  category_annotation names (category_annotation names old i) i
  = category_annotation names old i.
Proof.
  unfold category_annotation. destruct names as [ns|]; [|done].
  destruct (ns !! Z.to_nat i); [|done]. by case_decide.
Qed.

Lemma entry_step_annotation entries names (t : Table) x i :
  Annotations (entry_step entries names t x) !! i
  = if decide (x = i) then category_annotation names (Annotations t !! i) i
    else Annotations t !! i.
Proof.
  unfold entry_step, category_annotation.
  destruct names as [ns|]; simpl.
  - destruct (ns !! Z.to_nat x) as [name|] eqn:Hx; simpl.
    + destruct (decide (name = EmptyString)); simpl;
        destruct (decide (x = i)) as [->|]; try done.
      * by rewrite Hx, decide_True.
      * by rewrite Hx, decide_False, lookup_insert_eq.
      * by rewrite lookup_insert_ne.
    + destruct (decide (x = i)) as [->|]; [|done]. by rewrite Hx.
  - destruct (decide (x = i)) as [->|].
    + by rewrite lookup_insert_eq.
    + by rewrite lookup_insert_ne.
Qed.

Lemma fold_entry_annotations entries names (t : Table) l i :
  Annotations (foldl (entry_step entries names) t l) !! i
  = if decide (i ∈ l) then category_annotation names (Annotations t !! i) i
    else Annotations t !! i.
Proof.
  revert t. induction l as [|x l IH]; intros t; cbn [foldl].
  - destruct (decide (i ∈ [])) as [Hin|]; [by apply elem_of_nil in Hin|done].
  - rewrite IH, entry_step_annotation.
    destruct (decide (i ∈ l)) as [Hin|Hnin];
      destruct (decide (i ∈ x :: l)) as [Hin'|Hnin'];
      destruct (decide (x = i)) as [->|Hne]; try done.
    + apply category_annotation_idem.
    + exfalso. apply Hnin'. by right.
    + exfalso. apply Hnin'. by right.
    + apply elem_of_cons in Hin' as [->|?]; done.
    + exfalso. apply Hnin'. by left.
Qed.

Lemma ReadColorTable_rgb (band : Band) tbl (ct : Table) :
  ColorTable band = Some tbl →
  PaletteInterpretation tbl = GPI_RGB →
  (∀ ns, CategoryNames band = Some ns →
         (length (ColorEntries tbl) <= length ns)%nat) →
  ∃ t, ReadColorTable band ct = Ok t ∧
       IndexedLookup t = true ∧
       NumberOfTableValues t = Z.of_nat (length (ColorEntries tbl)) ∧
       ∀ i e, 0 <= i → ColorEntries tbl !! Z.to_nat i = Some e →
         TableValues t !! i = Some (normalized e) ∧
         Annotations t !! i
         = category_annotation (CategoryNames band) (Annotations ct !! i) i.
Proof.
  intros Htbl Hrgb Hnames. unfold ReadColorTable. rewrite Htbl, Hrgb.
  rewrite bool_decide_eq_false_2 by naive_solver.
  unfold for_range. rewrite Z.sub_0_r.
  set (ct0 := {| IndexedLookup := true; NumberOfTableValues := _;
                 TableValues := TableValues ct; Annotations := Annotations ct |}).
  set (l := seqZ 0 (Z.of_nat (length (ColorEntries tbl)))).
  rewrite (for_each_pure l _ (entry_step (ColorEntries tbl) (CategoryNames band))).
  2:{ intros i t Hi. apply elem_of_seqZ in Hi.
      by apply ReadColorTable_entry_step; [lia|]. }
  eexists. split; [done|].
  destruct (fold_entry_rest (ColorEntries tbl) (CategoryNames band) ct0 l) as [-> ->].
  split; [done|]. split; [done|].
  intros i e Hi He.
  assert (Hin : i ∈ l).
  { apply elem_of_seqZ. apply lookup_lt_Some in He. lia. }
  rewrite fold_entry_values, fold_entry_annotations.
  destruct (decide (i ∈ l)); [|done]. by rewrite He.
Qed.

(** A loop whose iterations up to [x] end and whose iteration [x] is
    undefined is undefined. *)
Lemma for_each_Undefined_at {A S : Type} (l1 : list A) x l2
    (body : A → S → outcome S) s :
  (∀ y s, y ∈ l1 → ∃ s', body y s = Ok s') →
  (∀ s, body x s = Undefined) →
  for_each (l1 ++ x :: l2) body s = Undefined.
Proof.
  intros H1 Hx. rewrite for_each_app.
  destruct (for_each_invariant (λ _, True) l1 body s) as (s' & -> & _);
    [done| |].
  - intros y s0 Hy _. destruct (H1 y s0 Hy) as (s1 & ->). by exists s1.
  - simpl. by rewrite Hx.
Qed.

(** A band whose list of category names is shorter than its RGB colour
    table makes [ReadColorTable] go wrong: the name of the first entry
    without one is read past the end of the list. *)
Lemma ReadColorTable_short_names (band : Band) tbl ns (ct : Table) :
  ColorTable band = Some tbl →
  PaletteInterpretation tbl = GPI_RGB →
  CategoryNames band = Some ns →
  (length ns < length (ColorEntries tbl))%nat →
  ReadColorTable band ct = Undefined.
Proof.
  intros Htbl Hrgb Hnames Hlen. unfold ReadColorTable.
  rewrite Htbl, Hrgb, Hnames.
  rewrite bool_decide_eq_false_2 by naive_solver.
  unfold for_range. rewrite Z.sub_0_r.
  set (n := Z.of_nat (length (ColorEntries tbl))).
  set (k := Z.of_nat (length ns)).
  assert (Hkn : 0 <= k < n) by (unfold k, n; lia).
  assert (Hk : Z.to_nat k = length ns) by (unfold k; lia).
  replace n with (k + (n - k)) by lia.
  rewrite seqZ_app by lia. rewrite (seqZ_cons (0 + k)) by lia.
  change (0 + k) with k.
  apply for_each_Undefined_at.
  - intros i t Hi. apply elem_of_seqZ in Hi. unfold ReadColorTable_entry.
    rewrite (vec_at_lookup _ i {| c1 := 0; c2 := 0; c3 := 0; c4 := 0 |})
      by (fold n; lia).
    simpl. rewrite (vec_at_lookup ns i EmptyString) by (fold k; lia). simpl.
    case_match; by eexists.
  - intros t. unfold ReadColorTable_entry.
    rewrite (vec_at_lookup _ k {| c1 := 0; c2 := 0; c3 := 0; c4 := 0 |})
      by (fold n; lia).
    osimpl. unfold vec_at. destruct (k <? 0) eqn:Hneg; [done|].
    rewrite (lookup_ge_None_2 ns) by lia. done.
Qed.

End ColorTable.

(** A channel value from 0 to 255 divided by 255: in exact arithmetic the
    quotient is the rational c/255, which lies in [0, 1]; in binary64 the
    quotient lies in [0, 1] too. *)
Lemma channel_exact c :
  0 <= c <= 255 →
  ∃ q, ddiv (double := xnum) (double_of_int c) (double_of_int 255) = Some q ∧
       (q == c # 255)%Q ∧ (0 <= q <= 1)%Q.
Proof.
  intros Hc. eexists. split; [reflexivity|]. split.
  - unfold Qeq, Qdiv, Qmult, Qinv. simpl. lia.
  - unfold Qle, Qdiv, Qmult, Qinv. simpl. lia.
Qed.

Lemma channel_binary64 c :
  0 <= c <= 255 →
  PrimFloat.leb (float_of_Z 0)
    (ddiv (double := PrimFloat.float) (double_of_int c) (double_of_int 255))
  && PrimFloat.leb
       (ddiv (double := PrimFloat.float) (double_of_int c) (double_of_int 255))
       (float_of_Z 1) = true.
Proof.
  intros Hc.
  assert (Hall : forallb (λ c, PrimFloat.leb (float_of_Z 0)
                                 (PrimFloat.div (float_of_Z c) (float_of_Z 255))
                               && PrimFloat.leb
                                    (PrimFloat.div (float_of_Z c) (float_of_Z 255))
                                    (float_of_Z 1))
                   (seqZ 0 256) = true) by (vm_compute; reflexivity).
  rewrite forallb_forall in Hall. apply Hall.
  apply list_elem_of_In, elem_of_seqZ. lia.
Qed.

(** C8, as amended. For a palette band whose palette interpretation is
    RGB: when the band has no list of category names, or a list with a
    name for every entry of the colour table, [ReadColorTable] does not go
    wrong and, for every entry index i, sets the table value to the four
    channels c1, c2, c3, c4 of the entry, each converted to [double] and
    divided by 255, and the annotation to the category name of i when the
    band has category names and that name is not empty, to "Category i"
    when the band has no category names at all; when the band has category
    names and the name of i is empty the entry gets no annotation (the
    former one stays).  When the list of category names is shorter than
    the colour table, the name of the first entry without one is read past
    the end of the list: [ReadColorTable] is undefined.  The quotient of a
    channel from 0 to 255 is the rational c/255 in exact arithmetic and lies
    in [0, 1] both in exact arithmetic and in binary64. *)
Theorem ReadColorTable_rgb_entries :
  (∀ (double RAW : Type) (ops : DoubleOps double)
     (band : @GDALRasterBand double RAW) tbl (ct : @vtkLookupTable double),
     ColorTable band = Some tbl →
     PaletteInterpretation tbl = GPI_RGB →
     ((∀ ns, CategoryNames band = Some ns →
             (length (ColorEntries tbl) <= length ns)%nat) →
      ∃ t, ReadColorTable band ct = Ok t ∧
           ∀ i e, 0 <= i → ColorEntries tbl !! Z.to_nat i = Some e →
             TableValues t !! i
             = Some (ddiv (double_of_int (c1 e)) (double_of_int 255),
                     ddiv (double_of_int (c2 e)) (double_of_int 255),
                     ddiv (double_of_int (c3 e)) (double_of_int 255),
                     ddiv (double_of_int (c4 e)) (double_of_int 255)) ∧
             Annotations t !! i
             = match CategoryNames band with
               | None => Some ("Category " +:+ pretty i)
               | Some ns =>
                   match ns !! Z.to_nat i with
                   | Some name =>
                       if decide (name = EmptyString) then Annotations ct !! i
                       else Some name
                   | None => Annotations ct !! i
                   end
               end) ∧
     (∀ ns, CategoryNames band = Some ns →
            (length ns < length (ColorEntries tbl))%nat →
            ReadColorTable band ct = Undefined)) ∧
  (∀ c, 0 <= c <= 255 →
        ∃ q, ddiv (double := xnum) (double_of_int c) (double_of_int 255) = Some q ∧
             (q == c # 255)%Q ∧ (0 <= q <= 1)%Q) ∧
  (∀ c, 0 <= c <= 255 →
        PrimFloat.leb (float_of_Z 0)
          (ddiv (double := PrimFloat.float) (double_of_int c) (double_of_int 255))
        && PrimFloat.leb
             (ddiv (double := PrimFloat.float) (double_of_int c) (double_of_int 255))
             (float_of_Z 1)
        = true).
Proof.
  split; [|split; [apply channel_exact|apply channel_binary64]].
  intros double RAW ops band tbl ct Htbl Hrgb. split.
  - intros Hnames.
    destruct (ReadColorTable_rgb band tbl ct Htbl Hrgb Hnames)
      as (t & Ht & _ & _ & Hall).
    exists t. split; [done|]. intros i e Hi He. by apply Hall.
  - intros ns Hns Hlen. by apply (ReadColorTable_short_names band tbl ns).
Qed.

Lemma ReadColorTable_rgb_entries_witness :
  (∃ t, ReadColorTable palette_band vtkLookupTable_New = Ok t ∧
        TableValues t !! 1
        = Some (ddiv (double_of_int 0) (double_of_int 255),
                ddiv (double_of_int 51) (double_of_int 255),
                ddiv (double_of_int 102) (double_of_int 255),
                ddiv (double_of_int 255) (double_of_int 255)) ∧
        Annotations t !! 1 = Some "water") ∧
  ReadColorTable palette_band_short_names vtkLookupTable_New = Undefined.
Proof.
  split.
  - destruct (proj1 (proj1 ReadColorTable_rgb_entries xnum xnum exact_double
                       palette_band
                       {| PaletteInterpretation := GPI_RGB;
                          ColorEntries :=
                            [ {| c1 := 255; c2 := 0; c3 := 0; c4 := 255 |};
                              {| c1 := 0; c2 := 51; c3 := 102; c4 := 255 |} ] |}
                       vtkLookupTable_New eq_refl eq_refl))
      as (t & Ht & Hall).
    { intros ns [= <-]. simpl. lia. }
    exists t. split; [exact Ht|].
    exact (Hall 1 {| c1 := 0; c2 := 51; c3 := 102; c4 := 255 |} ltac:(lia) eq_refl).
  - refine (proj2 (proj1 ReadColorTable_rgb_entries xnum xnum exact_double
                     palette_band_short_names
                     {| PaletteInterpretation := GPI_RGB;
                        ColorEntries :=
                          [ {| c1 := 255; c2 := 0; c3 := 0; c4 := 255 |};
                            {| c1 := 0; c2 := 51; c3 := 102; c4 := 255 |} ] |}
                     vtkLookupTable_New eq_refl eq_refl)
              ["land"] eq_refl _).
    simpl. lia.
Defined.

(** C8 as stated fails: an entry whose declared category name is empty
    gets no annotation, not the synthesized "Category 0". *)
Lemma ReadColorTable_empty_name_unannotated :
  ∃ t, ReadColorTable palette_band vtkLookupTable_New = Ok t ∧
       PaletteInterpretation <$> ColorTable palette_band = Some GPI_RGB ∧
       CategoryNames palette_band = Some [EmptyString; "water"] ∧
       Annotations t !! 0 = None ∧
       Annotations t !! 0 ≠ Some ("Category " +:+ pretty 0).
Proof.
  eexists. split; [vm_compute; reflexivity|].
  repeat split; try (vm_compute; reflexivity). vm_compute. discriminate.
Qed.

(** ** What the steps of ReadData read and write *)

Lemma bind_Ok {A B : Type} (m : outcome A) (k : A → outcome B) (b : B) :
  (x ← m; k x) = Ok b ↔ ∃ a, m = Ok a ∧ k a = Ok b.
Proof.
  destruct m as [a| |]; simpl; split; try done.
  - intros Hk. by exists a.
  - by intros (a' & [= ->] & Hk).
  - by intros (? & ? & _).
  - by intros (? & ? & _).
Qed.

Lemma for_each_Aborted_free {A S : Type} (l : list A) (body : A → S → outcome S) s :
  (∀ x s, x ∈ l → body x s ≠ Aborted) → for_each l body s ≠ Aborted.
Proof.
  revert s. induction l as [|x l IH]; intros s Hb; [done|]. simpl.
  destruct (body x s) as [s'| |] eqn:Hx; simpl; [| |done].
  - apply IH. intros. apply Hb. by right.
  - exfalso. apply (Hb x s); [by left|done].
Qed.

Section Frames.

Context {double RAW : Type} `{!DoubleOps double} `{!RawOps double RAW}.
Local Abbreviation Reader := (@vtkGDALRasterReader double RAW).
Variable NDEBUG : bool.

(** The reader without what a pass writes: the output grid and the count
    of live cells. *)
Definition erase_output (r : Reader) : Reader :=
  set_UniformGridData None (set_NumberOfCells 0 r).

(** [r'] differs from [r] in its output at most. *)
Definition only_output (r r' : Reader) : Prop :=
  erase_output r = erase_output r'.

Lemma only_output_refl r : only_output r r.
Proof. done. Qed.

Lemma only_output_trans r1 r2 r3 :
  only_output r1 r2 → only_output r2 r3 → only_output r1 r3.
Proof. unfold only_output. congruence. Qed.

Lemma only_output_set r g c :
  only_output r (set_UniformGridData g (set_NumberOfCells c r)).
Proof. done. Qed.

Lemma only_output_eq r r' :
  only_output r r' →
  r' = set_UniformGridData (UniformGridData r') (set_NumberOfCells (NumberOfCells r') r).
Proof.
  intros H.
  apply (f_equal (λ x, set_UniformGridData (UniformGridData r')
                         (set_NumberOfCells (NumberOfCells r') x))) in H.
  symmetry. exact H.
Qed.

Lemma Convert_only_output T raw W H group name fx fy (r r' : Reader) :
  Convert T raw W H group name fx fy r = Ok r' → only_output r r'.
Proof.
  unfold Convert. destruct (UniformGridData r); [|by intros [= ->]].
  intros HC. apply bind_Ok in HC as (x & _ & HC).
  apply bind_Ok in HC as (st & _ & [= <-]). done.
Qed.

Lemma place_grid_only_output (r r' : Reader) :
  place_grid r = Ok r' → only_output r r'.
Proof.
  unfold place_grid. destruct (UniformGridData r); [|done]. by intros [= <-].
Qed.

Lemma name_categories_only_output table (r r' : Reader) :
  name_categories table r = Ok r' → only_output r r'.
Proof.
  unfold name_categories. repeat case_match; try done. by intros [= <-].
Qed.

Lemma read_other_only_output T ds b i group raw (r : Reader) group' raw' r' :
  read_other NDEBUG T ds b i (group, raw, r) = Ok (group', raw', r') →
  only_output r r'.
Proof.
  unfold read_other. intros H. apply bind_Ok in H as (idx & _ & H).
  destruct (idx =? 0); [by injection H as <- <- <-|].
  apply bind_Ok in H as (g1 & _ & H). apply bind_Ok in H as (raw1 & _ & H).
  apply bind_Ok in H as (r1 & HC & [= <- <- <-]).
  by apply Convert_only_output in HC.
Qed.

Lemma read_others_only_output T ds b l group raw (r : Reader) group' raw' r' :
  for_each l (read_other NDEBUG T ds b) (group, raw, r) = Ok (group', raw', r') →
  only_output r r'.
Proof.
  intros H.
  apply (for_each_Ok_inv (λ st, only_output r st.2) _ _ _ _ H); [done|].
  intros i [[g1 w1] r1] [[g2 w2] r2] _ Hr1 Hi. simpl in *.
  eapply only_output_trans; [done|]. by eapply read_other_only_output.
Qed.

Lemma fill_grid_only_output T ds p (r r' : Reader) :
  fill_grid NDEBUG T ds p r = Ok r' → only_output r r'.
Proof.
  unfold fill_grid. intros H.
  apply bind_Ok in H as (r1 & H1 & H). apply place_grid_only_output in H1.
  apply bind_Ok in H as (r2 & H2 & H). apply Convert_only_output in H2.
  apply bind_Ok in H as (r3 & H3 & H).
  assert (only_output r2 r3) as H3'.
  { destruct (UniformGridData r2); [|done]. by injection H3 as <-. }
  apply bind_Ok in H as (raw & _ & H).
  apply bind_Ok in H as ([[g4 w4] r4] & H4 & H).
  apply read_others_only_output in H4. simpl in H.
  assert (only_output r4 r') as H5.
  { destruct (negb _); [by eapply name_categories_only_output|by injection H as <-]. }
  repeat (eapply only_output_trans; [eassumption|]). done.
Qed.

(** *** The first loop *)

(** The flag and the value that the first loop stores for band i, and the
    roles after band i. *)
Definition flag_step (ds : @GDALDataset double RAW) (h : list Z) (i : Z) : list Z :=
  match GetRasterBand ds i with
  | Some band => <[Z.to_nat (int_sub i 1) := NoDataFlag band]> h
  | None => h
  end.

Definition value_step (ds : @GDALDataset double RAW) (v : list double) (i : Z)
  : list double :=
  match GetRasterBand ds i with
  | Some band => <[Z.to_nat (int_sub i 1) := NoDataResult band]> v
  | None => v
  end.

Definition role_step (ds : @GDALDataset double RAW) (b : BandRoles) (i : Z)
  : BandRoles :=
  match GetRasterBand ds i with
  | Some band =>
      assign_role (ColorInterpretation band) i
        (set_otherIndex (otherIndex b ++ [i]) b)
  | None => b
  end.

(** The condition under which the body of the first loop does not go
    wrong for band i, the vectors having [n] elements. *)
Definition band_in_range (ds : @GDALDataset double RAW) (n m : nat) (i : Z) : Prop :=
  is_Some (GetRasterBand ds i) ∧
  0 <= int_sub i 1 ∧ (Z.to_nat (int_sub i 1) < n)%nat ∧
  (Z.to_nat (int_sub i 1) < m)%nat.

Lemma vec_set_Ok {A : Type} (v : list A) k x v' :
  vec_set v k x = Ok v' ↔
  0 <= k ∧ (Z.to_nat k < length v)%nat ∧ v' = <[Z.to_nat k := x]> v.
Proof.
  unfold vec_set. destruct (k <? 0) eqn:Hk.
  - split; [done|]. lia.
  - destruct (Z.to_nat k <? length v)%nat eqn:Hl.
    + apply Nat.ltb_lt in Hl. split; [by intros [= <-]; repeat split; lia|].
      by intros (_ & _ & ->).
    + apply Nat.ltb_ge in Hl. split; [done|]. lia.
Qed.

Lemma classify_band_Ok ds i b (r : Reader) b' r' :
  classify_band ds i (b, r) = Ok (b', r') ↔
  band_in_range ds (length (HasNoDataValue r)) (length (NoDataValue r)) i ∧
  b' = role_step ds b i ∧
  r' = set_NoDataValue (value_step ds (NoDataValue r) i)
         (set_HasNoDataValue (flag_step ds (HasNoDataValue r) i) r).
Proof.
  unfold classify_band, band_in_range, role_step, flag_step, value_step.
  destruct (GetRasterBand ds i) as [band|]; [|split; [done|by intros [[[] _] _]]].
  split.
  - intros H. apply bind_Ok in H as (h1 & H1 & H).
    apply bind_Ok in H as (h2 & H2 & H). apply bind_Ok in H as (v1 & H3 & H).
    injection H as <- <-.
    apply vec_set_Ok in H1 as (? & ? & ->). apply vec_set_Ok in H2 as (? & ? & ->).
    apply vec_set_Ok in H3 as (? & ? & ->).
    rewrite list_insert_insert_eq. repeat split; eauto.
  - intros ((_ & ? & ? & ?) & -> & ->).
    rewrite (proj2 (vec_set_Ok (HasNoDataValue r) _ 0 _)) by done. simpl.
    rewrite (proj2 (vec_set_Ok _ _ (NoDataFlag band) _))
      by (rewrite length_insert; done). simpl.
    rewrite (proj2 (vec_set_Ok (NoDataValue r) _ (NoDataResult band) _)) by done.
    simpl. by rewrite list_insert_insert_eq.
Qed.

Lemma flag_step_length ds h i : length (flag_step ds h i) = length h.
Proof. unfold flag_step. case_match; [apply length_insert|done]. Qed.

Lemma value_step_length ds v i : length (value_step ds v i) = length v.
Proof. unfold value_step. case_match; [apply length_insert|done]. Qed.

Lemma fold_flag_step_length ds l h : length (foldl (flag_step ds) h l) = length h.
Proof.
  revert h. induction l as [|i l IH]; intros h; simpl; [done|].
  by rewrite IH, flag_step_length.
Qed.

Lemma fold_value_step_length ds l v : length (foldl (value_step ds) v l) = length v.
Proof.
  revert v. induction l as [|i l IH]; intros v; simpl; [done|].
  by rewrite IH, value_step_length.
Qed.

(** The first loop writes the two no-data vectors only; it does not go
    wrong exactly when every band is in range. *)
Lemma classify_loop_Ok ds l b (r : Reader) b' r' :
  for_each l (classify_band ds) (b, r) = Ok (b', r') ↔
  Forall (band_in_range ds (length (HasNoDataValue r)) (length (NoDataValue r))) l ∧
  b' = foldl (role_step ds) b l ∧
  r' = set_NoDataValue (foldl (value_step ds) (NoDataValue r) l)
         (set_HasNoDataValue (foldl (flag_step ds) (HasNoDataValue r) l) r).
Proof.
  revert b r. induction l as [|i l IH]; intros b r; simpl.
  - split; [by intros [= <- <-]|by intros (_ & -> & ->)].
  - rewrite bind_Ok. split.
    + intros ([b1 r1] & H1 & H). apply classify_band_Ok in H1 as (Hi & -> & ->).
      apply IH in H as (Hl & -> & ->). simpl in *.
      rewrite flag_step_length, value_step_length in Hl.
      split; [by constructor|]. done.
    + intros (Hl & -> & ->). apply Forall_cons in Hl as [Hi Hl].
      eexists (_, _). split; [by apply classify_band_Ok|].
      apply IH. simpl. rewrite flag_step_length, value_step_length. done.
Qed.

(** Point writes of values that depend on the position only: writing them
    all a second time changes nothing. *)
Lemma fold_insert_absorb {A V : Type} (idx : A → nat) (val : A → V) l x (h : list V) :
  <[idx x := val x]> (foldl (λ h i, <[idx i := val i]> h) (<[idx x := val x]> h) l)
  = <[idx x := val x]> (foldl (λ h i, <[idx i := val i]> h) h l).
Proof.
  revert h. induction l as [|z l IH]; intros h; simpl.
  - apply list_insert_insert_eq.
  - destruct (decide (idx z = idx x)) as [Heq|Hne].
    + rewrite Heq. by rewrite list_insert_insert_eq.
    + rewrite list_insert_insert_ne by done. apply IH.
Qed.

Lemma fold_insert_idem {A V : Type} (idx : A → nat) (val : A → V) l (h : list V) :
  foldl (λ h i, <[idx i := val i]> h) (foldl (λ h i, <[idx i := val i]> h) h l) l
  = foldl (λ h i, <[idx i := val i]> h) h l.
Proof.
  revert h. induction l as [|x l IH] using rev_ind; intros h; [done|].
  rewrite !foldl_app. simpl. rewrite fold_insert_absorb. by rewrite IH.
Qed.

Lemma fold_flag_step_idem ds l h :
  Forall (λ i, is_Some (GetRasterBand ds i)) l →
  foldl (flag_step ds) (foldl (flag_step ds) h l) l = foldl (flag_step ds) h l.
Proof.
  intros Hl.
  set (val i := match GetRasterBand ds i with
                | Some band => NoDataFlag band | None => 0 end).
  assert (Hfold : ∀ k h, Forall (λ i, is_Some (GetRasterBand ds i)) k →
            foldl (flag_step ds) h k
            = foldl (λ h i, <[Z.to_nat (int_sub i 1) := val i]> h) h k).
  { clear. intros k. induction k as [|i k IH]; intros h Hk; [done|].
    apply Forall_cons in Hk as [[band Hi] Hk]. simpl.
    rewrite IH by done. f_equal. unfold flag_step, val. by rewrite Hi. }
  rewrite !Hfold by done. apply fold_insert_idem.
Qed.

Lemma fold_value_step_idem ds l v :
  Forall (λ i, is_Some (GetRasterBand ds i)) l →
  foldl (value_step ds) (foldl (value_step ds) v l) l = foldl (value_step ds) v l.
Proof.
  intros Hl.
  set (val i := match GetRasterBand ds i with
                | Some band => NoDataResult band | None => double_of_int 0 end).
  assert (Hfold : ∀ k v, Forall (λ i, is_Some (GetRasterBand ds i)) k →
            foldl (value_step ds) v k
            = foldl (λ v i, <[Z.to_nat (int_sub i 1) := val i]> v) v k).
  { clear -val. intros k. induction k as [|i k IH]; intros v Hk; [done|].
    apply Forall_cons in Hk as [[band Hi] Hk]. simpl.
    rewrite IH by done. f_equal. unfold value_step, val. by rewrite Hi. }
  rewrite !Hfold by done. apply fold_insert_idem.
Qed.

(** *** The reads of the primary group *)

(** Two readers describe the same windowed read. *)
Definition same_window (r1 r2 : Reader) : Prop :=
  TargetDimensions r1 = TargetDimensions r2 ∧
  NumberOfBytesPerPixel r1 = NumberOfBytesPerPixel r2 ∧
  TargetDataType r1 = TargetDataType r2 ∧
  SourceOffset r1 = SourceOffset r2 ∧
  SourceDimensions r1 = SourceDimensions r2.

Lemma read_band_same T ds (r1 r2 : Reader) ps ls band slot raw :
  same_window r1 r2 →
  read_band NDEBUG T ds r1 ps ls band slot raw
  = read_band NDEBUG T ds r2 ps ls band slot raw.
Proof.
  intros (H1 & H2 & H3 & H4 & H5). unfold read_band.
  by rewrite H1, H2, H3, H4, H5.
Qed.

Lemma read_group_same T ds (r1 r2 : Reader) ps ls group raw :
  same_window r1 r2 →
  read_group NDEBUG T ds r1 ps ls group raw
  = read_group NDEBUG T ds r2 ps ls group raw.
Proof.
  intros Hs. unfold read_group. apply for_each_ext.
  intros [b k] w _. by apply read_band_same.
Qed.

(** The number of components that [read_primary] sets on the reader: that
    of the primary group, if there is one. *)
Definition components_of (b : BandRoles) : option Z :=
  if negb (redIndex b =? 0) && negb (greenIndex b =? 0) && negb (blueIndex b =? 0)
  then (if negb (alphaIndex b =? 0) then Some 4 else Some 3)
  else if negb (grayIndex b =? 0)
  then (if negb (alphaIndex b =? 0) then Some 2 else Some 1)
  else if negb (paletteIndex b =? 0) then Some 1
  else None.

Definition with_components (k : option Z) (r : Reader) : Reader :=
  match k with
  | Some k => set_NumberOfScalarComponents k r
  | None => r
  end.

Lemma read_primary_state T ds b (r : Reader) p r' :
  read_primary NDEBUG T ds b r = Ok (p, r') →
  r' = with_components (components_of b) r.
Proof.
  unfold read_primary, components_of, with_components.
  repeat case_match; intros Hrp;
    repeat (apply bind_Ok in Hrp as (? & _ & Hrp));
    repeat case_match; try discriminate;
    repeat (apply bind_Ok in Hrp as (? & _ & Hrp));
    by injection Hrp as <- <-.
Qed.

Lemma read_primary_same T ds b (r1 r2 : Reader) :
  same_window r1 r2 →
  fst <$> read_primary NDEBUG T ds b r1 = fst <$> read_primary NDEBUG T ds b r2.
Proof.
  intros Hs.
  assert (Hk : ∀ k, same_window (set_NumberOfScalarComponents k r1)
                                (set_NumberOfScalarComponents k r2)) by done.
  destruct Hs as (H1 & H2 & H3 & H4 & H5).
  unfold read_primary. rewrite H1, H2.
  repeat case_match; try done;
    repeat (match goal with
            | |- context [mbind _ (move_to_group ?i ?st)] =>
                destruct (move_to_group i st); simpl; [|done..]
            | |- context [mbind _ (vec_resize ?v ?n ?x)] =>
                destruct (vec_resize v n x); simpl; [|done..]
            end);
    rewrite ?(read_group_same _ _ _ _ _ _ _ _ (Hk _));
    repeat (match goal with
            | |- context [mbind _ (read_group ?a ?b ?c ?d ?e ?f ?g ?h)] =>
                destruct (read_group a b c d e f g h); simpl; [|done..]
            end);
    repeat case_match; simpl; try done;
    repeat (match goal with
            | |- context [mbind _ (ReadColorTable ?a ?b)] =>
                destruct (ReadColorTable a b); simpl; [|done..]
            end); done.
Qed.

(** *** The corner points *)

Lemma GetGeoCornerPoint_same (r1 r2 : Reader) d x y :
  GDALData r1 = GDALData r2 →
  GetGeoCornerPoint r1 d x y = GetGeoCornerPoint r2 d x y.
Proof. intros H. unfold GetGeoCornerPoint. by rewrite H. Qed.

Lemma GetGeoCornerPoint_outcome (r : Reader) ds x y :
  GDALData r = Some ds →
  GetGeoCornerPoint r (GDALData r) x y = Undefined ∨
  ∃ b p, GetGeoCornerPoint r (GDALData r) x y = Ok (b, Some p).
Proof.
  intros Hds. unfold GetGeoCornerPoint. rewrite Hds.
  destruct (GCPProjection ds), (GCPs ds) as [gcps|];
    try (right; destruct (GeoTransform ds) as [[] [[[[[? ?] ?] ?] ?] ?]]; by eexists _, _).
  destruct (gcp_corner gcps x y) as [geo| |] eqn:Hg; simpl.
  - right. by eexists _, _.
  - exfalso. revert Hg. unfold gcp_corner, for_range.
    apply for_each_Aborted_free. intros i geo _.
    unfold vec_at. destruct (i <? 0); simpl; [done|].
    destruct (gcps !! Z.to_nat i); simpl; [by case_match|done].
  - by left.
Qed.

Lemma GetGeoCornerPoints_unfold (r : Reader) :
  let W := double_of_int (fst (RasterDimensions r)) in
  let H := double_of_int (snd (RasterDimensions r)) in
  let zero := double_of_int 0 in
  GetGeoCornerPoints r
  = (p0 ← GetGeoCornerPoint r (GDALData r) zero zero;
     p1 ← GetGeoCornerPoint r (GDALData r) zero H;
     p2 ← GetGeoCornerPoint r (GDALData r) W H;
     p3 ← GetGeoCornerPoint r (GDALData r) W zero;
     Ok (set_CornerPoints
           (store_corner 3 p3.2 (store_corner 2 p2.2 (store_corner 1 p1.2
              (store_corner 0 p0.2 (CornerPoints r))))) r)).
Proof. reflexivity. Qed.

(** With a dataset, [GetGeoCornerPoints] replaces the four corners by
    values that depend on the dataset and the raster dimensions only. *)
Lemma GetGeoCornerPoints_Ok (r r' : Reader) ds :
  GDALData r = Some ds →
  GetGeoCornerPoints r = Ok r' →
  ∃ cp, r' = set_CornerPoints cp r ∧
        ∀ r2 : Reader, GDALData r2 = Some ds →
          RasterDimensions r2 = RasterDimensions r →
          GetGeoCornerPoints r2 = Ok (set_CornerPoints cp r2).
Proof.
  intros Hds. rewrite GetGeoCornerPoints_unfold. cbv zeta.
  set (W := double_of_int (fst (RasterDimensions r))).
  set (H := double_of_int (snd (RasterDimensions r))).
  set (zero := double_of_int 0).
  destruct (GetGeoCornerPoint_outcome r ds zero zero Hds) as [E0|(b0 & p0 & E0)];
    rewrite E0; simpl; [done|].
  destruct (GetGeoCornerPoint_outcome r ds zero H Hds) as [E1|(b1 & p1 & E1)];
    rewrite E1; simpl; [done|].
  destruct (GetGeoCornerPoint_outcome r ds W H Hds) as [E2|(b2 & p2 & E2)];
    rewrite E2; simpl; [done|].
  destruct (GetGeoCornerPoint_outcome r ds W zero Hds) as [E3|(b3 & p3 & E3)];
    rewrite E3; simpl; [done|].
  intros [= <-]. eexists. split; [reflexivity|].
  intros r2 Hds2 HRD. rewrite GetGeoCornerPoints_unfold. cbv zeta.
  rewrite HRD. fold W H zero.
  assert (HG : GDALData r2 = GDALData r) by congruence.
  rewrite !(GetGeoCornerPoint_same r2 r _ _ _ HG), HG.
  rewrite E0. simpl. rewrite E1. simpl. rewrite E2. simpl. rewrite E3. done.
Qed.

(** *** The projection string is not looked at *)

Lemma place_grid_Projection P (r : Reader) :
  place_grid (set_Projection P r) = set_Projection P <$> place_grid r.
Proof. unfold place_grid. simpl. by destruct (UniformGridData r). Qed.

Lemma Convert_Projection P T raw W H group name fx fy (r : Reader) :
  Convert T raw W H group name fx fy (set_Projection P r)
  = set_Projection P <$> Convert T raw W H group name fx fy r.
Proof.
  unfold Convert. simpl. destruct (UniformGridData r); [|done].
  destruct (vec_at raw 0); simpl; [|done..].
  by destruct (Convert_loops _ _ _ _ _ _ _ _ _ _).
Qed.

Definition retouch_other P (st : list Z * list RAW * Reader)
  : list Z * list RAW * Reader :=
  (st.1.1, st.1.2, set_Projection P st.2).

Lemma read_other_Projection P T ds b i st :
  read_other NDEBUG T ds b i (retouch_other P st)
  = retouch_other P <$> read_other NDEBUG T ds b i st.
Proof.
  destruct st as [[g w] r]. unfold read_other, retouch_other. osimpl.
  destruct (vec_at (otherIndex b) i) as [idx| |]; osimpl; [|done..].
  destruct (idx =? 0); [done|].
  destruct (vec_set g 0 idx); osimpl; [|done..].
  rewrite (read_band_same T ds (set_Projection P r) r) by done.
  destruct (read_band _ _ _ _ _ _ _ _ _); osimpl; [|done..].
  change (flipX (set_Projection P r)) with (flipX r).
  change (flipY (set_Projection P r)) with (flipY r).
  rewrite Convert_Projection. by destruct (Convert _ _ _ _ _ _ _ _ _).
Qed.

Lemma read_others_Projection P T ds b l st :
  for_each l (read_other NDEBUG T ds b) (retouch_other P st)
  = retouch_other P <$> for_each l (read_other NDEBUG T ds b) st.
Proof.
  revert st. induction l as [|i l IH]; intros st; cbn [for_each]; [done|].
  rewrite read_other_Projection.
  destruct (read_other _ _ _ _ _ _); osimpl; [apply IH|done..].
Qed.

Lemma name_categories_Projection P table (r : Reader) :
  name_categories table (set_Projection P r)
  = set_Projection P <$> name_categories table r.
Proof.
  unfold name_categories. simpl. by repeat case_match.
Qed.

Lemma fill_grid_Projection P T ds p (r : Reader) :
  fill_grid NDEBUG T ds p (set_Projection P r)
  = set_Projection P <$> fill_grid NDEBUG T ds p r.
Proof.
  unfold fill_grid.
  change (TargetDimensions (set_Projection P r)) with (TargetDimensions r).
  change (NumberOfBytesPerPixel (set_Projection P r))
    with (NumberOfBytesPerPixel r).
  rewrite place_grid_Projection.
  destruct (place_grid r) as [r1| |]; osimpl; [|done..].
  change (flipX (set_Projection P r1)) with (flipX r1).
  change (flipY (set_Projection P r1)) with (flipY r1).
  rewrite Convert_Projection.
  destruct (Convert _ _ _ _ _ _ _ _ _) as [r2| |]; osimpl; [|done..].
  change (UniformGridData (set_Projection P r2)) with (UniformGridData r2).
  destruct (UniformGridData r2) as [g|]; osimpl; [|done].
  destruct (vec_resize _ _ _) as [raw| |]; osimpl; [|done..].
  unfold for_range.
  change (resize_fill (groupIndex p) 1 0, raw,
          set_UniformGridData (Some (SetActiveScalars "Elevation" g))
            (set_Projection P r2))
    with (retouch_other P
            (resize_fill (groupIndex p) 1 0, raw,
             set_UniformGridData (Some (SetActiveScalars "Elevation" g)) r2)).
  rewrite read_others_Projection.
  destruct (for_each _ _ _) as [[[g4 w4] r4]| |]; osimpl; [|done..].
  destruct (negb _); [|done]. apply name_categories_Projection.
Qed.

(** *** ReadData a second time *)

Lemma select_type_Ok ds (r ra : Reader) :
  select_type ds r = Ok ra →
  ra = set_NumberOfBytesPerPixel (NumberOfBytesPerPixel ra)
         (set_TargetDataType (TargetDataType ra) r) ∧
  ∀ r2 : Reader, NumberOfBytesPerPixel r2 = NumberOfBytesPerPixel ra →
    TargetDataType r2 = TargetDataType ra →
    select_type ds r2 = Ok r2.
Proof.
  unfold select_type. destruct (NumberOfBytesPerPixel r =? 0) eqn:Hn.
  - destruct (GetRasterBand ds 1) as [band|]; [|done]. intros [= <-].
    split; [done|]. simpl. intros r2 H1 H2.
    destruct (NumberOfBytesPerPixel r2 =? 0); [|done].
    f_equal. rewrite <- H1, <- H2. done.
  - intros [= <-]. split; [done|]. intros r2 H1 H2. by rewrite H1, Hn.
Qed.

(** After [ReadData] has succeeded on an opened dataset, running it
    again gives the same reader, whatever was done in between to the
    output grid, the count of live cells and the projection string (which
    is kept). *)
Lemma ReadData_again f (r r1 : Reader) ds P g c :
  GDALData r = Some ds →
  ReadData NDEBUG f r = Ok r1 →
  ReadData NDEBUG f
    (set_Projection P (set_UniformGridData g (set_NumberOfCells c r1)))
  = Ok (set_Projection P r1).
Proof.
  intros Hds H. unfold ReadData in H. rewrite Hds in H.
  apply bind_Ok in H as (ra & Hsel & H).
  apply select_type_Ok in Hsel as [Hra Hsel].
  set (T := scalar_type_for (TargetDataType ra)) in *.
  cbn [TargetDataType set_NumberOfCells set_UniformGridData] in H. fold T in H.
  set (rb := set_DataScalarType T
               (set_NumberOfCells 0 (set_UniformGridData (Some vtkUniformGrid_New) ra)))
    in *.
  unfold GenericReadData in H.
  assert (Hdsb : GDALData rb = Some ds) by (subst rb; rewrite Hra; exact Hds).
  rewrite Hdsb in H.
  apply bind_Ok in H as ([b rc] & Hcls & H).
  apply bind_Ok in H as ([p rd] & Hprim & H).
  apply bind_Ok in H as (re & Hgeo & Hfill). cbn [fst snd] in *.
  unfold classify_bands, for_range in Hcls.
  set (l := seqZ 1 (NumberOfBands rb + 1 - 1)) in *.
  apply classify_loop_Ok in Hcls as (Hl & Hb & Hrc).
  pose proof (read_primary_state _ _ _ _ _ _ Hprim) as Hrd.
  assert (Hdsd : GDALData rd = Some ds) by (subst rd rc; by destruct (components_of b)).
  destruct (GetGeoCornerPoints_Ok rd re ds Hdsd Hgeo) as (cp & Hre & Hgeo2).
  pose proof (only_output_eq _ _ (fill_grid_only_output _ _ _ _ _ Hfill)) as Hr1.
  set (G1 := UniformGridData r1) in *. set (C1 := NumberOfCells r1) in *.
  clearbody G1 C1.
  set (Hn := foldl (flag_step ds) (HasNoDataValue rb) l) in *.
  set (V := foldl (value_step ds) (NoDataValue rb) l) in *.
  set (k := components_of b) in *.
  (* the second run *)
  set (r2 := set_Projection P (set_UniformGridData g (set_NumberOfCells c r1))).
  unfold ReadData.
  assert (Hds2 : GDALData r2 = Some ds).
  { subst r2. rewrite Hr1, Hre, Hrd, Hrc. by destruct k. }
  rewrite Hds2.
  rewrite (Hsel r2)
    by (subst r2; rewrite Hr1, Hre, Hrd, Hrc; by destruct k).
  osimpl.
  assert (HT2 : scalar_type_for (TargetDataType r2) = T)
    by (subst r2; rewrite Hr1, Hre, Hrd, Hrc; by destruct k).
  cbn [TargetDataType set_NumberOfCells set_UniformGridData]. rewrite HT2.
  set (rb2 := set_DataScalarType T
                (set_NumberOfCells 0
                   (set_UniformGridData (Some vtkUniformGrid_New) r2))).
  assert (Hrb2 : rb2 = set_Projection P (set_CornerPoints cp rd)).
  { subst rb2 r2. rewrite Hr1, Hre, Hrd, Hrc. by destruct k. }
  assert (Hrb2' : rb2 = set_NoDataValue V (set_HasNoDataValue Hn rb2)).
  { rewrite Hrb2, Hrd, Hrc. by destruct k. }
  unfold GenericReadData.
  assert (Hdsb2 : GDALData rb2 = Some ds)
    by (rewrite Hrb2, Hrd, Hrc; by destruct k).
  rewrite Hdsb2.
  assert (Hcls2 : classify_bands ds rb2 = Ok (b, rb2)).
  { unfold classify_bands, for_range.
    assert (HNB : NumberOfBands rb2 = NumberOfBands rb)
      by (rewrite Hrb2, Hrd, Hrc; by destruct k).
    rewrite HNB. fold l. apply classify_loop_Ok.
    assert (HH : HasNoDataValue rb2 = Hn) by (rewrite Hrb2'; done).
    assert (HV : NoDataValue rb2 = V) by (rewrite Hrb2'; done).
    rewrite HH, HV. subst Hn V.
    rewrite fold_flag_step_length, fold_value_step_length.
    split; [done|]. split; [done|].
    assert (Hsome : Forall (λ i, is_Some (GetRasterBand ds i)) l).
    { eapply Forall_impl; [exact Hl|]. by intros i (? & _). }
    rewrite fold_flag_step_idem, fold_value_step_idem by done.
    exact Hrb2'. }
  rewrite Hcls2. osimpl.
  assert (Hsame : same_window rc rb2).
  { rewrite Hrb2, Hrd. unfold same_window. by destruct k. }
  pose proof (read_primary_same T ds b rc rb2 Hsame) as Hp.
  rewrite Hprim in Hp. cbn [fmap outcome_fmap fst] in Hp.
  destruct (read_primary NDEBUG T ds b rb2) as [[p2 rd2]| |] eqn:Hprim2;
    cbn [fmap outcome_fmap fst] in Hp; [|done..].
  injection Hp as <-.
  pose proof (read_primary_state _ _ _ _ _ _ Hprim2) as Hrd2. fold k in Hrd2.
  osimpl.
  assert (Hrd2' : rd2 = set_Projection P (set_CornerPoints cp rd)).
  { rewrite Hrd2, Hrb2, Hrd. by destruct k. }
  rewrite (Hgeo2 rd2) by (rewrite Hrd2'; done). osimpl.
  assert (Hre2 : set_CornerPoints cp rd2 = set_Projection P re)
    by (rewrite Hrd2', Hre; done).
  rewrite Hre2, fill_grid_Projection, Hfill. done.
Qed.

(** The fields that [ReadData] leaves as they are, and the lengths of the
    no-data vectors. *)
Lemma ReadData_shape f (r r1 : Reader) ds :
  GDALData r = Some ds →
  ReadData NDEBUG f r = Ok r1 →
  ∃ t n hnd ndv k cp,
    r1 = set_UniformGridData (UniformGridData r1)
           (set_NumberOfCells (NumberOfCells r1)
              (set_CornerPoints cp
                 (with_components k
                    (set_NoDataValue ndv
                       (set_HasNoDataValue hnd
                          (set_DataScalarType (scalar_type_for t)
                             (set_NumberOfBytesPerPixel n
                                (set_TargetDataType t r)))))))) ∧
    length hnd = length (HasNoDataValue r) ∧
    length ndv = length (NoDataValue r) ∧
    is_Some (UniformGridData r1).
Proof.
  intros Hds H. unfold ReadData in H. rewrite Hds in H.
  apply bind_Ok in H as (ra & Hsel & H).
  apply select_type_Ok in Hsel as [Hra _].
  set (T := scalar_type_for (TargetDataType ra)) in *.
  cbn [TargetDataType set_NumberOfCells set_UniformGridData] in H. fold T in H.
  set (rb := set_DataScalarType T
               (set_NumberOfCells 0 (set_UniformGridData (Some vtkUniformGrid_New) ra)))
    in *.
  unfold GenericReadData in H.
  assert (Hdsb : GDALData rb = Some ds) by (subst rb; rewrite Hra; exact Hds).
  rewrite Hdsb in H.
  apply bind_Ok in H as ([b rc] & Hcls & H).
  apply bind_Ok in H as ([p rd] & Hprim & H).
  apply bind_Ok in H as (re & Hgeo & Hfill). cbn [fst snd] in *.
  unfold classify_bands, for_range in Hcls.
  apply classify_loop_Ok in Hcls as (Hl & Hb & Hrc).
  pose proof (read_primary_state _ _ _ _ _ _ Hprim) as Hrd.
  assert (Hdsd : GDALData rd = Some ds) by (subst rd rc; by destruct (components_of b)).
  destruct (GetGeoCornerPoints_Ok rd re ds Hdsd Hgeo) as (cp & Hre & _).
  pose proof (only_output_eq _ _ (fill_grid_only_output _ _ _ _ _ Hfill)) as Hr1.
  assert (Hgrid : is_Some (UniformGridData r1)).
  { revert Hfill. unfold fill_grid. intros Hfill.
    apply bind_Ok in Hfill as (r3 & _ & Hfill).
    apply bind_Ok in Hfill as (r4 & _ & Hfill).
    apply bind_Ok in Hfill as (r5 & H5 & Hfill).
    destruct (UniformGridData r4); [|done]. injection H5 as <-.
    apply bind_Ok in Hfill as (raw & _ & Hfill).
    apply bind_Ok in Hfill as ([[g6 w6] r6] & H6 & Hfill). cbn [snd] in Hfill.
    assert (H6' : is_Some (UniformGridData r6)).
    { apply (for_each_Ok_inv (λ st, is_Some (UniformGridData st.2)) _ _ _ _ H6);
        [done|].
      intros i [[g7 w7] r7] [[g8 w8] r8] _ Hr7. unfold read_other.
      intros Hi. apply bind_Ok in Hi as (idx & _ & Hi).
      destruct (idx =? 0); [by injection Hi as <- <- <-|].
      apply bind_Ok in Hi as (? & _ & Hi). apply bind_Ok in Hi as (? & _ & Hi).
      apply bind_Ok in Hi as (r9 & HC & [= <- <- <-]). simpl in *.
      revert HC. unfold Convert. destruct (UniformGridData r7); [|by destruct Hr7].
      intros HC. apply bind_Ok in HC as (? & _ & HC).
      by apply bind_Ok in HC as (? & _ & [= <-]). }
    destruct (negb _); [|by injection Hfill as <-].
    revert Hfill. unfold name_categories. repeat case_match; try done.
    by intros [= <-]. }
  exists (TargetDataType ra), (NumberOfBytesPerPixel ra),
    (foldl (flag_step ds) (HasNoDataValue rb) (seqZ 1 (NumberOfBands rb + 1 - 1))),
    (foldl (value_step ds) (NoDataValue rb) (seqZ 1 (NumberOfBands rb + 1 - 1))),
    (components_of b), cp.
  split; [|split; [|split; [|done]]].
  - etrans; [exact Hr1|]. rewrite Hre, Hrd, Hrc. rewrite <- Hra. fold T.
    by destruct (components_of b).
  - rewrite fold_flag_step_length. subst rb. by rewrite Hra.
  - rewrite fold_value_step_length. subst rb. by rewrite Hra.
Qed.

End Frames.

(** ** Produce twice *)

Section Produce.

Context {double RAW : Type} `{!DoubleOps double} `{!RawOps double RAW}.
Local Abbreviation Reader := (@vtkGDALRasterReader double RAW).
Variable exportToProj4 : string → string.
Variable NDEBUG : bool.

Lemma ReadData_no_dataset f (r : Reader) :
  GDALData r = None → ReadData NDEBUG f r = Ok r.
Proof. intros H. unfold ReadData. by rewrite H. Qed.

Lemma ReadData_fields f (r r1 : Reader) :
  ReadData NDEBUG f r = Ok r1 →
  GDALData r1 = GDALData r ∧ FileName r1 = FileName r ∧
  NumberOfBands r1 = NumberOfBands r ∧
  length (HasNoDataValue r1) = length (HasNoDataValue r) ∧
  length (NoDataValue r1) = length (NoDataValue r).
Proof.
  destruct (GDALData r) as [ds|] eqn:Hds.
  - intros H.
    destruct (ReadData_shape NDEBUG f r r1 ds Hds H)
      as (t & n & hnd & ndv & k & cp & Hr1 & Hh & Hv & _).
    rewrite Hr1. destruct k; simpl; rewrite ?Hds; done.
  - intros H. rewrite ReadData_no_dataset in H by done. injection H as <-.
    by rewrite Hds.
Qed.

(** C5. When a Produce call ([RequestData]) has returned, a second call on
    the reader and the output it left returns too, with the same return
    value, the same output grid (arrays, blanking and field data alike) and
    the same reader, hence the same count of live cells: repeating Produce
    without touching extent, target size or path changes nothing. *)
Theorem RequestData_twice out (r : Reader) rv r1 out1 :
  RequestData exportToProj4 NDEBUG out r = Ok (rv, r1, out1) →
  ∃ r2 out2,
    RequestData exportToProj4 NDEBUG out1 r1 = Ok (rv, r2, out2) ∧
    out2 = out1 ∧
    UniformGridData r2 = UniformGridData r1 ∧
    GetNumberOfCells r2 = GetNumberOfCells r1 ∧
    r2 = r1.
Proof.
  intros H.
  enough (H2 : RequestData exportToProj4 NDEBUG out1 r1 = Ok (rv, r1, out1))
    by (by exists r1, out1).
  revert H. unfold RequestData.
  destruct (FileName r) as [f|] eqn:Hf; [|done].
  intros H. apply bind_Ok in H as (rd & Hrd & H).
  destruct (ReadData_fields f r rd Hrd) as (HG & HF & HNB & _ & _).
  destruct (GDALData r) as [ds|] eqn:Hds.
  - rewrite HG in H.
    set (P := exportToProj4 (ProjectionRef ds)) in *.
    cbn [UniformGridData set_Projection NumberOfBands Projection] in H.
    destruct (UniformGridData rd) as [g|] eqn:Hg; [|done].
    apply bind_Ok in H as (vals & Hvals & H).
    set (gf := AddFieldArray (vtkDoubleArray "NO_DATA_VALUE" vals)
                 (AddFieldArray (vtkStringArray "MAP_PROJECTION" [P]) g)) in *.
    set (rfin := set_UniformGridData (Some gf) (set_Projection P rd)) in *.
    assert (Hagain : ReadData NDEBUG f rfin = Ok (set_Projection P rd)).
    { apply (ReadData_again NDEBUG f r rd ds P (Some gf) (NumberOfCells rd) Hds Hrd). }
    assert (Hfin : RequestData exportToProj4 NDEBUG out1 rfin
                   = match out1 with
                     | Some (Some _) => Ok (1, rfin, Some (Some gf))
                     | _ => Ok (0, rfin, out1)
                     end).
    { unfold RequestData.
      change (FileName rfin) with (FileName rd). rewrite HF, Hf, Hagain. osimpl.
      change (GDALData (set_Projection P rd)) with (GDALData rd). rewrite HG.
      fold P.
      cbn [UniformGridData set_Projection NumberOfBands Projection].
      rewrite Hg, Hvals. osimpl. fold gf.
      by destruct out1 as [[?|]|]. }
    destruct out as [[g0|]|]; injection H as <- <- <-; exact Hfin.
  - rewrite ReadData_no_dataset in Hrd by done. injection Hrd as <-.
    rewrite Hds in H. injection H as <- <- <-.
    rewrite Hf, ReadData_no_dataset by done. osimpl. by rewrite Hds.
Qed.

End Produce.

(** ** A dataset without bands *)

Section NoBands.

Context {double RAW : Type} `{!DoubleOps double} `{!RawOps double RAW}.
Local Abbreviation Reader := (@vtkGDALRasterReader double RAW).
Variable exportToProj4 : string → string.
Variable NDEBUG : bool.

(** [Convert] reads element 0 of the buffer before its loops: with a grid
    to fill and an empty buffer the access is out of bounds. *)
Lemma Convert_empty_buffer_undefined T W H group name fx fy (r : Reader) :
  is_Some (UniformGridData r) →
  Convert T [] W H group name fx fy r = Undefined.
Proof. intros [g Hg]. unfold Convert. by rewrite Hg. Qed.

Lemma GetGeoCornerPoints_outcome (r : Reader) ds :
  GDALData r = Some ds →
  GetGeoCornerPoints r = Undefined ∨
  ∃ cp, GetGeoCornerPoints r = Ok (set_CornerPoints cp r).
Proof.
  intros Hds. rewrite GetGeoCornerPoints_unfold. cbv zeta.
  repeat match goal with
  | |- context [mbind _ (GetGeoCornerPoint r (GDALData r) ?x ?y)] =>
      let E := fresh "E" in
      destruct (GetGeoCornerPoint_outcome r ds x y Hds) as [E|(? & ? & E)];
      rewrite E; osimpl; [by left|]
  end.
  right. by eexists.
Qed.

Lemma ReadData_no_bands_undefined f (r : Reader) ds :
  GDALData r = Some ds → RasterBands ds = [] →
  ReadData NDEBUG f r = Undefined.
Proof.
  intros Hds Hbands. unfold ReadData. rewrite Hds.
  assert (Hnone : ∀ i, GetRasterBand ds i = None).
  { intros i. unfold GetRasterBand. rewrite Hbands. by case_match. }
  unfold select_type. cbv zeta. rewrite Hnone.
  destruct (NumberOfBytesPerPixel r =? 0); [done|]. osimpl.
  set (T := scalar_type_for _). set (rb := set_DataScalarType T _).
  unfold GenericReadData.
  change (GDALData rb) with (GDALData r). rewrite Hds.
  unfold classify_bands, for_range.
  destruct (seqZ 1 (NumberOfBands rb + 1 - 1)) as [|i l] eqn:Hl.
  - cbn [for_each]. osimpl.
    change (read_primary NDEBUG T ds no_roles rb)
      with (Ok ({| roles := no_roles; groupIndex := []; rawUniformGridData := [];
                   colorTable := vtkLookupTable_New |}, rb)
            : outcome (@PrimaryRead double RAW * Reader)).
    osimpl.
    destruct (GetGeoCornerPoints_outcome rb ds) as [->|(cp & ->)]; [done|done|].
    osimpl. unfold fill_grid, place_grid. osimpl.
    cbn [UniformGridData set_CornerPoints]. subst rb. cbn [UniformGridData set_DataScalarType set_NumberOfCells set_UniformGridData].
    osimpl. cbn [rawUniformGridData].
    rewrite Convert_empty_buffer_undefined; [done|]. by eexists.
  - cbn [for_each].
    assert (Hi : classify_band ds i (no_roles, rb) = Undefined)
      by (unfold classify_band; by rewrite Hnone).
    by rewrite Hi.
Qed.

(** C9 at a failing input, for every dataset without bands. Produce on an
    opened dataset of zero bands does not complete: [ReadData] asks band 1
    for its type, though there is none (null pointer), or, when a number of
    bytes per pixel is left from an earlier read, lets [Convert] read
    element 0 of the empty buffer. *)
Theorem RequestData_no_bands_undefined out (r : Reader) f ds :
  FileName r = Some f →
  GDALData r = Some ds →
  RasterBands ds = [] →
  RequestData exportToProj4 NDEBUG out r = Undefined.
Proof.
  intros Hf Hds Hbands. unfold RequestData.
  by rewrite Hf, (ReadData_no_bands_undefined f r ds).
Qed.

End NoBands.

(** ** GetInvalidValue *)

Section InvalidValue.

Context {double RAW : Type} `{!DoubleOps double} `{!RawOps double RAW}.
Local Abbreviation Reader := (@vtkGDALRasterReader double RAW).
Variable GDALOpen : string → option (@GDALDataset double RAW).
Variable exportToProj4 : string → string.
Variable NDEBUG : bool.

(** The readers that the public interface can produce: a new reader, the
    setters of the file name, the target dimensions and the extent, and the
    two pipeline passes. *)
Inductive reachable : Reader → Prop :=
  | reach_New : reachable vtkGDALRasterReader_New
  | reach_SetFileName r f : reachable r → reachable (set_FileName f r)
  | reach_SetTargetDimensions r d :
      reachable r → reachable (set_TargetDimensions d r)
  | reach_SetDataExtent r e : reachable r → reachable (set_DataExtent e r)
  | reach_RequestInformation r outInfo :
      reachable r → reachable (snd (RequestInformation GDALOpen outInfo r))
  | reach_RequestData r out rv r' out' :
      reachable r →
      RequestData exportToProj4 NDEBUG out r = Ok (rv, r', out') →
      reachable r'.

(** [GetRasterCount] returns an [int]. *)
Hypothesis count_is_int :
  ∀ f ds, GDALOpen f = Some ds → GetRasterCount ds <= INT_MAX.

(** The no-data vectors have one element per band of the dataset that was
    opened last. *)
Definition bands_consistent (r : Reader) : Prop :=
  0 <= NumberOfBands r <= INT_MAX ∧
  length (NoDataValue r) = Z.to_nat (NumberOfBands r) ∧
  length (HasNoDataValue r) = Z.to_nat (NumberOfBands r) ∧
  ∀ ds, GDALData r = Some ds → NumberOfBands r = GetRasterCount ds.

Lemma resize_fill_length {A : Type} (v : list A) n x :
  length (resize_fill v n x) = n.
Proof.
  unfold resize_fill. rewrite length_app, length_take, length_replicate. lia.
Qed.

Lemma ReadMetaData_consistent f (r : Reader) :
  bands_consistent r → bands_consistent (ReadMetaData GDALOpen f r).
Proof.
  intros (Hn & Hv & Hh & Hds). unfold ReadMetaData.
  destruct (String.eqb _ _); [done|].
  destruct (GDALOpen f) as [ds|] eqn:Hopen.
  - unfold bands_consistent. cbn. rewrite !resize_fill_length.
    pose proof (count_is_int f ds Hopen). unfold GetRasterCount in *.
    repeat split; try done; try lia. by intros ? [= <-].
  - unfold bands_consistent. simpl. repeat split; try done; lia.
Qed.

Lemma bands_consistent_ext (r r' : Reader) :
  NumberOfBands r' = NumberOfBands r → NoDataValue r' = NoDataValue r →
  HasNoDataValue r' = HasNoDataValue r → GDALData r' = GDALData r →
  bands_consistent r → bands_consistent r'.
Proof. unfold bands_consistent. by intros -> -> -> ->. Qed.

Lemma RequestInformation_consistent outInfo (r : Reader) :
  bands_consistent r →
  bands_consistent (snd (RequestInformation GDALOpen outInfo r)).
Proof.
  intros Hr. unfold RequestInformation.
  destruct outInfo; simpl; [|done].
  destruct (FileName r) as [f|]; [|done].
  pose proof (ReadMetaData_consistent f r Hr) as Hr1.
  set (r1 := ReadMetaData GDALOpen f r) in *.
  destruct (GDALData r1); [|done]. case_match; [done|]. simpl.
  assert (H2 : bands_consistent (default_target r1)).
  { apply bands_consistent_ext with r1; try done;
      unfold default_target; by case_match. }
  assert (H3 : bands_consistent (default_extent (default_target r1))).
  { apply bands_consistent_ext with (default_target r1); try done;
      unfold default_extent;
      destruct (DataExtent (default_target r1)) as [[[[[e0 ?] ?] ?] ?] ?];
      by case_match. }
  exact H3.
Qed.

Lemma RequestData_consistent out (r : Reader) rv r' out' :
  bands_consistent r →
  RequestData exportToProj4 NDEBUG out r = Ok (rv, r', out') →
  bands_consistent r'.
Proof.
  intros (Hn & Hv & Hh & Hds). unfold RequestData.
  destruct (FileName r) as [f|]; [|done].
  intros H. apply bind_Ok in H as (rd & Hrd & H).
  destruct (ReadData_fields NDEBUG f r rd Hrd) as (HG & _ & HNB & HHl & HVl).
  assert (Hrd' : bands_consistent rd).
  { unfold bands_consistent. rewrite HG, HNB, HHl, HVl. done. }
  destruct (GDALData rd); [|by injection H as <- <- <-].
  cbn [UniformGridData set_Projection] in H.
  destruct (UniformGridData rd); [|done].
  apply bind_Ok in H as (vals & _ & H).
  destruct out as [[?|]|]; injection H as <- <- <-; exact Hrd'.
Qed.

Lemma reachable_consistent (r : Reader) : reachable r → bands_consistent r.
Proof.
  induction 1 as [|r f _ IH|r d _ IH|r e _ IH|r b _ IH|r out rv r' out' _ IH HR].
  - unfold bands_consistent. simpl. unfold INT_MAX. repeat split; done.
  - exact IH.
  - exact IH.
  - exact IH.
  - by apply RequestInformation_consistent.
  - by eapply RequestData_consistent.
Qed.

(** C10. [GetInvalidValue(bandIndex)] reads [NoDataValue[bandIndex - 1]]
    without a bounds check. On every reader that the interface can
    produce the access is within the vector exactly when 1 <= bandIndex <=
    [NumberOfBands], which is the band count of the dataset when one is
    open and 0 on a new reader: for every other [int], 0 and the negative
    ones included, and for every [int] before a file was opened, the access
    is out of bounds. *)
Theorem GetInvalidValue_in_bounds_iff (r : Reader) (bandIndex : Z) :
  reachable r →
  is_int bandIndex →
  ((∃ v, GetInvalidValue bandIndex r = Ok v) ↔ 1 <= bandIndex <= NumberOfBands r) ∧
  (¬ (1 <= bandIndex <= NumberOfBands r) → GetInvalidValue bandIndex r = Undefined) ∧
  (∀ ds, GDALData r = Some ds → NumberOfBands r = GetRasterCount ds) ∧
  GetInvalidValue bandIndex (vtkGDALRasterReader_New : Reader) = Undefined.
Proof.
  intros Hr Hb. destruct (reachable_consistent r Hr) as (Hn & Hv & _ & Hds).
  assert (Hcases : (1 <= bandIndex <= NumberOfBands r ∧
                    ∃ v, GetInvalidValue bandIndex r = Ok v) ∨
                   (¬ (1 <= bandIndex <= NumberOfBands r) ∧
                    GetInvalidValue bandIndex r = Undefined)).
  { unfold GetInvalidValue, vec_at, int_sub, is_int, INT_MIN, INT_MAX in *.
    destruct (decide (1 <= bandIndex <= NumberOfBands r)) as [Hin|Hout].
    - left. split; [done|]. rewrite to_int_id by (unfold is_int, INT_MIN, INT_MAX; lia).
      destruct (bandIndex - 1 <? 0) eqn:Hneg; [lia|].
      destruct (lookup_lt_is_Some_2 (NoDataValue r) (Z.to_nat (bandIndex - 1)))
        as [v Hv']; [lia|]. rewrite Hv'. by exists v.
    - right. split; [done|].
      destruct (decide (bandIndex = -2147483648)) as [->|Hmin].
      + change (to_int (-2147483648 - 1)) with 2147483647. simpl.
        rewrite lookup_ge_None_2; [done|]. lia.
      + rewrite to_int_id by (unfold is_int, INT_MIN, INT_MAX; lia).
        destruct (bandIndex - 1 <? 0) eqn:Hneg; [done|].
        rewrite lookup_ge_None_2; [done|]. lia. }
  split; [|split; [|split]].
  - destruct Hcases as [[Hin Hok]|[Hout Hund]]; split; try done.
    intros [v Hv']. by rewrite Hund in Hv'.
  - destruct Hcases as [[Hin Hok]|[Hout Hund]]; done.
  - exact Hds.
  - unfold GetInvalidValue, vec_at. simpl. by case_match.
Qed.

End InvalidValue.

(** ** A band read that fails *)

Lemma for_each_Ok_elem {A S : Type} (I : S → Prop) (l : list A)
    (body : A → S → outcome S) s s' :
  for_each l body s = Ok s' →
  I s →
  (∀ x s s', x ∈ l → I s → body x s = Ok s' → I s') →
  ∀ x, x ∈ l → ∃ s1 s2, I s1 ∧ body x s1 = Ok s2.
Proof.
  revert s. induction l as [|y l IH]; intros s Hl Hs Hb x Hx.
  - by apply elem_of_nil in Hx.
  - simpl in Hl. apply bind_Ok in Hl as (s1 & Hy & Hl).
    apply elem_of_cons in Hx as [->|Hx]; [by exists s, s1|].
    apply (IH s1); [done| |by intros; eapply Hb; [right|..]|done].
    eapply Hb; [by left|done..].
Qed.

Section ReadFailure.

Context {double RAW : Type} `{!DoubleOps double} `{!RawOps double RAW}.
Local Abbreviation Reader := (@vtkGDALRasterReader double RAW).
Local Abbreviation Band := (@GDALRasterBand double RAW).
Variable exportToProj4 : string → string.

(** With assertions enabled, a read that returns has reported [CE_None]. *)
Lemma read_band_Ok_status T ds (r : Reader) ps ls i slot raw raw' :
  read_band false T ds r ps ls i slot raw = Ok raw' →
  ∃ band, GetRasterBand ds i = Some band ∧ ¬ read_fails band (window_of r).
Proof.
  unfold read_band. destruct (GetRasterBand ds i) as [band|]; [|done].
  destruct (RasterIO band _ _ _ _ _ _ _ _ _) as [err px] eqn:Hio.
  intros H. apply bind_Ok in H as (raw1 & _ & H).
  apply bind_Ok in H as ([] & Hassert & _).
  exists band. split; [done|]. intros Hfail.
  unfold assert in Hassert. case_bool_decide as Herr; [|done].
  apply (Hfail (TargetDataType r) ps ls). unfold window_of. simpl.
  by rewrite Hio.
Qed.

Lemma read_group_Ok_status T ds (r : Reader) ps ls group raw raw' i :
  read_group false T ds r ps ls group raw = Ok raw' →
  i ∈ group →
  ∃ band, GetRasterBand ds i = Some band ∧ ¬ read_fails band (window_of r).
Proof.
  unfold read_group. intros H Hi.
  apply list_elem_of_lookup in Hi as [k Hk].
  assert (Hin : (i, Z.of_nat k) ∈ zip group (seqZ 0 (Z.of_nat (length group)))).
  { apply list_elem_of_lookup. exists k. apply lookup_zip_with_Some.
    exists i, (Z.of_nat k). split; [done|]. split; [done|].
    apply lookup_seqZ. apply lookup_lt_Some in Hk. lia. }
  destruct (for_each_Ok_elem (λ _, True) _ _ _ _ H I (λ _ _ _ _ _ _, I) _ Hin)
    as (raw1 & raw2 & _ & Hread).
  by eapply read_band_Ok_status.
Qed.

(** *** The roles after the first loop *)

Definition role_indices (b : BandRoles) : list Z :=
  [redIndex b; greenIndex b; blueIndex b; alphaIndex b; grayIndex b;
   paletteIndex b].

Lemma assign_role_otherIndex ci i b :
  otherIndex (assign_role ci i b) = otherIndex b.
Proof. unfold assign_role. by repeat case_match. Qed.

Lemma assign_role_indices ci i b x :
  x ∈ role_indices (assign_role ci i b) → x ∈ role_indices b ∨ x = i.
Proof.
  unfold assign_role, role_indices.
  repeat case_match; simpl; rewrite !elem_of_cons; tauto.
Qed.

Lemma fold_role_step_otherIndex (ds : @GDALDataset double RAW) l b :
  Forall (λ i, is_Some (GetRasterBand ds i)) l →
  otherIndex (foldl (role_step ds) b l) = otherIndex b ++ l.
Proof.
  revert b. induction l as [|i l IH]; intros b Hl; simpl.
  - by rewrite app_nil_r.
  - apply Forall_cons in Hl as [[band Hi] Hl]. rewrite IH by done.
    unfold role_step. rewrite Hi, assign_role_otherIndex. simpl.
    by rewrite <- app_assoc.
Qed.

Lemma fold_role_step_indices (ds : @GDALDataset double RAW) l b x :
  x ∈ role_indices (foldl (role_step ds) b l) → x ∈ role_indices b ∨ x ∈ l.
Proof.
  revert b. induction l as [|i l IH]; intros b; simpl; [by left|].
  intros Hx. apply IH in Hx as [Hx|Hx]; [|right; by right].
  unfold role_step in Hx. destruct (GetRasterBand ds i); [|by left].
  apply assign_role_indices in Hx as [Hx| ->]; [by left|right; by left].
Qed.

(** *** The reads of the primary group, with assertions enabled *)

Definition clear_other (o : list Z) (idx : Z) : list Z :=
  <[Z.to_nat (int_sub idx 1) := 0]> o.

Lemma move_to_group_Ok idx b g b' g' :
  move_to_group idx (b, g) = Ok (b', g') →
  g' = g ++ [idx] ∧ otherIndex b' = clear_other (otherIndex b) idx ∧
  role_indices b' = role_indices b ∧ paletteIndex b' = paletteIndex b.
Proof.
  unfold move_to_group. intros H. apply bind_Ok in H as (o & Ho & [= <- <-]).
  apply vec_set_Ok in Ho as (_ & _ & ->). done.
Qed.

Ltac primary_step Hrp :=
  match type of Hrp with
  | mbind _ (move_to_group ?i ?st) = Ok _ =>
      let st' := fresh "st" in let Hm := fresh "Hm" in
      apply bind_Ok in Hrp as (st' & Hm & Hrp);
      destruct st' as [? ?]; apply move_to_group_Ok in Hm as (? & ? & ? & ?)
  | mbind _ (vec_resize _ _ _) = Ok _ =>
      apply bind_Ok in Hrp as (? & _ & Hrp)
  | mbind _ (read_group _ _ _ _ _ _ _ _) = Ok _ =>
      let Hg := fresh "Hg" in apply bind_Ok in Hrp as (? & Hg & Hrp)
  | match GetRasterBand ?d ?i with _ => _ end = Ok _ =>
      destruct (GetRasterBand d i); [|discriminate Hrp]
  | mbind _ (ReadColorTable _ _) = Ok _ =>
      apply bind_Ok in Hrp as (? & _ & Hrp)
  end.

Lemma read_primary_Ok_reads T ds b (r : Reader) p r' :
  read_primary false T ds b r = Ok (p, r') →
  (∀ i, i ∈ groupIndex p →
     i ≠ 0 ∧ i ∈ role_indices b ∧
     ∃ band, GetRasterBand ds i = Some band ∧ ¬ read_fails band (window_of r)) ∧
  otherIndex (roles p) = foldl clear_other (otherIndex b) (groupIndex p).
Proof.
  assert (Hw : ∀ k, window_of (set_NumberOfScalarComponents k r) = window_of r)
    by done.
  assert (Hfin : ∀ g raw raw' ps ls k b',
    read_group false T ds (set_NumberOfScalarComponents k r) ps ls g raw
      = Ok raw' →
    Forall (λ i, i ≠ 0 ∧ i ∈ role_indices b) g →
    otherIndex b' = foldl clear_other (otherIndex b) g →
    (∀ i, i ∈ g →
       i ≠ 0 ∧ i ∈ role_indices b ∧
       ∃ band, GetRasterBand ds i = Some band ∧
               ¬ read_fails band (window_of r)) ∧
    otherIndex b' = foldl clear_other (otherIndex b) g).
  { intros g raw raw' ps ls k b' Hg Hall Ho. split; [|done].
    intros i Hi. rewrite Forall_forall in Hall.
    destruct (Hall i Hi) as [? ?]. do 2 (split; [done|]).
    rewrite <- (Hw k). by eapply read_group_Ok_status. }
  unfold read_primary. cbv zeta.
  destruct (negb (redIndex b =? 0) && negb (greenIndex b =? 0)
            && negb (blueIndex b =? 0)) eqn:Ergb.
  { apply andb_true_iff in Ergb as [Erg Eb].
    apply andb_true_iff in Erg as [Er Eg].
    apply negb_true_iff, Z.eqb_neq in Er, Eg, Eb.
    destruct (alphaIndex b =? 0) eqn:Ea; cbn [negb]; intros Hrp;
      repeat primary_step Hrp; injection Hrp as <- <-;
      cbn [groupIndex roles fst snd] in *; subst; cbn [app] in *;
      (eapply Hfin; [eassumption| |cbn [foldl]; congruence]);
      apply Z.eqb_neq in Ea || clear Ea;
      repeat (apply Forall_cons; split; [split; [done|]|]);
      first [by apply Forall_nil|unfold role_indices];
      repeat first [apply list_elem_of_here | apply list_elem_of_further]. }
  clear Ergb.
  destruct (grayIndex b =? 0) eqn:Ey; cbn [negb].
  2:{ apply Z.eqb_neq in Ey.
    destruct (alphaIndex b =? 0) eqn:Ea; cbn [negb]; intros Hrp;
      repeat primary_step Hrp; injection Hrp as <- <-;
      cbn [groupIndex roles fst snd] in *; subst; cbn [app] in *;
      (eapply Hfin; [eassumption| |cbn [foldl]; congruence]);
      apply Z.eqb_neq in Ea || clear Ea;
      repeat (apply Forall_cons; split; [split; [done|]|]);
      first [by apply Forall_nil|unfold role_indices];
      repeat first [apply list_elem_of_here | apply list_elem_of_further]. }
  destruct (paletteIndex b =? 0) eqn:Ep; cbn [negb].
  2:{ apply Z.eqb_neq in Ep. intros Hrp.
    repeat primary_step Hrp; injection Hrp as <- <-;
      cbn [groupIndex roles fst snd] in *; subst; cbn [app] in *;
      (eapply Hfin; [eassumption| |cbn [foldl]; congruence]);
      repeat (apply Forall_cons; split; [split; [done|]|]);
      first [by apply Forall_nil|unfold role_indices];
      repeat first [apply list_elem_of_here | apply list_elem_of_further]. }
  intros [= <- <-]. cbn [groupIndex roles foldl]. split; [|done].
  intros i Hi. by apply elem_of_nil in Hi.
Qed.

(** *** The window is fixed during a pass *)

Lemma only_output_window (r r' : Reader) :
  only_output r r' → window_of r' = window_of r.
Proof.
  unfold only_output. intros Ho.
  change (window_of (erase_output r') = window_of (erase_output r)).
  by rewrite Ho.
Qed.

Lemma select_type_window ds (r ra : Reader) :
  select_type ds r = Ok ra → window_of ra = window_of r ∧ GDALData ra = GDALData r
  ∧ NumberOfBands ra = NumberOfBands r.
Proof. intros Hs. apply select_type_Ok in Hs as [-> _]. done. Qed.

(** *** The bands that are left to the second loop *)

Lemma clear_other_length o idx : length (clear_other o idx) = length o.
Proof. apply length_insert. Qed.

Lemma fold_clear_other_length g o : length (foldl clear_other o g) = length o.
Proof.
  revert o. induction g as [|j g IH]; intros o; simpl; [done|].
  by rewrite IH, clear_other_length.
Qed.

Lemma fold_clear_other_miss g o (i : Z) :
  1 <= i → Forall (λ j, 1 <= j <= INT_MAX) g → i ∉ g →
  foldl clear_other o g !! Z.to_nat (i - 1) = o !! Z.to_nat (i - 1).
Proof.
  intros Hi. revert o. induction g as [|j g IH]; intros o Hg Hn; simpl; [done|].
  apply Forall_cons in Hg as [Hj Hg]. apply not_elem_of_cons in Hn as [Hij Hn].
  rewrite IH by done. unfold clear_other.
  rewrite int_sub_id by (unfold is_int, INT_MIN, INT_MAX in *; lia).
  apply list_lookup_insert_ne. lia.
Qed.

(** With assertions enabled, a second loop that ends has read every band
    that it finds in [otherIndex], in the window of the reader. *)
Lemma read_others_reads T ds b l st st' (k idx : Z) :
  for_each l (read_other false T ds b) st = Ok st' →
  k ∈ l → 0 <= k → otherIndex b !! Z.to_nat k = Some idx → idx ≠ 0 →
  ∃ band, GetRasterBand ds idx = Some band ∧
          ¬ read_fails band (window_of (st.2 : Reader)).
Proof.
  intros Hl Hk Hk0 Hidx Hne.
  destruct (for_each_Ok_elem (λ s, window_of (s.2 : Reader) = window_of st.2)
              _ _ _ _ Hl eq_refl) with (x := k) as (s1 & s2 & Hs1 & Hb);
    [|done|].
  - intros x [[g raw] r1] [[g' raw'] r2] _ Hw Hx. simpl in *.
    apply read_other_only_output, only_output_window in Hx. congruence.
  - destruct s1 as [[g raw] r1]. simpl in Hs1. unfold read_other in Hb.
    apply bind_Ok in Hb as (idx' & Hat & Hb).
    unfold vec_at in Hat. destruct (k <? 0) eqn:Hneg; [done|].
    rewrite Hidx in Hat. injection Hat as <-.
    destruct (idx =? 0) eqn:Hz; [apply Z.eqb_eq in Hz; done|].
    apply bind_Ok in Hb as (g1 & _ & Hb). apply bind_Ok in Hb as (raw1 & Hr & _).
    apply read_band_Ok_status in Hr. by rewrite Hs1 in Hr.
Qed.

(** *** Every band is read *)

(** With assertions enabled, a [GenericReadData] that ends has read every
    band of the dataset with a success status: the bands of the primary
    group in the first place, every other band in the second loop. *)
Lemma GenericReadData_reads_every_band T (r r' : Reader) ds (i : Z) band :
  GDALData r = Some ds →
  NumberOfBands r <= INT_MAX →
  1 <= i <= NumberOfBands r →
  GetRasterBand ds i = Some band →
  GenericReadData false T r = Ok r' →
  ¬ read_fails band (window_of r).
Proof.
  intros Hds Hmax Hi Hband. unfold GenericReadData. rewrite Hds.
  intros Hg. apply bind_Ok in Hg as ([b rc] & Hc & Hg).
  apply bind_Ok in Hg as ([p rp] & Hp & Hg).
  apply bind_Ok in Hg as (rg & Hcp & Hfill). cbn [fst snd] in *.
  unfold classify_bands, for_range in Hc.
  apply classify_loop_Ok in Hc as (Hall & -> & ->).
  set (l := seqZ 1 (NumberOfBands r + 1 - 1)) in *.
  set (rc := set_NoDataValue _ _) in *.
  assert (Hwc : window_of rc = window_of r) by done.
  assert (Hl : ∀ j, j ∈ l ↔ 1 <= j <= NumberOfBands r).
  { intros j. unfold l. rewrite elem_of_seqZ. lia. }
  assert (Hother : otherIndex (foldl (role_step ds) no_roles l) = l).
  { rewrite fold_role_step_otherIndex; [done|].
    eapply Forall_impl; [exact Hall|]. by intros j [? _]. }
  pose proof (read_primary_state _ _ _ _ _ _ _ Hp) as Hrp.
  apply read_primary_Ok_reads in Hp as [Hgroup Ho].
  rewrite Hother in Ho.
  destruct (decide (i ∈ groupIndex p)) as [Hin|Hout].
  { destruct (Hgroup i Hin) as (_ & _ & band' & Hb' & Hread).
    rewrite Hwc in Hread. by replace band with band' by congruence. }
  assert (Hrange : Forall (λ j, 1 <= j <= INT_MAX) (groupIndex p)).
  { apply Forall_forall. intros j Hj.
    destruct (Hgroup j Hj) as (Hj0 & Hjr & _).
    apply fold_role_step_indices in Hjr as [Hjr|Hjr].
    - unfold role_indices, no_roles in Hjr. simpl in Hjr.
      rewrite !elem_of_cons, elem_of_nil in Hjr. tauto.
    - apply Hl in Hjr. lia. }
  assert (Hat : otherIndex (roles p) !! Z.to_nat (i - 1) = Some i).
  { rewrite Ho, fold_clear_other_miss by (done || lia).
    unfold l. replace (NumberOfBands r + 1 - 1) with (NumberOfBands r) by lia.
    rewrite lookup_seqZ. split; lia. }
  assert (Hlen : length (otherIndex (roles p)) = Z.to_nat (NumberOfBands r)).
  { rewrite Ho, fold_clear_other_length. unfold l. rewrite length_seqZ. lia. }
  assert (Hwg : window_of rg = window_of r).
  { assert (Hdp : GDALData rp = Some ds) by (subst rp; by destruct (components_of _)).
    destruct (GetGeoCornerPoints_Ok _ _ _ Hdp Hcp) as (cp & -> & _).
    subst rp. by destruct (components_of _). }
  unfold fill_grid in Hfill. cbv zeta in Hfill.
  apply bind_Ok in Hfill as (r2 & H2 & Hfill).
  apply bind_Ok in Hfill as (r3 & H3 & Hfill).
  apply bind_Ok in Hfill as (r4 & H4 & Hfill).
  apply bind_Ok in Hfill as (raw & _ & Hfill).
  apply bind_Ok in Hfill as (st & Hloop & _).
  apply place_grid_only_output, only_output_window in H2.
  apply Convert_only_output, only_output_window in H3.
  assert (Hw4 : window_of r4 = window_of r3).
  { destruct (UniformGridData r3); [|done]. by injection H4 as <-. }
  unfold for_range in Hloop.
  destruct (read_others_reads _ _ _ _ _ _ (i - 1) i Hloop)
    as (band' & Hb' & Hread); [|lia|done|lia|].
  { apply elem_of_seqZ. lia. }
  cbn [snd] in Hread. replace band' with band in Hread by congruence.
  by rewrite Hw4, H3, H2, Hwg in Hread.
Qed.

(** What the assertions are there for. In a build with assertions, a
    Produce call on a dataset one of whose bands cannot be read, its
    windowed read reporting a status other than [CE_None] whatever the
    buffer type and the strides, does not return a result: every band 1 to
    [NumberOfBands] is read, in the primary group or in the loop over the
    other bands, and a read that returns has passed the assertion on its
    status. *)
Lemma RequestData_read_failure_aborts out (r : Reader) f ds (i : Z) band :
  FileName r = Some f →
  GDALData r = Some ds →
  NumberOfBands r <= INT_MAX →
  1 <= i <= NumberOfBands r →
  GetRasterBand ds i = Some band →
  read_fails band (window_of r) →
  ∀ res, RequestData exportToProj4 false out r ≠ Ok res.
Proof.
  intros Hf Hds Hmax Hi Hband Hfails res Hres.
  unfold RequestData in Hres. rewrite Hf in Hres.
  apply bind_Ok in Hres as (r1 & Hrd & _).
  unfold ReadData in Hrd. rewrite Hds in Hrd.
  apply bind_Ok in Hrd as (ra & Hsel & Hgen). cbv zeta in Hgen.
  apply select_type_window in Hsel as (Hw & Hd & Hn).
  apply (GenericReadData_reads_every_band _ _ _ ds i band) in Hgen.
  - apply Hgen. change (read_fails band (window_of ra)). by rewrite Hw.
  - change (GDALData ra = Some ds). congruence.
  - change (NumberOfBands ra <= INT_MAX). by rewrite Hn.
  - change (1 <= i <= NumberOfBands ra). by rewrite Hn.
  - done.
Qed.

End ReadFailure.

(** ** The sample rasters *)

(** C1 at a failing input. Produce on the red, green, blue raster of two
    cells: the red sample of cell 1 is written to the array and equals the
    no-data value declared by the red band, but the cell id passed to
    [BlankCell] is the flat index 3 of that sample, not a cell of the grid;
    cell 1 is not blanked. *)
Theorem Produce_rgb_blanks_flat_index :
  ∃ r g a,
    produce false (describe raster_rgb_2x1) = Ok (1, r, Some (Some g)) ∧
    Extent g = (0, 2, 0, 1, 0, 0) ∧
    GetArray "Elevation" g = Some a ∧
    HasNoDataValue r !! 0%nat = Some 1 ∧
    NoDataValue r !! 0%nat = Some (xint 0) ∧
    GetValue a (value_index 2 3 1 0 0) = Some (xint 0) ∧
    IsCellBlanked g 1 = false ∧
    BlankedCells g = {[ 3 ]}.
Proof.
  eexists _, _, _. split; [vm_compute; reflexivity|].
  repeat split; vm_compute; reflexivity.
Qed.

(** C2 at a failing input. Produce on the red, green, blue raster of one
    cell without no-data values: the one pass over the group counts the
    cell three times, once per slot. *)
Theorem Produce_rgb_counts_each_slot :
  ∃ r g,
    produce false (describe raster_rgb_1x1) = Ok (1, r, Some (Some g)) ∧
    Extent g = (0, 1, 0, 1, 0, 0) ∧
    BlankedCells g = ∅ ∧
    GetNumberOfCells r = 3.
Proof.
  eexists _, _. split; [vm_compute; reflexivity|].
  repeat split; vm_compute; reflexivity.
Qed.

(** C3 as stated fails. On the raster whose two spacings are both
    negative, hence of one sign, both axes are flipped: cell 0 holds the
    sample of column 1, line 1 and not the first sample of the buffer. *)
Lemma Produce_same_sign_flips :
  ∃ r g a band,
    produce false (describe raster_2x2_both_negative) = Ok (1, r, Some (Some g)) ∧
    dlt (fst (geoSpacing r)) (xint 0) = true ∧
    dlt (snd (geoSpacing r)) (xint 0) = true ∧
    GetArray "Elevation" g = Some a ∧
    GetRasterBand raster_2x2_both_negative 1 = Some band ∧
    snd (RasterIO band 0 0 2 2 2 2 GDT_Byte 1 2) 0 0 = xint 10 ∧
    snd (RasterIO band 0 0 2 2 2 2 GDT_Byte 1 2) 1 1 = xint 40 ∧
    GetValue a 0 = Some (xint 40).
Proof.
  eexists _, _, _, _. split; [vm_compute; reflexivity|].
  repeat split; vm_compute; reflexivity.
Qed.

(** C4 as stated fails. For the requested columns 1 to [INT_MAX] the sum
    of the source size and the source offset overflows, the test against
    the raster width does not fire, and the window is [INT_MAX] columns
    wide on a raster of 2. *)
Lemma RequestInformation_window_overflows :
  ∃ r',
    RequestInformation (one_file raster_2x2) true request_extreme = (1, r') ∧
    RasterDimensions r' = (2, 2) ∧
    SourceOffset r' = (1, 0) ∧
    SourceDimensions r' = (INT_MAX, 2) ∧
    ¬ window_ok (fst (RasterDimensions r')) (snd (RasterDimensions r'))
        (SourceOffset r') (SourceDimensions r').
Proof.
  eexists. split; [vm_compute; reflexivity|].
  split; [vm_compute; reflexivity|].
  split; [vm_compute; reflexivity|].
  split; [vm_compute; reflexivity|].
  unfold window_ok. vm_compute. intros (_ & _ & _ & _ & H & _). by apply H.
Qed.

Lemma RequestInformation_window_witness :
  let r' := snd (RequestInformation (one_file raster_2x2) true request_outside) in
  RequestInformation (one_file raster_2x2) true request_outside = (1, r') ∧
  0 <= fst (RasterDimensions r') <= INT_MAX ∧
  0 <= snd (RasterDimensions r') <= INT_MAX ∧
  (extent_unset (DataExtent request_outside) ∨
   window_in_int (fst (RasterDimensions r')) (snd (RasterDimensions r'))
     (DataExtent request_outside)) ∧
  window_ok (fst (RasterDimensions r')) (snd (RasterDimensions r'))
    (SourceOffset r') (SourceDimensions r').
Proof.
  intros r'.
  assert (H1 : RequestInformation (one_file raster_2x2) true request_outside = (1, r'))
    by (vm_compute; reflexivity).
  assert (HRD : RasterDimensions r' = (2, 2)) by (vm_compute; reflexivity).
  assert (H2 : 0 <= fst (RasterDimensions r') <= INT_MAX)
    by (rewrite HRD; unfold INT_MAX; simpl; lia).
  assert (H3 : 0 <= snd (RasterDimensions r') <= INT_MAX)
    by (rewrite HRD; unfold INT_MAX; simpl; lia).
  assert (H4 : extent_unset (DataExtent request_outside) ∨
               window_in_int (fst (RasterDimensions r')) (snd (RasterDimensions r'))
                 (DataExtent request_outside)).
  { right. rewrite HRD.
    unfold window_in_int, is_int, INT_MIN, INT_MAX, Max, Min. simpl. lia. }
  split; [exact H1|]. split; [exact H2|]. split; [exact H3|]. split; [exact H4|].
  apply (RequestInformation_window_within_raster (one_file raster_2x2) true
           request_outside r' H1 H2 H3 H4).
Defined.

(** C7 at a failing input. The one band of the raster reports
    [CE_Failure] for the windowed read of the Produce call, as for every
    read. The only check of that status is [assert(err == CE_None)],
    followed by [(void)err]: in a build with [NDEBUG] the assertion is
    compiled out, the status is dropped, and Produce returns 1 and commits
    to the caller a grid whose "Elevation" array has a tuple for each of
    the 4 cells, filled from the buffer of the failed read. In a build
    with assertions the same call stops at the assertion. *)
Theorem Produce_read_failure_commits_grid :
  ∃ band r g a,
    GetRasterBand raster_read_failure 1 = Some band ∧
    window_of (describe raster_read_failure) = ((0, 0), (2, 2), (2, 2)) ∧
    fst (RasterIO band 0 0 2 2 2 2 GDT_Byte 1 (int_mul 2 1)) = CE_Failure ∧
    read_fails band (window_of (describe raster_read_failure)) ∧
    produce true (describe raster_read_failure) = Ok (1, r, Some (Some g)) ∧
    TargetDataType r = GDT_Byte ∧
    NumberOfBytesPerPixel r = 1 ∧
    GetArray "Elevation" g = Some a ∧
    NumberOfTuples a = 4 ∧
    (∀ k, 0 <= k < 4 → is_Some (GetValue a k)) ∧
    produce false (describe raster_read_failure) = Aborted.
Proof.
  eexists _, _, _, _. split; [vm_compute; reflexivity|].
  split; [vm_compute; reflexivity|].
  split; [vm_compute; reflexivity|].
  split; [intros t ps ls; discriminate|].
  split; [vm_compute; reflexivity|].
  split; [vm_compute; reflexivity|].
  split; [vm_compute; reflexivity|].
  split; [vm_compute; reflexivity|].
  split; [vm_compute; reflexivity|].
  split; [|vm_compute; reflexivity].
  intros k Hk.
  assert (k = 0 ∨ k = 1 ∨ k = 2 ∨ k = 3) as [-> | [-> | [-> | ->]]] by lia;
    eexists; vm_compute; reflexivity.
Qed.

Lemma RequestData_read_failure_witness :
  let r := describe raster_read_failure in
  let band := sample_band GCI_GrayIndex None CE_Failure [[10; 20]; [30; 40]] in
  FileName r = Some "a.tif" ∧
  GDALData r = Some raster_read_failure ∧
  NumberOfBands r <= INT_MAX ∧
  1 <= 1 <= NumberOfBands r ∧
  GetRasterBand raster_read_failure 1 = Some band ∧
  read_fails band (window_of r) ∧
  ∀ res, RequestData id false (Some (Some vtkUniformGrid_New)) r ≠ Ok res.
Proof.
  intros r band.
  assert (H1 : FileName r = Some "a.tif") by (vm_compute; reflexivity).
  assert (H2 : GDALData r = Some raster_read_failure) by (vm_compute; reflexivity).
  assert (HN : NumberOfBands r = 1) by (vm_compute; reflexivity).
  assert (H3 : NumberOfBands r <= INT_MAX)
    by (rewrite HN; unfold INT_MAX; lia).
  assert (H4 : 1 <= 1 <= NumberOfBands r) by (rewrite HN; lia).
  assert (H5 : GetRasterBand raster_read_failure 1 = Some band) by (vm_compute; reflexivity).
  assert (H6 : read_fails band (window_of r))
    by (intros t ps ls; discriminate).
  split; [exact H1|]. split; [exact H2|]. split; [exact H3|].
  split; [exact H4|]. split; [exact H5|]. split; [exact H6|].
  exact (RequestData_read_failure_aborts id (Some (Some vtkUniformGrid_New)) r
           "a.tif" raster_read_failure 1 band H1 H2 H3 H4 H5 H6).
Defined.

Lemma RequestData_twice_witness :
  ∃ rv r1 out1,
    RequestData id false (Some (Some vtkUniformGrid_New)) (describe raster_2x2)
    = Ok (rv, r1, out1) ∧
    ∃ r2 out2,
      RequestData id false out1 r1 = Ok (rv, r2, out2) ∧
      out2 = out1 ∧
      UniformGridData r2 = UniformGridData r1 ∧
      GetNumberOfCells r2 = GetNumberOfCells r1 ∧
      r2 = r1.
Proof.
  assert (H : { res | RequestData id false (Some (Some vtkUniformGrid_New))
                        (describe raster_2x2) = Ok res }).
  { eexists. vm_compute. reflexivity. }
  destruct H as [[[rv r1] out1] H].
  exists rv, r1, out1. split; [exact H|].
  exact (RequestData_twice id false (Some (Some vtkUniformGrid_New))
           (describe raster_2x2) rv r1 out1 H).
Defined.

Lemma RequestData_no_bands_witness :
  let r := describe raster_no_bands in
  FileName r = Some "a.tif" ∧
  GDALData r = Some raster_no_bands ∧
  RasterBands raster_no_bands = [] ∧
  RequestData id false (Some (Some vtkUniformGrid_New)) r = Undefined.
Proof.
  intros r.
  assert (H1 : FileName r = Some "a.tif") by (vm_compute; reflexivity).
  assert (H2 : GDALData r = Some raster_no_bands) by (vm_compute; reflexivity).
  assert (H3 : RasterBands raster_no_bands = []) by (vm_compute; reflexivity).
  split; [exact H1|]. split; [exact H2|]. split; [exact H3|].
  exact (RequestData_no_bands_undefined id false
           (Some (Some vtkUniformGrid_New)) r "a.tif" raster_no_bands H1 H2 H3).
Defined.

Local Abbreviation described_2x2 :=
  (snd (RequestInformation (one_file raster_2x2) true
          (set_FileName (Some "a.tif") vtkGDALRasterReader_New))).

Lemma GetInvalidValue_witness :
  (∀ f ds, one_file raster_2x2 f = Some ds → GetRasterCount ds <= INT_MAX) ∧
  reachable (one_file raster_2x2) id false described_2x2 ∧
  is_int 1 ∧
  ((∃ v, GetInvalidValue 1 described_2x2 = Ok v)
   ↔ 1 <= 1 <= NumberOfBands described_2x2) ∧
  (¬ (1 <= 1 <= NumberOfBands described_2x2) →
   GetInvalidValue 1 described_2x2 = Undefined) ∧
  (∀ ds, GDALData described_2x2 = Some ds →
         NumberOfBands described_2x2 = GetRasterCount ds) ∧
  GetInvalidValue 1 (vtkGDALRasterReader_New : @vtkGDALRasterReader xnum xnum)
  = Undefined.
Proof.
  assert (H1 : ∀ f ds, one_file raster_2x2 f = Some ds →
                       GetRasterCount ds <= INT_MAX).
  { intros f ds. unfold one_file. destruct (String.eqb f "a.tif"); [|discriminate].
    intros [= <-]. vm_compute. discriminate. }
  pose proof (reach_RequestInformation (one_file raster_2x2) id false _ true
                (reach_SetFileName (one_file raster_2x2) id false _ (Some "a.tif")
                   (reach_New (one_file raster_2x2) id false))) as H2.
  assert (H3 : is_int 1) by (unfold is_int, INT_MIN, INT_MAX; lia).
  split; [exact H1|]. split; [exact H2|]. split; [exact H3|].
  exact (GetInvalidValue_in_bounds_iff (one_file raster_2x2) id false H1
           _ 1 H2 H3).
Defined.

(** * Further properties of the reader *)

(** ** Describe *)

Ltac int_range := unfold is_int, INT_MIN, INT_MAX in *; lia.

Section Describe.

Context {double RAW : Type} `{!DoubleOps double} `{!RawOps double RAW}.
Local Abbreviation Reader := (@vtkGDALRasterReader double RAW).
Variable GDALOpen : string → option (@GDALDataset double RAW).
Variable exportToProj4 : string → string.
Variable NDEBUG : bool.

(** What [ReadMetaData] leaves alone. *)
Lemma ReadMetaData_request f (r : Reader) :
  FileName (ReadMetaData GDALOpen f r) = FileName r ∧
  TargetDimensions (ReadMetaData GDALOpen f r) = TargetDimensions r ∧
  SourceOffset (ReadMetaData GDALOpen f r) = SourceOffset r ∧
  SourceDimensions (ReadMetaData GDALOpen f r) = SourceDimensions r.
Proof.
  unfold ReadMetaData. destruct (String.eqb _ _); [done|].
  by destruct (GDALOpen f).
Qed.

(** A dataset is held after [ReadMetaData] only under the name that was
    opened last with success. *)
Lemma ReadMetaData_dataset f (r : Reader) ds :
  GDALData (ReadMetaData GDALOpen f r) = Some ds →
  PrevReadFileName (ReadMetaData GDALOpen f r) = f ∧
  RasterDimensions (ReadMetaData GDALOpen f r)
  = (if String.eqb f (PrevReadFileName r) then RasterDimensions r
     else (RasterXSize ds, RasterYSize ds)).
Proof.
  unfold ReadMetaData. destruct (String.eqb f (PrevReadFileName r)) eqn:Hf.
  - apply String.eqb_eq in Hf. done.
  - destruct (GDALOpen f) as [ds'|]; [|done]. simpl. by intros [= ->].
Qed.

Lemma ReadMetaData_cached (r : Reader) :
  ReadMetaData GDALOpen (PrevReadFileName r) r = r.
Proof. unfold ReadMetaData. by rewrite String.eqb_refl. Qed.

(** The parts of a successful [RequestInformation]. *)
Lemma RequestInformation_success (r r' : Reader) outInfo :
  RequestInformation GDALOpen outInfo r = (1, r') →
  ∃ f ds,
    outInfo = true ∧ FileName r = Some f ∧
    GDALData (ReadMetaData GDALOpen f r) = Some ds ∧
    ¬ (fst (RasterDimensions (ReadMetaData GDALOpen f r)) <= 0 ∧
       snd (RasterDimensions (ReadMetaData GDALOpen f r)) <= 0) ∧
    let r3 := default_extent (default_target (ReadMetaData GDALOpen f r)) in
    let w := source_window (fst (RasterDimensions r3)) (snd (RasterDimensions r3))
               (DataExtent r3) in
    r' = set_DataExtent (clamped_extent (snd (RasterDimensions r3)) (fst w) (snd w))
           (set_SourceDimensions (snd w) (set_SourceOffset (fst w) r3)).
Proof.
  unfold RequestInformation. destruct outInfo; [|intros [=]]. simpl.
  destruct (FileName r) as [f|]; [|intros [=]].
  destruct (GDALData (ReadMetaData GDALOpen f r)) as [ds|] eqn:Hds; [|intros [=]].
  destruct (_ && _) eqn:Hdim; [intros [=]|].
  intros [= <-]. exists f, ds. repeat split; try done.
  intros [HW HH]. apply andb_false_iff in Hdim as [Hdim|Hdim];
    apply Z.leb_gt in Hdim; lia.
Qed.

(** *** The window and the extent without overflow *)

(** The window as a function of the extent when no operation overflows. *)
Lemma source_window_exact W H e0 e1 e2 e3 e4 e5 :
  0 <= W <= INT_MAX → 0 <= H <= INT_MAX →
  window_in_int W H (e0, e1, e2, e3, e4, e5) →
  let so0 := Max 0 (Min W e0) in
  let so1 := Max 0 (Min H (H - (e3 + 1))) in
  let sd0 := Max 0 (e1 - e0 + 1) in
  let sd1 := Max 0 (e3 - e2 + 1) in
  source_window W H (e0, e1, e2, e3, e4, e5)
  = ((so0, so1),
     (if sd0 + so0 >? W then W - so0 else sd0,
      if sd1 + so1 >? H then H - so1 else sd1)).
Proof.
  intros HW HH (H1 & H2 & H3 & H4 & H5 & H6 & H7 & H8). cbv zeta.
  unfold source_window.
  rewrite (int_add_id e3 1), (int_sub_id H (e3 + 1)) by done.
  rewrite !requested_size by done.
  rewrite !int_add_id by done.
  pose proof (clamp_offset W e0 (proj1 HW)).
  pose proof (clamp_offset H (H - (e3 + 1)) (proj1 HH)).
  rewrite !int_sub_id by int_range. done.
Qed.

(** The extent written back for a window within the raster. *)
Lemma clamped_extent_exact W H (off dim : Z * Z) :
  W <= INT_MAX → H <= INT_MAX → window_ok W H off dim →
  clamped_extent H off dim
  = (fst off, fst off + fst dim - 1,
     H - snd off - snd dim, H - snd off - 1, 0, 0).
Proof.
  intros HW HH (H1 & H2 & H3 & H4 & H5 & H6). unfold clamped_extent. cbv zeta.
  rewrite (int_add_id (fst off)) by int_range.
  rewrite (int_sub_id (fst off + fst dim)) by int_range.
  rewrite (int_sub_id H (snd off)) by int_range.
  rewrite (int_sub_id (H - snd off) 1) by int_range.
  rewrite (int_sub_id (H - snd off - 1)) by int_range.
  rewrite int_add_id by int_range.
  repeat f_equal; lia.
Qed.

(** A successful [RequestInformation] in terms of the window: the parts
    of the reader it sets, when no operation overflows. *)
Lemma RequestInformation_shape (r r' : Reader) :
  RequestInformation GDALOpen true r = (1, r') →
  let W := fst (RasterDimensions r') in
  let H := snd (RasterDimensions r') in
  0 <= W <= INT_MAX → 0 <= H <= INT_MAX →
  extent_unset (DataExtent r) ∨ window_in_int W H (DataExtent r) →
  ∃ f ds (r3 : Reader),
    FileName r = Some f ∧
    GDALData (ReadMetaData GDALOpen f r) = Some ds ∧
    r3 = default_extent (default_target (ReadMetaData GDALOpen f r)) ∧
    RasterDimensions r3 = (W, H) ∧
    window_in_int W H (DataExtent r3) ∧
    window_ok W H (SourceOffset r') (SourceDimensions r') ∧
    (SourceOffset r', SourceDimensions r') = source_window W H (DataExtent r3) ∧
    r' = set_DataExtent
           (fst (SourceOffset r'),
            fst (SourceOffset r') + fst (SourceDimensions r') - 1,
            H - snd (SourceOffset r') - snd (SourceDimensions r'),
            H - snd (SourceOffset r') - 1, 0, 0)
           (set_SourceDimensions (SourceDimensions r')
              (set_SourceOffset (SourceOffset r') r3)).
Proof.
  intros Hri. destruct (RequestInformation_success r r' true Hri)
    as (f & ds & _ & Hf & Hds & Hdim & Hr').
  cbv zeta in Hr'. set (r1 := ReadMetaData GDALOpen f r) in *.
  destruct (default_target_fields r1) as [HRD2 HE2].
  pose proof (default_extent_RasterDimensions (default_target r1)) as HRD3.
  set (r3 := default_extent (default_target r1)) in *.
  assert (HRD : RasterDimensions r' = RasterDimensions r3) by (by subst r').
  rewrite HRD. intros W H HW HH Hext.
  assert (Hin : window_in_int W H (DataExtent r3)).
  { subst r3 W H. rewrite HRD3. apply default_extent_in_int; rewrite <- ?HRD3; try done.
    rewrite HE2. unfold r1. by rewrite ReadMetaData_DataExtent. }
  pose proof (source_window_ok W H (DataExtent r3) HW HH Hin) as Hok.
  exists f, ds, r3. split; [done|]. split; [done|]. split; [done|].
  split; [by destruct (RasterDimensions r3)|]. split; [done|].
  assert (Hso : SourceOffset r' = fst (source_window W H (DataExtent r3)))
    by (by subst r').
  assert (Hsd : SourceDimensions r' = snd (source_window W H (DataExtent r3)))
    by (by subst r').
  rewrite Hso, Hsd. split; [done|].
  split; [by destruct (source_window W H (DataExtent r3))|].
  rewrite Hr'. fold W H.
  by rewrite (clamped_extent_exact W H) by (done || lia).
Qed.

Lemma default_extent_fields (r : Reader) :
  TargetDimensions (default_extent r) = TargetDimensions r ∧
  RasterDimensions (default_extent r) = RasterDimensions r ∧
  FileName (default_extent r) = FileName r ∧
  PrevReadFileName (default_extent r) = PrevReadFileName r ∧
  GDALData (default_extent r) = GDALData r.
Proof.
  unfold default_extent. destruct (DataExtent r) as [[[[[e0 ?] ?] ?] ?] ?].
  by case_match.
Qed.

Lemma default_target_more (r : Reader) :
  FileName (default_target r) = FileName r ∧
  PrevReadFileName (default_target r) = PrevReadFileName r ∧
  GDALData (default_target r) = GDALData r.
Proof. unfold default_target. by case_match. Qed.

Lemma default_extent_unset (r : Reader) :
  extent_unset (DataExtent r) →
  0 <= fst (RasterDimensions r) <= INT_MAX →
  0 <= snd (RasterDimensions r) <= INT_MAX →
  DataExtent (default_extent r)
  = (0, fst (RasterDimensions r) - 1, 0, snd (RasterDimensions r) - 1, 0, 0).
Proof.
  unfold default_extent, extent_unset.
  destruct (DataExtent r) as [[[[[e0 e1] e2] e3] e4] e5]. intros -> HW HH.
  simpl. by rewrite !int_sub_id by int_range.
Qed.

Lemma default_extent_requested (r : Reader) :
  ¬ extent_unset (DataExtent r) → default_extent r = r.
Proof.
  unfold default_extent, extent_unset.
  destruct (DataExtent r) as [[[[[e0 e1] e2] e3] e4] e5]. intros Hne.
  destruct (e0 =? -1) eqn:He; [by apply Z.eqb_eq in He|done].
Qed.

Lemma default_target_again (r : Reader) :
  TargetDimensions r ≠ (-1, -1) ∨ TargetDimensions r = RasterDimensions r →
  default_target r = r.
Proof.
  unfold default_target. intros [Hne|Heq].
  - destruct (fst (TargetDimensions r) =? -1) eqn:H0; [|done].
    destruct (snd (TargetDimensions r) =? -1) eqn:H1; [|done].
    apply Z.eqb_eq in H0, H1. exfalso. apply Hne.
    destruct (TargetDimensions r). simpl in *. congruence.
  - destruct (_ && _); [|done]. by rewrite <- Heq.
Qed.

Lemma default_target_settled (r : Reader) :
  let r2 := default_target r in
  TargetDimensions r2 ≠ (-1, -1) ∨ TargetDimensions r2 = RasterDimensions r2.
Proof.
  unfold default_target.
  destruct (fst (TargetDimensions r) =? -1) eqn:H0; simpl.
  - destruct (snd (TargetDimensions r) =? -1) eqn:H1; simpl; [by right|].
    left. apply Z.eqb_neq in H1. intros E. by rewrite E in H1.
  - left. apply Z.eqb_neq in H0. intros E. by rewrite E in H0.
Qed.

(** Describe is idempotent. When [RequestInformation] has succeeded, on a
    requested extent on which nothing overflows, a second call returns 1
    again and leaves the reader as the first call left it: the extent
    written back by the first call is a fixed point of the clamping. *)
Theorem RequestInformation_twice (r r' : Reader) :
  RequestInformation GDALOpen true r = (1, r') →
  0 <= fst (RasterDimensions r') <= INT_MAX →
  0 <= snd (RasterDimensions r') <= INT_MAX →
  extent_unset (DataExtent r) ∨
    window_in_int (fst (RasterDimensions r')) (snd (RasterDimensions r'))
      (DataExtent r) →
  RequestInformation GDALOpen true r' = (1, r').
Proof.
  intros Hri HW HH Hext.
  destruct (RequestInformation_shape r r' Hri HW HH Hext)
    as (f & ds & r3 & Hf & Hds & Hr3 & HRD & _ & Hok & _ & Hr').
  set (W := fst (RasterDimensions r')) in *.
  set (H := snd (RasterDimensions r')) in *.
  set (so := SourceOffset r') in *. set (sd := SourceDimensions r') in *.
  set (r1 := ReadMetaData GDALOpen f r) in *.
  destruct (ReadMetaData_request f r) as (HF1 & _).
  destruct (ReadMetaData_dataset f r ds Hds) as (HP1 & _).
  fold r1 in HF1, HP1.
  destruct (default_extent_fields (default_target r1)) as (_ & HR3 & HF3 & HP3 & HD3).
  destruct (default_target_more r1) as (HF2 & HP2 & HD2).
  rewrite <- Hr3 in HR3, HF3, HP3, HD3.
  rewrite HF2, HF1, Hf in HF3. rewrite HP2, HP1 in HP3. rewrite HD2, Hds in HD3.
  assert (HF' : FileName r' = Some f) by (rewrite Hr'; exact HF3).
  assert (HP' : PrevReadFileName r' = f) by (rewrite Hr'; exact HP3).
  assert (HD' : GDALData r' = Some ds) by (rewrite Hr'; exact HD3).
  assert (HRD' : RasterDimensions r' = (W, H)) by (by destruct (RasterDimensions r')).
  assert (HT' : default_target r' = r').
  { apply default_target_again.
    pose proof (default_target_settled r1) as Hs. cbv zeta in Hs.
    destruct (default_extent_fields (default_target r1)) as (HTa & HRa & _).
    assert (TargetDimensions r' = TargetDimensions (default_target r1)) as ->
      by (rewrite <- HTa, <- Hr3, Hr'; reflexivity).
    assert (RasterDimensions r' = RasterDimensions (default_target r1)) as ->
      by (rewrite <- HRa, <- Hr3, Hr'; reflexivity).
    done. }
  destruct Hok as (Ho1 & Ho2 & Ho3 & Ho4 & Ho5 & Ho6).
  assert (HE' : DataExtent r'
                = (fst so, fst so + fst sd - 1, H - snd so - snd sd,
                   H - snd so - 1, 0, 0)) by (by rewrite Hr' at 1).
  assert (HX' : default_extent r' = r').
  { unfold default_extent. rewrite HE'.
    destruct (fst so =? -1) eqn:Hm; [apply Z.eqb_eq in Hm; lia|done]. }
  assert (Hin : window_in_int W H (DataExtent r')).
  { rewrite HE'. unfold window_in_int, is_int, INT_MIN, INT_MAX, Max, Min in *.
    repeat case_match; lia. }
  assert (Hw : source_window W H (DataExtent r') = (so, sd)).
  { rewrite HE' in Hin |- *. rewrite source_window_exact by done.
    destruct so as [so0 so1], sd as [sd0 sd1]. simpl in *.
    unfold Max, Min. repeat case_match; f_equal; f_equal; lia. }
  assert (Hrm : ReadMetaData GDALOpen f r' = r').
  { unfold ReadMetaData. by rewrite HP', String.eqb_refl. }
  unfold RequestInformation. simpl. rewrite HF', !Hrm, HD'.
  destruct (_ && _) eqn:Hdim.
  { apply andb_true_iff in Hdim as [Hd0 Hd1]. apply Z.leb_le in Hd0, Hd1.
    destruct (RequestInformation_success r r' true Hri)
      as (f' & ds' & _ & Hf' & _ & Hpos & _).
    rewrite Hf in Hf'. injection Hf' as <-. fold r1 in Hpos.
    assert (RasterDimensions r1 = RasterDimensions r') as HR1.
    { destruct (default_target_fields r1) as [<- _]. rewrite <- HR3, Hr'.
      reflexivity. }
    rewrite HR1 in Hpos. by destruct Hpos. }
  cbv zeta. rewrite HT', HX'. fold W H. rewrite Hw. simpl.
  rewrite (clamped_extent_exact W H) by (done || lia).
  by rewrite <- HE'.
Qed.

(** The extent that Describe writes back (and publishes as the whole
    extent) is the window it computed, seen from the lower left corner:
    the columns start at the source offset, the lines are counted from the
    bottom of the raster, and the extent lies within the raster. *)
Theorem RequestInformation_extent_of_window (r r' : Reader) :
  RequestInformation GDALOpen true r = (1, r') →
  let W := fst (RasterDimensions r') in
  let H := snd (RasterDimensions r') in
  0 <= W <= INT_MAX → 0 <= H <= INT_MAX →
  extent_unset (DataExtent r) ∨ window_in_int W H (DataExtent r) →
  ∃ x0 x1 y0 y1,
    DataExtent r' = (x0, x1, y0, y1, 0, 0) ∧
    x0 = fst (SourceOffset r') ∧
    x1 - x0 + 1 = fst (SourceDimensions r') ∧
    y0 = H - (snd (SourceOffset r') + snd (SourceDimensions r')) ∧
    y1 - y0 + 1 = snd (SourceDimensions r') ∧
    0 <= x0 ∧ x1 <= W - 1 ∧ 0 <= y0 ∧ y1 <= H - 1.
Proof.
  intros Hri W H HW HH Hext.
  destruct (RequestInformation_shape r r' Hri HW HH Hext)
    as (f & ds & r3 & _ & _ & _ & _ & _ & Hok & _ & Hr').
  fold W H in Hok, Hr'.
  destruct Hok as (Ho1 & Ho2 & Ho3 & Ho4 & Ho5 & Ho6).
  eexists _, _, _, _. split; [by rewrite Hr' at 1|].
  repeat split; lia.
Qed.

(** Describe on the defaults selects the whole raster. With no extent
    requested and no target dimensions set, a successful
    [RequestInformation] sets the target dimensions to the raster
    dimensions, the window to the whole raster and the extent to
    (0, W - 1, 0, H - 1, 0, 0). *)
Theorem RequestInformation_defaults_whole_raster (r r' : Reader) :
  RequestInformation GDALOpen true r = (1, r') →
  let W := fst (RasterDimensions r') in
  let H := snd (RasterDimensions r') in
  0 <= W <= INT_MAX → 0 <= H <= INT_MAX →
  TargetDimensions r = (-1, -1) →
  extent_unset (DataExtent r) →
  TargetDimensions r' = (W, H) ∧
  SourceOffset r' = (0, 0) ∧
  SourceDimensions r' = (W, H) ∧
  DataExtent r' = (0, W - 1, 0, H - 1, 0, 0).
Proof.
  intros Hri W H HW HH HT Hun.
  destruct (RequestInformation_shape r r' Hri HW HH (or_introl Hun))
    as (f & ds & r3 & Hf & Hds & Hr3 & HRD & Hin & Hok & Hw & Hr').
  fold W H in HRD, Hin, Hok, Hw, Hr'.
  set (r1 := ReadMetaData GDALOpen f r) in *.
  destruct (ReadMetaData_request f r) as (_ & HT1 & _). fold r1 in HT1.
  destruct (default_target_fields r1) as [HRD2 HE2].
  destruct (default_extent_fields (default_target r1)) as (HT3 & HR3 & _).
  rewrite <- Hr3 in HT3, HR3.
  assert (HTD : TargetDimensions r' = (W, H)).
  { transitivity (TargetDimensions r3); [by rewrite Hr' at 1|].
    rewrite HT3. unfold default_target. rewrite HT1, HT. simpl.
    by rewrite <- HRD2, <- HR3. }
  assert (HE3 : DataExtent r3 = (0, W - 1, 0, H - 1, 0, 0)).
  { assert (HRDt : RasterDimensions (default_target r1) = (W, H))
      by (by rewrite <- HR3).
    rewrite Hr3, default_extent_unset; rewrite ?HRDt; try done.
    rewrite HE2. unfold r1. by rewrite ReadMetaData_DataExtent. }
  rewrite HE3 in Hin, Hw. rewrite source_window_exact in Hw by done.
  assert (Hso : SourceOffset r' = (0, 0)).
  { apply (f_equal fst) in Hw. simpl in Hw. rewrite Hw.
    unfold Max, Min. repeat case_match; f_equal; lia. }
  assert (Hsd : SourceDimensions r' = (W, H)).
  { apply (f_equal snd) in Hw. simpl in Hw. rewrite Hw.
    unfold Max, Min. repeat case_match; f_equal; lia. }
  split; [done|]. split; [done|]. split; [done|].
  rewrite Hr' at 1. rewrite Hso, Hsd. simpl. repeat f_equal; lia.
Qed.

(** A request inside the raster is honoured as it is. For a requested
    extent with 0 <= x0 <= x1 < W and 0 <= y0 <= y1 < H the window starts
    at column x0 and at line H - 1 - y1 (lines are counted from the top in
    the file, from the bottom in the extent), has x1 - x0 + 1 columns and
    y1 - y0 + 1 lines, and the extent is kept. *)
Theorem RequestInformation_request_inside (r r' : Reader) x0 x1 y0 y1 z0 z1 :
  RequestInformation GDALOpen true r = (1, r') →
  let W := fst (RasterDimensions r') in
  let H := snd (RasterDimensions r') in
  W <= INT_MAX → H <= INT_MAX →
  DataExtent r = (x0, x1, y0, y1, z0, z1) →
  0 <= x0 <= x1 → x1 < W → 0 <= y0 <= y1 → y1 < H →
  SourceOffset r' = (x0, H - 1 - y1) ∧
  SourceDimensions r' = (x1 - x0 + 1, y1 - y0 + 1) ∧
  DataExtent r' = (x0, x1, y0, y1, 0, 0).
Proof.
  intros Hri W H HW HH HE Hx Hx1 Hy Hy1.
  assert (Hin0 : window_in_int W H (DataExtent r)).
  { rewrite HE. unfold window_in_int, is_int, INT_MIN, INT_MAX, Max, Min in *.
    repeat case_match; lia. }
  destruct (RequestInformation_shape r r' Hri ltac:(fold W; lia) ltac:(fold H; lia)
              (or_intror Hin0))
    as (f & ds & r3 & Hf & Hds & Hr3 & HRD & Hin & Hok & Hw & Hr').
  fold W H in HRD, Hin, Hok, Hw, Hr'.
  set (r1 := ReadMetaData GDALOpen f r) in *.
  destruct (default_target_fields r1) as [HRD2 HE2].
  assert (HE1 : DataExtent (default_target r1) = (x0, x1, y0, y1, z0, z1)).
  { rewrite HE2. unfold r1. by rewrite ReadMetaData_DataExtent. }
  assert (HE3 : DataExtent r3 = (x0, x1, y0, y1, z0, z1)).
  { rewrite Hr3, default_extent_requested; [done|].
    rewrite HE1. unfold extent_unset. lia. }
  rewrite HE3 in Hin, Hw. rewrite source_window_exact in Hw by (done || lia).
  assert (Hso : SourceOffset r' = (x0, H - 1 - y1)).
  { apply (f_equal fst) in Hw. simpl in Hw. rewrite Hw.
    unfold Max, Min. repeat case_match; f_equal; lia. }
  assert (Hsd : SourceDimensions r' = (x1 - x0 + 1, y1 - y0 + 1)).
  { apply (f_equal snd) in Hw. simpl in Hw. rewrite Hw.
    unfold Max, Min. repeat case_match; f_equal; lia. }
  split; [done|]. split; [done|].
  rewrite Hr' at 1. rewrite Hso, Hsd. simpl. repeat f_equal; lia.
Qed.

(** After a successful Describe the name read last is the file name. *)
Lemma RequestInformation_name_read (r r' : Reader) :
  RequestInformation GDALOpen true r = (1, r') →
  FileName r = Some (PrevReadFileName r').
Proof.
  intros Hri. destruct (RequestInformation_success r r' true Hri)
    as (f & ds & _ & Hf & Hds & _ & Hr'). cbv zeta in Hr'.
  set (r1 := ReadMetaData GDALOpen f r) in *.
  destruct (ReadMetaData_dataset f r ds Hds) as (HP1 & _). fold r1 in HP1.
  destruct (default_extent_fields (default_target r1)) as (_ & _ & _ & HP3 & _).
  destruct (default_target_more r1) as (_ & HP2 & _).
  rewrite Hf, Hr'. simpl. by rewrite HP3, HP2, HP1.
Qed.

(** A Describe that fails changes nothing of the request.
    [RequestInformation] returns 0 or 1; when it returns 0 the requested
    extent, the target dimensions, the window and the file name are as
    before; when it returns 1 a dataset is open under the file name of the
    reader and the raster has a positive dimension. *)
Theorem RequestInformation_failure_keeps_request outInfo (r r' : Reader) rv :
  RequestInformation GDALOpen outInfo r = (rv, r') →
  (rv = 0 ∨ rv = 1) ∧
  (rv = 0 →
     DataExtent r' = DataExtent r ∧
     TargetDimensions r' = TargetDimensions r ∧
     SourceOffset r' = SourceOffset r ∧
     SourceDimensions r' = SourceDimensions r ∧
     FileName r' = FileName r) ∧
  (rv = 1 →
     outInfo = true ∧
     ∃ f ds, FileName r = Some f ∧ GDALData r' = Some ds ∧
             PrevReadFileName r' = f ∧
             (0 < fst (RasterDimensions r') ∨ 0 < snd (RasterDimensions r'))).
Proof.
  intros Hri.
  assert (Hcases : (rv = 0 ∧
             (r' = r ∨ ∃ f, FileName r = Some f ∧ r' = ReadMetaData GDALOpen f r))
          ∨ rv = 1).
  { revert Hri. unfold RequestInformation.
    destruct outInfo; simpl; [|intros [= <- <-]; left; by split; [|left]].
    destruct (FileName r) as [f|]; [|intros [= <- <-]; left; by split; [|left]].
    destruct (GDALData _); [|intros [= <- <-]; left; split; [done|right; by exists f]].
    destruct (_ && _); [intros [= <- <-]; left; split; [done|right; by exists f]|].
    intros [= <- _]. by right. }
  split; [destruct Hcases as [[-> _]| ->]; [by left|by right]|]. split.
  - intros ->. destruct Hcases as [[_ [->|(f & Hf & ->)]]|[=]]; [done|].
    destruct (ReadMetaData_request f r) as (? & ? & ? & ?).
    by rewrite ReadMetaData_DataExtent.
  - intros ->. destruct (RequestInformation_success r r' outInfo Hri)
      as (f & ds & -> & Hf & Hds & Hdim & Hr').
    split; [done|]. exists f, ds. cbv zeta in Hr'.
    set (r1 := ReadMetaData GDALOpen f r) in *.
    destruct (ReadMetaData_dataset f r ds Hds) as (HP1 & _). fold r1 in HP1.
    destruct (default_extent_fields (default_target r1)) as (_ & HR3 & _ & HP3 & HD3).
    destruct (default_target_more r1) as (_ & HP2 & HD2).
    destruct (default_target_fields r1) as [HRD2 _].
    split; [done|].
    split; [rewrite Hr'; simpl; by rewrite HD3, HD2|].
    split; [rewrite Hr'; simpl; by rewrite HP3, HP2|].
    assert (RasterDimensions r' = RasterDimensions r1) as ->
      by (rewrite Hr'; simpl; by rewrite HR3, HRD2).
    lia.
Qed.

(** The name of the file read last outlives a failed open. After a
    successful Describe of file f, a Describe of a file g that cannot be
    opened releases the dataset but keeps f as the name read last; a
    further Describe of f then finds the name unchanged, opens nothing, and
    fails as well, whether or not f can still be opened. *)
Theorem RequestInformation_stale_after_failed_open (r0 r : Reader) f g :
  RequestInformation GDALOpen true (set_FileName (Some f) r0) = (1, r) →
  g ≠ f →
  GDALOpen g = None →
  let r1 := snd (RequestInformation GDALOpen true (set_FileName (Some g) r)) in
  fst (RequestInformation GDALOpen true (set_FileName (Some g) r)) = 0 ∧
  GDALData r1 = None ∧
  RequestInformation GDALOpen true (set_FileName (Some f) r1)
  = (0, set_FileName (Some f) r1).
Proof.
  intros Hri Hne Hg.
  pose proof (RequestInformation_name_read _ _ Hri) as HP.
  simpl in HP. injection HP as HP. symmetry in HP.
  assert (Hfirst : RequestInformation GDALOpen true (set_FileName (Some g) r)
                   = (0, set_GDALData None (set_FileName (Some g) r))).
  { unfold RequestInformation, ReadMetaData. simpl. rewrite HP.
    destruct (String.eqb g f) eqn:E; [by apply String.eqb_eq in E|].
    by rewrite Hg. }
  rewrite Hfirst. simpl. split; [done|]. split; [done|].
  unfold RequestInformation, ReadMetaData. simpl.
  by rewrite HP, String.eqb_refl.
Qed.

(** [CanReadFile] decides Describe for a file that is not the one read
    last. If it returns 0, Describe returns 0 and the Produce that follows
    returns 0 without touching the output; if it returns 1, Describe
    succeeds exactly when the raster has a positive dimension. *)
Theorem CanReadFile_decides_Describe (r : Reader) f out :
  FileName r = Some f →
  PrevReadFileName r ≠ f →
  let r1 := snd (RequestInformation GDALOpen true r) in
  (CanReadFile GDALOpen f = 0 →
     fst (RequestInformation GDALOpen true r) = 0 ∧
     RequestData exportToProj4 NDEBUG out r1 = Ok (0, r1, out)) ∧
  (CanReadFile GDALOpen f = 1 →
     (fst (RequestInformation GDALOpen true r) = 1 ↔
      ∃ ds, GDALOpen f = Some ds ∧ (0 < RasterXSize ds ∨ 0 < RasterYSize ds))).
Proof.
  intros Hf Hne. unfold CanReadFile.
  assert (Hneb : String.eqb f (PrevReadFileName r) = false).
  { destruct (String.eqb f (PrevReadFileName r)) eqn:E; [|done].
    apply String.eqb_eq in E. by subst. }
  destruct (GDALOpen f) as [ds|] eqn:Ho; cbv zeta.
  - split; [done|]. intros _.
    unfold RequestInformation, ReadMetaData. simpl. rewrite Hf, Hneb, Ho. simpl.
    destruct ((RasterXSize ds <=? 0) && (RasterYSize ds <=? 0)) eqn:Hdim; simpl.
    + split; [done|]. intros (ds' & [= <-] & Hpos).
      apply andb_true_iff in Hdim as [H0 H1]. apply Z.leb_le in H0, H1. lia.
    + split; [|done]. intros _. exists ds. split; [done|].
      apply andb_false_iff in Hdim as [H0|H0]; apply Z.leb_gt in H0; lia.
  - split; [|done]. intros _.
    assert (Hri : RequestInformation GDALOpen true r = (0, set_GDALData None r)).
    { unfold RequestInformation, ReadMetaData. simpl. by rewrite Hf, Hneb, Ho. }
    rewrite Hri. simpl. split; [done|].
    unfold RequestData, ReadData. simpl. by rewrite Hf.
Qed.

End Describe.

(** *** At the sample rasters *)

Lemma RequestInformation_twice_witness :
  let r' := snd (RequestInformation (one_file raster_2x2) true request_outside) in
  RequestInformation (one_file raster_2x2) true request_outside = (1, r') ∧
  0 <= fst (RasterDimensions r') <= INT_MAX ∧
  0 <= snd (RasterDimensions r') <= INT_MAX ∧
  (extent_unset (DataExtent request_outside) ∨
   window_in_int (fst (RasterDimensions r')) (snd (RasterDimensions r'))
     (DataExtent request_outside)) ∧
  RequestInformation (one_file raster_2x2) true r' = (1, r').
Proof.
  intros r'.
  assert (H1 : RequestInformation (one_file raster_2x2) true request_outside = (1, r'))
    by (vm_compute; reflexivity).
  assert (HRD : RasterDimensions r' = (2, 2)) by (vm_compute; reflexivity).
  assert (H2 : 0 <= fst (RasterDimensions r') <= INT_MAX)
    by (rewrite HRD; unfold INT_MAX; simpl; lia).
  assert (H3 : 0 <= snd (RasterDimensions r') <= INT_MAX)
    by (rewrite HRD; unfold INT_MAX; simpl; lia).
  assert (H4 : extent_unset (DataExtent request_outside) ∨
               window_in_int (fst (RasterDimensions r')) (snd (RasterDimensions r'))
                 (DataExtent request_outside)).
  { right. rewrite HRD.
    unfold window_in_int, is_int, INT_MIN, INT_MAX, Max, Min. simpl. lia. }
  split; [exact H1|]. split; [exact H2|]. split; [exact H3|]. split; [exact H4|].
  exact (RequestInformation_twice (one_file raster_2x2) request_outside r'
           H1 H2 H3 H4).
Defined.

Lemma RequestInformation_extent_of_window_witness :
  let r' := snd (RequestInformation (one_file raster_2x2) true request_outside) in
  RequestInformation (one_file raster_2x2) true request_outside = (1, r') ∧
  0 <= fst (RasterDimensions r') <= INT_MAX ∧
  0 <= snd (RasterDimensions r') <= INT_MAX ∧
  (extent_unset (DataExtent request_outside) ∨
   window_in_int (fst (RasterDimensions r')) (snd (RasterDimensions r'))
     (DataExtent request_outside)) ∧
  ∃ x0 x1 y0 y1,
    DataExtent r' = (x0, x1, y0, y1, 0, 0) ∧
    x0 = fst (SourceOffset r') ∧
    x1 - x0 + 1 = fst (SourceDimensions r') ∧
    y0 = snd (RasterDimensions r')
         - (snd (SourceOffset r') + snd (SourceDimensions r')) ∧
    y1 - y0 + 1 = snd (SourceDimensions r') ∧
    0 <= x0 ∧ x1 <= fst (RasterDimensions r') - 1 ∧
    0 <= y0 ∧ y1 <= snd (RasterDimensions r') - 1.
Proof.
  intros r'.
  assert (H1 : RequestInformation (one_file raster_2x2) true request_outside = (1, r'))
    by (vm_compute; reflexivity).
  assert (HRD : RasterDimensions r' = (2, 2)) by (vm_compute; reflexivity).
  assert (H2 : 0 <= fst (RasterDimensions r') <= INT_MAX)
    by (rewrite HRD; unfold INT_MAX; simpl; lia).
  assert (H3 : 0 <= snd (RasterDimensions r') <= INT_MAX)
    by (rewrite HRD; unfold INT_MAX; simpl; lia).
  assert (H4 : extent_unset (DataExtent request_outside) ∨
               window_in_int (fst (RasterDimensions r')) (snd (RasterDimensions r'))
                 (DataExtent request_outside)).
  { right. rewrite HRD.
    unfold window_in_int, is_int, INT_MIN, INT_MAX, Max, Min. simpl. lia. }
  split; [exact H1|]. split; [exact H2|]. split; [exact H3|]. split; [exact H4|].
  exact (RequestInformation_extent_of_window (one_file raster_2x2)
           request_outside r' H1 H2 H3 H4).
Defined.

Lemma RequestInformation_defaults_witness :
  let r' := snd (RequestInformation (one_file raster_2x2) true (reader_on "a.tif")) in
  RequestInformation (one_file raster_2x2) true (reader_on "a.tif") = (1, r') ∧
  0 <= fst (RasterDimensions r') <= INT_MAX ∧
  0 <= snd (RasterDimensions r') <= INT_MAX ∧
  TargetDimensions (reader_on "a.tif") = (-1, -1) ∧
  extent_unset (DataExtent (reader_on "a.tif")) ∧
  TargetDimensions r' = (fst (RasterDimensions r'), snd (RasterDimensions r')) ∧
  SourceOffset r' = (0, 0) ∧
  SourceDimensions r' = (fst (RasterDimensions r'), snd (RasterDimensions r')) ∧
  DataExtent r'
  = (0, fst (RasterDimensions r') - 1, 0, snd (RasterDimensions r') - 1, 0, 0).
Proof.
  intros r'.
  assert (H1 : RequestInformation (one_file raster_2x2) true (reader_on "a.tif")
               = (1, r')) by (vm_compute; reflexivity).
  assert (HRD : RasterDimensions r' = (2, 2)) by (vm_compute; reflexivity).
  assert (H2 : 0 <= fst (RasterDimensions r') <= INT_MAX)
    by (rewrite HRD; unfold INT_MAX; simpl; lia).
  assert (H3 : 0 <= snd (RasterDimensions r') <= INT_MAX)
    by (rewrite HRD; unfold INT_MAX; simpl; lia).
  assert (H4 : TargetDimensions (reader_on "a.tif") = (-1, -1)) by reflexivity.
  assert (H5 : extent_unset (DataExtent (reader_on "a.tif"))) by reflexivity.
  split; [exact H1|]. split; [exact H2|]. split; [exact H3|]. split; [exact H4|].
  split; [exact H5|].
  exact (RequestInformation_defaults_whole_raster (one_file raster_2x2)
           (reader_on "a.tif") r' H1 H2 H3 H4 H5).
Defined.

Lemma RequestInformation_request_inside_witness :
  let r' := snd (RequestInformation (one_file raster_2x2) true request_inside) in
  RequestInformation (one_file raster_2x2) true request_inside = (1, r') ∧
  fst (RasterDimensions r') <= INT_MAX ∧
  snd (RasterDimensions r') <= INT_MAX ∧
  DataExtent request_inside = (1, 1, 0, 0, 0, 0) ∧
  0 <= 1 <= 1 ∧ 1 < fst (RasterDimensions r') ∧
  0 <= 0 <= 0 ∧ 0 < snd (RasterDimensions r') ∧
  SourceOffset r' = (1, snd (RasterDimensions r') - 1 - 0) ∧
  SourceDimensions r' = (1 - 1 + 1, 0 - 0 + 1) ∧
  DataExtent r' = (1, 1, 0, 0, 0, 0).
Proof.
  intros r'.
  assert (H1 : RequestInformation (one_file raster_2x2) true request_inside = (1, r'))
    by (vm_compute; reflexivity).
  assert (HRD : RasterDimensions r' = (2, 2)) by (vm_compute; reflexivity).
  assert (H2 : fst (RasterDimensions r') <= INT_MAX)
    by (rewrite HRD; unfold INT_MAX; simpl; lia).
  assert (H3 : snd (RasterDimensions r') <= INT_MAX)
    by (rewrite HRD; unfold INT_MAX; simpl; lia).
  assert (H4 : DataExtent request_inside = (1, 1, 0, 0, 0, 0)) by reflexivity.
  assert (H5 : 0 <= 1 <= 1) by lia.
  assert (H6 : 1 < fst (RasterDimensions r')) by (rewrite HRD; simpl; lia).
  assert (H7 : 0 <= 0 <= 0) by lia.
  assert (H8 : 0 < snd (RasterDimensions r')) by (rewrite HRD; simpl; lia).
  split; [exact H1|]. split; [exact H2|]. split; [exact H3|]. split; [exact H4|].
  split; [exact H5|]. split; [exact H6|]. split; [exact H7|]. split; [exact H8|].
  exact (RequestInformation_request_inside (one_file raster_2x2)
           request_inside r' 1 1 0 0 0 0 H1 H2 H3 H4 H5 H6 H7 H8).
Defined.

Lemma RequestInformation_failure_witness :
  let r := request_outside_missing in
  let r' := snd (RequestInformation (one_file raster_2x2) true r) in
  RequestInformation (one_file raster_2x2) true r = (0, r') ∧
  (0 = 0 ∨ 0 = 1) ∧
  (0 = 0 →
     DataExtent r' = DataExtent r ∧
     TargetDimensions r' = TargetDimensions r ∧
     SourceOffset r' = SourceOffset r ∧
     SourceDimensions r' = SourceDimensions r ∧
     FileName r' = FileName r).
Proof.
  intros r r'.
  assert (H1 : RequestInformation (one_file raster_2x2) true r = (0, r'))
    by (vm_compute; reflexivity).
  split; [exact H1|].
  pose proof (RequestInformation_failure_keeps_request (one_file raster_2x2) true
                r r' 0 H1) as (Ha & Hb & _).
  split; [exact Ha|exact Hb].
Defined.

Lemma RequestInformation_stale_witness :
  let r := snd (RequestInformation (one_file raster_2x2) true
                  (set_FileName (Some "a.tif") vtkGDALRasterReader_New)) in
  RequestInformation (one_file raster_2x2) true
    (set_FileName (Some "a.tif") vtkGDALRasterReader_New) = (1, r) ∧
  "b.tif" ≠ "a.tif" ∧
  one_file raster_2x2 "b.tif" = None ∧
  one_file raster_2x2 "a.tif" = Some raster_2x2 ∧
  let r1 := snd (RequestInformation (one_file raster_2x2) true
                   (set_FileName (Some "b.tif") r)) in
  fst (RequestInformation (one_file raster_2x2) true
         (set_FileName (Some "b.tif") r)) = 0 ∧
  GDALData r1 = None ∧
  RequestInformation (one_file raster_2x2) true (set_FileName (Some "a.tif") r1)
  = (0, set_FileName (Some "a.tif") r1).
Proof.
  intros r.
  assert (H1 : RequestInformation (one_file raster_2x2) true
                 (set_FileName (Some "a.tif") vtkGDALRasterReader_New) = (1, r))
    by (vm_compute; reflexivity).
  assert (H2 : "b.tif" ≠ "a.tif") by discriminate.
  assert (H3 : one_file raster_2x2 "b.tif" = None) by reflexivity.
  assert (H4 : one_file raster_2x2 "a.tif" = Some raster_2x2) by reflexivity.
  split; [exact H1|]. split; [exact H2|]. split; [exact H3|]. split; [exact H4|].
  exact (RequestInformation_stale_after_failed_open (one_file raster_2x2)
           vtkGDALRasterReader_New r "a.tif" "b.tif" H1 H2 H3).
Defined.

Lemma CanReadFile_witness :
  FileName (reader_on "b.tif") = Some "b.tif" ∧
  PrevReadFileName (reader_on "b.tif") ≠ "b.tif" ∧
  CanReadFile (one_file raster_2x2) "b.tif" = 0 ∧
  let r1 := snd (RequestInformation (one_file raster_2x2) true (reader_on "b.tif")) in
  (CanReadFile (one_file raster_2x2) "b.tif" = 0 →
     fst (RequestInformation (one_file raster_2x2) true (reader_on "b.tif")) = 0 ∧
     RequestData id false None r1 = Ok (0, r1, None)) ∧
  (CanReadFile (one_file raster_2x2) "b.tif" = 1 →
     (fst (RequestInformation (one_file raster_2x2) true (reader_on "b.tif")) = 1 ↔
      ∃ ds, one_file raster_2x2 "b.tif" = Some ds ∧
            (0 < RasterXSize ds ∨ 0 < RasterYSize ds))).
Proof.
  assert (H1 : FileName (reader_on "b.tif") = Some "b.tif") by reflexivity.
  assert (H2 : PrevReadFileName (reader_on "b.tif") ≠ "b.tif") by discriminate.
  assert (H3 : CanReadFile (one_file raster_2x2) "b.tif" = 0) by reflexivity.
  split; [exact H1|]. split; [exact H2|]. split; [exact H3|].
  exact (CanReadFile_decides_Describe (one_file raster_2x2) id false
           (reader_on "b.tif") "b.tif" None H1 H2).
Defined.

(** ** Produce on an empty buffer *)

Lemma int_mul_0_r a : int_mul a 0 = 0.
Proof. unfold int_mul. by rewrite Z.mul_0_r. Qed.

Lemma int_mul_0_l a : int_mul 0 a = 0.
Proof. unfold int_mul. by rewrite Z.mul_0_l. Qed.

Section EmptyBuffer.

Context {double RAW : Type} `{!DoubleOps double} `{!RawOps double RAW}.
Local Abbreviation Reader := (@vtkGDALRasterReader double RAW).
Variable exportToProj4 : string → string.
Variable NDEBUG : bool.

Lemma empty_buffers_size (r : Reader) k :
  empty_buffers r →
  int_mul (int_mul (int_mul k (fst (TargetDimensions r)))
             (snd (TargetDimensions r))) (NumberOfBytesPerPixel r) = 0 ∧
  int_mul (int_mul (fst (TargetDimensions r)) (snd (TargetDimensions r)))
    (NumberOfBytesPerPixel r) = 0.
Proof.
  intros [->|[->| ->]];
    rewrite ?int_mul_0_r, ?int_mul_0_l, ?int_mul_0_r, ?int_mul_0_l; done.
Qed.

(** A read into an empty buffer takes the address of its element 0. *)
Lemma read_band_empty T ds (r : Reader) ps ls band slot :
  read_band NDEBUG T ds r ps ls band slot [] = Undefined.
Proof.
  unfold read_band. destruct (GetRasterBand ds band); [|done].
  destruct (RasterIO _ _ _ _ _ _ _ _ _ _) as [err px].
  by destruct (_ =? _).
Qed.

Lemma read_group_empty T ds (r : Reader) ps ls group :
  group ≠ [] → read_group NDEBUG T ds r ps ls group [] = Undefined.
Proof.
  destruct group as [|b group]; [done|]. intros _. unfold read_group.
  rewrite length_cons, Nat2Z.inj_succ, seqZ_cons by lia. simpl.
  by rewrite read_band_empty.
Qed.

Lemma move_to_group_outcome idx b g :
  move_to_group idx (b, g) = Undefined ∨
  ∃ b', move_to_group idx (b, g) = Ok (b', g ++ [idx]).
Proof.
  unfold move_to_group, vec_set.
  destruct (_ <? 0); [by left|]. destruct (_ <? _)%nat; [|by left].
  right. by eexists.
Qed.

(** What [read_primary] gives on empty buffers: it goes wrong at the first
    read of the primary group, unless there is no primary group. *)
Lemma read_primary_empty_buffers T ds b (r : Reader) :
  empty_buffers r →
  read_primary NDEBUG T ds b r = Undefined ∨
  read_primary NDEBUG T ds b r
  = Ok ({| roles := b; groupIndex := []; rawUniformGridData := [];
           colorTable := vtkLookupTable_New |}, r).
Proof.
  intros He.
  assert (Hs : ∀ k, vec_resize (A := RAW) []
                 (int_mul (int_mul (int_mul k (fst (TargetDimensions r)))
                    (snd (TargetDimensions r))) (NumberOfBytesPerPixel r)) raw_zero
               = Ok []).
  { intros k. by rewrite (proj1 (empty_buffers_size r k He)). }
  assert (Hs1 : vec_resize (A := RAW) []
                  (int_mul (int_mul (fst (TargetDimensions r))
                     (snd (TargetDimensions r))) (NumberOfBytesPerPixel r)) raw_zero
                = Ok []).
  { by rewrite (proj2 (empty_buffers_size r 0 He)). }
  unfold read_primary. cbv zeta.
  repeat match goal with
  | |- context [if ?c then _ else _] =>
      lazymatch c with
      | context [negb] => destruct c
      end
  | |- context [mbind _ (move_to_group ?i (?b0, ?g0))] =>
      let E := fresh "E" in
      destruct (move_to_group_outcome i b0 g0) as [E|(? & E)];
      rewrite E; osimpl; [by left|]
  | |- context [vec_resize _ _ _] => rewrite ?Hs, ?Hs1; osimpl
  | |- context [read_group _ _ _ _ _ _ _ []] =>
      rewrite read_group_empty by (by destruct_and?; simpl; intros [=]); osimpl
  end; try (by left); by right.
Qed.

(** With nothing in the buffer of the primary group, the grid cannot be
    filled: [Convert] reads element 0 of the buffer. *)
Lemma fill_grid_empty_buffer T ds p (r : Reader) :
  rawUniformGridData p = [] → is_Some (UniformGridData r) →
  fill_grid NDEBUG T ds p r = Undefined.
Proof.
  intros Hraw [g Hg]. unfold fill_grid, place_grid. cbv zeta. rewrite Hg. osimpl.
  rewrite Hraw, Convert_empty_buffer_undefined; [done|]. by eexists.
Qed.

(** Without a primary group nothing is read before the grid is filled. *)
Lemma read_primary_no_group T ds b (r : Reader) :
  components_of b = None →
  read_primary NDEBUG T ds b r
  = Ok ({| roles := b; groupIndex := []; rawUniformGridData := [];
           colorTable := vtkLookupTable_New |}, r).
Proof.
  unfold components_of, read_primary. cbv zeta.
  by repeat case_match.
Qed.

Lemma classify_band_not_Aborted ds i (st : BandRoles * Reader) :
  classify_band ds i st ≠ Aborted.
Proof.
  destruct st as [b r]. unfold classify_band.
  destruct (GetRasterBand ds i); [|done]. unfold vec_set.
  repeat (case_match; simpl; try done).
Qed.

(** The first loop ends or goes wrong; when it ends, the roles are those
    of the bands 1 to [NumberOfBands] and the reader differs in its
    no-data vectors only. *)
Lemma classify_bands_outcome ds (r : Reader) :
  classify_bands ds r = Undefined ∨
  ∃ hnd ndv,
    classify_bands ds r
    = Ok (foldl (role_step ds) no_roles (seqZ 1 (NumberOfBands r)),
          set_NoDataValue ndv (set_HasNoDataValue hnd r)).
Proof.
  unfold classify_bands, for_range.
  replace (NumberOfBands r + 1 - 1) with (NumberOfBands r) by lia.
  destruct (for_each _ _ _) as [[b rc]| |] eqn:Hc.
  - right. apply classify_loop_Ok in Hc as (_ & -> & ->). by eexists _, _.
  - exfalso. revert Hc. apply for_each_Aborted_free.
    intros. apply classify_band_not_Aborted.
  - by left.
Qed.

(** [GenericReadData] on empty buffers, or without a primary group, is
    undefined. *)
Lemma GenericReadData_empty_buffer T (r : Reader) ds :
  GDALData r = Some ds →
  is_Some (UniformGridData r) →
  empty_buffers r ∨
    components_of (foldl (role_step ds) no_roles (seqZ 1 (NumberOfBands r))) = None →
  GenericReadData NDEBUG T r = Undefined.
Proof.
  intros Hds Hg Hcase. unfold GenericReadData. rewrite Hds.
  destruct (classify_bands_outcome ds r) as [->|(hnd & ndv & ->)]; [done|].
  osimpl. set (b := foldl _ _ _) in *.
  set (rc := set_NoDataValue ndv (set_HasNoDataValue hnd r)).
  assert (Hp : read_primary NDEBUG T ds b rc = Undefined ∨
               read_primary NDEBUG T ds b rc
               = Ok ({| roles := b; groupIndex := []; rawUniformGridData := [];
                        colorTable := vtkLookupTable_New |}, rc)).
  { destruct Hcase as [He|Hn].
    - by apply read_primary_empty_buffers.
    - right. by apply read_primary_no_group. }
  destruct Hp as [->| ->]; [done|]. osimpl.
  destruct (GetGeoCornerPoints_outcome rc ds) as [->|(cp & ->)]; [done|done|].
  osimpl. by apply fill_grid_empty_buffer.
Qed.

(** *** The roles and the bands of the dataset *)

Lemma GetRasterBand_elem_of (ds : @GDALDataset double RAW) i band :
  GetRasterBand ds i = Some band → band ∈ RasterBands ds.
Proof.
  unfold GetRasterBand. destruct (i <? 1); [done|].
  apply list_elem_of_lookup_2.
Qed.

Lemma role_step_seen (ds : @GDALDataset double RAW) b i : roles_seen ds b → roles_seen ds (role_step ds b i).
Proof.
  intros (Hr & Hg & Hb & Hy & Hp). unfold role_step.
  destruct (GetRasterBand ds i) as [band|] eqn:Hi; [|done].
  apply GetRasterBand_elem_of in Hi.
  assert (Hhas : ∀ P : GDALColorInterp → Prop,
            P (ColorInterpretation band) → has_band P ds).
  { intros P HP. apply Exists_exists. by exists band. }
  unfold assign_role.
  repeat match goal with
  | |- context [if ?c then _ else _] =>
      let E := fresh "E" in destruct c eqn:E
  end; repeat split; cbn [redIndex greenIndex blueIndex grayIndex paletteIndex
                          set_otherIndex]; try done; intros _; apply Hhas;
    repeat match goal with
    | E : _ && _ = true |- _ => apply andb_true_iff in E as [E _]
    | E : _ || _ = true |- _ => apply orb_true_iff in E as [E|E]
    | E : bool_decide _ = true |- _ => apply bool_decide_eq_true in E
    end; unfold is_red, is_green, is_blue; auto.
Qed.

Lemma fold_role_step_seen (ds : @GDALDataset double RAW) l b :
  roles_seen ds b → roles_seen ds (foldl (role_step ds) b l).
Proof.
  revert b. induction l as [|i l IH]; intros b Hb; [done|]. simpl.
  by apply IH, role_step_seen.
Qed.

Lemma no_primary_group_components (ds : @GDALDataset double RAW) l :
  ¬ has_primary_group ds →
  components_of (foldl (role_step ds) no_roles l) = None.
Proof.
  intros Hno.
  destruct (fold_role_step_seen ds l no_roles) as (Hr & Hg & Hb & Hy & Hp);
    [by repeat split|].
  set (b := foldl _ _ _) in *. unfold components_of.
  unfold has_primary_group in Hno.
  destruct (redIndex b =? 0) eqn:Er, (greenIndex b =? 0) eqn:Eg,
    (blueIndex b =? 0) eqn:Eb, (grayIndex b =? 0) eqn:Ey,
    (paletteIndex b =? 0) eqn:Ep; simpl; try done; exfalso; apply Hno;
    repeat match goal with
    | E : (_ =? 0) = false |- _ => apply Z.eqb_neq in E
    end; tauto.
Qed.

Lemma select_type_outcome ds (r : Reader) :
  select_type ds r = Undefined ∨
  ∃ t n, select_type ds r
         = Ok (set_NumberOfBytesPerPixel n (set_TargetDataType t r)) ∧
         (NumberOfBytesPerPixel r ≠ 0 →
          n = NumberOfBytesPerPixel r ∧ t = TargetDataType r) ∧
         (NumberOfBytesPerPixel r = 0 →
          ∃ band, GetRasterBand ds 1 = Some band ∧
                  t = RasterDataType band ∧ n = bytes_per_pixel t).
Proof.
  unfold select_type. cbv zeta. destruct (NumberOfBytesPerPixel r =? 0) eqn:Hn.
  - apply Z.eqb_eq in Hn. destruct (GetRasterBand ds 1) as [band|]; [|by left].
    right. eexists _, _. split; [done|]. split; [done|]. intros _. by exists band.
  - apply Z.eqb_neq in Hn. right.
    exists (TargetDataType r), (NumberOfBytesPerPixel r). by repeat split.
Qed.

Lemma ReadData_empty_buffer f (r : Reader) ds :
  GDALData r = Some ds →
  (∀ ra, select_type ds r = Ok ra →
     empty_buffers ra ∨
     components_of (foldl (role_step ds) no_roles (seqZ 1 (NumberOfBands r)))
     = None) →
  ReadData NDEBUG f r = Undefined.
Proof.
  intros Hds Hcase. unfold ReadData. rewrite Hds.
  destruct (select_type_outcome ds r) as [->|(t & n & Hsel & _)]; [done|].
  rewrite Hsel. osimpl. cbv zeta.
  apply (GenericReadData_empty_buffer _ _ ds); [done|by eexists|].
  destruct (Hcase _ Hsel) as [He|Hn]; [left; exact He|right; exact Hn].
Qed.

(** Produce with a target dimension of 0 is undefined. [RequestData] warns
    of target dimensions that are not positive and goes on; with a
    dimension of 0 the buffers have no element, and the first read (or
    [Convert], when there is no primary group) takes element 0 of an empty
    vector. *)
Theorem RequestData_zero_target_undefined out (r : Reader) f ds :
  FileName r = Some f →
  GDALData r = Some ds →
  fst (TargetDimensions r) = 0 ∨ snd (TargetDimensions r) = 0 →
  RequestData exportToProj4 NDEBUG out r = Undefined.
Proof.
  intros Hf Hds Hz. unfold RequestData. rewrite Hf.
  rewrite (ReadData_empty_buffer f r ds); [done|done|].
  intros ra Hra. left.
  destruct (select_type_outcome ds r) as [E|(t & n & E & _)]; [congruence|].
  rewrite E in Hra. injection Hra as <-. unfold empty_buffers. simpl. tauto.
Qed.

(** Produce on a pixel type that is none of the seven is undefined. On a
    reader that has read no pixels yet, a first band of another type
    (unknown or complex) sets the number of bytes per pixel to 0: the
    buffers have no element. *)
Theorem RequestData_unsupported_type_undefined out (r : Reader) f ds band :
  FileName r = Some f →
  GDALData r = Some ds →
  NumberOfBytesPerPixel r = 0 →
  GetRasterBand ds 1 = Some band →
  bytes_per_pixel (RasterDataType band) = 0 →
  RequestData exportToProj4 NDEBUG out r = Undefined.
Proof.
  intros Hf Hds Hn Hband Hbytes. unfold RequestData. rewrite Hf.
  rewrite (ReadData_empty_buffer f r ds); [done|done|].
  intros ra Hra. left.
  destruct (select_type_outcome ds r) as [E|(t & n & E & _ & H0)]; [congruence|].
  rewrite E in Hra. injection Hra as <-.
  destruct (H0 Hn) as (band' & Hb' & -> & ->).
  rewrite Hband in Hb'. injection Hb' as <-.
  unfold empty_buffers. simpl. tauto.
Qed.

(** Produce on a dataset without a primary group is undefined. When the
    bands of the dataset hold neither a red, a green and a blue band nor a
    gray band nor a palette band, nothing is read into the buffer before
    [Convert] is called for "Elevation", and [Convert] reads element 0 of
    the empty buffer. *)
Theorem RequestData_no_primary_group_undefined out (r : Reader) f ds :
  FileName r = Some f →
  GDALData r = Some ds →
  ¬ has_primary_group ds →
  RequestData exportToProj4 NDEBUG out r = Undefined.
Proof.
  intros Hf Hds Hno. unfold RequestData. rewrite Hf.
  rewrite (ReadData_empty_buffer f r ds); [done|done|].
  intros ra _. right. by apply no_primary_group_components.
Qed.

End EmptyBuffer.

(** *** At the sample rasters *)

Lemma RequestData_zero_target_witness :
  let r := set_TargetDimensions (0, 2) (describe raster_2x2) in
  FileName r = Some "a.tif" ∧
  GDALData r = Some raster_2x2 ∧
  (fst (TargetDimensions r) = 0 ∨ snd (TargetDimensions r) = 0) ∧
  RequestData id false (Some (Some vtkUniformGrid_New)) r = Undefined.
Proof.
  intros r.
  assert (H1 : FileName r = Some "a.tif") by (vm_compute; reflexivity).
  assert (H2 : GDALData r = Some raster_2x2) by (vm_compute; reflexivity).
  assert (H3 : fst (TargetDimensions r) = 0 ∨ snd (TargetDimensions r) = 0)
    by (left; reflexivity).
  split; [exact H1|]. split; [exact H2|]. split; [exact H3|].
  exact (RequestData_zero_target_undefined id false
           (Some (Some vtkUniformGrid_New)) r "a.tif" raster_2x2 H1 H2 H3).
Defined.

Lemma RequestData_unsupported_type_witness :
  let r := describe raster_complex in
  FileName r = Some "a.tif" ∧
  GDALData r = Some raster_complex ∧
  NumberOfBytesPerPixel r = 0 ∧
  GetRasterBand raster_complex 1 = Some complex_band ∧
  bytes_per_pixel (RasterDataType complex_band) = 0 ∧
  RequestData id false (Some (Some vtkUniformGrid_New)) r = Undefined.
Proof.
  intros r.
  assert (H1 : FileName r = Some "a.tif") by (vm_compute; reflexivity).
  assert (H2 : GDALData r = Some raster_complex) by (vm_compute; reflexivity).
  assert (H3 : NumberOfBytesPerPixel r = 0) by (vm_compute; reflexivity).
  assert (H4 : GetRasterBand raster_complex 1 = Some complex_band)
    by reflexivity.
  assert (H5 : bytes_per_pixel (RasterDataType complex_band) = 0)
    by reflexivity.
  split; [exact H1|]. split; [exact H2|]. split; [exact H3|]. split; [exact H4|].
  split; [exact H5|].
  exact (RequestData_unsupported_type_undefined id false
           (Some (Some vtkUniformGrid_New)) r "a.tif" raster_complex complex_band
           H1 H2 H3 H4 H5).
Defined.

Lemma RequestData_no_primary_group_witness :
  let r := describe raster_undefined_bands in
  FileName r = Some "a.tif" ∧
  GDALData r = Some raster_undefined_bands ∧
  ¬ has_primary_group raster_undefined_bands ∧
  RequestData id false (Some (Some vtkUniformGrid_New)) r = Undefined.
Proof.
  intros r.
  assert (H1 : FileName r = Some "a.tif") by (vm_compute; reflexivity).
  assert (H2 : GDALData r = Some raster_undefined_bands)
    by (vm_compute; reflexivity).
  assert (H3 : ¬ has_primary_group raster_undefined_bands).
  { unfold has_primary_group, has_band, is_red, is_green, is_blue.
    simpl. rewrite !Exists_cons, !Exists_nil. simpl.
    intros [(H & _)|[H|H]]; repeat destruct H as [H|H]; try discriminate H;
      try destruct H as [|]; try discriminate; done. }
  split; [exact H1|]. split; [exact H2|]. split; [exact H3|].
  exact (RequestData_no_primary_group_undefined id false
           (Some (Some vtkUniformGrid_New)) r "a.tif" raster_undefined_bands
           H1 H2 H3).
Defined.

(** ** The structure of the produced grid *)

Lemma for_each_Ok_split {A S : Type} (l : list A) (body : A → S → outcome S)
    s s' x :
  for_each l body s = Ok s' → x ∈ l →
  ∃ l1 l2 s1 s2,
    l = l1 ++ x :: l2 ∧ for_each l1 body s = Ok s1 ∧
    body x s1 = Ok s2 ∧ for_each l2 body s2 = Ok s'.
Proof.
  intros Hl Hx. apply list_elem_of_split in Hx as (l1 & l2 & ->).
  rewrite for_each_app in Hl. apply bind_Ok in Hl as (s1 & H1 & Hl).
  simpl in Hl. apply bind_Ok in Hl as (s2 & H2 & Hl).
  by exists l1, l2, s1, s2.
Qed.

Section GridStructure.

Context {double RAW : Type} `{!DoubleOps double} `{!RawOps double RAW}.
Local Abbreviation Reader := (@vtkGDALRasterReader double RAW).
Local Abbreviation Grid := (@vtkUniformGrid double RAW).
Local Abbreviation Array := (@vtkDataArray double RAW).
Variable exportToProj4 : string → string.
Variable NDEBUG : bool.

(** What a pass of [Convert] that ends has done to the grid, whatever the
    buffer: the geometry, the field data and the active scalars are kept,
    and an array of the given name, of one component per band of the group
    and of [targetWidth * targetHeight] tuples has been added. *)
Lemma Convert_Ok_grid T raw W H group name fx fy (r r' : Reader) g :
  Convert T raw W H group name fx fy r = Ok r' →
  UniformGridData r = Some g →
  ∃ g' (a : Array),
    UniformGridData r' = Some g' ∧
    Extent g' = Extent g ∧ Spacing g' = Spacing g ∧ Origin g' = Origin g ∧
    FieldArrays g' = FieldArrays g ∧
    ActiveScalars g' = ActiveScalars g ∧
    CellArrays g' = AddArray_list a (CellArrays g) ∧
    ArrName a = name ∧
    NumberOfComponents a = Z.of_nat (length group) ∧
    NumberOfTuples a = int_mul W H ∧
    LookupTable a = None.
Proof.
  unfold Convert. intros HC Hg. rewrite Hg in HC.
  apply bind_Ok in HC as (x0 & _ & HC). apply bind_Ok in HC as (st & Hl & [= <-]).
  set (I := λ st : @ConvertState double RAW,
         Extent (grid st) = Extent g ∧ Spacing (grid st) = Spacing g ∧
         Origin (grid st) = Origin g ∧ FieldArrays (grid st) = FieldArrays g ∧
         ActiveScalars (grid st) = ActiveScalars g ∧
         CellArrays (grid st) = CellArrays g ∧
         ArrName (scArr st) = name ∧
         NumberOfComponents (scArr st) = Z.of_nat (length group) ∧
         NumberOfTuples (scArr st) = int_mul W H ∧
         LookupTable (scArr st) = None).
  assert (Hst : I st).
  { unfold Convert_loops, for_range in Hl.
    apply (for_each_Ok_inv I _ _ _ _ Hl); [by repeat split|].
    intros j s1 s1' _ Hs1 Hj.
    apply (for_each_Ok_inv I _ _ _ _ Hj); [done|].
    intros i s2 s2' _ Hs2 Hi.
    apply (for_each_Ok_inv I _ _ _ _ Hi); [done|].
    intros bi s3 s3' _ Hs3 Hb. unfold Convert_slot in Hb.
    apply bind_Ok in Hb as (? & _ & Hb). apply bind_Ok in Hb as (? & _ & Hb).
    apply bind_Ok in Hb as (? & _ & Hb). apply bind_Ok in Hb as (? & _ & Hb).
    cbv zeta in Hb. injection Hb as <-.
    destruct Hs3 as (? & ? & ? & ? & ? & ? & ? & ? & ? & ?).
    destruct (is_no_data _ _ _ _); by repeat split. }
  destruct Hst as (? & ? & ? & ? & ? & Hc & ? & ? & ? & ?).
  exists (AddArray (scArr st) (grid st)), (scArr st).
  repeat split; try done. simpl. by rewrite Hc.
Qed.

(** *** Arrays by name *)

Lemma Forall_AddArray_list (P : Array → Prop) a l :
  Forall P l → P a → Forall P (AddArray_list a l).
Proof.
  intros Hl Ha. induction Hl as [|b l Hb Hl IH]; simpl.
  - by constructor.
  - destruct (String.eqb _ _); by constructor.
Qed.

Lemma AddArray_list_named (a : Array) l n :
  (∃ b, b ∈ l ∧ ArrName b = n) ∨ ArrName a = n →
  ∃ b, b ∈ AddArray_list a l ∧ ArrName b = n.
Proof.
  induction l as [|c l IH]; simpl.
  - intros [(b & Hb & _)|Ha]; [by apply elem_of_nil in Hb|].
    exists a. split; [by left|done].
  - destruct (String.eqb (ArrName c) (ArrName a)) eqn:Hc.
    + apply String.eqb_eq in Hc.
      intros [(b & Hb & Hn)|Ha].
      * apply elem_of_cons in Hb as [->|Hb].
        -- exists a. split; [by left|]. by rewrite <- Hc.
        -- exists b. split; [by right|done].
      * exists a. split; [by left|done].
    + intros [(b & Hb & Hn)|Ha].
      * apply elem_of_cons in Hb as [->|Hb].
        -- exists c. split; [by left|done].
        -- destruct IH as (b' & Hb' & Hn'); [left; by exists b|].
           exists b'. split; [by right|done].
      * destruct IH as (b' & Hb' & Hn'); [by right|].
        exists b'. split; [by right|done].
Qed.

Lemma index_of_name_named (l : list Array) n :
  (∃ b, b ∈ l ∧ ArrName b = n) →
  ∃ k b, index_of_name n l = Some k ∧ l !! k = Some b ∧ ArrName b = n.
Proof.
  induction l as [|c l IH]; intros (b & Hb & Hn).
  - by apply elem_of_nil in Hb.
  - simpl. destruct (String.eqb (ArrName c) n) eqn:Hc.
    + apply String.eqb_eq in Hc. by exists 0%nat, c.
    + apply elem_of_cons in Hb as [->|Hb].
      * rewrite <- Hn, String.eqb_refl in Hc. done.
      * destruct IH as (k & b' & -> & Hk & Hn'); [by exists b|].
        by exists (S k), b'.
Qed.

(** An array that is in the cell data under a name is found by that
    name. *)
Lemma GetArray_named (g : Grid) n :
  (∃ b, b ∈ CellArrays g ∧ ArrName b = n) →
  ∃ b, GetArray n g = Some b ∧ b ∈ CellArrays g ∧ ArrName b = n.
Proof.
  intros Hn. destruct (index_of_name_named _ _ Hn) as (k & b & Hk & Hb & Hname).
  exists b. unfold GetArray. rewrite Hk. simpl. split; [done|].
  split; [by eapply list_elem_of_lookup_2|done].
Qed.

(** *** The loop over the other bands *)

Lemma band_array_name_not_Elevation idx :
  String.eqb "Elevation" (band_array_name idx) = false.
Proof. reflexivity. Qed.

(** The grid during the loop over the other bands: the array of the
    primary group comes first and is the active scalars, the arrays after
    it are those of single bands. *)
Definition others_inv (W H : Z) (a0 : Array) (g0 : Grid) (named : list string)
    (st : list Z * list RAW * Reader) : Prop :=
  length st.1.1 = 1%nat ∧ TargetDimensions st.2 = (W, H) ∧
  ∃ g rest,
    UniformGridData st.2 = Some g ∧ CellArrays g = a0 :: rest ∧
    ActiveScalars g = Some 0%nat ∧
    Extent g = Extent g0 ∧ Spacing g = Spacing g0 ∧ Origin g = Origin g0 ∧
    FieldArrays g = FieldArrays g0 ∧
    Forall (band_array W H) rest ∧
    Forall (λ n, ∃ b, b ∈ rest ∧ ArrName b = n) named.

Lemma read_other_inv T ds b i W H a0 g0 named st st' :
  ArrName a0 = "Elevation" →
  read_other NDEBUG T ds b i st = Ok st' →
  others_inv W H a0 g0 named st →
  others_inv W H a0 g0 named st' ∧
  ∀ idx, otherIndex b !! Z.to_nat i = Some idx → 0 <= i → idx ≠ 0 →
    others_inv W H a0 g0 (band_array_name idx :: named) st'.
Proof.
  intros Ha0 Hro. destruct st as [[group raw] r].
  intros (Hlen & HTD & g & rest & Hg & Hc & Hact & He & Hs & Ho & Hf & Hrest & Hn).
  simpl in Hlen, HTD, Hg.
  unfold read_other in Hro. apply bind_Ok in Hro as (idx & Hat & Hro).
  destruct (idx =? 0) eqn:Hz.
  { injection Hro as <-. apply Z.eqb_eq in Hz. split.
    - split; [done|]. split; [done|]. by exists g, rest.
    - intros idx' Hi Hi0 Hne. exfalso. revert Hat. unfold vec_at.
      destruct (i <? 0) eqn:Hneg; [lia|]. rewrite Hi. intros [= ->]. done. }
  apply bind_Ok in Hro as (group' & Hset & Hro).
  apply bind_Ok in Hro as (raw' & _ & Hro).
  apply bind_Ok in Hro as (r' & HC & [= <-]).
  apply vec_set_Ok in Hset as (_ & _ & ->).
  pose proof (only_output_eq _ _ (Convert_only_output _ _ _ _ _ _ _ _ _ _ HC)) as Hr'.
  destruct (Convert_Ok_grid _ _ _ _ _ _ _ _ _ _ g HC Hg)
    as (g' & a & Hg' & He' & Hs' & Ho' & Hf' & Hact' & Hc' & Hna & Hnc & Hnt & Hlt).
  rewrite HTD in Hnt. simpl in Hnt.
  rewrite length_insert, Hlen in Hnc.
  rewrite Hc in Hc'. simpl in Hc'. rewrite Ha0, Hna in Hc'.
  change (String.eqb "Elevation" ("band_" +:+ pretty idx)) with false in Hc'.
  assert (Hba : band_array W H a).
  { split; [done|]. split; [done|]. split; [done|]. by exists idx. }
  assert (Hbase : ∀ named', Forall (λ n, ∃ b, b ∈ AddArray_list a rest ∧ ArrName b = n) named' →
            others_inv W H a0 g0 named' (<[Z.to_nat 0 := idx]> group, raw', r')).
  { intros named' Hn'. unfold others_inv. cbn [fst snd].
    split; [by rewrite length_insert|].
    split; [rewrite Hr'; exact HTD|].
    exists g', (AddArray_list a rest).
    split; [done|]. split; [done|]. split; [congruence|].
    split; [congruence|]. split; [congruence|]. split; [congruence|].
    split; [congruence|]. split; [by apply Forall_AddArray_list|done]. }
  assert (Hkeep : Forall (λ n, ∃ b, b ∈ AddArray_list a rest ∧ ArrName b = n) named).
  { eapply Forall_impl; [exact Hn|]. intros n Hb. apply AddArray_list_named. by left. }
  split; [by apply Hbase|].
  intros idx' Hi Hi0 Hne.
  assert (idx' = idx) as ->.
  { revert Hat. unfold vec_at. destruct (i <? 0) eqn:Hneg; [lia|].
    rewrite Hi. by intros [= ->]. }
  apply Hbase. constructor; [|done]. apply AddArray_list_named. by right.
Qed.

Lemma read_others_inv T ds b l W H a0 g0 named st st' :
  ArrName a0 = "Elevation" →
  for_each l (read_other NDEBUG T ds b) st = Ok st' →
  others_inv W H a0 g0 named st →
  others_inv W H a0 g0 named st'.
Proof.
  intros Ha0 Hl Hst.
  apply (for_each_Ok_inv (others_inv W H a0 g0 named) _ _ _ _ Hl); [done|].
  intros i s1 s2 _ Hs1 Hi. by apply (read_other_inv _ _ _ _ _ _ _ _ _ _ _ Ha0 Hi).
Qed.

Lemma read_others_named T ds b l W H a0 g0 st st' i idx :
  ArrName a0 = "Elevation" →
  for_each l (read_other NDEBUG T ds b) st = Ok st' →
  others_inv W H a0 g0 [] st →
  i ∈ l → 0 <= i → otherIndex b !! Z.to_nat i = Some idx → idx ≠ 0 →
  others_inv W H a0 g0 [band_array_name idx] st'.
Proof.
  intros Ha0 Hl Hst Hi Hi0 Hidx Hne.
  destruct (for_each_Ok_split _ _ _ _ _ Hl Hi) as (l1 & l2 & s1 & s2 & _ & H1 & Hx & H2).
  apply (read_others_inv _ _ _ _ _ _ _ _ _ _ _ Ha0 H2).
  apply (read_other_inv _ _ _ _ _ _ _ _ [] _ _ Ha0 Hx); [|done..].
  by apply (read_others_inv _ _ _ _ _ _ _ _ _ _ _ Ha0 H1).
Qed.

(** *** The grid that fill_grid leaves *)

(** On a grid without cell arrays, [fill_grid] places the grid, stores the
    primary group in the first cell array and makes it the active scalars,
    named "Elevation" unless the dataset has a palette band, and stores
    every band that is left in [otherIndex] in an array of its own. *)
Lemma fill_grid_Ok_grid T ds p (r r' : Reader) g0 :
  fill_grid NDEBUG T ds p r = Ok r' →
  UniformGridData r = Some g0 →
  CellArrays g0 = [] →
  let W := fst (TargetDimensions r) in
  let H := snd (TargetDimensions r) in
  ∃ g (a : Array) rest,
    UniformGridData r' = Some g ∧
    Extent g = (0, W, 0, H, 0, 0) ∧
    Spacing g = Some (dabs (fst (geoSpacing r)), dabs (snd (geoSpacing r)),
                      double_of_int 1) ∧
    Origin g = Some (std_min (fst (corner0 (CornerPoints r)))
                             (fst (corner2 (CornerPoints r))),
                     std_min (snd (corner0 (CornerPoints r)))
                             (snd (corner2 (CornerPoints r))),
                     double_of_int 0) ∧
    FieldArrays g = FieldArrays g0 ∧
    CellArrays g = a :: rest ∧
    ActiveScalars g = Some 0%nat ∧
    NumberOfComponents a = Z.of_nat (length (groupIndex p)) ∧
    NumberOfTuples a = int_mul W H ∧
    (ArrName a, LookupTable a)
    = (if paletteIndex (roles p) =? 0 then ("Elevation", None)
       else ("Categories", Some (colorTable p))) ∧
    Forall (band_array W H) rest ∧
    ∀ (k : nat) idx, otherIndex (roles p) !! k = Some idx → idx ≠ 0 →
      ∃ b, b ∈ rest ∧ ArrName b = band_array_name idx.
Proof.
  intros Hfill Hg0 Hc0 W H. unfold fill_grid in Hfill. cbv zeta in Hfill.
  fold W H in Hfill.
  apply bind_Ok in Hfill as (r1 & H1 & Hfill).
  unfold place_grid in H1. rewrite Hg0 in H1. cbv zeta in H1. fold W H in H1.
  injection H1 as <-.
  set (g1 := set_Geometry _ _ _ g0) in *.
  set (r1 := set_UniformGridData (Some g1) r) in *.
  apply bind_Ok in Hfill as (r2 & H2 & Hfill).
  pose proof (only_output_eq _ _ (Convert_only_output _ _ _ _ _ _ _ _ _ _ H2)) as Hr2.
  destruct (Convert_Ok_grid _ _ _ _ _ _ _ _ _ _ g1 H2 eq_refl)
    as (g2 & a & Hg2 & He2 & Hs2 & Ho2 & Hf2 & Hact2 & Hc2 & Hna & Hnc & Hnt & Hlt).
  change (CellArrays g1) with (CellArrays g0) in Hc2. rewrite Hc0 in Hc2.
  simpl in Hc2.
  apply bind_Ok in Hfill as (r3 & H3 & Hfill). rewrite Hg2 in H3.
  injection H3 as <-.
  set (g3 := SetActiveScalars "Elevation" g2) in *.
  assert (Hact3 : ActiveScalars g3 = Some 0%nat).
  { unfold g3, SetActiveScalars. simpl. rewrite Hc2. simpl.
    by rewrite Hna. }
  apply bind_Ok in Hfill as (raw & _ & Hfill).
  apply bind_Ok in Hfill as (st & Hloop & Hfill).
  unfold for_range in Hloop.
  set (st0 := (resize_fill (groupIndex p) 1 0, raw,
               set_UniformGridData (Some g3) r2)) in *.
  assert (Hinv0 : others_inv W H a g1 [] st0).
  { unfold others_inv, st0. cbn [fst snd].
    split; [unfold resize_fill; rewrite length_app, length_take, length_replicate; lia|].
    split.
    { change (TargetDimensions r2 = (W, H)).
      assert (TargetDimensions r2 = TargetDimensions r) as ->
        by (rewrite Hr2; reflexivity).
      apply surjective_pairing. }
    exists g3, []. split; [done|].
    split; [unfold g3, SetActiveScalars; simpl; by rewrite Hc2|].
    split; [done|]. unfold g3, SetActiveScalars. simpl.
    split; [done|]. split; [done|]. split; [done|]. split; [done|].
    split; by constructor. }
  assert (Hinv : others_inv W H a g1 [] st)
    by (by apply (read_others_inv _ _ _ _ _ _ _ _ _ _ _ Hna Hloop)).
  assert (Hnamed : ∀ (k : nat) idx, otherIndex (roles p) !! k = Some idx → idx ≠ 0 →
            others_inv W H a g1 [band_array_name idx] st).
  { intros k idx Hk Hne.
    apply (read_others_named _ _ _ _ _ _ _ _ _ _ (Z.of_nat k) idx Hna Hloop Hinv0);
      [|lia|by rewrite Nat2Z.id|done].
    apply elem_of_seqZ. apply lookup_lt_Some in Hk. lia. }
  destruct Hinv as (_ & _ & g & rest & Hg & Hc & Hact & He & Hs & Ho & Hf & Hrest & _).
  assert (Hrest_named : ∀ (k : nat) idx, otherIndex (roles p) !! k = Some idx →
            idx ≠ 0 → ∃ b, b ∈ rest ∧ ArrName b = band_array_name idx).
  { intros k idx Hk Hne.
    destruct (Hnamed k idx Hk Hne)
      as (_ & _ & g' & rest' & Hg' & Hc' & _ & _ & _ & _ & _ & _ & Hn).
    rewrite Hg in Hg'. injection Hg' as <-. rewrite Hc in Hc'.
    injection Hc' as <-. by apply Forall_cons in Hn as [Hn _]. }
  destruct (paletteIndex (roles p) =? 0) eqn:Hpal; cbn [negb] in Hfill.
  - injection Hfill as <-. exists g, a, rest.
    split; [done|]. split; [by rewrite He|]. split; [by rewrite Hs|].
    split; [by rewrite Ho|]. split; [by rewrite Hf|].
    split; [done|]. split; [done|]. split; [done|]. split; [done|].
    split; [by rewrite Hna, Hlt|]. split; done.
  - unfold name_categories in Hfill. rewrite Hg, Hact, Hc in Hfill.
    simpl in Hfill. injection Hfill as <-.
    eexists _, _, rest. split; [reflexivity|]. simpl.
    split; [by rewrite He|]. split; [by rewrite Hs|].
    split; [by rewrite Ho|]. split; [by rewrite Hf|].
    split; [reflexivity|]. split; [done|]. split; [done|]. split; [done|].
    split; [done|]. split; done.
Qed.

(** *** The steps of a ReadData that ends *)

Lemma ReadData_Ok_parts f (r r1 : Reader) ds :
  GDALData r = Some ds →
  ReadData NDEBUG f r = Ok r1 →
  ∃ t n p cp,
    select_type ds r = Ok (set_NumberOfBytesPerPixel n (set_TargetDataType t r)) ∧
    (NumberOfBytesPerPixel r ≠ 0 →
       n = NumberOfBytesPerPixel r ∧ t = TargetDataType r) ∧
    (NumberOfBytesPerPixel r = 0 →
       ∃ band, GetRasterBand ds 1 = Some band ∧
               t = RasterDataType band ∧ n = bytes_per_pixel t) ∧
    let T := scalar_type_for t in
    let l := seqZ 1 (NumberOfBands r) in
    let b := foldl (role_step ds) no_roles l in
    let rc : Reader :=
      set_NoDataValue (foldl (value_step ds) (NoDataValue r) l)
        (set_HasNoDataValue (foldl (flag_step ds) (HasNoDataValue r) l)
           (set_DataScalarType T
              (set_NumberOfCells 0
                 (set_UniformGridData (Some vtkUniformGrid_New)
                    (set_NumberOfBytesPerPixel n (set_TargetDataType t r)))))) in
    let rd := with_components (components_of b) rc in
    Forall (band_in_range ds (length (HasNoDataValue r)) (length (NoDataValue r))) l ∧
    read_primary NDEBUG T ds b rc = Ok (p, rd) ∧
    GetGeoCornerPoints r = Ok (set_CornerPoints cp r) ∧
    fill_grid NDEBUG T ds p (set_CornerPoints cp rd) = Ok r1.
Proof.
  intros Hds H. unfold ReadData in H. rewrite Hds in H.
  destruct (select_type_outcome ds r) as [E|(t & n & E & Hn1 & Hn0)];
    [by rewrite E in H|].
  rewrite E in H. apply bind_Ok in H as (ra & [= <-] & H). cbv zeta in H.
  cbn [TargetDataType set_NumberOfBytesPerPixel set_TargetDataType
       set_NumberOfCells set_UniformGridData] in H.
  unfold GenericReadData in H.
  cbn [GDALData set_DataScalarType set_NumberOfCells set_UniformGridData
       set_NumberOfBytesPerPixel set_TargetDataType] in H.
  rewrite Hds in H.
  apply bind_Ok in H as ([b rc] & Hcls & H).
  apply bind_Ok in H as ([p rd] & Hprim & H).
  apply bind_Ok in H as (re & Hgeo & Hfill). cbn [fst snd] in *.
  unfold classify_bands, for_range in Hcls.
  cbn [NumberOfBands set_DataScalarType set_NumberOfCells set_UniformGridData
       set_NumberOfBytesPerPixel set_TargetDataType] in Hcls.
  replace (NumberOfBands r + 1 - 1) with (NumberOfBands r) in Hcls by lia.
  apply classify_loop_Ok in Hcls as (Hl & -> & ->).
  pose proof (read_primary_state _ _ _ _ _ _ _ Hprim) as ->.
  match type of Hgeo with GetGeoCornerPoints ?x = _ =>
    assert (Hdsd : GDALData x = Some ds) by (by destruct (components_of _))
  end.
  destruct (GetGeoCornerPoints_Ok _ _ ds Hdsd Hgeo) as (cp & -> & Hcp).
  exists t, n, p, cp. split; [done|]. split; [done|]. split; [done|].
  cbv zeta. split; [done|]. split; [done|]. split; [|done].
  apply Hcp; [done|]. by destruct (components_of _).
Qed.

(** *** The primary group *)

Ltac group_step Hrp :=
  match type of Hrp with
  | mbind _ (move_to_group ?i ?st) = Ok _ =>
      let st' := fresh "st" in let Hm := fresh "Hm" in
      apply bind_Ok in Hrp as (st' & Hm & Hrp);
      destruct st' as [? ?]; apply move_to_group_Ok in Hm as (? & ? & ? & ?)
  | mbind _ (vec_resize _ _ _) = Ok _ =>
      apply bind_Ok in Hrp as (? & _ & Hrp)
  | mbind _ (read_group _ _ _ _ _ _ _ _) = Ok _ =>
      apply bind_Ok in Hrp as (? & _ & Hrp)
  | match GetRasterBand ?d ?i with _ => _ end = Ok _ =>
      destruct (GetRasterBand d i); [|discriminate Hrp]
  | mbind _ (ReadColorTable _ _) = Ok _ =>
      apply bind_Ok in Hrp as (? & _ & Hrp)
  end.

(** The group that [read_primary] forms: its bands are bands with a role,
    they are taken out of [otherIndex], and their number is the number of
    components set on the reader. *)
Lemma read_primary_group T ds b (r : Reader) p r' :
  read_primary NDEBUG T ds b r = Ok (p, r') →
  Forall (λ i, i ≠ 0 ∧ i ∈ role_indices b) (groupIndex p) ∧
  otherIndex (roles p) = foldl clear_other (otherIndex b) (groupIndex p) ∧
  paletteIndex (roles p) = paletteIndex b ∧
  (components_of b = Some (Z.of_nat (length (groupIndex p))) ∨
   components_of b = None ∧ rawUniformGridData p = []).
Proof.
  unfold read_primary, components_of. cbv zeta.
  destruct (negb (redIndex b =? 0) && negb (greenIndex b =? 0)
            && negb (blueIndex b =? 0)) eqn:Ergb.
  { apply andb_true_iff in Ergb as [Erg Eb].
    apply andb_true_iff in Erg as [Er Eg].
    apply negb_true_iff, Z.eqb_neq in Er, Eg, Eb.
    destruct (alphaIndex b =? 0) eqn:Ea; cbn [negb]; intros Hrp;
      repeat group_step Hrp; injection Hrp as <- <-;
      cbn [groupIndex roles fst snd] in *; subst; cbn [app foldl length] in *;
      (split; [|split; [congruence|split; [congruence|by left]]]);
      apply Z.eqb_neq in Ea || clear Ea;
      repeat (apply Forall_cons; split; [split; [done|]|]);
      first [by apply Forall_nil|unfold role_indices];
      repeat first [apply list_elem_of_here | apply list_elem_of_further]. }
  clear Ergb.
  destruct (grayIndex b =? 0) eqn:Ey; cbn [negb].
  2:{ apply Z.eqb_neq in Ey.
    destruct (alphaIndex b =? 0) eqn:Ea; cbn [negb]; intros Hrp;
      repeat group_step Hrp; injection Hrp as <- <-;
      cbn [groupIndex roles fst snd] in *; subst; cbn [app foldl length] in *;
      (split; [|split; [congruence|split; [congruence|by left]]]);
      apply Z.eqb_neq in Ea || clear Ea;
      repeat (apply Forall_cons; split; [split; [done|]|]);
      first [by apply Forall_nil|unfold role_indices];
      repeat first [apply list_elem_of_here | apply list_elem_of_further]. }
  destruct (paletteIndex b =? 0) eqn:Ep; cbn [negb].
  2:{ apply Z.eqb_neq in Ep. intros Hrp.
    repeat group_step Hrp; injection Hrp as <- <-;
      cbn [groupIndex roles fst snd] in *; subst; cbn [app foldl length] in *;
      (split; [|split; [congruence|split; [congruence|by left]]]);
      repeat (apply Forall_cons; split; [split; [done|]|]);
      first [by apply Forall_nil|unfold role_indices];
      repeat first [apply list_elem_of_here | apply list_elem_of_further]. }
  intros [= <- <-]. cbn [groupIndex roles foldl rawUniformGridData].
  split; [by constructor|]. split; [done|]. split; [done|]. by right.
Qed.

End GridStructure.

(** ** The output of Produce *)

Section ProducedGrid.

Context {double RAW : Type} `{!DoubleOps double} `{!RawOps double RAW}.
Local Abbreviation Reader := (@vtkGDALRasterReader double RAW).
Local Abbreviation Grid := (@vtkUniformGrid double RAW).
Local Abbreviation Array := (@vtkDataArray double RAW).
Variable exportToProj4 : string → string.
Variable NDEBUG : bool.
Local Set Default Proof Using "Type".

(** *** The colour table of the primary read *)

(** The colour table that [read_primary] leaves: the one read from the
    palette band when the palette band is the primary group, the new and
    empty one when the group is red, green, blue or gray. *)
Lemma read_primary_table T ds b (r : Reader) p r' :
  read_primary NDEBUG T ds b r = Ok (p, r') →
  ((redIndex b ≠ 0 ∧ greenIndex b ≠ 0 ∧ blueIndex b ≠ 0) ∨ grayIndex b ≠ 0 →
   colorTable p = vtkLookupTable_New) ∧
  (¬ (redIndex b ≠ 0 ∧ greenIndex b ≠ 0 ∧ blueIndex b ≠ 0) →
   grayIndex b = 0 → paletteIndex b ≠ 0 →
   ∃ band, GetRasterBand ds (paletteIndex b) = Some band ∧
           ReadColorTable band vtkLookupTable_New = Ok (colorTable p)).
Proof.
  clear exportToProj4. unfold read_primary. cbv zeta.
  destruct (redIndex b =? 0) eqn:Er, (greenIndex b =? 0) eqn:Eg,
    (blueIndex b =? 0) eqn:Eb, (grayIndex b =? 0) eqn:Ey,
    (paletteIndex b =? 0) eqn:Ep; cbn [negb andb];
    repeat match goal with
    | E : (_ =? 0) = true |- _ => apply Z.eqb_eq in E
    | E : (_ =? 0) = false |- _ => apply Z.eqb_neq in E
    end;
    intros Hrp;
    repeat (apply bind_Ok in Hrp as (? & ? & Hrp));
    repeat case_match; try discriminate;
    repeat (apply bind_Ok in Hrp as (? & ? & Hrp));
    injection Hrp as <- <-; cbn [colorTable];
    (split; [first [done|tauto]|]); intros; try (exfalso; tauto);
    (eexists; split; [reflexivity|eassumption]).
Qed.

(** *** The grid that ReadData leaves *)

Lemma ReadData_Ok_grid f (r r1 : Reader) ds :
  GDALData r = Some ds → ReadData NDEBUG f r = Ok r1 →
  let W := fst (TargetDimensions r) in
  let H := snd (TargetDimensions r) in
  let l := seqZ 1 (NumberOfBands r) in
  let b := foldl (role_step ds) no_roles l in
  ∃ t n cp group table g (a : Array) rest,
    (NumberOfBytesPerPixel r ≠ 0 →
       n = NumberOfBytesPerPixel r ∧ t = TargetDataType r) ∧
    (NumberOfBytesPerPixel r = 0 →
       ∃ band, GetRasterBand ds 1 = Some band ∧
               t = RasterDataType band ∧ n = bytes_per_pixel t) ∧
    n ≠ 0 ∧
    Forall (band_in_range ds (length (HasNoDataValue r)) (length (NoDataValue r))) l ∧
    GetGeoCornerPoints r = Ok (set_CornerPoints cp r) ∧
    components_of b = Some (Z.of_nat (length group)) ∧
    Forall (λ i, i ≠ 0 ∧ i ∈ role_indices b) group ∧
    r1 = set_UniformGridData (Some g)
           (set_NumberOfCells (NumberOfCells r1)
              (set_CornerPoints cp
                 (set_NumberOfScalarComponents (Z.of_nat (length group))
                    (set_NoDataValue (foldl (value_step ds) (NoDataValue r) l)
                       (set_HasNoDataValue (foldl (flag_step ds) (HasNoDataValue r) l)
                          (set_DataScalarType (scalar_type_for t)
                             (set_NumberOfCells 0
                                (set_UniformGridData (Some vtkUniformGrid_New)
                                   (set_NumberOfBytesPerPixel n
                                      (set_TargetDataType t r)))))))))) ∧
    Extent g = (0, W, 0, H, 0, 0) ∧
    Spacing g
    = Some (dabs (ddiv (dsub (fst (corner2 cp)) (fst (corner0 cp)))
                       (double_of_int (fst (RasterDimensions r)))),
            dabs (ddiv (dsub (snd (corner2 cp)) (snd (corner0 cp)))
                       (double_of_int (snd (RasterDimensions r)))),
            double_of_int 1) ∧
    Origin g = Some (std_min (fst (corner0 cp)) (fst (corner2 cp)),
                     std_min (snd (corner0 cp)) (snd (corner2 cp)),
                     double_of_int 0) ∧
    FieldArrays g = [] ∧
    CellArrays g = a :: rest ∧
    ActiveScalars g = Some 0%nat ∧
    NumberOfComponents a = Z.of_nat (length group) ∧
    NumberOfTuples a = int_mul W H ∧
    (ArrName a, LookupTable a)
    = (if paletteIndex b =? 0 then ("Elevation", None)
       else ("Categories", Some table)) ∧
    Forall (band_array W H) rest ∧
    (∀ (k : nat) idx, foldl clear_other l group !! k = Some idx → idx ≠ 0 →
       ∃ b', b' ∈ rest ∧ ArrName b' = band_array_name idx) ∧
    ((redIndex b ≠ 0 ∧ greenIndex b ≠ 0 ∧ blueIndex b ≠ 0) ∨ grayIndex b ≠ 0 →
     table = vtkLookupTable_New) ∧
    (¬ (redIndex b ≠ 0 ∧ greenIndex b ≠ 0 ∧ blueIndex b ≠ 0) →
     grayIndex b = 0 → paletteIndex b ≠ 0 →
     ∃ band, GetRasterBand ds (paletteIndex b) = Some band ∧
             ReadColorTable band vtkLookupTable_New = Ok table).
Proof.
  clear exportToProj4. intros Hds Hrd W H l b.
  destruct (ReadData_Ok_parts NDEBUG f r r1 ds Hds Hrd)
    as (t & n & p & cp & Hsel & Hn1 & Hn0 & Hparts).
  cbv zeta in Hparts. fold l b in Hparts.
  destruct Hparts as (Hl & Hprim & Hcp & Hfill).
  assert (Hn : n ≠ 0).
  { intros ->. rewrite (ReadData_empty_buffer NDEBUG f r ds) in Hrd; [done|done|].
    intros ra Hra. left. rewrite Hsel in Hra. injection Hra as <-.
    unfold empty_buffers. simpl. tauto. }
  destruct (read_primary_group NDEBUG _ _ _ _ _ _ Hprim)
    as (Hgroup & Hother & Hpal & Hcomp).
  destruct (read_primary_table _ _ _ _ _ _ Hprim) as (Htab1 & Htab2).
  destruct Hcomp as [Hcomp|[Hnone Hraw]].
  2:{ rewrite (fill_grid_empty_buffer NDEBUG) in Hfill; [done|done|].
      rewrite Hnone. by eexists. }
  rewrite Hcomp in Hfill. cbn [with_components] in Hfill.
  match type of Hfill with fill_grid _ _ _ _ ?x = _ => set (re := x) in * end.
  destruct (fill_grid_Ok_grid NDEBUG _ _ _ re r1 vtkUniformGrid_New Hfill
              eq_refl eq_refl)
    as (g & a & rest & Hg & He & Hs & Ho & Hf & Hc & Hact & Hnc & Hnt & Hname
        & Hrest & Hnamed).
  pose proof (only_output_eq _ _ (fill_grid_only_output NDEBUG _ _ _ _ _ Hfill))
    as Hr1.
  rewrite Hg in Hr1.
  assert (Hsome : Forall (λ i, is_Some (GetRasterBand ds i)) l).
  { eapply Forall_impl; [exact Hl|]. by intros i [Hi _]. }
  assert (Hoth : otherIndex b = l).
  { unfold b. by rewrite fold_role_step_otherIndex. }
  rewrite Hoth in Hother.
  exists t, n, cp, (groupIndex p), (colorTable p), g, a, rest.
  split; [done|]. split; [done|]. split; [done|]. split; [done|]. split; [done|].
  split; [done|]. split; [done|]. split; [exact Hr1|].
  split; [exact He|]. split; [exact Hs|]. split; [exact Ho|].
  split; [exact Hf|]. split; [done|]. split; [done|]. split; [done|].
  split; [exact Hnt|]. split; [by rewrite <- Hpal|]. split; [exact Hrest|].
  split; [|split; [exact Htab1|exact Htab2]].
  intros k idx Hk. apply (Hnamed k). by rewrite Hother.
Qed.

(** *** The no-data field *)

Lemma no_data_loop (ds : @GDALDataset double RAW) l acc vals :
  for_each l (λ i vals,
    match GetRasterBand ds (int_add i 1) with
    | None => Undefined
    | Some band =>
        let noDataValue :=
          if NoDataFlag band =? 0 then NaN else NoDataResult band in
        Ok (vals ++ [noDataValue])
    end) acc = Ok vals →
  ∃ bands,
    Forall2 (λ i band, GetRasterBand ds (int_add i 1) = Some band) l bands ∧
    vals = acc ++ ((λ band, if NoDataFlag band =? 0 then NaN else NoDataResult band)
                   <$> bands).
Proof.
  revert acc. induction l as [|i l IH]; intros acc; simpl.
  - intros [= <-]. exists []. split; [constructor|by rewrite app_nil_r].
  - destruct (GetRasterBand ds (int_add i 1)) as [band|] eqn:Hb; [|done]. simpl.
    intros H. apply IH in H as (bands & HF & ->). exists (band :: bands).
    split; [by constructor|]. simpl. by rewrite <- app_assoc.
Qed.

(** The values of the "NO_DATA_VALUE" array: one for each band, NaN for a
    band without a no-data value. *)
Lemma no_data_field_Ok (ds : @GDALDataset double RAW) n vals :
  no_data_field ds n = Ok vals → n <= INT_MAX →
  length vals = Z.to_nat n ∧
  ∀ i band, 1 <= i <= n → GetRasterBand ds i = Some band →
    vals !! Z.to_nat (i - 1)
    = Some (if NoDataFlag band =? 0 then NaN else NoDataResult band).
Proof.
  unfold no_data_field, for_range. intros H Hn.
  apply no_data_loop in H as (bands & HF & ->). simpl.
  pose proof (Forall2_length _ _ _ HF) as Hlen. rewrite length_seqZ in Hlen.
  split; [rewrite length_fmap; lia|].
  intros i band Hi Hb.
  assert (Hl : seqZ 0 (n - 0) !! Z.to_nat (i - 1) = Some (i - 1)).
  { apply lookup_seqZ. lia. }
  destruct (Forall2_lookup_l _ _ _ _ _ HF Hl) as (band' & Hb' & Hg).
  rewrite int_add_id in Hg by int_range.
  replace (i - 1 + 1) with i in Hg by lia.
  rewrite Hb in Hg. injection Hg as <-. by rewrite list_lookup_fmap, Hb'.
Qed.

(** *** The no-data vectors after the first loop *)

Lemma fold_band_step_length {V : Type} (ds : @GDALDataset double RAW)
    (val : @GDALRasterBand double RAW → V) l (v : list V) :
  length (foldl (λ h j, match GetRasterBand ds j with
                        | Some b => <[Z.to_nat (int_sub j 1) := val b]> h
                        | None => h
                        end) v l) = length v.
Proof.
  revert v. induction l as [|x l IH]; intros v; [done|]. simpl. rewrite IH.
  case_match; [apply length_insert|done].
Qed.

Lemma fold_band_step_lookup {V : Type} (ds : @GDALDataset double RAW)
    (val : @GDALRasterBand double RAW → V) l (v : list V) i band :
  Forall (λ j, 1 <= j <= INT_MAX) l → i ∈ l →
  GetRasterBand ds i = Some band →
  (Z.to_nat (i - 1) < length v)%nat →
  foldl (λ h j, match GetRasterBand ds j with
                | Some b => <[Z.to_nat (int_sub j 1) := val b]> h
                | None => h
                end) v l !! Z.to_nat (i - 1) = Some (val band).
Proof.
  induction l as [|x l IH] using rev_ind; intros Hl Hi Hb Hlen.
  - by apply elem_of_nil in Hi.
  - rewrite foldl_app. simpl. apply Forall_app in Hl as [Hl Hx].
    apply Forall_inv in Hx.
    destruct (decide (x = i)) as [->|Hne].
    + rewrite Hb, int_sub_id by int_range.
      apply list_lookup_insert_eq. by rewrite fold_band_step_length.
    + apply elem_of_app in Hi as [Hi|Hi]; [|apply list_elem_of_singleton in Hi; congruence].
      destruct (GetRasterBand ds x); [|by apply IH].
      pose proof (proj1 (Forall_forall _ _) Hl i Hi) as Hi1. cbv beta in Hi1.
      rewrite int_sub_id by int_range.
      rewrite list_lookup_insert_ne by lia. by apply IH.
Qed.

(** *** The palette band *)

Lemma role_step_palette (ds : @GDALDataset double RAW) b i :
  i ≠ 0 →
  paletteIndex (role_step ds b i) ≠ 0 ↔
  paletteIndex b ≠ 0 ∨
  ∃ band, GetRasterBand ds i = Some band ∧
          ColorInterpretation band = GCI_PaletteIndex.
Proof.
  intros Hi. unfold role_step.
  destruct (GetRasterBand ds i) as [band|];
    [|split; [tauto|intros [?|(? & ? & ?)]; done]].
  unfold assign_role.
  repeat match goal with
  | |- context [if ?c then _ else _] =>
      let E := fresh "E" in destruct c eqn:E
  end; cbn [paletteIndex set_otherIndex];
  repeat match goal with
  | E : _ && _ = true |- _ => apply andb_true_iff in E as [? ?]
  | E : _ || _ = true |- _ => apply orb_true_iff in E as [E|E]
  | E : bool_decide _ = true |- _ => apply bool_decide_eq_true in E
  | E : (_ =? 0) = true |- _ => apply Z.eqb_eq in E
  end;
  try (split; [intros ?; right; by exists band|done]);
  try (split; [tauto|intros [?|(band' & [= <-] & ?)]; [done|congruence]]).
  apply andb_false_iff in E4 as [E4|E4].
  - apply bool_decide_eq_false in E4.
    split; [tauto|intros [?|(band' & [= <-] & ?)]; done].
  - apply Z.eqb_neq in E4. tauto.
Qed.

Lemma fold_role_step_palette (ds : @GDALDataset double RAW) l b :
  Forall (λ i, i ≠ 0) l →
  paletteIndex (foldl (role_step ds) b l) ≠ 0 ↔
  paletteIndex b ≠ 0 ∨
  ∃ i band, i ∈ l ∧ GetRasterBand ds i = Some band ∧
            ColorInterpretation band = GCI_PaletteIndex.
Proof.
  revert b. induction l as [|x l IH]; intros b Hl; simpl.
  - split; [tauto|]. intros [?|(i & band & Hi & _)]; [done|].
    by apply elem_of_nil in Hi.
  - apply Forall_cons in Hl as [Hx Hl]. rewrite IH by done.
    rewrite role_step_palette by done. split.
    + intros [[?|(band & ? & ?)]|(i & band & ? & ? & ?)].
      * by left.
      * right. exists x, band. split; [by left|done].
      * right. exists i, band. split; [by right|done].
    + intros [?|(i & band & Hi & ? & ?)]; [by left; left|].
      apply elem_of_cons in Hi as [->|Hi].
      * left. right. by exists band.
      * right. by exists i, band.
Qed.

Lemma palette_within_roles (ds : @GDALDataset double RAW) n :
  paletteIndex (foldl (role_step ds) no_roles (seqZ 1 n)) ≠ 0 ↔ palette_within ds n.
Proof.
  rewrite fold_role_step_palette.
  2:{ apply Forall_forall. intros i Hi. apply elem_of_seqZ in Hi. lia. }
  unfold palette_within. split.
  - intros [?|(i & band & Hi & ? & ?)]; [done|]. exists i, band.
    apply elem_of_seqZ in Hi. split; [lia|done].
  - intros (i & band & Hi & ? & ?). right. exists i, band.
    split; [apply elem_of_seqZ; lia|done].
Qed.

Lemma components_of_range b k : components_of b = Some k → 1 <= k <= 4.
Proof. unfold components_of. repeat case_match; intros [= <-]; lia. Qed.

Lemma group_within (ds : @GDALDataset double RAW) n group :
  Forall (λ i, i ≠ 0 ∧ i ∈ role_indices (foldl (role_step ds) no_roles (seqZ 1 n)))
    group →
  Forall (λ i, 1 <= i <= n) group.
Proof.
  intros Hg. eapply Forall_impl; [exact Hg|]. intros i [Hne Hi]. simpl in Hi.
  apply fold_role_step_indices in Hi as [Hi|Hi].
  - unfold role_indices, no_roles in Hi. simpl in Hi.
    repeat (apply elem_of_cons in Hi as [Hi|Hi]; [done|]).
    by apply elem_of_nil in Hi.
  - apply elem_of_seqZ in Hi. lia.
Qed.

(** *** The steps of a RequestData that returns *)

Lemma RequestData_Ok_parts out (r : Reader) rv r' out' :
  RequestData exportToProj4 NDEBUG out r = Ok (rv, r', out') →
  ∃ f, FileName r = Some f ∧
  ((GDALData r = None ∧ rv = 0 ∧ r' = r ∧ out' = out) ∨
   ∃ ds r1 g1 vals,
     GDALData r = Some ds ∧ ReadData NDEBUG f r = Ok r1 ∧
     UniformGridData r1 = Some g1 ∧
     no_data_field ds (NumberOfBands r) = Ok vals ∧
     let P := exportToProj4 (ProjectionRef ds) in
     let g := AddFieldArray (vtkDoubleArray "NO_DATA_VALUE" vals)
                (AddFieldArray (vtkStringArray "MAP_PROJECTION" [P]) g1) in
     r' = set_UniformGridData (Some g) (set_Projection P r1) ∧
     ((∃ g_in, out = Some (Some g_in)) ∧ rv = 1 ∧ out' = Some (Some g) ∨
      (out = None ∨ out = Some None) ∧ rv = 0 ∧ out' = out)).
Proof.
  unfold RequestData. destruct (FileName r) as [f|]; [|done].
  intros H. exists f. split; [done|].
  apply bind_Ok in H as (r1 & Hrd & H).
  destruct (GDALData r) as [ds|] eqn:Hds.
  2:{ rewrite ReadData_no_dataset in Hrd by done. injection Hrd as <-.
      rewrite Hds in H. injection H as <- <- <-. by left. }
  right. destruct (ReadData_fields NDEBUG f r r1 Hrd) as (HG & _ & HNB & _).
  rewrite HG, Hds in H. cbn [UniformGridData set_Projection] in H.
  destruct (UniformGridData r1) as [g1|] eqn:Hg1; [|done].
  cbn [NumberOfBands Projection set_Projection] in H.
  apply bind_Ok in H as (vals & Hvals & H). rewrite HNB in Hvals.
  exists ds, r1, g1, vals. split; [done|]. split; [done|]. split; [done|].
  split; [done|]. cbv zeta.
  destruct out as [[g_in|]|]; injection H as <- <- <-.
  - split; [done|]. left. split; [by eexists|done].
  - split; [done|]. right. split; [by right|done].
  - split; [done|]. right. split; [by left|done].
Qed.

(** *** What Produce returns *)

(** When [RequestData] returns, it returns 1 or 0. It returns 1 exactly
    when a dataset is open and the caller's output vector holds a data
    object, and then that object is the grid of the reader. When it returns
    0 the caller's output is as it was; without an open dataset the reader
    is as it was too. *)
Theorem RequestData_output_committed out (r : Reader) rv r' out' :
  RequestData exportToProj4 NDEBUG out r = Ok (rv, r', out') →
  (rv = 1 ∧ is_Some (GDALData r) ∧ (∃ g_in, out = Some (Some g_in)) ∧
   ∃ g, out' = Some (Some g) ∧ UniformGridData r' = Some g) ∨
  (rv = 0 ∧ out' = out ∧
   (GDALData r = None ∧ r' = r ∨
    is_Some (GDALData r) ∧ (out = None ∨ out = Some None))).
Proof.
  intros H.
  destruct (RequestData_Ok_parts _ _ _ _ _ H)
    as (f & Hf & [(Hnone & -> & -> & ->)
                 |(ds & r1 & g1 & vals & Hds & Hrd & Hg1 & Hvals & Hr' & Hout)]).
  { right. split; [done|]. split; [done|]. by left. }
  cbv zeta in Hr', Hout.
  destruct Hout as [(Hin & -> & ->)|(Hin & -> & ->)].
  - left. split; [done|]. split; [by eexists|]. split; [done|].
    eexists. split; [done|]. by rewrite Hr'.
  - right. split; [done|]. split; [done|]. right. split; [by eexists|done].
Qed.

(** *** The geometry of the produced grid *)

(** The grid that a successful Produce hands out has one cell for each
    target pixel (extent 0..W, 0..H in points), as spacing the absolute
    distance between the corners 0 and 2 that [GetGeoCornerPoints] computes
    divided by the dimensions of the whole raster (not of the window that
    was read nor of the target), and as origin the smaller coordinates of
    these two corners. *)
Theorem RequestData_grid_geometry out (r : Reader) r' g :
  RequestData exportToProj4 NDEBUG out r = Ok (1, r', Some (Some g)) →
  ∃ cp,
    GetGeoCornerPoints r = Ok (set_CornerPoints cp r) ∧
    CornerPoints r' = cp ∧
    Extent g = (0, fst (TargetDimensions r), 0, snd (TargetDimensions r), 0, 0) ∧
    Spacing g
    = Some (dabs (ddiv (dsub (fst (corner2 cp)) (fst (corner0 cp)))
                       (double_of_int (fst (RasterDimensions r)))),
            dabs (ddiv (dsub (snd (corner2 cp)) (snd (corner0 cp)))
                       (double_of_int (snd (RasterDimensions r)))),
            double_of_int 1) ∧
    Origin g = Some (std_min (fst (corner0 cp)) (fst (corner2 cp)),
                     std_min (snd (corner0 cp)) (snd (corner2 cp)),
                     double_of_int 0).
Proof.
  intros H.
  destruct (RequestData_Ok_parts _ _ _ _ _ H)
    as (f & Hf & [(_ & ? & _)
                 |(ds & r1 & g1 & vals & Hds & Hrd & Hg1 & Hvals & Hr' & Hout)]);
    [done|].
  cbv zeta in Hr', Hout. destruct Hout as [(_ & _ & Hg)|(_ & ? & _)]; [|done].
  injection Hg as ->.
  destruct (ReadData_Ok_grid f r r1 ds Hds Hrd)
    as (t & n & cp & group & table & g & a & rest & _ & _ & _ & _ & Hcp & _ & _
        & Hr1 & He & Hs & Ho & _).
  assert (g1 = g) as -> by (rewrite Hr1 in Hg1; by injection Hg1).
  exists cp. split; [done|]. split; [by rewrite Hr', Hr1|]. by simpl.
Qed.

(** *** The active scalars *)

(** The active scalars of the produced grid are one array with a tuple for
    each target cell and as many components as the reader reports (1 to
    4). The array is named "Categories" and has a lookup table whenever one
    of the bands is a palette band, also when the scalars hold a gray or
    RGB group; otherwise it is named "Elevation" and has no lookup table. *)
Theorem RequestData_active_scalars out (r : Reader) r' g ds :
  RequestData exportToProj4 NDEBUG out r = Ok (1, r', Some (Some g)) →
  GDALData r = Some ds →
  ∃ a, GetScalars g = Some a ∧
    NumberOfComponents a = NumberOfScalarComponents r' ∧
    1 <= NumberOfComponents a <= 4 ∧
    NumberOfTuples a
    = int_mul (fst (TargetDimensions r)) (snd (TargetDimensions r)) ∧
    (palette_within ds (NumberOfBands r) →
       ArrName a = "Categories" ∧ is_Some (LookupTable a)) ∧
    (¬ palette_within ds (NumberOfBands r) →
       ArrName a = "Elevation" ∧ LookupTable a = None).
Proof.
  intros H Hds0.
  destruct (RequestData_Ok_parts _ _ _ _ _ H)
    as (f & Hf & [(_ & ? & _)
                 |(ds' & r1 & g1 & vals & Hds & Hrd & Hg1 & Hvals & Hr' & Hout)]);
    [done|].
  rewrite Hds0 in Hds. injection Hds as <-.
  cbv zeta in Hr', Hout. destruct Hout as [(_ & _ & Hg)|(_ & ? & _)]; [|done].
  injection Hg as ->.
  destruct (ReadData_Ok_grid f r r1 ds Hds0 Hrd)
    as (t & n & cp & group & table & g & a & rest & _ & _ & _ & _ & _ & Hcomp & _
        & Hr1 & _ & _ & _ & _ & Hc & Hact & Hnc & Hnt & Hname & _).
  assert (g1 = g) as -> by (rewrite Hr1 in Hg1; by injection Hg1).
  exists a. split; [unfold GetScalars; simpl; by rewrite Hact, Hc|].
  split; [by rewrite Hr', Hr1|].
  split; [rewrite Hnc; by apply components_of_range in Hcomp|].
  split; [done|].
  pose proof (palette_within_roles ds (NumberOfBands r)) as Hpal.
  destruct (paletteIndex _ =? 0) eqn:Hp; injection Hname as -> ->.
  - apply Z.eqb_eq in Hp. split; [|done]. intros Hw. apply Hpal in Hw. done.
  - apply Z.eqb_neq in Hp. split; [by split|]. intros Hw. by apply Hpal in Hp.
Qed.

(** *** The arrays of the other bands *)

(** Every band is in the produced grid: apart from the bands of the
    primary group (as many as the active scalars have components), each
    band i has an array "band_i" of one component and one tuple for each
    target cell. *)
Theorem RequestData_every_band_stored out (r : Reader) r' g ds :
  RequestData exportToProj4 NDEBUG out r = Ok (1, r', Some (Some g)) →
  GDALData r = Some ds →
  NumberOfBands r <= INT_MAX →
  ∃ a group,
    GetScalars g = Some a ∧
    NumberOfComponents a = Z.of_nat (length group) ∧
    ∀ i, 1 <= i <= NumberOfBands r →
      i ∈ group ∨
      ∃ b, GetArray (band_array_name i) g = Some b ∧
           ArrName b = band_array_name i ∧
           NumberOfComponents b = 1 ∧
           NumberOfTuples b
           = int_mul (fst (TargetDimensions r)) (snd (TargetDimensions r)).
Proof.
  intros H Hds0 Hmax.
  destruct (RequestData_Ok_parts _ _ _ _ _ H)
    as (f & Hf & [(_ & ? & _)
                 |(ds' & r1 & g1 & vals & Hds & Hrd & Hg1 & Hvals & Hr' & Hout)]);
    [done|].
  rewrite Hds0 in Hds. injection Hds as <-.
  cbv zeta in Hr', Hout. destruct Hout as [(_ & _ & Hg)|(_ & ? & _)]; [|done].
  injection Hg as ->.
  destruct (ReadData_Ok_grid f r r1 ds Hds0 Hrd)
    as (t & n & cp & group & table & g & a & rest & _ & _ & _ & _ & _ & _ & Hgroup
        & Hr1 & _ & _ & _ & _ & Hc & Hact & Hnc & _ & Hname & Hrest & Hnamed & _).
  assert (g1 = g) as -> by (rewrite Hr1 in Hg1; by injection Hg1).
  exists a, group. split; [unfold GetScalars; simpl; by rewrite Hact, Hc|].
  split; [done|]. intros i Hi.
  destruct (decide (i ∈ group)) as [Hin|Hout]; [by left|right].
  apply group_within in Hgroup.
  assert (Hk : foldl clear_other (seqZ 1 (NumberOfBands r)) group !! Z.to_nat (i - 1)
               = Some i).
  { rewrite fold_clear_other_miss; [|lia| |done].
    - apply lookup_seqZ. lia.
    - eapply Forall_impl; [exact Hgroup|]. intros j Hj. simpl in Hj. lia. }
  destruct (Hnamed _ _ Hk) as (b' & Hb' & Hn'); [lia|].
  destruct (GetArray_named g (band_array_name i)) as (b & Hget & Hb & Hn).
  { exists b'. split; [|done]. rewrite Hc. by right. }
  exists b. split; [exact Hget|]. split; [done|].
  rewrite Hc in Hb. apply elem_of_cons in Hb as [->|Hb].
  - exfalso. revert Hn. unfold band_array_name.
    destruct (paletteIndex _ =? 0); injection Hname as -> _; simpl; discriminate.
  - destruct (proj1 (Forall_forall _ _) Hrest b Hb) as (? & ? & _). done.
Qed.

(** *** The field data *)

(** The field data of the produced grid are two arrays: "MAP_PROJECTION"
    with the one value that [exportToProj4] gives for the projection of the
    dataset, which is the projection of the reader too, and
    "NO_DATA_VALUE" with one value for each band: the no-data value of the
    band, NaN for a band that has none. *)
Theorem RequestData_field_data out (r : Reader) r' g ds :
  RequestData exportToProj4 NDEBUG out r = Ok (1, r', Some (Some g)) →
  GDALData r = Some ds →
  NumberOfBands r <= INT_MAX →
  Projection r' = exportToProj4 (ProjectionRef ds) ∧
  ∃ vals,
    FieldArrays g = [vtkStringArray "MAP_PROJECTION" [Projection r'];
                     vtkDoubleArray "NO_DATA_VALUE" vals] ∧
    length vals = Z.to_nat (NumberOfBands r) ∧
    ∀ i band, 1 <= i <= NumberOfBands r → GetRasterBand ds i = Some band →
      vals !! Z.to_nat (i - 1)
      = Some (if NoDataFlag band =? 0 then NaN else NoDataResult band).
Proof.
  intros H Hds0 Hmax.
  destruct (RequestData_Ok_parts _ _ _ _ _ H)
    as (f & Hf & [(_ & ? & _)
                 |(ds' & r1 & g1 & vals & Hds & Hrd & Hg1 & Hvals & Hr' & Hout)]);
    [done|].
  rewrite Hds0 in Hds. injection Hds as <-.
  cbv zeta in Hr', Hout. destruct Hout as [(_ & _ & Hg)|(_ & ? & _)]; [|done].
  injection Hg as ->.
  destruct (ReadData_Ok_grid f r r1 ds Hds0 Hrd)
    as (t & n & cp & group & table & g & a & rest & _ & _ & _ & _ & _ & _ & _
        & Hr1 & _ & _ & _ & Hfa & _).
  assert (g1 = g) as -> by (rewrite Hr1 in Hg1; by injection Hg1).
  assert (HP : Projection r' = exportToProj4 (ProjectionRef ds)) by (by rewrite Hr').
  split; [exact HP|]. exists vals. rewrite HP. simpl. rewrite Hfa.
  split; [done|]. by apply no_data_field_Ok.
Qed.

(** *** The no-data values of the reader *)

(** After Produce, [GetInvalidValue(i)] gives for each band i of the dataset
    the value that the band's [GetNoDataValue] returned, whether or not the
    band has a no-data value (the field array has NaN then), and
    [HasNoDataValue] holds the band's flag. *)
Theorem RequestData_no_data_values out (r : Reader) rv r' out' ds :
  RequestData exportToProj4 NDEBUG out r = Ok (rv, r', out') →
  GDALData r = Some ds →
  NumberOfBands r <= INT_MAX →
  ∀ i band, 1 <= i <= NumberOfBands r → GetRasterBand ds i = Some band →
    GetInvalidValue i r' = Ok (NoDataResult band) ∧
    HasNoDataValue r' !! Z.to_nat (i - 1) = Some (NoDataFlag band).
Proof.
  intros H Hds0 Hmax i band Hi Hband.
  destruct (RequestData_Ok_parts _ _ _ _ _ H)
    as (f & Hf & [(Hnone & _)
                 |(ds' & r1 & g1 & vals & Hds & Hrd & Hg1 & Hvals & Hr' & Hout)]);
    [congruence|].
  rewrite Hds0 in Hds. injection Hds as <-. cbv zeta in Hr'.
  destruct (ReadData_Ok_grid f r r1 ds Hds0 Hrd)
    as (t & n & cp & group & table & g & a & rest & _ & _ & _ & Hl & _ & _ & _
        & Hr1 & _).
  set (l := seqZ 1 (NumberOfBands r)) in *.
  assert (Hil : i ∈ l) by (apply elem_of_seqZ; lia).
  assert (Hrange : Forall (λ j, 1 <= j <= INT_MAX) l).
  { apply Forall_forall. intros j Hj. apply elem_of_seqZ in Hj. lia. }
  destruct (proj1 (Forall_forall _ _) Hl i Hil) as (_ & _ & Hh & Hv).
  rewrite int_sub_id in Hh, Hv by int_range.
  assert (HV : NoDataValue r' = foldl (value_step ds) (NoDataValue r) l)
    by (by rewrite Hr', Hr1).
  assert (HH : HasNoDataValue r' = foldl (flag_step ds) (HasNoDataValue r) l)
    by (by rewrite Hr', Hr1).
  split.
  - unfold GetInvalidValue, vec_at. rewrite int_sub_id by int_range.
    destruct (i - 1 <? 0) eqn:Hneg; [lia|]. rewrite HV.
    by rewrite (fold_band_step_lookup ds NoDataResult l _ i band).
  - rewrite HH. by apply (fold_band_step_lookup ds NoDataFlag l _ i band).
Qed.

(** *** The pixel type *)

Variable GDALOpen : string → option (@GDALDataset double RAW).

Lemma RequestInformation_pixel_type outInfo (r : Reader) :
  let r' := snd (RequestInformation GDALOpen outInfo r) in
  NumberOfBytesPerPixel r' = NumberOfBytesPerPixel r ∧
  TargetDataType r' = TargetDataType r ∧
  DataScalarType r' = DataScalarType r.
Proof.
  unfold RequestInformation, ReadMetaData, default_target, default_extent.
  repeat case_match; done.
Qed.

Lemma RequestData_pixel_type out (r : Reader) rv r' out' :
  RequestData exportToProj4 NDEBUG out r = Ok (rv, r', out') →
  is_Some (GDALData r) →
  NumberOfBytesPerPixel r' ≠ 0 ∧
  DataScalarType r' = scalar_type_for (TargetDataType r') ∧
  (NumberOfBytesPerPixel r ≠ 0 →
     NumberOfBytesPerPixel r' = NumberOfBytesPerPixel r ∧
     TargetDataType r' = TargetDataType r).
Proof.
  intros H [ds0 Hds0].
  destruct (RequestData_Ok_parts _ _ _ _ _ H)
    as (f & Hf & [(Hnone & _)
                 |(ds' & r1 & g1 & vals & Hds & Hrd & Hg1 & Hvals & Hr' & Hout)]);
    [congruence|].
  cbv zeta in Hr'.
  destruct (ReadData_Ok_grid f r r1 ds' Hds Hrd)
    as (t & n & cp & group & table & g & a & rest & Hn1 & _ & Hn & _ & _ & _ & _
        & Hr1 & _).
  assert (HB : NumberOfBytesPerPixel r' = n) by (by rewrite Hr', Hr1).
  assert (HT : TargetDataType r' = t) by (by rewrite Hr', Hr1).
  assert (HS : DataScalarType r' = scalar_type_for t) by (by rewrite Hr', Hr1).
  rewrite HB, HT, HS. split; [done|]. split; [done|]. intros Hne.
  by destruct (Hn1 Hne) as [-> ->].
Qed.

(** The pixel type is chosen once. After a Produce on an open dataset the
    number of bytes per pixel is not 0, and a later Describe and Produce,
    on whatever file, keep the GDAL target type, the number of bytes per
    pixel and the VTK scalar type of the first Produce: the type of the
    first band of the new file is not looked at. *)
Theorem RequestData_pixel_type_sticks out (r : Reader) rv r1 out1
    name outInfo ri r2 out2 rv2 r3 out3 :
  RequestData exportToProj4 NDEBUG out r = Ok (rv, r1, out1) →
  is_Some (GDALData r) →
  RequestInformation GDALOpen outInfo (set_FileName (Some name) r1) = (ri, r2) →
  RequestData exportToProj4 NDEBUG out2 r2 = Ok (rv2, r3, out3) →
  NumberOfBytesPerPixel r1 ≠ 0 ∧
  TargetDataType r3 = TargetDataType r1 ∧
  NumberOfBytesPerPixel r3 = NumberOfBytesPerPixel r1 ∧
  DataScalarType r3 = DataScalarType r1.
Proof.
  intros H1 Hds Hri H2.
  destruct (RequestData_pixel_type _ _ _ _ _ H1 Hds) as (Hn1 & Hs1 & _).
  split; [done|].
  destruct (RequestInformation_pixel_type outInfo (set_FileName (Some name) r1))
    as (HB & HT & HS).
  rewrite Hri in HB, HT, HS. cbn [snd] in HB, HT, HS.
  change (NumberOfBytesPerPixel (set_FileName (Some name) r1))
    with (NumberOfBytesPerPixel r1) in HB.
  change (TargetDataType (set_FileName (Some name) r1))
    with (TargetDataType r1) in HT.
  change (DataScalarType (set_FileName (Some name) r1))
    with (DataScalarType r1) in HS.
  destruct (GDALData r2) as [ds2|] eqn:Hds2.
  - destruct (RequestData_pixel_type _ _ _ _ _ H2) as (_ & Hs3 & Hkeep);
      [by eexists|].
    destruct Hkeep as [HB3 HT3]; [congruence|].
    rewrite HT3, HB3, HT, HB. split; [done|]. split; [done|].
    rewrite Hs3, HT3, HT. done.
  - destruct (RequestData_Ok_parts _ _ _ _ _ H2)
      as (f & Hf & [(_ & _ & -> & _)|(ds' & ? & ? & ? & Hds' & _)]);
      [|congruence].
    by rewrite HT, HB, HS.
Qed.

End ProducedGrid.

(** *** At the sample rasters *)

Lemma RequestData_output_committed_witness :
  ∃ rv r' out',
    RequestData id false (Some None) (describe raster_2x2) = Ok (rv, r', out') ∧
    ((rv = 1 ∧ is_Some (GDALData (describe raster_2x2)) ∧
      (∃ g_in : @vtkUniformGrid xnum xnum, Some None = Some (Some g_in)) ∧
      ∃ g, out' = Some (Some g) ∧ UniformGridData r' = Some g) ∨
     (rv = 0 ∧ out' = Some None ∧
      (GDALData (describe raster_2x2) = None ∧ r' = describe raster_2x2 ∨
       is_Some (GDALData (describe raster_2x2)) ∧
       ((Some None : option (option (@vtkUniformGrid xnum xnum))) = None ∨
        (Some None : option (option (@vtkUniformGrid xnum xnum))) = Some None)))).
Proof.
  assert (H : { res | RequestData id false (Some None) (describe raster_2x2)
                      = Ok res }).
  { eexists. vm_compute. reflexivity. }
  destruct H as [[[rv r'] out'] H].
  exists rv, r', out'. split; [exact H|].
  exact (RequestData_output_committed id false (Some None)
           (describe raster_2x2) rv r' out' H).
Defined.

Lemma RequestData_grid_geometry_witness :
  ∃ r' g,
    RequestData id false (Some (Some vtkUniformGrid_New)) (describe raster_2x2)
    = Ok (1, r', Some (Some g)) ∧
    ∃ cp,
      GetGeoCornerPoints (describe raster_2x2)
      = Ok (set_CornerPoints cp (describe raster_2x2)) ∧
      CornerPoints r' = cp ∧
      Extent g = (0, fst (TargetDimensions (describe raster_2x2)),
                  0, snd (TargetDimensions (describe raster_2x2)), 0, 0) ∧
      Spacing g
      = Some (dabs (ddiv (dsub (fst (corner2 cp)) (fst (corner0 cp)))
                      (double_of_int (fst (RasterDimensions (describe raster_2x2))))),
              dabs (ddiv (dsub (snd (corner2 cp)) (snd (corner0 cp)))
                      (double_of_int (snd (RasterDimensions (describe raster_2x2))))),
              double_of_int 1) ∧
      Origin g = Some (std_min (fst (corner0 cp)) (fst (corner2 cp)),
                       std_min (snd (corner0 cp)) (snd (corner2 cp)),
                       double_of_int 0).
Proof.
  assert (H : { r' & { g | RequestData id false (Some (Some vtkUniformGrid_New))
                             (describe raster_2x2)
                           = Ok (1, r', Some (Some g)) } }).
  { eexists. eexists. vm_compute. reflexivity. }
  destruct H as (r' & g & H).
  exists r', g. split; [exact H|].
  exact (RequestData_grid_geometry id false (Some (Some vtkUniformGrid_New))
           (describe raster_2x2) r' g H).
Defined.

Lemma RequestData_active_scalars_witness :
  ∃ r' g,
    RequestData id false (Some (Some vtkUniformGrid_New))
      (describe raster_gray_and_other) = Ok (1, r', Some (Some g)) ∧
    GDALData (describe raster_gray_and_other) = Some raster_gray_and_other ∧
    ∃ a, GetScalars g = Some a ∧
      NumberOfComponents a = NumberOfScalarComponents r' ∧
      1 <= NumberOfComponents a <= 4 ∧
      NumberOfTuples a
      = int_mul (fst (TargetDimensions (describe raster_gray_and_other)))
          (snd (TargetDimensions (describe raster_gray_and_other))) ∧
      (palette_within raster_gray_and_other
         (NumberOfBands (describe raster_gray_and_other)) →
       ArrName a = "Categories" ∧ is_Some (LookupTable a)) ∧
      (¬ palette_within raster_gray_and_other
           (NumberOfBands (describe raster_gray_and_other)) →
       ArrName a = "Elevation" ∧ LookupTable a = None).
Proof.
  assert (H : { r' & { g | RequestData id false (Some (Some vtkUniformGrid_New))
                             (describe raster_gray_and_other)
                           = Ok (1, r', Some (Some g)) } }).
  { eexists. eexists. vm_compute. reflexivity. }
  destruct H as (r' & g & H).
  assert (H2 : GDALData (describe raster_gray_and_other)
               = Some raster_gray_and_other) by (vm_compute; reflexivity).
  exists r', g. split; [exact H|]. split; [exact H2|].
  exact (RequestData_active_scalars id false (Some (Some vtkUniformGrid_New))
           (describe raster_gray_and_other) r' g raster_gray_and_other H H2).
Defined.

Lemma RequestData_every_band_stored_witness :
  ∃ r' g,
    RequestData id false (Some (Some vtkUniformGrid_New))
      (describe raster_gray_and_other) = Ok (1, r', Some (Some g)) ∧
    GDALData (describe raster_gray_and_other) = Some raster_gray_and_other ∧
    NumberOfBands (describe raster_gray_and_other) <= INT_MAX ∧
    ∃ a group,
      GetScalars g = Some a ∧
      NumberOfComponents a = Z.of_nat (length group) ∧
      ∀ i, 1 <= i <= NumberOfBands (describe raster_gray_and_other) →
        i ∈ group ∨
        ∃ b, GetArray (band_array_name i) g = Some b ∧
             ArrName b = band_array_name i ∧
             NumberOfComponents b = 1 ∧
             NumberOfTuples b
             = int_mul (fst (TargetDimensions (describe raster_gray_and_other)))
                 (snd (TargetDimensions (describe raster_gray_and_other))).
Proof.
  assert (H : { r' & { g | RequestData id false (Some (Some vtkUniformGrid_New))
                             (describe raster_gray_and_other)
                           = Ok (1, r', Some (Some g)) } }).
  { eexists. eexists. vm_compute. reflexivity. }
  destruct H as (r' & g & H).
  assert (H2 : GDALData (describe raster_gray_and_other)
               = Some raster_gray_and_other) by (vm_compute; reflexivity).
  assert (HN : NumberOfBands (describe raster_gray_and_other) = 2)
    by (vm_compute; reflexivity).
  assert (H3 : NumberOfBands (describe raster_gray_and_other) <= INT_MAX)
    by (rewrite HN; unfold INT_MAX; lia).
  exists r', g. split; [exact H|]. split; [exact H2|]. split; [exact H3|].
  exact (RequestData_every_band_stored id false (Some (Some vtkUniformGrid_New))
           (describe raster_gray_and_other) r' g raster_gray_and_other H H2 H3).
Defined.

Lemma RequestData_field_data_witness :
  ∃ r' g,
    RequestData id false (Some (Some vtkUniformGrid_New))
      (describe raster_gray_and_other) = Ok (1, r', Some (Some g)) ∧
    GDALData (describe raster_gray_and_other) = Some raster_gray_and_other ∧
    NumberOfBands (describe raster_gray_and_other) <= INT_MAX ∧
    Projection r' = id (ProjectionRef raster_gray_and_other) ∧
    ∃ vals,
      FieldArrays g = [vtkStringArray "MAP_PROJECTION" [Projection r'];
                       vtkDoubleArray "NO_DATA_VALUE" vals] ∧
      length vals = Z.to_nat (NumberOfBands (describe raster_gray_and_other)) ∧
      ∀ i band, 1 <= i <= NumberOfBands (describe raster_gray_and_other) →
        GetRasterBand raster_gray_and_other i = Some band →
        vals !! Z.to_nat (i - 1)
        = Some (if NoDataFlag band =? 0 then NaN else NoDataResult band).
Proof.
  assert (H : { r' & { g | RequestData id false (Some (Some vtkUniformGrid_New))
                             (describe raster_gray_and_other)
                           = Ok (1, r', Some (Some g)) } }).
  { eexists. eexists. vm_compute. reflexivity. }
  destruct H as (r' & g & H).
  assert (H2 : GDALData (describe raster_gray_and_other)
               = Some raster_gray_and_other) by (vm_compute; reflexivity).
  assert (HN : NumberOfBands (describe raster_gray_and_other) = 2)
    by (vm_compute; reflexivity).
  assert (H3 : NumberOfBands (describe raster_gray_and_other) <= INT_MAX)
    by (rewrite HN; unfold INT_MAX; lia).
  exists r', g. split; [exact H|]. split; [exact H2|]. split; [exact H3|].
  exact (RequestData_field_data id false (Some (Some vtkUniformGrid_New))
           (describe raster_gray_and_other) r' g raster_gray_and_other H H2 H3).
Defined.

Lemma RequestData_no_data_values_witness :
  ∃ rv r' out',
    RequestData id false (Some (Some vtkUniformGrid_New))
      (describe raster_gray_and_other) = Ok (rv, r', out') ∧
    GDALData (describe raster_gray_and_other) = Some raster_gray_and_other ∧
    NumberOfBands (describe raster_gray_and_other) <= INT_MAX ∧
    ∀ i band, 1 <= i <= NumberOfBands (describe raster_gray_and_other) →
      GetRasterBand raster_gray_and_other i = Some band →
      GetInvalidValue i r' = Ok (NoDataResult band) ∧
      HasNoDataValue r' !! Z.to_nat (i - 1) = Some (NoDataFlag band).
Proof.
  assert (H : { res | RequestData id false (Some (Some vtkUniformGrid_New))
                        (describe raster_gray_and_other) = Ok res }).
  { eexists. vm_compute. reflexivity. }
  destruct H as [[[rv r'] out'] H].
  assert (H2 : GDALData (describe raster_gray_and_other)
               = Some raster_gray_and_other) by (vm_compute; reflexivity).
  assert (HN : NumberOfBands (describe raster_gray_and_other) = 2)
    by (vm_compute; reflexivity).
  assert (H3 : NumberOfBands (describe raster_gray_and_other) <= INT_MAX)
    by (rewrite HN; unfold INT_MAX; lia).
  exists rv, r', out'. split; [exact H|]. split; [exact H2|]. split; [exact H3|].
  exact (RequestData_no_data_values id false (Some (Some vtkUniformGrid_New))
           (describe raster_gray_and_other) rv r' out' raster_gray_and_other
           H H2 H3).
Defined.

Local Abbreviation described_byte :=
  (snd (RequestInformation two_files true
          (set_FileName (Some "a.tif") vtkGDALRasterReader_New))).
Local Abbreviation produced_byte :=
  (result_after
     (RequestData id false (Some (Some vtkUniformGrid_New)) described_byte)
     (0, described_byte, None)).
Local Abbreviation described_float :=
  (RequestInformation two_files true
     (set_FileName (Some "f.tif") produced_byte.1.2)).
Local Abbreviation produced_float :=
  (result_after
     (RequestData id false (Some (Some vtkUniformGrid_New)) described_float.2)
     (0, described_float.2, None)).

Lemma RequestData_pixel_type_sticks_witness :
  RequestData id false (Some (Some vtkUniformGrid_New)) described_byte
  = Ok (produced_byte.1.1, produced_byte.1.2, produced_byte.2) ∧
  is_Some (GDALData described_byte) ∧
  described_float = (described_float.1, described_float.2) ∧
  RequestData id false (Some (Some vtkUniformGrid_New)) described_float.2
  = Ok (produced_float.1.1, produced_float.1.2, produced_float.2) ∧
  GDALData described_float.2 = Some raster_float ∧
  GetRasterBand raster_float 1 = Some float_band ∧
  RasterDataType float_band = GDT_Float64 ∧
  TargetDataType produced_byte.1.2 = GDT_Byte ∧
  NumberOfBytesPerPixel produced_byte.1.2 ≠ 0 ∧
  TargetDataType produced_float.1.2 = TargetDataType produced_byte.1.2 ∧
  NumberOfBytesPerPixel produced_float.1.2
  = NumberOfBytesPerPixel produced_byte.1.2 ∧
  DataScalarType produced_float.1.2 = DataScalarType produced_byte.1.2.
Proof.
  assert (H : RequestData id false (Some (Some vtkUniformGrid_New)) described_byte
              = Ok (produced_byte.1.1, produced_byte.1.2, produced_byte.2))
    by (vm_compute; reflexivity).
  assert (Hds : is_Some (GDALData described_byte)).
  { exists raster_2x2. vm_compute. reflexivity. }
  assert (Hri : described_float = (described_float.1, described_float.2))
    by (vm_compute; reflexivity).
  assert (H2 : RequestData id false (Some (Some vtkUniformGrid_New))
                 described_float.2
               = Ok (produced_float.1.1, produced_float.1.2, produced_float.2))
    by (vm_compute; reflexivity).
  split; [exact H|]. split; [exact Hds|]. split; [exact Hri|].
  split; [exact H2|]. split; [vm_compute; reflexivity|].
  split; [reflexivity|]. split; [reflexivity|].
  split; [vm_compute; reflexivity|].
  exact (RequestData_pixel_type_sticks id false two_files
           (Some (Some vtkUniformGrid_New)) described_byte
           produced_byte.1.1 produced_byte.1.2 produced_byte.2
           "f.tif" true described_float.1 described_float.2
           (Some (Some vtkUniformGrid_New))
           produced_float.1.1 produced_float.1.2 produced_float.2
           H Hds Hri H2).
Defined.

(** ** Corners from ground-control points and without geotransform *)

Section CornerBranches.

Context {double RAW : Type} `{!DoubleOps double} `{!RawOps double RAW}.
Local Abbreviation Reader := (@vtkGDALRasterReader double RAW).
Variable exportToProj4 : string → string.
Variable NDEBUG : bool.
Local Set Default Proof Using "Type".

(** The test of the loop as a boolean. *)
Definition gcp_matchesb (g : @GDAL_GCP double) (x y : double) : bool :=
  bool_decide (deq (dfGCPPixel g) dhalf = deq x (double_of_int 0))
  && bool_decide (deq (dfGCPLine g) dhalf = deq y (double_of_int 0)).

Lemma gcp_matchesb_true g x y : gcp_matchesb g x y = true ↔ gcp_matches g x y.
Proof.
  unfold gcp_matchesb, gcp_matches.
  rewrite andb_true_iff, !bool_decide_eq_true. done.
Qed.

Lemma gcp_corner_four (g0 g1 g2 g3 : @GDAL_GCP double) rest x y :
  gcp_corner (g0 :: g1 :: g2 :: g3 :: rest) x y
  = Ok (if gcp_matchesb g3 x y then (dfGCPX g3, dfGCPY g3)
        else if gcp_matchesb g2 x y then (dfGCPX g2, dfGCPY g2)
        else if gcp_matchesb g1 x y then (dfGCPX g1, dfGCPY g1)
        else if gcp_matchesb g0 x y then (dfGCPX g0, dfGCPY g0)
        else (double_of_int 0, double_of_int 0)).
Proof.
  unfold gcp_corner, for_range.
  change (seqZ 0 (4 - 0)) with [0; 1; 2; 3]. cbn [for_each].
  unfold vec_at. simpl.
  fold (gcp_matchesb g0 x y) (gcp_matchesb g1 x y) (gcp_matchesb g2 x y)
       (gcp_matchesb g3 x y).
  destruct (gcp_matchesb g0 x y), (gcp_matchesb g1 x y), (gcp_matchesb g2 x y),
    (gcp_matchesb g3 x y); reflexivity.
Qed.

Lemma gcp_corner_short (gcps : list (@GDAL_GCP double)) x y :
  (length gcps < 4)%nat → gcp_corner gcps x y = Undefined.
Proof.
  intros Hlen. unfold gcp_corner, for_range.
  change (seqZ 0 (4 - 0)) with [0; 1; 2; 3].
  destruct gcps as [|g0 [|g1 [|g2 [|g3 rest]]]]; simpl in Hlen; try lia;
    cbn [for_each]; unfold vec_at; simpl; repeat case_match; reflexivity.
Qed.

(** With a ground-control projection and ground-control points,
    [GetGeoCornerPoint] looks at the first four points and at nothing else:
    with fewer than four it reads past the end of the array; with four or
    more it stores the position of the last of the four that matches the
    corner, (0, 0) when none matches, and returns false in either case. *)
Theorem GetGeoCornerPoint_gcps (r : Reader) ds proj gcps x y :
  GDALData r = Some ds →
  GCPProjection ds = Some proj →
  GCPs ds = Some gcps →
  ((length gcps < 4)%nat → GetGeoCornerPoint r (Some ds) x y = Undefined) ∧
  ((4 <= length gcps)%nat →
   (∀ (i : nat) gcp,
      (i < 4)%nat → gcps !! i = Some gcp → gcp_matches gcp x y →
      (∀ (k : nat) g', (i < k < 4)%nat → gcps !! k = Some g' →
                       ¬ gcp_matches g' x y) →
      GetGeoCornerPoint r (Some ds) x y
      = Ok (false, Some (dfGCPX gcp, dfGCPY gcp))) ∧
   ((∀ (k : nat) g', (k < 4)%nat → gcps !! k = Some g' → ¬ gcp_matches g' x y) →
    GetGeoCornerPoint r (Some ds) x y
    = Ok (false, Some (double_of_int 0, double_of_int 0)))).
Proof.
  intros Hds Hproj Hgcps. unfold GetGeoCornerPoint. rewrite Hds, Hproj, Hgcps.
  split.
  { intros Hlen. by rewrite gcp_corner_short. }
  intros Hlen.
  destruct gcps as [|g0 [|g1 [|g2 [|g3 rest]]]]; simpl in Hlen; try lia.
  rewrite gcp_corner_four.
  pose (m g := gcp_matchesb g x y).
  fold (m g0) (m g1) (m g2) (m g3).
  assert (Hm : ∀ g, m g = true ↔ gcp_matches g x y)
    by (intros g; apply gcp_matchesb_true).
  assert (Hn : ∀ g, ¬ gcp_matches g x y → m g = false).
  { intros g Hg. apply not_true_is_false. intros Ht. by apply Hg, Hm. }
  split.
  - intros i gcp Hi Hlook Hmatch Hlater.
    apply Hm in Hmatch.
    destruct i as [|[|[|[|i]]]]; [| | | |lia]; simpl in Hlook;
      injection Hlook as <-.
    + rewrite (Hn g3), (Hn g2), (Hn g1), Hmatch; [done|..].
      * apply (Hlater 1%nat); [lia|done].
      * apply (Hlater 2%nat); [lia|done].
      * apply (Hlater 3%nat); [lia|done].
    + rewrite (Hn g3), (Hn g2), Hmatch; [done|..].
      * apply (Hlater 2%nat); [lia|done].
      * apply (Hlater 3%nat); [lia|done].
    + rewrite (Hn g3), Hmatch; [done|]. apply (Hlater 3%nat); [lia|done].
    + by rewrite Hmatch.
  - intros Hnone.
    rewrite (Hn g3), (Hn g2), (Hn g1), (Hn g0); [done|..].
    + apply (Hnone 0%nat); [lia|done].
    + apply (Hnone 1%nat); [lia|done].
    + apply (Hnone 2%nat); [lia|done].
    + apply (Hnone 3%nat); [lia|done].
Qed.

(** Produce on a dataset with a ground-control projection and fewer than
    four ground-control points does not return: the corner computation
    reads past the end of the array of points. *)
Theorem RequestData_few_gcps_no_result out (r : Reader) ds proj gcps :
  GDALData r = Some ds →
  GCPProjection ds = Some proj →
  GCPs ds = Some gcps →
  (length gcps < 4)%nat →
  ∀ res, RequestData exportToProj4 NDEBUG out r ≠ Ok res.
Proof.
  intros Hds Hproj Hgcps Hlen [[rv r'] out'] H.
  destruct (RequestData_Ok_parts _ _ _ _ _ _ _ H)
    as (f & Hf & [(Hnone & _)
                 |(ds' & r1 & g1 & vals & Hds' & Hrd & _)]); [congruence|].
  destruct (ReadData_Ok_grid NDEBUG f r r1 ds' Hds' Hrd)
    as (t & n & cp & group & table & g & a & rest & _ & _ & _ & _ & Hcp & _).
  revert Hcp. unfold GetGeoCornerPoints, GetGeoCornerPoint.
  rewrite Hds, Hproj, Hgcps.
  by rewrite gcp_corner_short.
Qed.

(** Without ground-control points and without a geotransform the corners
    are the pixel corners (0, 0), (0, H), (W, H), (W, 0) of the raster. *)
Lemma GetGeoCornerPoints_pixel (r : Reader) ds :
  GDALData r = Some ds →
  GCPProjection ds = None ∨ GCPs ds = None →
  fst (GeoTransform ds) ≠ CE_None →
  let W := double_of_int (fst (RasterDimensions r)) in
  let H := double_of_int (snd (RasterDimensions r)) in
  let zero := double_of_int 0 in
  GetGeoCornerPoints r
  = Ok (set_CornerPoints
          {| corner0 := (zero, zero); corner1 := (zero, H);
             corner2 := (W, H); corner3 := (W, zero) |} r).
Proof.
  intros Hds Hgcp Hgt W H zero.
  assert (Hpt : ∀ (r0 : Reader) x y, GDALData r0 = Some ds →
            GetGeoCornerPoint r0 (GDALData r0) x y = Ok (false, Some (x, y))).
  { intros r0 x y Hr0. unfold GetGeoCornerPoint. rewrite Hr0.
    destruct (GeoTransform ds) as [err [[[[[a0 a1] a2] a3] a4] a5]].
    simpl in Hgt.
    destruct Hgcp as [-> | ->]; [|destruct (GCPProjection ds)];
      by destruct err. }
  unfold GetGeoCornerPoints. cbv zeta.
  rewrite Hpt by done. osimpl.
  rewrite Hpt by done. osimpl.
  rewrite Hpt by done. osimpl.
  rewrite Hpt by done. done.
Qed.

End CornerBranches.

(** Without ground-control points and without a geotransform
    [GetGeoCornerPoints] stores the pixel corners (0, 0), (0, H), (W, H),
    (W, 0); in exact arithmetic, for a raster of positive dimensions, no
    spacing is negative then, so that [Convert] flips neither axis. *)
Theorem GetGeoCornerPoints_without_geotransform :
  (∀ (double RAW : Type) (ops : DoubleOps double)
     (r : @vtkGDALRasterReader double RAW) ds,
     GDALData r = Some ds →
     GCPProjection ds = None ∨ GCPs ds = None →
     fst (GeoTransform ds) ≠ CE_None →
     let W := double_of_int (fst (RasterDimensions r)) in
     let H := double_of_int (snd (RasterDimensions r)) in
     let zero := double_of_int 0 in
     ∃ r', GetGeoCornerPoints r = Ok r' ∧
           corner0 (CornerPoints r') = (zero, zero) ∧
           corner1 (CornerPoints r') = (zero, H) ∧
           corner2 (CornerPoints r') = (W, H) ∧
           corner3 (CornerPoints r') = (W, zero)) ∧
  (∀ (r : @vtkGDALRasterReader xnum xnum) ds,
     GDALData r = Some ds →
     GCPProjection ds = None ∨ GCPs ds = None →
     fst (GeoTransform ds) ≠ CE_None →
     0 < fst (RasterDimensions r) → 0 < snd (RasterDimensions r) →
     ∃ r', GetGeoCornerPoints r = Ok r' ∧
           flipX r' = false ∧ flipY r' = false).
Proof.
  split.
  - intros double RAW ops r ds Hds Hgcp Hgt W H zero.
    eexists. split; [by apply (GetGeoCornerPoints_pixel r ds)|]. done.
  - intros r ds Hds Hgcp Hgt HW HH.
    eexists. split; [by apply (GetGeoCornerPoints_pixel r ds)|].
    unfold flipX, flipY, geoSpacing. simpl.
    destruct (RasterDimensions r) as [W H]. simpl in *.
    assert (Hz : ∀ n, 0 < n → Qeq_bool (inject_Z n) 0 = false).
    { intros n Hn. apply not_true_is_false. intros Ht.
      apply Qeq_bool_iff in Ht. unfold Qeq in Ht. simpl in Ht. lia. }
    rewrite !Hz by done. simpl.
    assert (Hp : ∀ n, 0 < n →
              Qle_bool 0 ((inject_Z n - inject_Z 0) / inject_Z n) = true).
    { intros n Hn. apply Qle_bool_iff.
      assert (Hq : (0 < inject_Z n)%Q) by (unfold Qlt; simpl; lia).
      apply Qle_shift_div_l; [done|].
      unfold Qle. simpl. lia. }
    by rewrite !Hp.
Qed.

(** *** At the sample rasters *)

Lemma GetGeoCornerPoint_gcps_witness :
  GDALData (describe raster_four_gcps) = Some raster_four_gcps ∧
  GetGeoCornerPoint (describe raster_four_gcps) (Some raster_four_gcps)
    (xint 0) (xint 0)
  = Ok (false, Some (xint 100, xint 200)) ∧
  GetGeoCornerPoint (describe raster_three_gcps) (Some raster_three_gcps)
    (xint 0) (xint 0)
  = Undefined.
Proof.
  assert (H4 : GDALData (describe raster_four_gcps) = Some raster_four_gcps)
    by (vm_compute; reflexivity).
  assert (H3 : GDALData (describe raster_three_gcps) = Some raster_three_gcps)
    by (vm_compute; reflexivity).
  split; [exact H4|]. split.
  - destruct (GetGeoCornerPoint_gcps (describe raster_four_gcps) raster_four_gcps
                "WGS84" _ (xint 0) (xint 0) H4 eq_refl eq_refl) as [_ Hfour].
    destruct (Hfour ltac:(simpl; lia)) as [Hlast _].
    refine (Hlast 0%nat _ ltac:(lia) eq_refl _ _).
    + split; reflexivity.
    + intros k g' Hk Hg' [Hx Hy].
      destruct k as [|[|[|[|k]]]]; [lia| | | |lia]; simpl in Hg';
        injection Hg' as <-; first [discriminate Hx|discriminate Hy].
  - destruct (GetGeoCornerPoint_gcps (describe raster_three_gcps)
                raster_three_gcps "WGS84" _ (xint 0) (xint 0) H3 eq_refl eq_refl)
      as [Hthree _].
    apply Hthree. simpl. lia.
Defined.

Lemma RequestData_few_gcps_witness :
  GDALData (describe raster_three_gcps) = Some raster_three_gcps ∧
  GCPProjection raster_three_gcps = Some "WGS84" ∧
  (∃ gcps, GCPs raster_three_gcps = Some gcps ∧ (length gcps < 4)%nat) ∧
  ∀ res, RequestData id false (Some (Some vtkUniformGrid_New))
           (describe raster_three_gcps) ≠ Ok res.
Proof.
  assert (H1 : GDALData (describe raster_three_gcps) = Some raster_three_gcps)
    by (vm_compute; reflexivity).
  split; [exact H1|]. split; [reflexivity|].
  split; [eexists; split; [reflexivity|simpl; lia]|].
  refine (RequestData_few_gcps_no_result id false (Some (Some vtkUniformGrid_New))
            (describe raster_three_gcps) raster_three_gcps "WGS84" _
            H1 eq_refl eq_refl _).
  simpl. lia.
Defined.

Lemma GetGeoCornerPoints_without_geotransform_witness :
  ∃ r', GetGeoCornerPoints (describe raster_no_transform) = Ok r' ∧
        flipX r' = false ∧ flipY r' = false.
Proof.
  assert (H1 : GDALData (describe raster_no_transform) = Some raster_no_transform)
    by (vm_compute; reflexivity).
  assert (H2 : RasterDimensions (describe raster_no_transform) = (2, 2))
    by (vm_compute; reflexivity).
  refine (proj2 GetGeoCornerPoints_without_geotransform
            (describe raster_no_transform) raster_no_transform H1
            (or_introl eq_refl) _ _ _).
  - discriminate.
  - rewrite H2. simpl. lia.
  - rewrite H2. simpl. lia.
Defined.

Section OneBandPass.

Context {double RAW : Type} `{!DoubleOps double} `{!RawOps double RAW}.


End OneBandPass.


(** ** Produce on a raster of one gray band *)

Lemma bind_lookup_block {A B : Type} (f : A → list B) (w : nat) (l : list A)
    (k x : nat) :
  (∀ y, length (f y) = w) → (x < w)%nat →
  (l ≫= f) !! (k * w + x)%nat = l !! k ≫= λ y, f y !! x.
Proof.
  intros Hf Hx. revert k. induction l as [|a l IH]; intros k; [done|].
  change ((a :: l) ≫= f) with (f a ++ (l ≫= f)).
  destruct k as [|k]; simpl.
  - rewrite lookup_app_l by (rewrite Hf; lia). done.
  - rewrite lookup_app_r by (rewrite Hf; lia). rewrite Hf.
    replace (w + k * w + x - w)%nat with (k * w + x)%nat by lia. apply IH.
Qed.

Lemma bind_length_block {A B : Type} (f : A → list B) (w : nat) (l : list A) :
  (∀ y, length (f y) = w) → length (l ≫= f) = (length l * w)%nat.
Proof.
  intros Hf. induction l as [|a l IH]; [done|].
  change ((a :: l) ≫= f) with (f a ++ (l ≫= f)).
  rewrite length_app, Hf, IH. simpl. lia.
Qed.




Section Window.

Context {RAW : Type}.

Lemma window_line_length (px : Z → Z → RAW) W y :
  length (seqZ 0 W ≫= λ x, [px x y]) = Z.to_nat W.
Proof.
  rewrite (bind_length_block _ 1); [|done]. rewrite length_seqZ. lia.
Qed.

Lemma window_samples_length (px : Z → Z → RAW) W H :
  0 <= W → 0 <= H → length (window_samples px W H) = Z.to_nat (W * H).
Proof.
  intros HW HH. unfold window_samples.
  rewrite (bind_length_block _ (Z.to_nat W)) by (intros; apply window_line_length).
  rewrite length_seqZ. lia.
Qed.

(** The sample of column x and line y of a window is at x + y * W. *)
Lemma window_samples_lookup (px : Z → Z → RAW) W H x y :
  0 <= x < W → 0 <= y < H →
  window_samples px W H !! Z.to_nat (x + y * W) = Some (px x y).
Proof.
  intros Hx Hy. unfold window_samples.
  replace (Z.to_nat (x + y * W)) with (Z.to_nat y * Z.to_nat W + Z.to_nat x)%nat
    by lia.
  rewrite (bind_lookup_block _ (Z.to_nat W))
    by (first [intros; apply window_line_length|lia]).
  rewrite lookup_seqZ_lt by lia. simpl.
  replace (Z.to_nat x) with (Z.to_nat x * 1 + 0)%nat by lia.
  rewrite (bind_lookup_block _ 1) by (first [done|lia]).
  rewrite lookup_seqZ_lt by lia. simpl. f_equal. f_equal; lia.
Qed.

End Window.



Section OneGrayBand.

Context {double RAW : Type} `{!DoubleOps double} `{!RawOps double RAW}.
Local Abbreviation Reader := (@vtkGDALRasterReader double RAW).
Local Abbreviation Grid := (@vtkUniformGrid double RAW).
Variable exportToProj4 : string → string.
Variable NDEBUG : bool.
Local Set Default Proof Using "Type".













End OneGrayBand.


(** ** The number of components *)

Section Components.

Context {double RAW : Type} `{!DoubleOps double} `{!RawOps double RAW}.
Local Abbreviation Reader := (@vtkGDALRasterReader double RAW).
Variable exportToProj4 : string → string.
Variable NDEBUG : bool.
Local Set Default Proof Using "Type".

(** The roles after one more band: a role is taken exactly when it was
    taken before or the band has its colour interpretation. *)
Lemma role_step_within (ds : @GDALDataset double RAW) b i :
  i ≠ 0 →
  let b' := role_step ds b i in
  let has (P : GDALColorInterp → Prop) :=
    ∃ band, GetRasterBand ds i = Some band ∧ P (ColorInterpretation band) in
  (redIndex b' ≠ 0 ↔ redIndex b ≠ 0 ∨ has is_red) ∧
  (greenIndex b' ≠ 0 ↔ greenIndex b ≠ 0 ∨ has is_green) ∧
  (blueIndex b' ≠ 0 ↔ blueIndex b ≠ 0 ∨ has is_blue) ∧
  (alphaIndex b' ≠ 0 ↔ alphaIndex b ≠ 0 ∨ has is_alpha) ∧
  (grayIndex b' ≠ 0 ↔ grayIndex b ≠ 0 ∨ has is_gray) ∧
  (paletteIndex b' ≠ 0 ↔ paletteIndex b ≠ 0 ∨ has is_palette).
Proof.
  intros Hi. cbv zeta. unfold role_step.
  destruct (GetRasterBand ds i) as [band|].
  2:{ repeat split; try tauto; intros [?|(? & ? & _)]; done. }
  unfold assign_role, is_red, is_green, is_blue, is_alpha, is_gray, is_palette.
  destruct (ColorInterpretation band) eqn:Hci; simpl;
    destruct (redIndex b =? 0) eqn:Er, (greenIndex b =? 0) eqn:Eg,
      (blueIndex b =? 0) eqn:Eb, (alphaIndex b =? 0) eqn:Ea,
      (grayIndex b =? 0) eqn:Ey, (paletteIndex b =? 0) eqn:Ep; simpl;
    repeat match goal with
    | E : (_ =? 0) = true |- _ => apply Z.eqb_eq in E
    | E : (_ =? 0) = false |- _ => apply Z.eqb_neq in E
    end;
    repeat split; try tauto;
    try (intros _; right; eexists; split; [reflexivity|]; rewrite Hci; tauto);
    try (intros [?|(band' & [= <-] & Hp)]; [done|];
         rewrite Hci in Hp; first [done|by destruct Hp]).
Qed.

Lemma fold_role_step_within (ds : @GDALDataset double RAW) l b :
  Forall (λ i, i ≠ 0) l →
  let b' := foldl (role_step ds) b l in
  let has (P : GDALColorInterp → Prop) :=
    ∃ i band, i ∈ l ∧ GetRasterBand ds i = Some band ∧
              P (ColorInterpretation band) in
  (redIndex b' ≠ 0 ↔ redIndex b ≠ 0 ∨ has is_red) ∧
  (greenIndex b' ≠ 0 ↔ greenIndex b ≠ 0 ∨ has is_green) ∧
  (blueIndex b' ≠ 0 ↔ blueIndex b ≠ 0 ∨ has is_blue) ∧
  (alphaIndex b' ≠ 0 ↔ alphaIndex b ≠ 0 ∨ has is_alpha) ∧
  (grayIndex b' ≠ 0 ↔ grayIndex b ≠ 0 ∨ has is_gray) ∧
  (paletteIndex b' ≠ 0 ↔ paletteIndex b ≠ 0 ∨ has is_palette).
Proof.
  revert b. induction l as [|x l IH]; intros b Hl; cbv zeta.
  - simpl. repeat split; try tauto; intros [?|(? & ? & Hx & _)]; try done;
      by apply elem_of_nil in Hx.
  - apply Forall_cons in Hl as [Hx Hl]. simpl.
    destruct (IH (role_step ds b x) Hl) as (Hr & Hg & Hb & Ha & Hy & Hp).
    destruct (role_step_within ds b x Hx) as (Hr1 & Hg1 & Hb1 & Ha1 & Hy1 & Hp1).
    cbv zeta in *.
    assert (Hstep : ∀ (P : GDALColorInterp → Prop) (A A1 A0 : Prop),
              (A ↔ A1 ∨ ∃ i band, i ∈ l ∧ GetRasterBand ds i = Some band ∧
                                  P (ColorInterpretation band)) →
              (A1 ↔ A0 ∨ ∃ band, GetRasterBand ds x = Some band ∧
                                 P (ColorInterpretation band)) →
              (A ↔ A0 ∨ ∃ i band, i ∈ x :: l ∧ GetRasterBand ds i = Some band ∧
                                  P (ColorInterpretation band))).
    { intros P A A1 A0 H1 H2. rewrite H1, H2. split.
      - intros [[?|(band & ? & ?)]|(i & band & ? & ? & ?)].
        + by left.
        + right. exists x, band. split; [by left|done].
        + right. exists i, band. split; [by right|done].
      - intros [?|(i & band & Hin & ? & ?)]; [by left; left|].
        apply elem_of_cons in Hin as [->|Hin].
        + left. right. by exists band.
        + right. by exists i, band. }
    split; [|split; [|split; [|split; [|split]]]]; eapply Hstep; eassumption.
Qed.

(** The roles of the bands 1 to [n] in terms of the dataset. *)
Lemma roles_within (ds : @GDALDataset double RAW) n :
  let b := foldl (role_step ds) no_roles (seqZ 1 n) in
  (redIndex b ≠ 0 ↔ band_within is_red ds n) ∧
  (greenIndex b ≠ 0 ↔ band_within is_green ds n) ∧
  (blueIndex b ≠ 0 ↔ band_within is_blue ds n) ∧
  (alphaIndex b ≠ 0 ↔ band_within is_alpha ds n) ∧
  (grayIndex b ≠ 0 ↔ band_within is_gray ds n) ∧
  (paletteIndex b ≠ 0 ↔ band_within is_palette ds n).
Proof.
  cbv zeta.
  destruct (fold_role_step_within ds (seqZ 1 n) no_roles)
    as (Hr & Hg & Hb & Ha & Hy & Hp).
  { apply Forall_forall. intros i Hi. apply elem_of_seqZ in Hi. lia. }
  cbv zeta in *.
  assert (Hw : ∀ (P : GDALColorInterp → Prop) (A : Prop),
            (A ↔ (0 : Z) ≠ 0 ∨ ∃ i band, i ∈ seqZ 1 n ∧
                    GetRasterBand ds i = Some band ∧
                    P (ColorInterpretation band)) →
            (A ↔ band_within P ds n)).
  { intros P A ->. unfold band_within. split.
    - intros [?|(i & band & Hi & ? & ?)]; [done|]. exists i, band.
      apply elem_of_seqZ in Hi. split; [lia|done].
    - intros (i & band & Hi & ? & ?). right. exists i, band.
      split; [apply elem_of_seqZ; lia|done]. }
  split; [|split; [|split; [|split; [|split]]]]; eapply Hw; eassumption.
Qed.

(** The number of components of the scalars follows the order in which
    [GenericReadData] looks for a primary group: red, green and blue bands
    come first and give 3 components, 4 with an alpha band; without them a
    gray band gives 1 component, 2 with an alpha band; without a gray band
    either, the scalars are the one component of a palette band.  An alpha
    band beside a palette band is not counted. *)
Theorem RequestData_component_count out (r : Reader) rv r' out' ds :
  RequestData exportToProj4 NDEBUG out r = Ok (rv, r', out') →
  GDALData r = Some ds →
  let n := NumberOfBands r in
  let rgb := rgb_within ds n in
  let alpha := band_within is_alpha ds n in
  let gray := band_within is_gray ds n in
  (rgb → alpha → NumberOfScalarComponents r' = 4) ∧
  (rgb → ¬ alpha → NumberOfScalarComponents r' = 3) ∧
  (¬ rgb → gray → alpha → NumberOfScalarComponents r' = 2) ∧
  (¬ rgb → gray → ¬ alpha → NumberOfScalarComponents r' = 1) ∧
  (¬ rgb → ¬ gray →
     NumberOfScalarComponents r' = 1 ∧ band_within is_palette ds n).
Proof.
  intros H Hds0 n rgb alpha gray.
  destruct (RequestData_Ok_parts _ _ _ _ _ _ _ H)
    as (f & Hf & [(Hnone & _)
                 |(ds' & r1 & g1 & vals & Hds & Hrd & Hg1 & Hvals & Hr' & Hout)]);
    [congruence|].
  rewrite Hds0 in Hds. injection Hds as <-. cbv zeta in Hr'.
  destruct (ReadData_Ok_grid NDEBUG f r r1 ds Hds0 Hrd)
    as (t & n0 & cp & group & table & g & a & rest & _ & _ & _ & _ & _ & Hcomp & _
        & Hr1 & _).
  assert (HN : NumberOfScalarComponents r' = Z.of_nat (length group))
    by (by rewrite Hr', Hr1).
  rewrite HN. fold n in Hcomp.
  destruct (roles_within ds n) as (Hr & Hg & Hb & Ha & Hy & Hp).
  cbv zeta in *. set (b := foldl (role_step ds) no_roles (seqZ 1 n)) in *.
  unfold components_of in Hcomp. unfold rgb, rgb_within, alpha, gray.
  destruct (redIndex b =? 0) eqn:Er, (greenIndex b =? 0) eqn:Eg,
    (blueIndex b =? 0) eqn:Eb, (alphaIndex b =? 0) eqn:Ea,
    (grayIndex b =? 0) eqn:Ey, (paletteIndex b =? 0) eqn:Ep;
    simpl in Hcomp; try discriminate Hcomp; injection Hcomp as <-;
    repeat match goal with
    | E : (_ =? 0) = true |- _ => apply Z.eqb_eq in E
    | E : (_ =? 0) = false |- _ => apply Z.eqb_neq in E
    end;
    repeat split; tauto.
Qed.

End Components.

Lemma RequestData_component_count_witness :
  ∃ rv r' out',
    RequestData id false (Some (Some vtkUniformGrid_New)) (describe raster_rgba_1x1)
    = Ok (rv, r', out') ∧
    GDALData (describe raster_rgba_1x1) = Some raster_rgba_1x1 ∧
    let n := NumberOfBands (describe raster_rgba_1x1) in
    let rgb := rgb_within raster_rgba_1x1 n in
    let alpha := band_within is_alpha raster_rgba_1x1 n in
    let gray := band_within is_gray raster_rgba_1x1 n in
    (rgb → alpha → NumberOfScalarComponents r' = 4) ∧
    (rgb → ¬ alpha → NumberOfScalarComponents r' = 3) ∧
    (¬ rgb → gray → alpha → NumberOfScalarComponents r' = 2) ∧
    (¬ rgb → gray → ¬ alpha → NumberOfScalarComponents r' = 1) ∧
    (¬ rgb → ¬ gray →
       NumberOfScalarComponents r' = 1 ∧ band_within is_palette raster_rgba_1x1 n).
Proof.
  assert (H : { res | RequestData id false (Some (Some vtkUniformGrid_New))
                        (describe raster_rgba_1x1) = Ok res }).
  { eexists. vm_compute. reflexivity. }
  destruct H as [[[rv r'] out'] H].
  assert (H2 : GDALData (describe raster_rgba_1x1) = Some raster_rgba_1x1)
    by (vm_compute; reflexivity).
  exists rv, r', out'. split; [exact H|]. split; [exact H2|].
  exact (RequestData_component_count id false (Some (Some vtkUniformGrid_New))
           (describe raster_rgba_1x1) rv r' out' raster_rgba_1x1 H H2).
Defined.

(** ** The lookup table of the scalars *)

Section PaletteTable.

Context {double RAW : Type} `{!DoubleOps double} `{!RawOps double RAW}.
Local Abbreviation Reader := (@vtkGDALRasterReader double RAW).
Variable exportToProj4 : string → string.
Variable NDEBUG : bool.
Local Set Default Proof Using "Type".

Lemma role_step_palette_band (ds : @GDALDataset double RAW) b i :
  (paletteIndex b ≠ 0 →
   ∃ band, GetRasterBand ds (paletteIndex b) = Some band ∧
           is_palette (ColorInterpretation band)) →
  paletteIndex (role_step ds b i) ≠ 0 →
  ∃ band, GetRasterBand ds (paletteIndex (role_step ds b i)) = Some band ∧
          is_palette (ColorInterpretation band).
Proof.
  intros Hb. unfold role_step.
  destruct (GetRasterBand ds i) as [band|] eqn:Hi; [|exact Hb].
  unfold assign_role.
  repeat match goal with
  | |- context [if ?c then _ else _] =>
      let E := fresh "E" in destruct c eqn:E
  end; cbn [paletteIndex set_otherIndex]; try exact Hb.
  intros _. exists band. split; [done|].
  match goal with
  | E : bool_decide (_ = GCI_PaletteIndex) && _ = true |- _ =>
      apply andb_true_iff in E as [E _]; apply bool_decide_eq_true in E;
      exact E
  end.
Qed.

Lemma fold_role_step_palette_band (ds : @GDALDataset double RAW) l b :
  (paletteIndex b ≠ 0 →
   ∃ band, GetRasterBand ds (paletteIndex b) = Some band ∧
           is_palette (ColorInterpretation band)) →
  paletteIndex (foldl (role_step ds) b l) ≠ 0 →
  ∃ band, GetRasterBand ds (paletteIndex (foldl (role_step ds) b l)) = Some band ∧
          is_palette (ColorInterpretation band).
Proof.
  revert b. induction l as [|x l IH]; intros b Hb; [exact Hb|]. simpl.
  apply IH. by apply role_step_palette_band.
Qed.

(** When one of the bands is a palette band, the active scalars are
    renamed "Categories" and given a lookup table.  The table is the one
    that [ReadColorTable] fills from a palette band only when the palette
    band is the primary group; beside red, green and blue bands or a gray
    band the scalars hold those bands and the table is the new, empty
    lookup table: the colour table of the palette band is not read. *)
Theorem RequestData_palette_table out (r : Reader) r' g ds :
  RequestData exportToProj4 NDEBUG out r = Ok (1, r', Some (Some g)) →
  GDALData r = Some ds →
  let n := NumberOfBands r in
  band_within is_palette ds n →
  ∃ a, GetScalars g = Some a ∧
    ArrName a = "Categories" ∧
    (rgb_within ds n ∨ band_within is_gray ds n →
     LookupTable a = Some vtkLookupTable_New) ∧
    (¬ rgb_within ds n → ¬ band_within is_gray ds n →
     ∃ i band table,
       1 <= i <= n ∧ GetRasterBand ds i = Some band ∧
       is_palette (ColorInterpretation band) ∧
       ReadColorTable band vtkLookupTable_New = Ok table ∧
       LookupTable a = Some table).
Proof.
  intros H Hds0 n Hpalette.
  destruct (RequestData_Ok_parts _ _ _ _ _ _ _ H)
    as (f & Hf & [(_ & ? & _)
                 |(ds' & r1 & g1 & vals & Hds & Hrd & Hg1 & Hvals & Hr' & Hout)]);
    [done|].
  rewrite Hds0 in Hds. injection Hds as <-.
  cbv zeta in Hr', Hout. destruct Hout as [(_ & _ & Hg)|(_ & ? & _)]; [|done].
  injection Hg as ->.
  destruct (ReadData_Ok_grid NDEBUG f r r1 ds Hds0 Hrd)
    as (t & n0 & cp & group & table & g & a & rest & _ & _ & _ & _ & _ & _ & _
        & Hr1 & _ & _ & _ & _ & Hc & Hact & _ & _ & Hname & _ & _ & Htab1 & Htab2).
  assert (g1 = g) as -> by (rewrite Hr1 in Hg1; by injection Hg1).
  fold n in Hname, Htab1, Htab2.
  destruct (roles_within ds n) as (Hr & Hgr & Hb & Ha & Hy & Hp).
  cbv zeta in *. set (b := foldl (role_step ds) no_roles (seqZ 1 n)) in *.
  assert (Hpi : paletteIndex b ≠ 0) by (by apply Hp).
  destruct (paletteIndex b =? 0) eqn:Epal; [apply Z.eqb_eq in Epal; done|].
  injection Hname as Hn Hl.
  exists a. split; [unfold GetScalars; simpl; by rewrite Hact, Hc|].
  split; [done|]. split.
  - intros Hprim. rewrite Hl. f_equal. apply Htab1.
    destruct Hprim as [(H1 & H2 & H3)|Hgy].
    + left. split; [by apply Hr|]. split; [by apply Hgr|by apply Hb].
    + right. by apply Hy.
  - intros Hnrgb Hngray.
    assert (Hnp : ¬ (redIndex b ≠ 0 ∧ greenIndex b ≠ 0 ∧ blueIndex b ≠ 0)).
    { intros (H1 & H2 & H3). apply Hnrgb.
      split; [by apply Hr|]. split; [by apply Hgr|by apply Hb]. }
    assert (Hng : grayIndex b = 0).
    { destruct (decide (grayIndex b = 0)) as [E|E]; [done|].
      exfalso. apply Hngray. by apply Hy. }
    destruct (Htab2 Hnp Hng Hpi) as (band & Hband & Htable).
    destruct (fold_role_step_palette_band ds (seqZ 1 n) no_roles)
      as (band' & Hband' & Hci); [done|done|].
    fold b in Hband'. rewrite Hband in Hband'. injection Hband' as <-.
    assert (Hin : paletteIndex b ∈ role_indices b).
    { unfold role_indices. do 5 apply list_elem_of_further.
      apply list_elem_of_here. }
    apply fold_role_step_indices in Hin as [Hin|Hin].
    { unfold role_indices, no_roles in Hin. simpl in Hin.
      repeat (apply elem_of_cons in Hin as [Hin|Hin]; [done|]).
      by apply elem_of_nil in Hin. }
    apply elem_of_seqZ in Hin.
    exists (paletteIndex b), band, table. split; [lia|]. by rewrite Hl.
Qed.

End PaletteTable.

Lemma RequestData_palette_table_witness :
  ∃ r' g,
    RequestData id false (Some (Some vtkUniformGrid_New))
      (describe raster_gray_and_palette) = Ok (1, r', Some (Some g)) ∧
    GDALData (describe raster_gray_and_palette) = Some raster_gray_and_palette ∧
    band_within is_palette raster_gray_and_palette
      (NumberOfBands (describe raster_gray_and_palette)) ∧
    let n := NumberOfBands (describe raster_gray_and_palette) in
    ∃ a, GetScalars g = Some a ∧
      ArrName a = "Categories" ∧
      (rgb_within raster_gray_and_palette n ∨
       band_within is_gray raster_gray_and_palette n →
       LookupTable a = Some vtkLookupTable_New) ∧
      (¬ rgb_within raster_gray_and_palette n →
       ¬ band_within is_gray raster_gray_and_palette n →
       ∃ i band table,
         1 <= i <= n ∧ GetRasterBand raster_gray_and_palette i = Some band ∧
         is_palette (ColorInterpretation band) ∧
         ReadColorTable band vtkLookupTable_New = Ok table ∧
         LookupTable a = Some table).
Proof.
  assert (H : { r' & { g | RequestData id false (Some (Some vtkUniformGrid_New))
                             (describe raster_gray_and_palette)
                           = Ok (1, r', Some (Some g)) } }).
  { eexists. eexists. vm_compute. reflexivity. }
  destruct H as (r' & g & H).
  assert (H2 : GDALData (describe raster_gray_and_palette)
               = Some raster_gray_and_palette) by (vm_compute; reflexivity).
  assert (HN : NumberOfBands (describe raster_gray_and_palette) = 2)
    by (vm_compute; reflexivity).
  assert (H3 : band_within is_palette raster_gray_and_palette
                 (NumberOfBands (describe raster_gray_and_palette))).
  { exists 2, palette_band. rewrite HN. split; [lia|].
    split; [vm_compute; reflexivity|reflexivity]. }
  exists r', g. split; [exact H|]. split; [exact H2|]. split; [exact H3|].
  exact (RequestData_palette_table id false (Some (Some vtkUniformGrid_New))
           (describe raster_gray_and_palette) r' g raster_gray_and_palette
           H H2 H3).
Defined.

(** ** The pixels of the produced grid *)

Section StoreWindow.

Context {RAW : Type}.

Lemma store_window_Ok (buf : list RAW) base samples buf' :
  store_window buf base samples = Ok buf' →
  0 <= base ∧ base + Z.of_nat (length samples) <= Z.of_nat (length buf) ∧
  buf' = take (Z.to_nat base) buf ++ samples
         ++ drop (Z.to_nat base + length samples) buf.
Proof.
  unfold store_window. destruct buf as [|x0 buf]; [done|].
  destruct (_ || _) eqn:Hc; [done|]. intros [= <-].
  apply orb_false_iff in Hc as [H1 H2]. apply Z.ltb_ge in H1, H2. done.
Qed.

Lemma stored_length (buf : list RAW) base samples :
  0 <= base → base + Z.of_nat (length samples) <= Z.of_nat (length buf) →
  length (take (Z.to_nat base) buf ++ samples
          ++ drop (Z.to_nat base + length samples) buf) = length buf.
Proof. intros. rewrite !length_app, length_take, length_drop. lia. Qed.

Lemma stored_hit (buf : list RAW) base samples k :
  0 <= base → base + Z.of_nat (length samples) <= Z.of_nat (length buf) →
  (k < length samples)%nat →
  (take (Z.to_nat base) buf ++ samples
   ++ drop (Z.to_nat base + length samples) buf) !! (Z.to_nat base + k)%nat
  = samples !! k.
Proof.
  intros. rewrite lookup_app_r by (rewrite length_take; lia).
  rewrite length_take.
  replace (Z.to_nat base + k - Z.to_nat base `min` length buf)%nat with k by lia.
  by rewrite lookup_app_l.
Qed.

Lemma stored_miss (buf : list RAW) base samples k :
  0 <= base → base + Z.of_nat (length samples) <= Z.of_nat (length buf) →
  (k < Z.to_nat base ∨ Z.to_nat base + length samples <= k)%nat →
  (take (Z.to_nat base) buf ++ samples
   ++ drop (Z.to_nat base + length samples) buf) !! k
  = buf !! k.
Proof.
  intros ? ? [Hk|Hk].
  - rewrite lookup_app_l by (rewrite length_take; lia). by rewrite lookup_take_lt.
  - rewrite lookup_app_r by (rewrite length_take; lia).
    rewrite lookup_app_r by (rewrite length_take; lia).
    rewrite lookup_drop, length_take. f_equal. lia.
Qed.

End StoreWindow.

Section PixelsProduced.

Context {double RAW : Type} `{!DoubleOps double} `{!RawOps double RAW}.
Local Abbreviation Reader := (@vtkGDALRasterReader double RAW).
Local Abbreviation Grid := (@vtkUniformGrid double RAW).
Local Abbreviation Array := (@vtkDataArray double RAW).
Variable exportToProj4 : string → string.
Variable NDEBUG : bool.
Local Set Default Proof Using "Type".

(** *** One read *)

(** A read that returns has put the window of its band into its slot of
    the buffer, line by line, and has left the rest of the buffer alone. *)
Lemma read_band_Ok_slot T ds (r : Reader) ps ls idx s raw raw' W H nb :
  read_band NDEBUG T ds r ps ls idx s raw = Ok raw' →
  TargetDimensions r = (W, H) → NumberOfBytesPerPixel r = nb →
  0 < W → 0 < H → 0 < nb → 0 <= s → (s + 1) * (W * H * nb) <= INT_MAX →
  ∃ band, GetRasterBand ds idx = Some band ∧
    length raw' = length raw ∧
    (∀ x y, 0 <= x < W → 0 <= y < H →
       raw' !! Z.to_nat (buffer_index W H x y s)
       = Some (window_pixels band r ps ls x y)) ∧
    (∀ k : nat, Z.of_nat k < s * (W * H) ∨ (s + 1) * (W * H) <= Z.of_nat k →
       raw' !! k = raw !! k).
Proof.
  intros Hrb HTD Hnb HW HH Hn Hs Hmax.
  unfold read_band in Hrb. cbv zeta in Hrb.
  destruct (GetRasterBand ds idx) as [band|] eqn:Hband; [|done].
  pose proof (eq_refl (window_pixels band r ps ls)) as Hpx.
  unfold window_pixels at 1 in Hpx.
  destruct (RasterIO band _ _ _ _ _ _ _ _ _) as [err px] eqn:Hio.
  simpl in Hpx. subst px.
  apply bind_Ok in Hrb as (raw1 & Hst & Hrb).
  apply bind_Ok in Hrb as (u & _ & [= <-]). clear u.
  rewrite HTD, Hnb in Hst. cbn [fst snd] in Hst.
  destruct (nb =? sizeof_RAW T) eqn:HnT; [|done].
  apply Z.eqb_eq in HnT. rewrite <- HnT in Hst.
  assert (HWH : 0 < W * H) by nia.
  assert (HWHn : W * H <= W * H * nb) by nia.
  rewrite (int_mul_id W H) in Hst by int_range.
  rewrite (int_mul_id (W * H) nb) in Hst by int_range.
  rewrite (int_mul_id s (W * H * nb)) in Hst by (unfold is_int, INT_MIN, INT_MAX in *; nia).
  replace (s * (W * H * nb) / nb) with (s * (W * H)) in Hst
    by (replace (s * (W * H * nb)) with (s * (W * H) * nb) by lia;
        rewrite Z.div_mul; lia).
  apply store_window_Ok in Hst as (Hb & Hfit & ->).
  rewrite window_samples_length in Hfit by lia.
  assert (Hlen : length (window_samples (window_pixels band r ps ls) W H)
                 = Z.to_nat (W * H)) by (apply window_samples_length; lia).
  exists band. split; [done|].
  split; [apply stored_length; [done|rewrite Hlen; lia]|]. split.
  - intros x y Hx Hy. unfold buffer_index.
    replace (Z.to_nat (x + y * W + s * W * H))
      with (Z.to_nat (s * (W * H)) + Z.to_nat (x + y * W))%nat by nia.
    rewrite stored_hit; [by apply window_samples_lookup|done|rewrite Hlen; lia|].
    rewrite Hlen. nia.
  - intros k Hk. apply stored_miss; [done|rewrite Hlen; lia|].
    rewrite Hlen. lia.
Qed.

(** *** The reads of a group *)

Lemma read_slots_contents T ds (r : Reader) ps ls W H nb (l : list (Z * Z)) raw raw' :
  for_each l (λ bs raw, read_band NDEBUG T ds r ps ls bs.1 bs.2 raw) raw = Ok raw' →
  TargetDimensions r = (W, H) → NumberOfBytesPerPixel r = nb →
  0 < W → 0 < H → 0 < nb →
  Forall (λ bs : Z * Z, 0 <= bs.2 ∧ (bs.2 + 1) * (W * H * nb) <= INT_MAX) l →
  NoDup (l.*2) →
  length raw' = length raw ∧
  ∀ idx s, (idx, s) ∈ l →
    ∃ band, GetRasterBand ds idx = Some band ∧
      ∀ x y, 0 <= x < W → 0 <= y < H →
        raw' !! Z.to_nat (buffer_index W H x y s)
        = Some (window_pixels band r ps ls x y).
Proof.
  intros Hl HTD Hnb HW HH Hn. revert raw' Hl.
  induction l as [|[idx0 s0] l IH] using rev_ind; intros raw' Hl Hall Hnd.
  - injection Hl as <-. split; [done|]. intros idx s Hin.
    by apply elem_of_nil in Hin.
  - rewrite for_each_app in Hl. apply bind_Ok in Hl as (raw1 & Hl1 & Hl).
    simpl in Hl. apply bind_Ok in Hl as (raw2 & Hrb & [= <-]).
    apply Forall_app in Hall as [Hall Hlast].
    apply Forall_inv in Hlast as [Hs0 Hmax0]. simpl in Hs0, Hmax0.
    rewrite fmap_app in Hnd. apply NoDup_app in Hnd as (Hnd & Hdisj & _).
    destruct (IH raw1 Hl1 Hall Hnd) as (Hlen1 & Hold).
    destruct (read_band_Ok_slot _ _ _ _ _ _ _ _ _ _ _ _ Hrb HTD Hnb HW HH Hn Hs0 Hmax0)
      as (band0 & Hband0 & Hlen2 & Hhit & Hmiss).
    split; [congruence|]. intros idx s Hin.
    apply elem_of_app in Hin as [Hin|Hin].
    + destruct (Hold idx s Hin) as (band & Hband & Hpx).
      exists band. split; [done|]. intros x y Hx Hy.
      rewrite Hmiss; [by apply Hpx|].
      assert (Hne : s ≠ s0).
      { intros ->. apply (Hdisj s0).
        - apply list_elem_of_fmap. by exists (idx, s0).
        - simpl. by left. }
      assert (Hs : 0 <= s).
      { by destruct (proj1 (Forall_forall _ _) Hall _ Hin) as [? _]. }
      unfold buffer_index. rewrite Z2Nat.id by nia.
      assert (x + y * W < W * H) by nia.
      destruct (decide (s < s0)); [left|right]; nia.
    + apply list_elem_of_singleton in Hin as [= -> ->].
      exists band0. by split.
Qed.

Lemma read_group_contents T ds (r : Reader) ps ls W H nb group raw raw' :
  read_group NDEBUG T ds r ps ls group raw = Ok raw' →
  TargetDimensions r = (W, H) → NumberOfBytesPerPixel r = nb →
  0 < W → 0 < H → 0 < nb →
  Z.of_nat (length group) * (W * H * nb) <= INT_MAX →
  length raw' = length raw ∧
  ∀ (k : nat) idx, group !! k = Some idx →
    ∃ band, GetRasterBand ds idx = Some band ∧
      ∀ x y, 0 <= x < W → 0 <= y < H →
        raw' !! Z.to_nat (buffer_index W H x y (Z.of_nat k))
        = Some (window_pixels band r ps ls x y).
Proof.
  unfold read_group. intros Hl HTD Hnb HW HH Hn Hmax.
  destruct (read_slots_contents _ _ _ _ _ _ _ _ _ _ _ Hl HTD Hnb HW HH Hn)
    as (Hlen & Hall).
  - apply Forall_forall. intros [idx s] Hin.
    apply elem_of_zip_r in Hin. apply elem_of_seqZ in Hin. simpl.
    split; [lia|]. nia.
  - rewrite snd_zip by (rewrite length_seqZ; lia). apply NoDup_seqZ.
  - split; [done|]. intros k idx Hk. apply Hall.
    apply list_elem_of_lookup. exists k. apply lookup_zip_with_Some.
    exists idx, (Z.of_nat k). split; [done|]. split; [done|].
    apply lookup_seqZ. apply lookup_lt_Some in Hk. lia.
Qed.

Lemma read_group_Ok_bytes T ds (r : Reader) ps ls group raw raw' :
  read_group NDEBUG T ds r ps ls group raw = Ok raw' → group ≠ [] →
  NumberOfBytesPerPixel r = sizeof_RAW T.
Proof.
  unfold read_group. destruct group as [|idx group]; [done|]. intros Hl _.
  cbn [length] in Hl. rewrite Nat2Z.inj_succ, seqZ_cons in Hl by lia.
  simpl in Hl. apply bind_Ok in Hl as (raw1 & Hrb & _).
  unfold read_band in Hrb. cbv zeta in Hrb.
  destruct (GetRasterBand ds idx) as [band|]; [|done].
  destruct (RasterIO band _ _ _ _ _ _ _ _ _) as [err px].
  apply bind_Ok in Hrb as (raw2 & Hst & _).
  destruct (NumberOfBytesPerPixel r =? sizeof_RAW T) eqn:E; [|done].
  by apply Z.eqb_eq in E.
Qed.

Lemma sizeof_RAW_pos T : 0 < sizeof_RAW T.
Proof. destruct T; simpl; lia. Qed.

(** *** The buffer of the primary group *)

Ltac buffer_step Hrp :=
  match type of Hrp with
  | mbind _ (move_to_group ?i ?st) = Ok _ =>
      let st' := fresh "st" in let Hm := fresh "Hm" in
      apply bind_Ok in Hrp as (st' & Hm & Hrp);
      destruct st' as [? ?]; apply move_to_group_Ok in Hm as (? & _ & _ & _)
  | mbind _ (vec_resize _ _ _) = Ok _ =>
      let Hv := fresh "Hv" in apply bind_Ok in Hrp as (? & Hv & Hrp)
  | mbind _ (read_group _ _ _ _ _ _ _ _) = Ok _ =>
      let Hg := fresh "Hg" in apply bind_Ok in Hrp as (? & Hg & Hrp)
  | match GetRasterBand ?d ?i with _ => _ end = Ok _ =>
      destruct (GetRasterBand d i); [|discriminate Hrp]
  | mbind _ (ReadColorTable _ _) = Ok _ =>
      apply bind_Ok in Hrp as (? & _ & Hrp)
  end.

(** The buffer that [read_primary] leaves is a vector of zeros into which
    the bands of the group have been read; the strides passed to the reads
    are 0 and 0 for a group of three bands, the pixel size and the size of
    a line otherwise. *)
Lemma read_primary_buffer T ds b (r : Reader) p r' :
  read_primary NDEBUG T ds b r = Ok (p, r') →
  groupIndex p ≠ [] →
  let W := fst (TargetDimensions r) in
  let H := snd (TargetDimensions r) in
  let nb := NumberOfBytesPerPixel r in
  let n := Z.of_nat (length (groupIndex p)) in
  ∃ sz raw0,
    (sz = int_mul (int_mul (int_mul n W) H) nb ∨
     sz = int_mul (int_mul W H) nb ∧ n = 1) ∧
    vec_resize [] sz raw_zero = Ok raw0 ∧
    read_group NDEBUG T ds r'
      (if decide (n = 3) then 0 else nb)
      (if decide (n = 3) then 0 else int_mul W nb)
      (groupIndex p) raw0 = Ok (rawUniformGridData p).
Proof.
  clear exportToProj4. intros Hrp Hne. cbv zeta.
  unfold read_primary in Hrp. cbv zeta in Hrp.
  destruct (negb (redIndex b =? 0) && negb (greenIndex b =? 0)
            && negb (blueIndex b =? 0)).
  { destruct (negb (alphaIndex b =? 0));
      repeat buffer_step Hrp; injection Hrp as <- <-;
      cbn [groupIndex rawUniformGridData fst snd] in *; subst;
      cbn [app length] in *;
      (eexists _, _; split; [|split; [eassumption|]];
         [first [left; reflexivity|right; split; reflexivity]|]);
      (destruct (decide _) as [Hd|Hd]; [try (exfalso; lia)|try (exfalso; lia)]);
      assumption. }
  destruct (negb (grayIndex b =? 0)).
  { destruct (negb (alphaIndex b =? 0));
      repeat buffer_step Hrp; injection Hrp as <- <-;
      cbn [groupIndex rawUniformGridData fst snd] in *; subst;
      cbn [app length] in *;
      (eexists _, _; split; [|split; [eassumption|]];
         [first [left; reflexivity|right; split; reflexivity]|]);
      (destruct (decide _) as [Hd|Hd]; [try (exfalso; lia)|try (exfalso; lia)]);
      assumption. }
  destruct (negb (paletteIndex b =? 0)).
  { repeat buffer_step Hrp; injection Hrp as <- <-;
      cbn [groupIndex rawUniformGridData fst snd] in *; subst;
      cbn [app length] in *;
      (eexists _, _; split; [|split; [eassumption|]];
         [first [left; reflexivity|right; split; reflexivity]|]);
      (destruct (decide _) as [Hd|Hd]; [try (exfalso; lia)|try (exfalso; lia)]);
      assumption. }
  injection Hrp as <- <-. done.
Qed.

(** *** The arrays of the other bands *)

Lemma elem_of_AddArray_list (a b : Array) l :
  b ∈ AddArray_list a l → b = a ∨ b ∈ l.
Proof.
  induction l as [|c l IH]; simpl.
  - intros Hb. apply list_elem_of_singleton in Hb. by left.
  - destruct (String.eqb (ArrName c) (ArrName a)).
    + intros Hb. apply elem_of_cons in Hb as [->|Hb]; [by left|].
      right. by right.
    + intros Hb. apply elem_of_cons in Hb as [->|Hb]; [right; by left|].
      destruct (IH Hb) as [->|Hin]; [by left|right; by right].
Qed.

Lemma band_array_name_inj i j : band_array_name i = band_array_name j → i = j.
Proof.
  unfold band_array_name. simpl. intros [= Hij]. by apply (inj pretty).
Qed.

(** The array holds the pixels of band [idx] for the window of [r0], each
    axis mirrored as the flags of [r0] say. *)
Definition band_pixels (ds : @GDALDataset double RAW) (r0 : Reader) (W H idx : Z)
    (b : Array) : Prop :=
  ∃ band, GetRasterBand ds idx = Some band ∧
    ∀ i j, 0 <= i < W → 0 <= j < H →
      GetValue b (i + j * W)
      = Some (window_pixels band r0 (NumberOfBytesPerPixel r0)
                (int_mul W (NumberOfBytesPerPixel r0))
                (source_coord (flipX r0) W i) (source_coord (flipY r0) H j)).

(** The state of the loop over the other bands, for the array of band
    [idx]. *)
Definition others_pixels (ds : @GDALDataset double RAW) (r0 : Reader) (W H idx : Z)
    (st : list Z * list RAW * Reader) : Prop :=
  only_output r0 st.2 ∧ length st.1.1 = 1%nat ∧
  length st.1.2 = Z.to_nat (W * H * NumberOfBytesPerPixel r0) ∧
  ∃ g, UniformGridData st.2 = Some g ∧
    ∀ b, b ∈ CellArrays g → ArrName b = band_array_name idx →
      band_pixels ds r0 W H idx b.

Lemma read_other_pixels T ds b i (r0 : Reader) W H idx st st' :
  TargetDimensions r0 = (W, H) → 0 < W → 0 < H →
  0 < NumberOfBytesPerPixel r0 →
  W * H * NumberOfBytesPerPixel r0 <= INT_MAX →
  Forall (λ x, x = 0 ∨
               1 <= x <= INT_MAX ∧ x <= Z.of_nat (length (HasNoDataValue r0)) ∧
               x <= Z.of_nat (length (NoDataValue r0))) (otherIndex b) →
  read_other NDEBUG T ds b i st = Ok st' →
  others_pixels ds r0 W H idx st → others_pixels ds r0 W H idx st'.
Proof.
  clear exportToProj4.
  intros HTD HW HH Hnb Hmax Hothers Hro. destruct st as [[group raw] r].
  intros (Hoo & Hlen & Hraw & g & Hg & Hv). cbn [fst snd] in *.
  pose proof (only_output_eq _ _ Hoo) as Hr.
  set (nb := NumberOfBytesPerPixel r0) in *.
  assert (HTDr : TargetDimensions r = (W, H)) by (rewrite Hr; exact HTD).
  assert (Hnbr : NumberOfBytesPerPixel r = nb) by (rewrite Hr; reflexivity).
  assert (Hfx : flipX r = flipX r0) by (rewrite Hr; reflexivity).
  assert (Hfy : flipY r = flipY r0) by (rewrite Hr; reflexivity).
  assert (Hh : HasNoDataValue r = HasNoDataValue r0) by (rewrite Hr; reflexivity).
  assert (Hn : NoDataValue r = NoDataValue r0) by (rewrite Hr; reflexivity).
  assert (Hwp : ∀ band ps ls, window_pixels band r ps ls = window_pixels band r0 ps ls)
    by (intros; rewrite Hr; reflexivity).
  unfold read_other in Hro. rewrite HTDr, Hnbr in Hro. cbn [fst snd] in Hro.
  apply bind_Ok in Hro as (idx' & Hat & Hro).
  destruct (idx' =? 0) eqn:Hz.
  { injection Hro as <-. split; [done|]. split; [done|]. split; [done|].
    by exists g. }
  apply Z.eqb_neq in Hz.
  apply bind_Ok in Hro as (group' & Hset & Hro).
  apply bind_Ok in Hro as (raw' & Hrb & Hro).
  apply bind_Ok in Hro as (r' & HC & [= <-]).
  apply vec_set_Ok in Hset as (_ & _ & ->).
  destruct group as [|x0 [|x1 group]]; try done.
  change (<[Z.to_nat 0:=idx']> [x0]) with [idx'] in *.
  destruct (read_band_Ok_slot _ _ _ _ _ _ _ _ _ _ _ _ Hrb HTDr Hnbr HW HH Hnb)
    as (band & Hband & Hlen' & Hhit & _); [lia|lia|].
  assert (Hin : idx' ∈ otherIndex b).
  { revert Hat. unfold vec_at. destruct (i <? 0); [done|].
    destruct (otherIndex b !! Z.to_nat i) as [y|] eqn:Hy; [|done].
    intros [= ->]. by eapply list_elem_of_lookup_2. }
  pose proof (proj1 (Forall_forall _ _) Hothers idx' Hin) as [?|Hok]; [done|].
  assert (Hraw' : raw' ≠ []).
  { intros E. rewrite E in Hlen'. simpl in Hlen'. nia. }
  assert (Hready : convert_ready raw' W H [idx'] (HasNoDataValue r) (NoDataValue r)).
  { split; simpl; [lia|lia|nia|nia|]. rewrite Hh, Hn.
    constructor; [done|constructor]. }
  destruct (Convert_contents T raw' W H [idx'] ("band_" +:+ pretty idx')
              (flipX r) (flipY r) r g Hg Hraw' Hready)
    as (r2 & g' & a & HC' & Hg' & Ha & _ & Hvals & _).
  rewrite HC in HC'. injection HC' as <-.
  destruct (Convert_Ok_grid _ _ _ _ _ _ _ _ _ _ g HC Hg)
    as (g2 & a' & Hg2 & _ & _ & _ & _ & _ & Hc' & Hna & _).
  rewrite Hg' in Hg2. injection Hg2 as <-.
  assert (a' = a) as ->.
  { revert Ha. unfold GetArray. rewrite Hc', <- Hna.
    destruct (AddArray_list_lookup a' (CellArrays g)) as (k & -> & Hk).
    simpl. rewrite Hk. by intros [= ->]. }
  split; [eapply only_output_trans; [exact Hoo|by eapply Convert_only_output]|].
  split; [done|]. split; [cbn [fst snd]; by rewrite Hlen'|].
  exists g'. split; [done|]. intros b' Hb' Hname.
  rewrite Hc' in Hb'. apply elem_of_AddArray_list in Hb' as [->|Hb'];
    [|by apply Hv].
  rewrite Hna in Hname. apply (band_array_name_inj idx' idx) in Hname as ->.
  exists band. split; [done|]. intros i0 j0 Hi0 Hj0.
  replace (i0 + j0 * W) with (value_index W (Z.of_nat (length [idx])) i0 j0 0)
    by (unfold value_index; simpl; lia).
  rewrite Hvals by (simpl; lia).
  unfold source_sample, sample_at. rewrite Hfx, Hfy.
  rewrite Hhit by (unfold source_coord; split; case_match; lia).
  simpl. by rewrite Hwp.
Qed.

Lemma read_others_pixels T ds b l (r0 : Reader) W H idx st st' :
  TargetDimensions r0 = (W, H) → 0 < W → 0 < H →
  0 < NumberOfBytesPerPixel r0 →
  W * H * NumberOfBytesPerPixel r0 <= INT_MAX →
  Forall (λ x, x = 0 ∨
               1 <= x <= INT_MAX ∧ x <= Z.of_nat (length (HasNoDataValue r0)) ∧
               x <= Z.of_nat (length (NoDataValue r0))) (otherIndex b) →
  for_each l (read_other NDEBUG T ds b) st = Ok st' →
  others_pixels ds r0 W H idx st → others_pixels ds r0 W H idx st'.
Proof.
  clear exportToProj4.
  intros HTD HW HH Hnb Hmax Hothers Hl Hst.
  apply (for_each_Ok_inv (others_pixels ds r0 W H idx) _ _ _ _ Hl); [done|].
  intros i s1 s2 _ Hs1 Hi.
  by apply (read_other_pixels T ds b i r0 W H idx s1 s2).
Qed.

(** *** The grid that fill_grid leaves, pixel by pixel *)

Lemma fill_grid_Ok_pixels T ds p (r r' : Reader) g0 W H :
  fill_grid NDEBUG T ds p r = Ok r' →
  UniformGridData r = Some g0 →
  CellArrays g0 = [] →
  TargetDimensions r = (W, H) → 0 < W → 0 < H →
  0 < NumberOfBytesPerPixel r →
  let nb := NumberOfBytesPerPixel r in
  let n := Z.of_nat (length (groupIndex p)) in
  0 < n →
  n * (W * H * nb) <= INT_MAX →
  length (rawUniformGridData p) = Z.to_nat (n * (W * H * nb)) →
  Forall (λ x, 1 <= x <= INT_MAX ∧ x <= Z.of_nat (length (HasNoDataValue r)) ∧
               x <= Z.of_nat (length (NoDataValue r))) (groupIndex p) →
  Forall (λ x, x = 0 ∨
               1 <= x <= INT_MAX ∧ x <= Z.of_nat (length (HasNoDataValue r)) ∧
               x <= Z.of_nat (length (NoDataValue r))) (otherIndex (roles p)) →
  ∃ g (a : Array),
    UniformGridData r' = Some g ∧
    GetScalars g = Some a ∧
    NumberOfComponents a = n ∧
    (∀ j i bi, 0 <= j < H → 0 <= i < W → 0 <= bi < n →
       GetValue a (value_index W n i j bi)
       = Some (source_sample (rawUniformGridData p) W H (flipX r) (flipY r)
                 (j, i, bi))) ∧
    (∀ (k : nat) idx, otherIndex (roles p) !! k = Some idx → idx ≠ 0 →
       ∃ b, GetArray (band_array_name idx) g = Some b ∧
            band_pixels ds r W H idx b).
Proof.
  clear exportToProj4.
  intros Hfill Hg0 Hc0 HTD HW HH Hnb nb n Hn Hmax Hlen Hgroup Hothers.
  unfold fill_grid in Hfill. cbv zeta in Hfill.
  rewrite HTD in Hfill. cbn [fst snd] in Hfill.
  apply bind_Ok in Hfill as (r1 & H1 & Hfill).
  unfold place_grid in H1. rewrite Hg0 in H1. cbv zeta in H1.
  rewrite HTD in H1. cbn [fst snd] in H1. injection H1 as <-.
  set (g1 := set_Geometry _ _ _ g0) in *.
  set (r1 := set_UniformGridData (Some g1) r) in *.
  change (flipX r1) with (flipX r) in Hfill.
  change (flipY r1) with (flipY r) in Hfill.
  fold nb in Hfill.
  apply bind_Ok in Hfill as (r2 & H2 & Hfill).
  pose proof (Convert_only_output _ _ _ _ _ _ _ _ _ _ H2) as Hoo2.
  pose proof (only_output_eq _ _ Hoo2) as Hr2.
  assert (Hraw : rawUniformGridData p ≠ []).
  { intros E. rewrite E in Hlen. simpl in Hlen. nia. }
  assert (Hready : convert_ready (rawUniformGridData p) W H (groupIndex p)
                     (HasNoDataValue r1) (NoDataValue r1)).
  { split; [lia|lia|fold n; nia|fold n; nia|exact Hgroup]. }
  destruct (Convert_contents T (rawUniformGridData p) W H (groupIndex p)
              "Elevation" (flipX r) (flipY r) r1 g1 eq_refl Hraw Hready)
    as (r2' & g2 & a & HC & Hg2 & Ha & Hnc & Hvals & _).
  rewrite H2 in HC. injection HC as <-.
  destruct (Convert_Ok_grid _ _ _ _ _ _ _ _ _ _ g1 H2 eq_refl)
    as (g2' & a' & Hg2' & He2 & Hs2 & Ho2 & Hf2 & Hact2 & Hc2 & Hna & _ & _ & _).
  rewrite Hg2 in Hg2'. injection Hg2' as <-.
  change (CellArrays g1) with (CellArrays g0) in Hc2. rewrite Hc0 in Hc2.
  simpl in Hc2.
  assert (a' = a) as ->.
  { revert Ha. unfold GetArray. rewrite Hc2. simpl. rewrite Hna. simpl.
    by intros [= ->]. }
  apply bind_Ok in Hfill as (r3 & H3 & Hfill). rewrite Hg2 in H3.
  injection H3 as <-.
  set (g3 := SetActiveScalars "Elevation" g2) in *.
  assert (HTD2 : TargetDimensions r2 = (W, H)) by (rewrite Hr2; exact HTD).
  apply bind_Ok in Hfill as (raw & Hres & Hfill).
  rewrite (int_mul_id W H) in Hres by (unfold is_int, INT_MIN, INT_MAX in *; nia).
  rewrite (int_mul_id (W * H) nb) in Hres
    by (unfold is_int, INT_MIN, INT_MAX in *; nia).
  assert (Hlraw : length raw = Z.to_nat (W * H * nb)).
  { revert Hres. unfold vec_resize. destruct (W * H * nb <? 0); [done|].
    intros [= <-]. rewrite length_app, length_take, length_replicate. lia. }
  apply bind_Ok in Hfill as (st & Hloop & Hfill).
  unfold for_range in Hloop.
  set (st0 := (resize_fill (groupIndex p) 1 0, raw,
               set_UniformGridData (Some g3) r2)) in *.
  assert (Hlen0 : length (resize_fill (groupIndex p) 1 0) = 1%nat).
  { unfold resize_fill. rewrite length_app, length_take, length_replicate. lia. }
  assert (Hinv0 : others_inv W H a g1 [] st0).
  { unfold others_inv, st0. cbn [fst snd]. split; [done|].
    split; [exact HTD2|].
    exists g3, []. split; [done|].
    split; [unfold g3, SetActiveScalars; simpl; by rewrite Hc2|].
    split; [unfold g3, SetActiveScalars; simpl; rewrite Hc2; simpl; by rewrite Hna|].
    unfold g3, SetActiveScalars. simpl.
    split; [done|]. split; [done|]. split; [done|]. split; [done|].
    split; by constructor. }
  assert (Hinv : others_inv W H a g1 [] st)
    by (by apply (read_others_inv NDEBUG _ _ _ _ _ _ _ _ _ _ _ Hna Hloop)).
  assert (Hpix0 : ∀ idx, others_pixels ds r W H idx st0).
  { intros idx. unfold others_pixels, st0. cbn [fst snd].
    split; [exact Hoo2|]. split; [done|]. split; [done|].
    exists g3. split; [done|]. intros b Hb Hname. exfalso.
    unfold g3, SetActiveScalars in Hb. simpl in Hb. rewrite Hc2 in Hb.
    apply list_elem_of_singleton in Hb as ->. rewrite Hna in Hname.
    discriminate Hname. }
  assert (Hpix : ∀ idx, others_pixels ds r W H idx st).
  { intros idx.
    assert (Hmax1 : W * H * NumberOfBytesPerPixel r <= INT_MAX) by (fold nb; nia).
    exact (read_others_pixels T ds (roles p) _ r W H idx st0 st HTD HW HH Hnb
             Hmax1 Hothers Hloop (Hpix0 idx)). }
  assert (Hnamed : ∀ (k : nat) idx, otherIndex (roles p) !! k = Some idx → idx ≠ 0 →
            others_inv W H a g1 [band_array_name idx] st).
  { intros k idx Hk Hne.
    apply (read_others_named NDEBUG _ _ _ _ _ _ _ _ _ _ (Z.of_nat k) idx Hna Hloop Hinv0);
      [|lia|by rewrite Nat2Z.id|done].
    apply elem_of_seqZ. apply lookup_lt_Some in Hk. lia. }
  destruct Hinv as (_ & _ & g & rest & Hg & Hc & Hact & _).
  assert (Hrest : ∀ (k : nat) idx, otherIndex (roles p) !! k = Some idx → idx ≠ 0 →
            ∃ b, b ∈ rest ∧ ArrName b = band_array_name idx ∧
                 band_pixels ds r W H idx b).
  { intros k idx Hk Hne.
    destruct (Hnamed k idx Hk Hne)
      as (_ & _ & g' & rest' & Hg' & Hc' & _ & _ & _ & _ & _ & _ & Hnm).
    rewrite Hg in Hg'. injection Hg' as <-. rewrite Hc in Hc'.
    injection Hc' as <-. apply Forall_cons in Hnm as [(b & Hb & Hname) _].
    exists b. split; [done|]. split; [done|].
    destruct (Hpix idx) as (_ & _ & _ & g' & Hg' & Hv).
    rewrite Hg in Hg'. injection Hg' as <-. apply Hv; [|done].
    rewrite Hc. by right. }
  assert (Hothers_get : ∀ (gf : Grid) a1, CellArrays gf = a1 :: rest →
            (∀ idx, ArrName a1 ≠ band_array_name idx) →
            ∀ (k : nat) idx, otherIndex (roles p) !! k = Some idx → idx ≠ 0 →
              ∃ b, GetArray (band_array_name idx) gf = Some b ∧
                   band_pixels ds r W H idx b).
  { intros gf a1 Hcf Ha1 k idx Hk Hne.
    destruct (Hrest k idx Hk Hne) as (b0 & Hb0 & Hn0 & _).
    destruct (GetArray_named gf (band_array_name idx)) as (b & Hget & Hb & Hname).
    { exists b0. split; [|done]. rewrite Hcf. by right. }
    exists b. split; [done|]. rewrite Hcf in Hb.
    apply elem_of_cons in Hb as [->|Hb]; [by apply Ha1 in Hname|].
    destruct (Hpix idx) as (_ & _ & _ & g' & Hg' & Hv).
    rewrite Hg in Hg'. injection Hg' as <-. apply Hv; [|done].
    rewrite Hc. by right. }
  destruct (paletteIndex (roles p) =? 0) eqn:Hpal; cbn [negb] in Hfill.
  - injection Hfill as <-. exists g, a.
    split; [done|]. split; [unfold GetScalars; by rewrite Hact, Hc|].
    split; [done|]. split; [exact Hvals|].
    apply (Hothers_get g a Hc). intros idx. by rewrite Hna.
  - unfold name_categories in Hfill. rewrite Hg, Hact, Hc in Hfill.
    simpl in Hfill. injection Hfill as <-.
    eexists _, _. split; [reflexivity|].
    split; [unfold GetScalars; simpl; reflexivity|].
    split; [exact Hnc|]. split; [exact Hvals|].
    eapply Hothers_get; [reflexivity|]. intros idx. simpl. discriminate.
Qed.

(** *** Band numbers and the no-data vectors *)

Lemma band_in_range_indexes (ds : @GDALDataset double RAW) (nh nv : nat) N i :
  Forall (band_in_range ds nh nv) (seqZ 1 N) →
  N <= INT_MAX → 1 <= i <= N →
  1 <= i <= INT_MAX ∧ i <= Z.of_nat nh ∧ i <= Z.of_nat nv.
Proof.
  intros Hl HN Hi.
  assert (Hin : i ∈ seqZ 1 N) by (apply elem_of_seqZ; lia).
  destruct (proj1 (Forall_forall _ _) Hl i Hin) as (_ & H0 & Hh & Hv).
  rewrite int_sub_id in Hh, Hv by (unfold is_int, INT_MIN, INT_MAX in *; lia).
  lia.
Qed.

Lemma Forall_fold_clear_other (P : Z → Prop) g o :
  P 0 → Forall P o → Forall P (foldl clear_other o g).
Proof.
  intros H0. revert o. induction g as [|j g IH]; intros o Ho; simpl; [done|].
  apply IH. unfold clear_other.
  destruct (decide (Z.to_nat (int_sub j 1) < length o)%nat) as [Hj|Hj].
  - by apply Forall_insert.
  - by rewrite list_insert_ge by lia.
Qed.

(** *** The produced grid *)

(** C3, as amended. In the grid that a Produce call hands out, each axis
    by itself is mirrored exactly when the spacing on that axis,
    (corner 2 - corner 0) / raster size with the corners that
    [GetGeoCornerPoints] computes for the reader, is negative: for a
    positive target size within [int] bytes, component [bi] of cell (i, j)
    of the active scalars is the pixel that the windowed read of band
    [group[bi]] delivered for column W - 1 - i when the X spacing is
    negative and column i otherwise, and for line H - 1 - j when the Y
    spacing is negative and line j otherwise; the same holds for the
    array "band_N" of every band N outside the primary group. The buffer
    holds the pixels of a window line by line, so on a mirrored axis the
    order of the cell values is the reverse of the order of the buffer and
    on the other axis it is the order of the buffer. The sign of the other
    axis plays no part: with both spacings negative both axes are
    mirrored. *)
Theorem RequestData_flips_each_axis_by_sign out (r : Reader) r' g ds W H :
  RequestData exportToProj4 NDEBUG out r = Ok (1, r', Some (Some g)) →
  GDALData r = Some ds →
  TargetDimensions r = (W, H) →
  0 < W → 0 < H →
  NumberOfScalarComponents r' * (W * H * NumberOfBytesPerPixel r') <= INT_MAX →
  NumberOfBands r <= INT_MAX →
  ∃ cp (a : Array) group,
    GetGeoCornerPoints r = Ok (set_CornerPoints cp r) ∧
    GetScalars g = Some a ∧
    NumberOfComponents a = Z.of_nat (length group) ∧
    let x_negative :=
      dlt (ddiv (dsub (fst (corner2 cp)) (fst (corner0 cp)))
                (double_of_int (fst (RasterDimensions r)))) (double_of_int 0) in
    let y_negative :=
      dlt (ddiv (dsub (snd (corner2 cp)) (snd (corner0 cp)))
                (double_of_int (snd (RasterDimensions r)))) (double_of_int 0) in
    let n := Z.of_nat (length group) in
    let nb := NumberOfBytesPerPixel r' in
    (∀ (bi : nat) idx, group !! bi = Some idx →
       ∃ band, GetRasterBand ds idx = Some band ∧
         ∀ i j, 0 <= i < W → 0 <= j < H →
           GetValue a (value_index W n i j (Z.of_nat bi))
           = Some (window_pixels band r'
                     (if decide (n = 3) then 0 else nb)
                     (if decide (n = 3) then 0 else W * nb)
                     (if x_negative then W - 1 - i else i)
                     (if y_negative then H - 1 - j else j))) ∧
    (∀ idx, 1 <= idx <= NumberOfBands r → idx ∉ group →
       ∃ (b : Array) band,
         GetArray (band_array_name idx) g = Some b ∧
         GetRasterBand ds idx = Some band ∧
         ∀ i j, 0 <= i < W → 0 <= j < H →
           GetValue b (i + j * W)
           = Some (window_pixels band r' nb (W * nb)
                     (if x_negative then W - 1 - i else i)
                     (if y_negative then H - 1 - j else j))).
Proof.
  intros HRD Hds0 HTD HW HH Hmax HNB.
  destruct (RequestData_Ok_parts exportToProj4 NDEBUG _ _ _ _ _ HRD)
    as (f & Hf & [(_ & ? & _)
                 |(ds' & r1 & g1 & vals & Hds & Hrd & Hg1 & Hvals & Hr' & Hout)]);
    [done|].
  rewrite Hds0 in Hds. injection Hds as <-.
  cbv zeta in Hr', Hout. destruct Hout as [(_ & _ & Hg)|(_ & ? & _)]; [|done].
  injection Hg as ->.
  destruct (ReadData_Ok_parts NDEBUG f r r1 ds Hds0 Hrd)
    as (t & nb & p & cp & Hsel & Hn1 & Hn0 & Hparts).
  cbv zeta in Hparts.
  set (l := seqZ 1 (NumberOfBands r)) in *.
  set (b := foldl (role_step ds) no_roles l) in *.
  destruct Hparts as (Hl & Hprim & Hcp & Hfill).
  destruct (read_primary_group NDEBUG _ _ _ _ _ _ Hprim)
    as (Hgroup & Hother & Hpal & Hcomp).
  destruct Hcomp as [Hcomp|[Hnone Hraw]].
  2:{ rewrite (fill_grid_empty_buffer NDEBUG) in Hfill; [done|done|].
      rewrite Hnone. by eexists. }
  rewrite Hcomp in Hfill, Hprim. cbn [with_components] in Hfill, Hprim.
  set (group := groupIndex p) in *. set (n := Z.of_nat (length group)) in *.
  pose proof (components_of_range _ _ Hcomp) as Hnr.
  match type of Hprim with read_primary _ _ _ _ ?x = Ok (_, ?y) =>
    set (rc := x) in *; set (rd := y) in * end.
  set (re := set_CornerPoints cp rd) in *.
  pose proof (only_output_eq _ _ (fill_grid_only_output NDEBUG _ _ _ _ _ Hfill))
    as Hr1.
  assert (HnC : NumberOfScalarComponents r' = n) by (rewrite Hr', Hr1; reflexivity).
  assert (HnB : NumberOfBytesPerPixel r' = nb) by (rewrite Hr', Hr1; reflexivity).
  assert (Hwp : ∀ band ps ls, window_pixels band r' ps ls = window_pixels band rd ps ls)
    by (intros; rewrite Hr', Hr1; reflexivity).
  rewrite HnC, HnB in Hmax.
  assert (Hne : group ≠ []).
  { intros E. unfold n in Hnr. rewrite E in Hnr. simpl in Hnr. lia. }
  destruct (read_primary_buffer _ ds b rc p rd Hprim Hne)
    as (sz & raw0 & Hsz & Hres & Hgrp).
  change (TargetDimensions rc) with (TargetDimensions r) in Hsz, Hgrp.
  change (NumberOfBytesPerPixel rc) with nb in Hsz, Hgrp.
  fold group n in Hsz, Hgrp. rewrite HTD in Hsz, Hgrp. cbn [fst snd] in Hsz, Hgrp.
  pose proof (read_group_Ok_bytes _ _ _ _ _ _ _ _ Hgrp Hne) as HnT.
  change (NumberOfBytesPerPixel rd) with nb in HnT.
  pose proof (sizeof_RAW_pos (scalar_type_for t)) as Hpos. rewrite <- HnT in Hpos.
  assert (Hsz' : sz = n * (W * H * nb)).
  { destruct Hsz as [->|[-> Hn1']].
    - rewrite (int_mul_id n W) by (unfold is_int, INT_MIN, INT_MAX in *; nia).
      rewrite (int_mul_id (n * W) H) by (unfold is_int, INT_MIN, INT_MAX in *; nia).
      rewrite (int_mul_id (n * W * H) nb)
        by (unfold is_int, INT_MIN, INT_MAX in *; nia).
      lia.
    - rewrite (int_mul_id W H) by (unfold is_int, INT_MIN, INT_MAX in *; nia).
      rewrite (int_mul_id (W * H) nb)
        by (unfold is_int, INT_MIN, INT_MAX in *; nia).
      lia. }
  assert (Hlen0 : length raw0 = Z.to_nat (n * (W * H * nb))).
  { revert Hres. unfold vec_resize. destruct (sz <? 0); [done|].
    intros [= <-]. rewrite take_nil. simpl. rewrite length_replicate. lia. }
  destruct (read_group_contents _ _ _ _ _ W H nb _ _ _ Hgrp HTD eq_refl HW HH Hpos)
    as (Hlenp & Hslots); [fold n; lia|].
  assert (Hwithin : Forall (λ i, 1 <= i <= NumberOfBands r) group)
    by (by apply (group_within ds)).
  assert (Hidx : ∀ i, 1 <= i <= NumberOfBands r →
            1 <= i <= INT_MAX ∧ i <= Z.of_nat (length (HasNoDataValue re)) ∧
            i <= Z.of_nat (length (NoDataValue re))).
  { intros i Hi.
    change (HasNoDataValue re) with (foldl (flag_step ds) (HasNoDataValue r) l).
    change (NoDataValue re) with (foldl (value_step ds) (NoDataValue r) l).
    rewrite fold_flag_step_length, fold_value_step_length.
    by apply (band_in_range_indexes ds _ _ (NumberOfBands r)). }
  assert (Hsome : Forall (λ i, is_Some (GetRasterBand ds i)) l).
  { eapply Forall_impl; [exact Hl|]. by intros i [Hi _]. }
  assert (Hoth : otherIndex b = l).
  { unfold b. by rewrite fold_role_step_otherIndex. }
  rewrite Hoth in Hother.
  destruct (fill_grid_Ok_pixels _ ds p re r1 vtkUniformGrid_New W H Hfill
              eq_refl eq_refl HTD HW HH Hpos)
    as (g & a & Hg & Hsc & Hnc & Hvalues & Hrest).
  { fold group n. lia. }
  { fold group n. exact Hmax. }
  { fold group n. by rewrite Hlenp. }
  { eapply Forall_impl; [exact Hwithin|]. intros i Hi. by apply Hidx. }
  { rewrite Hother. apply Forall_fold_clear_other; [by left|].
    apply Forall_forall. intros i Hi. right. apply Hidx.
    apply elem_of_seqZ in Hi. lia. }
  rewrite Hg in Hg1. injection Hg1 as <-.
  change (NumberOfBytesPerPixel re) with nb in Hvalues, Hrest.
  fold group n in Hnc, Hvalues.
  exists cp, a, group. split; [exact Hcp|]. split; [exact Hsc|].
  split; [exact Hnc|]. cbv zeta. rewrite HnB. fold n. split.
  - intros bi idx Hbi.
    destruct (Hslots bi idx Hbi) as (band & Hband & Hpx).
    exists band. split; [done|]. intros i j Hi Hj.
    apply lookup_lt_Some in Hbi.
    rewrite Hvalues by (unfold n; lia).
    unfold source_sample, sample_at.
    rewrite Hpx by (unfold source_coord; destruct (flipX re), (flipY re); lia).
    simpl. rewrite Hwp. unfold source_coord.
    change (flipX re)
      with (dlt (ddiv (dsub (fst (corner2 cp)) (fst (corner0 cp)))
                   (double_of_int (fst (RasterDimensions r)))) (double_of_int 0)).
    change (flipY re)
      with (dlt (ddiv (dsub (snd (corner2 cp)) (snd (corner0 cp)))
                   (double_of_int (snd (RasterDimensions r)))) (double_of_int 0)).
    destruct (decide (n = 3)); [done|].
    rewrite (int_mul_id W nb) by (unfold is_int, INT_MIN, INT_MAX in *; nia).
    done.
  - intros idx Hi Hout.
    assert (Hk : otherIndex (roles p) !! Z.to_nat (idx - 1) = Some idx).
    { rewrite Hother. rewrite fold_clear_other_miss; [|lia| |done].
      - apply lookup_seqZ. lia.
      - eapply Forall_impl; [exact Hwithin|]. intros j Hj. simpl in Hj. lia. }
    destruct (Hrest _ _ Hk) as (b' & Hget & band & Hband & Hpx); [lia|].
    exists b', band. split; [exact Hget|]. split; [done|].
    intros i j Hi' Hj'. rewrite (Hpx i j Hi' Hj').
    change (NumberOfBytesPerPixel re) with nb.
    rewrite Hwp. unfold source_coord.
    rewrite (int_mul_id W nb) by (unfold is_int, INT_MIN, INT_MAX in *; nia).
    reflexivity.
Qed.

End PixelsProduced.

(** *** At a raster whose columns run east to west *)

Local Abbreviation described_mirrored := (describe raster_mirrored_columns).
Local Abbreviation produced_mirrored :=
  (result_after
     (RequestData id false (Some (Some vtkUniformGrid_New)) described_mirrored)
     (0, described_mirrored, None)).
Local Abbreviation grid_mirrored :=
  (default vtkUniformGrid_New (UniformGridData produced_mirrored.1.2)).

Lemma RequestData_flips_witness :
  RequestData id false (Some (Some vtkUniformGrid_New)) described_mirrored
  = Ok (1, produced_mirrored.1.2, Some (Some grid_mirrored)) ∧
  GDALData described_mirrored = Some raster_mirrored_columns ∧
  TargetDimensions described_mirrored = (2, 2) ∧
  NumberOfScalarComponents produced_mirrored.1.2
  * (2 * 2 * NumberOfBytesPerPixel produced_mirrored.1.2) <= INT_MAX ∧
  NumberOfBands described_mirrored <= INT_MAX ∧
  ∃ cp (a : @vtkDataArray xnum xnum) group,
    GetGeoCornerPoints described_mirrored
    = Ok (set_CornerPoints cp described_mirrored) ∧
    GetScalars grid_mirrored = Some a ∧
    NumberOfComponents a = Z.of_nat (length group) ∧
    let x_negative :=
      dlt (ddiv (dsub (fst (corner2 cp)) (fst (corner0 cp)))
                (double_of_int (fst (RasterDimensions described_mirrored))))
          (double_of_int 0) in
    let y_negative :=
      dlt (ddiv (dsub (snd (corner2 cp)) (snd (corner0 cp)))
                (double_of_int (snd (RasterDimensions described_mirrored))))
          (double_of_int 0) in
    let n := Z.of_nat (length group) in
    let nb := NumberOfBytesPerPixel produced_mirrored.1.2 in
    (∀ (bi : nat) idx, group !! bi = Some idx →
       ∃ band, GetRasterBand raster_mirrored_columns idx = Some band ∧
         ∀ i j, 0 <= i < 2 → 0 <= j < 2 →
           GetValue a (value_index 2 n i j (Z.of_nat bi))
           = Some (window_pixels band produced_mirrored.1.2
                     (if decide (n = 3) then 0 else nb)
                     (if decide (n = 3) then 0 else 2 * nb)
                     (if x_negative then 2 - 1 - i else i)
                     (if y_negative then 2 - 1 - j else j))) ∧
    (∀ idx, 1 <= idx <= NumberOfBands described_mirrored → idx ∉ group →
       ∃ (b : @vtkDataArray xnum xnum) band,
         GetArray (band_array_name idx) grid_mirrored = Some b ∧
         GetRasterBand raster_mirrored_columns idx = Some band ∧
         ∀ i j, 0 <= i < 2 → 0 <= j < 2 →
           GetValue b (i + j * 2)
           = Some (window_pixels band produced_mirrored.1.2 nb (2 * nb)
                     (if x_negative then 2 - 1 - i else i)
                     (if y_negative then 2 - 1 - j else j))).
Proof.
  assert (H1 : RequestData id false (Some (Some vtkUniformGrid_New))
                 described_mirrored
               = Ok (1, produced_mirrored.1.2, Some (Some grid_mirrored)))
    by (vm_compute; reflexivity).
  assert (H2 : GDALData described_mirrored = Some raster_mirrored_columns)
    by (vm_compute; reflexivity).
  assert (H3 : TargetDimensions described_mirrored = (2, 2))
    by (vm_compute; reflexivity).
  assert (E4 : NumberOfScalarComponents produced_mirrored.1.2
               * (2 * 2 * NumberOfBytesPerPixel produced_mirrored.1.2) = 4)
    by (vm_compute; reflexivity).
  assert (H4 : NumberOfScalarComponents produced_mirrored.1.2
               * (2 * 2 * NumberOfBytesPerPixel produced_mirrored.1.2) <= INT_MAX)
    by (rewrite E4; unfold INT_MAX; lia).
  assert (E5 : NumberOfBands described_mirrored = 2) by (vm_compute; reflexivity).
  assert (H5 : NumberOfBands described_mirrored <= INT_MAX)
    by (rewrite E5; unfold INT_MAX; lia).
  split; [exact H1|]. split; [exact H2|]. split; [exact H3|].
  split; [exact H4|]. split; [exact H5|].
  exact (RequestData_flips_each_axis_by_sign id false
           (Some (Some vtkUniformGrid_New)) described_mirrored
           produced_mirrored.1.2 grid_mirrored raster_mirrored_columns 2 2
           H1 H2 H3 eq_refl eq_refl H4 H5).
Defined.

